(** * Capital ledger and trade lifecycle of the OMNI trading-system demos

    Shallow embedding of the three simulators

      - [comprehensive_trading_system_demo.py]  (class QuantumEnhancedTradingSystemV2)
      - [enhanced_trading_system_demo.py]       (class EnhancedQuantumTradingSystem)
      - [realistic_quantum_trading_system.py]   (class RealisticQuantumTradingSystem)

    and proofs about their capital ledger, risk monitor, signal evaluator and
    performance tracker.

    Modelling conventions.

    - Numbers.  [Decimal] and [float] values are embedded as rationals [Q]
      and compared with [==]: the embedding computes every arithmetic
      operation exactly, where Python's decimal context rounds to 28
      significant digits and binary64 to 53 bits.  [Decimal(str(x))] of a
      float [x] and [float(d)] of a Decimal [d] are therefore the identity.
      The concrete scenarios below use values on which the Python
      operations are exact too (or, for the float scores, whose rounding
      does not reach a threshold).
    - Exceptions.  Division of a [Decimal] or a [float] by zero and
      subscripting [None] raise in Python; fallible methods return a
      [result], and a raised exception leaves the state as it was when it
      was raised.
    - Dictionaries.  A [dict] is an association list in insertion order
      (the order of [.items()], [.keys()] and [.values()]).
    - Environment.  [random.random()], [random.uniform] and
      [random.randint] read the next element of a stream of unit-interval
      draws carried by the state; [time.time()] and [datetime.now()] read
      the next element of a stream of millisecond clock readings.
    - Coroutines.  Every [await] of a method of the class runs it to
      completion without suspension; the bodies modelled here contain no
      [asyncio.sleep], so each is one atomic state transformation.
      Logging is omitted. *)

From Stdlib Require Import ZArith QArith Qround Lqa Lia List String Ascii Bool.
From Stdlib Require Import DecimalString Decimal.
Import ListNotations.
Local Open Scope string_scope.
Local Open Scope list_scope.
Local Open Scope Q_scope.

(** ** Numbers *)

Module Num.

Definition Qltb (x y : Q) : bool := negb (Qle_bool y x).
Definition Qgtb (x y : Q) : bool := Qltb y x.
Definition Qgeb (x y : Q) : bool := Qle_bool y x.
Definition Qeqb (x y : Q) : bool := Qeq_bool x y.

(** Two-argument [min] and [max] of Python return the first argument
    unless the second is strictly smaller (resp. larger). *)
Definition py_min (a b : Q) : Q := if Qltb b a then b else a.
Definition py_max (a b : Q) : Q := if Qltb a b then b else a.

(** [min]/[max] on ints. *)
Definition py_minZ (a b : Z) : Z := if (b <? a)%Z then b else a.
Definition py_maxZ (a b : Z) : Z := if (a <? b)%Z then b else a.

(** [int(x)]: truncation toward zero. *)
Definition py_int (x : Q) : Z := Z.quot (Qnum x) (Zpos (Qden x)).

(** [abs(x)]. *)
Definition py_abs (x : Q) : Q := if Qltb x 0 then - x else x.

(** [sum(xs, start)]: left fold from [start]. *)
Definition py_sum (xs : list Q) (start : Q) : Q := fold_left Qplus xs start.

(** The value of [x.quantize(Decimal('0.0001'), rounding=ROUND_HALF_UP)]:
    the nearest multiple of 10^-4, ties away from zero (for when it
    raises, see [decimal_quantize] below). *)
Definition quantize4_half_up (x : Q) : Q :=
  let n := (Z.abs (Qnum x) * 10000)%Z in
  let d := Zpos (Qden x) in
  let r := ((2 * n + d) / (2 * d))%Z in
  (Z.sgn (Qnum x) * r)%Z # 10000.

(** [Decimal(str(x))] for a float [x], and [float(d)] for a Decimal [d]. *)
Definition Decimal_str (x : Q) : Q := x.
Definition to_float (d : Q) : Q := d.

Definition inject_int (n : Z) : Q := inject_Z n.

End Num.
Import Num.

(** ** Dictionaries in insertion order *)

Module Dict.

Section WithValue.
Context {V : Type}.

Definition dict := list (string * V).

Fixpoint get (k : string) (d : dict) : option V :=
  match d with
  | [] => None
  | (k', v) :: d' => if String.eqb k k' then Some v else get k d'
  end.

Definition mem (k : string) (d : dict) : bool :=
  match get k d with Some _ => true | None => false end.

(** [d[k] = v]: an existing key keeps its position, a new key goes last. *)
Fixpoint set (k : string) (v : V) (d : dict) : dict :=
  match d with
  | [] => [(k, v)]
  | (k', v') :: d' =>
      if String.eqb k k' then (k, v) :: d' else (k', v') :: set k v d'
  end.

(** The dictionary left by [d.pop(k)]. *)
Fixpoint del (k : string) (d : dict) : dict :=
  match d with
  | [] => []
  | (k', v') :: d' =>
      if String.eqb k k' then d' else (k', v') :: del k d'
  end.

Definition keys (d : dict) : list string := map fst d.
Definition values (d : dict) : list V := map snd d.
Definition items (d : dict) : list (string * V) := d.

(** Keys of a Python dict are pairwise distinct. *)
Definition wf (d : dict) : Prop := NoDup (keys d).

End WithValue.

Arguments dict V : clear implicits.

End Dict.

Abbreviation dict := Dict.dict.

(** ** Dataclasses

    [SystemConfig], [TradingAsset], [TradeResult] and [PerformanceMetrics]
    are declared with the same fields and defaults in all three files. *)

Module SystemConfig.
Record t := Build {
  total_capital : Q;
  min_profit_per_trade : Q;
  target_trades_per_day : Z;
  target_win_rate : Q;
  max_leverage : Z;
  min_leverage : Z;
  min_asset_count : Z;
  max_drawdown : Q;
  stop_loss_pct : Q;
  take_profit_usdt : Q
}.
End SystemConfig.

(** [SystemConfig()]: the dataclass defaults; [self.config] is set to it
    by [__init__] and never assigned again. *)
Definition config : SystemConfig.t :=
  {| SystemConfig.total_capital := 12;
     SystemConfig.min_profit_per_trade := 6 # 10;
     SystemConfig.target_trades_per_day := 750;
     SystemConfig.target_win_rate := 875 # 1000;
     SystemConfig.max_leverage := 100;
     SystemConfig.min_leverage := 50;
     SystemConfig.min_asset_count := 300;
     SystemConfig.max_drawdown := 9 # 1000;
     SystemConfig.stop_loss_pct := 25 # 10000;
     SystemConfig.take_profit_usdt := 6 # 10 |}.

(** The dict stored in [TradingAsset.quantum_prediction]; the keys are
    those written by the generators of the three files. *)
Module Prediction.
Record t := Build {
  direction : string;
  predicted_price : Q;
  confidence : Q;
  entanglement_correlation : Q;
  pattern_strength : Q;
  spectral_prediction : Q
}.
End Prediction.

Module TradingAsset.
Record t := Build {
  symbol : string;
  current_price : Q;
  daily_volume : Q;
  volatility_24h : Q;
  min_order_size : Q;
  max_leverage : Z;
  confidence_score : Q;
  quantum_prediction : option Prediction.t;
  last_updated : option Z
}.
End TradingAsset.

Module TradeResult.
Record t := Build {
  trade_id : string;
  symbol : string;
  side : string;
  quantity : Q;
  price : Q;
  leverage : Z;
  order_id : string;
  executed_at : Z;
  expected_profit : Q;
  actual_profit : option Q;
  status : string
}.

(** [trade.actual_profit = pnl; trade.status = status] *)
Definition close (pnl : Q) (st : string) (tr : t) : t :=
  {| trade_id := trade_id tr; symbol := symbol tr; side := side tr;
     quantity := quantity tr; price := price tr; leverage := leverage tr;
     order_id := order_id tr; executed_at := executed_at tr;
     expected_profit := expected_profit tr;
     actual_profit := Some pnl; status := st |}.
End TradeResult.

Module PerformanceMetrics.
Record t := Build {
  total_trades : Z;
  successful_trades : Z;
  failed_trades : Z;
  total_profit : Q;
  total_loss : Q;
  win_rate : Q;
  average_profit_per_trade : Q;
  current_drawdown : Q;
  max_drawdown_reached : Q;
  trades_today : Z;
  daily_target_progress : Q
}.

(** [PerformanceMetrics()] *)
Definition default : t :=
  {| total_trades := 0; successful_trades := 0; failed_trades := 0;
     total_profit := 0; total_loss := 0; win_rate := 0;
     average_profit_per_trade := 0; current_drawdown := 0;
     max_drawdown_reached := 0; trades_today := 0;
     daily_target_progress := 0 |}.
End PerformanceMetrics.

(** The dict returned by [generate_trading_signal]. *)
Module Signal.
Record t := Build {
  should_trade : bool;
  confidence : Q;
  direction : string;
  leverage : Z;
  expected_profit : Q;
  risk_score : Q
}.
End Signal.

(** ** The system object and its environment *)

Module System.
Record t := Build {
  available_capital : Q;
  allocated_capital : dict Q;
  scanned_assets : list TradingAsset.t;
  filtered_assets : list TradingAsset.t;
  active_trades : dict TradeResult.t;
  trade_history : list TradeResult.t;
  performance_metrics : PerformanceMetrics.t;
  running : bool;
  trade_counter : Z;  (* absent from the comprehensive class, which never reads it *)
  (* environment *)
  rand_stream : nat -> Q;
  rand_pos : nat;
  clock_stream : nat -> Z;
  clock_pos : nat
}.

Definition set_available_capital (v : Q) (s : t) : t :=
  Build v (allocated_capital s) (scanned_assets s) (filtered_assets s)
    (active_trades s) (trade_history s) (performance_metrics s) (running s)
    (trade_counter s) (rand_stream s) (rand_pos s) (clock_stream s) (clock_pos s).
Definition set_allocated_capital (v : dict Q) (s : t) : t :=
  Build (available_capital s) v (scanned_assets s) (filtered_assets s)
    (active_trades s) (trade_history s) (performance_metrics s) (running s)
    (trade_counter s) (rand_stream s) (rand_pos s) (clock_stream s) (clock_pos s).
Definition set_active_trades (v : dict TradeResult.t) (s : t) : t :=
  Build (available_capital s) (allocated_capital s) (scanned_assets s)
    (filtered_assets s) v (trade_history s) (performance_metrics s) (running s)
    (trade_counter s) (rand_stream s) (rand_pos s) (clock_stream s) (clock_pos s).
Definition set_trade_history (v : list TradeResult.t) (s : t) : t :=
  Build (available_capital s) (allocated_capital s) (scanned_assets s)
    (filtered_assets s) (active_trades s) v (performance_metrics s) (running s)
    (trade_counter s) (rand_stream s) (rand_pos s) (clock_stream s) (clock_pos s).
Definition set_performance_metrics (v : PerformanceMetrics.t) (s : t) : t :=
  Build (available_capital s) (allocated_capital s) (scanned_assets s)
    (filtered_assets s) (active_trades s) (trade_history s) v (running s)
    (trade_counter s) (rand_stream s) (rand_pos s) (clock_stream s) (clock_pos s).
Definition set_running (v : bool) (s : t) : t :=
  Build (available_capital s) (allocated_capital s) (scanned_assets s)
    (filtered_assets s) (active_trades s) (trade_history s)
    (performance_metrics s) v
    (trade_counter s) (rand_stream s) (rand_pos s) (clock_stream s) (clock_pos s).
Definition set_trade_counter (v : Z) (s : t) : t :=
  Build (available_capital s) (allocated_capital s) (scanned_assets s)
    (filtered_assets s) (active_trades s) (trade_history s)
    (performance_metrics s) (running s)
    v (rand_stream s) (rand_pos s) (clock_stream s) (clock_pos s).
Definition set_rand_pos (v : nat) (s : t) : t :=
  Build (available_capital s) (allocated_capital s) (scanned_assets s)
    (filtered_assets s) (active_trades s) (trade_history s)
    (performance_metrics s) (running s)
    (trade_counter s) (rand_stream s) v (clock_stream s) (clock_pos s).
Definition set_clock_pos (v : nat) (s : t) : t :=
  Build (available_capital s) (allocated_capital s) (scanned_assets s)
    (filtered_assets s) (active_trades s) (trade_history s)
    (performance_metrics s) (running s)
    (trade_counter s) (rand_stream s) (rand_pos s) (clock_stream s) v.

(** The object built by [__init__], in an environment [rnd], [clk]. *)
Definition init (rnd : nat -> Q) (clk : nat -> Z) : t :=
  {| available_capital := SystemConfig.total_capital config;
     allocated_capital := [];
     scanned_assets := [];
     filtered_assets := [];
     active_trades := [];
     trade_history := [];
     performance_metrics := PerformanceMetrics.default;
     running := false;
     trade_counter := 0;
     rand_stream := rnd; rand_pos := 0;
     clock_stream := clk; clock_pos := 0 |}.
End System.

(** ** Exceptions and the state-and-exception monad *)

Inductive exn := ZeroDivisionError | InvalidOperation | TypeError.

Inductive result (A : Type) :=
| Ok (a : A)
| Raise (e : exn).
Arguments Ok {A} a.
Arguments Raise {A} e.

Definition M (A : Type) : Type := System.t -> result A * System.t.

Definition ret {A} (a : A) : M A := fun s => (Ok a, s).
Definition bind {A B} (m : M A) (k : A -> M B) : M B :=
  fun s => match m s with
           | (Ok a, s') => k a s'
           | (Raise e, s') => (Raise e, s')
           end.
Definition raise {A} (e : exn) : M A := fun s => (Raise e, s).
Definition gets {A} (f : System.t -> A) : M A := fun s => (Ok (f s), s).
Definition modify (f : System.t -> System.t) : M unit := fun s => (Ok tt, f s).
Definition lift {A} (r : result A) : M A := fun s => (r, s).

Notation "x <- m ;; k" := (bind m (fun x => k))
  (at level 61, m at next level, right associativity).
Notation "m ;;; k" := (bind m (fun _ => k))
  (at level 61, right associativity).

(** [x / y] on Decimals: [DivisionByZero] when [y] is zero and [x] is not,
    [InvalidOperation] for 0/0 (both trapped by the default context). *)
Definition decimal_div (x y : Q) : result Q :=
  if Qeqb y 0 then Raise (if Qeqb x 0 then InvalidOperation else ZeroDivisionError)
  else Ok (x / y).

(** [x / y] on floats. *)
Definition float_div (x y : Q) : result Q :=
  if Qeqb y 0 then Raise ZeroDivisionError else Ok (x / y).

(** [x.quantize(Decimal('0.0001'), rounding=ROUND_HALF_UP)]: the context
    signals [InvalidOperation] when the coefficient of the result would
    have more than 28 digits, that is, when the result reaches 10^24 in
    absolute value. *)
Definition decimal_quantize (x : Q) : result Q :=
  let q := quantize4_half_up x in
  if Qgeb (py_abs q) (inject_Z (10 ^ 24)) then Raise InvalidOperation
  else Ok q.

(** *** Environment reads *)

(** [random.random()] *)
Definition random_random : System.t -> Q * System.t :=
  fun s => (System.rand_stream s (System.rand_pos s),
            System.set_rand_pos (S (System.rand_pos s)) s).

(** [random.uniform(a, b)] is [a + (b - a) * random()]. *)
Definition random_uniform (a b : Q) : System.t -> Q * System.t :=
  fun s => let '(u, s') := random_random s in (a + (b - a) * u, s').

(** [random.randint(a, b)]: an integer of [a..b] picked by the next draw. *)
Definition random_randint (a b : Z) : System.t -> Z * System.t :=
  fun s => let '(u, s') := random_random s in
           ((a + Qfloor (u * inject_Z (b - a + 1)))%Z, s').

(** [int(time.time()*1000)] and [datetime.now()], in milliseconds. *)
Definition time_ms : System.t -> Z * System.t :=
  fun s => (System.clock_stream s (System.clock_pos s),
            System.set_clock_pos (S (System.clock_pos s)) s).

(** [d.date()] of a datetime: its day number. *)
Definition date (ms : Z) : Z := (ms / 86400000)%Z.

(** [str(n)] of an int. *)
Definition str_int (n : Z) : string := NilZero.string_of_int (Z.to_int n).

(** ** The arithmetic of the interpreter

    Python computes every [Decimal] operation exactly and rounds the
    result to the precision of the decimal context; the three files never
    touch the context, so the precision is 28 significant digits and the
    rounding [ROUND_HALF_EVEN].  A [float] is a binary64 number: every
    operation is rounded to 53 significant bits, ties to even (the numbers
    of the three files are far from the subnormal and from the overflow
    range, which are left out). *)

From Stdlib Require Import Qabs.

Module Rounding.

(** [digits b n]: the number of base-[b] digits of [n]; 0 for [n <= 0].
    Each division by [b >= 2] removes at least one bit. *)
Fixpoint digits_loop (fuel : nat) (b n : Z) : Z :=
  match fuel with
  | O => 0%Z
  | S fuel' =>
      if (n <=? 0)%Z then 0%Z else (1 + digits_loop fuel' b (n / b))%Z
  end.

Definition digits (b n : Z) : Z :=
  digits_loop (S (Z.to_nat (Z.log2 n))) b n.

(** The nearest integer, ties to the even one. *)
Definition nearest_even (x : Q) : Z :=
  let q := Qfloor x in
  match Qcompare (x - inject_Z q) (1 # 2) with
  | Lt => q
  | Gt => (q + 1)%Z
  | Eq => if Z.even q then q else (q + 1)%Z
  end.

(** [exponent b x]: the [e] with [b^e <= |x| < b^(e+1)], for [x] not
    zero.  With [n / d = |x|], the difference [l] of the digit counts of
    [n] and [d] is [e] or [e + 1]. *)
Definition exponent (b : Z) (x : Q) : Z :=
  let a := Qabs x in
  let l := (digits b (Qnum a) - digits b (Zpos (Qden a)))%Z in
  if Qle_bool (inject_Z b ^ l) a then l else (l - 1)%Z.

(** [x] rounded to [p] significant digits in base [b], ties to even. *)
Definition significant (b p : Z) (x : Q) : Q :=
  if Qeq_bool x 0 then 0
  else
    let k := (exponent b x - (p - 1))%Z in
    Qred (inject_Z (Z.sgn (Qnum x) * nearest_even (Qabs x * inject_Z b ^ (- k)))
          * inject_Z b ^ k).

End Rounding.

(** The decimal context: [getcontext().prec == 28], [ROUND_HALF_EVEN]. *)
Module Context.

Definition prec : Z := 28.

Definition round (x : Q) : Q := Rounding.significant 10 prec x.

(** [x + y], [x - y], [x * y] on Decimals. *)
Definition add (x y : Q) : Q := round (x + y).
Definition sub (x y : Q) : Q := round (x - y).
Definition mul (x y : Q) : Q := round (x * y).

(** [x / y] on Decimals: [DivisionByZero] when [y] is zero and [x] is not,
    [InvalidOperation] for 0/0 (both trapped by the default context). *)
Definition div (x y : Q) : result Q :=
  if Qeqb y 0 then Raise (if Qeqb x 0 then InvalidOperation else ZeroDivisionError)
  else Ok (round (x / y)).

(** The context returns [x] as it is: [x] has at most 28 significant
    digits. *)
Definition exact (x : Q) : Prop := round x == x.

End Context.

(** Binary64 floats, embedded by their exact value. *)
Module Binary64.

(** The float nearest to [x]: the value of a literal, of [float(d)]. *)
Definition round (x : Q) : Q := Rounding.significant 2 53 x.

Definition add (x y : Q) : Q := round (x + y).
Definition sub (x y : Q) : Q := round (x - y).
Definition mul (x y : Q) : Q := round (x * y).

(** The decimals of [k] significant digits on either side of the float
    [x] that read back as [x], the nearer one if both do. *)
Definition shortest_at (k : Z) (x : Q) : option Q :=
  let unit := inject_Z 10 ^ (Rounding.exponent 10 x - (k - 1)) in
  let lo := inject_Z (Qfloor (x / unit)) * unit in
  let hi := lo + unit in
  let reads_back c := Qeq_bool (round c) x in
  match reads_back lo, reads_back hi with
  | true, true => Some (if Qle_bool (x - lo) (hi - x) then lo else hi)
  | true, false => Some lo
  | false, true => Some hi
  | false, false => None
  end.

Fixpoint shortest (fuel : nat) (k : Z) (x : Q) : Q :=
  match fuel with
  | O => x
  | S fuel' =>
      match shortest_at k x with
      | Some c => c
      | None => shortest fuel' (k + 1)%Z x
      end
  end.

(** The number [str(x)] prints for a float [x]: the decimal with the
    fewest significant digits that reads back as [x] (17 digits always
    do). *)
Definition repr (x : Q) : Q :=
  if Qeq_bool x 0 then 0 else Qred (shortest 17 1 x).

(** [a + (b - a) * u] on floats, for literals [a] and [b]: the body of
    [random.uniform(a, b)] for the draw [u]. *)
Definition uniform (a b u : Q) : Q :=
  add (round a) (mul (sub (round b) (round a)) (round u)).

End Binary64.

(** ** Methods that read the same in all three files

    [calculate_pnl], [update_capital_allocation] and
    [update_performance_tracking] have the same body in the three classes
    (the realistic class calls them [calculate_realistic_pnl],
    [update_realistic_capital_allocation] and
    [update_realistic_performance_tracking]); they differ in log lines only. *)

Module Common.

(** [calculate_pnl(trade, current_price)] *)
Definition calculate_pnl (trade : TradeResult.t) (current_price : Q) : Q :=
  let price_diff :=
    if String.eqb (TradeResult.side trade) "Buy"
    then current_price - TradeResult.price trade
    else TradeResult.price trade - current_price in
  price_diff * TradeResult.quantity trade.

(** [update_capital_allocation(trade)] *)
Definition update_capital_allocation (trade : TradeResult.t) : M unit :=
  trade_capital <- lift (decimal_div
                     (TradeResult.quantity trade * TradeResult.price trade)
                     (inject_int (TradeResult.leverage trade)));;
  modify (fun s => System.set_available_capital
                     (System.available_capital s - trade_capital) s);;;
  modify (fun s => System.set_allocated_capital
                     (Dict.set (TradeResult.trade_id trade) trade_capital
                        (System.allocated_capital s)) s).

Definition status_is (st : string) (t : TradeResult.t) : bool :=
  String.eqb (TradeResult.status t) st.

(** [t.actual_profit and t.actual_profit > 0]: [None] and a zero Decimal
    are falsy. *)
Definition is_profit (t : TradeResult.t) : bool :=
  match TradeResult.actual_profit t with
  | Some p => negb (Qeqb p 0) && Qgtb p 0
  | None => false
  end.

Definition is_loss (t : TradeResult.t) : bool :=
  match TradeResult.actual_profit t with
  | Some p => negb (Qeqb p 0) && Qltb p 0
  | None => false
  end.

Definition profit_of (t : TradeResult.t) : Q :=
  match TradeResult.actual_profit t with Some p => p | None => 0 end.

Definition len {A} (l : list A) : Z := Z.of_nat (List.length l).

(** [update_performance_tracking()].  The fields of [metrics] are assigned
    one after the other; [today] is the day of [datetime.now()]. *)
Definition update_performance_tracking (s : System.t) : System.t :=
  let metrics := System.performance_metrics s in
  let history := System.trade_history s in
  (* Calculate metrics from trade history *)
  let total_trades := len history in
  let successful_trades := len (filter (status_is "ProfitTaken") history) in
  let failed_trades := len (filter (status_is "StopLoss") history) in
  let win_rate :=
    if (total_trades >? 0)%Z
    then inject_int successful_trades / inject_int total_trades
    else PerformanceMetrics.win_rate metrics in
  (* Calculate profit/loss *)
  let profits := map profit_of (filter is_profit history) in
  let losses := map (fun t => py_abs (profit_of t)) (filter is_loss history) in
  let total_profit := py_sum profits 0 in
  let total_loss := py_sum losses 0 in
  let average_profit_per_trade :=
    if (total_trades >? 0)%Z
    then (total_profit - total_loss) / inject_int total_trades
    else PerformanceMetrics.average_profit_per_trade metrics in
  (* Calculate drawdown *)
  let total_capital := SystemConfig.total_capital config in
  let current_capital :=
    System.available_capital s
    + py_sum (Dict.values (System.allocated_capital s)) 0 in
  let current_drawdown :=
    if Qltb current_capital total_capital
    then to_float ((total_capital - current_capital) / total_capital)
    else PerformanceMetrics.current_drawdown metrics in
  let max_drawdown_reached :=
    if Qltb current_capital total_capital
    then py_max (PerformanceMetrics.max_drawdown_reached metrics) current_drawdown
    else PerformanceMetrics.max_drawdown_reached metrics in
  (* Count today's trades *)
  let '(now, s1) := time_ms s in
  let today := date now in
  let trades_today :=
    len (filter (fun t => Z.eqb (date (TradeResult.executed_at t)) today) history) in
  let daily_target_progress :=
    inject_int trades_today
    / inject_int (SystemConfig.target_trades_per_day config) in
  System.set_performance_metrics
    {| PerformanceMetrics.total_trades := total_trades;
       PerformanceMetrics.successful_trades := successful_trades;
       PerformanceMetrics.failed_trades := failed_trades;
       PerformanceMetrics.total_profit := total_profit;
       PerformanceMetrics.total_loss := total_loss;
       PerformanceMetrics.win_rate := win_rate;
       PerformanceMetrics.average_profit_per_trade := average_profit_per_trade;
       PerformanceMetrics.current_drawdown := current_drawdown;
       PerformanceMetrics.max_drawdown_reached := max_drawdown_reached;
       PerformanceMetrics.trades_today := trades_today;
       PerformanceMetrics.daily_target_progress := daily_target_progress |}
    s1.

(** The drawdown test at the head of every [monitor_risks]:
    [self.performance_metrics.current_drawdown > self.config.max_drawdown]. *)
Definition drawdown_exceeded (s : System.t) : bool :=
  Qgtb (PerformanceMetrics.current_drawdown (System.performance_metrics s))
       (SystemConfig.max_drawdown config).

(** [-trade.price * Decimal(str(self.config.stop_loss_pct))] *)
Definition stop_loss_threshold (trade : TradeResult.t) : Q :=
  - TradeResult.price trade * Decimal_str (SystemConfig.stop_loss_pct config).

(** The tail of every [monitor_risks]:
    [for trade_id, status in trades_to_close: await close(trade_id, status)]. *)
Definition close_trades (close : string -> string -> System.t -> System.t)
    (trades_to_close : list (string * string)) (s : System.t) : System.t :=
  fold_left (fun s' '(trade_id, status) => close trade_id status s')
            trades_to_close s.

End Common.

(** ** comprehensive_trading_system_demo.py *)

Module Comprehensive.
Import Common.

(** [generate_trading_signal(asset)]; it reads [self.available_capital]
    and [self.config] and writes nothing. *)
Definition generate_trading_signal (s : System.t) (asset : TradingAsset.t)
  : result Signal.t :=
  match TradingAsset.quantum_prediction asset with
  | None => Raise TypeError          (* prediction["confidence"] on None *)
  | Some prediction =>
    let confidence := Prediction.confidence prediction in
    (* Calculate optimal leverage *)
    let leverage :=
      py_minZ (py_maxZ (py_int (confidence * 100))
                       (SystemConfig.min_leverage config))
              (SystemConfig.max_leverage config) in
    (* Calculate expected profit *)
    let expected_movement := TradingAsset.volatility_24h asset * confidence * (5 # 10) in
    let trade_capital := py_min (System.available_capital s) 5 in
    let position_size := trade_capital * inject_int leverage in
    let expected_profit := position_size * Decimal_str expected_movement in
    (* Risk assessment *)
    let risk_score :=
      (inject_int leverage / inject_int (SystemConfig.max_leverage config)
       + TradingAsset.volatility_24h asset / (1 # 10)) / 2 in
    let should_trade :=
      Qgtb confidence (75 # 100)
      && Qgeb expected_profit (SystemConfig.min_profit_per_trade config)
      && Qltb risk_score (5 # 10)
      && Qgeb (System.available_capital s) 5 in
    Ok {| Signal.should_trade := should_trade;
          Signal.confidence := confidence;
          Signal.direction := Prediction.direction prediction;
          Signal.leverage := leverage;
          Signal.expected_profit := expected_profit;
          Signal.risk_score := risk_score |}
  end.

(** The loop of [select_best_trading_opportunity]. *)
Fixpoint select_loop (s : System.t) (assets : list TradingAsset.t)
    (best_opportunity : option (TradingAsset.t * Signal.t)) (best_score : Q)
  : result (option (TradingAsset.t * Signal.t)) :=
  match assets with
  | [] => Ok best_opportunity
  | asset :: rest =>
    match generate_trading_signal s asset with
    | Raise e => Raise e
    | Ok signal =>
      if Signal.should_trade signal then
        (* Calculate opportunity score *)
        match float_div (Signal.confidence signal
                         * to_float (Signal.expected_profit signal))
                        (1 + Signal.risk_score signal) with
        | Raise e => Raise e
        | Ok score =>
          if Qgtb score best_score
          then select_loop s rest (Some (asset, signal)) score
          else select_loop s rest best_opportunity best_score
        end
      else select_loop s rest best_opportunity best_score
    end
  end.

(** [select_best_trading_opportunity()] *)
Definition select_best_trading_opportunity
  : M (option (TradingAsset.t * Signal.t)) :=
  fun s => (select_loop s (firstn 20 (System.filtered_assets s)) None 0, s).

(** [execute_trade(asset, signal)] *)
Definition execute_trade (asset : TradingAsset.t) (signal : Signal.t)
  : M TradeResult.t :=
  t_id <- (fun s => let '(t, s') := time_ms s in (Ok t, s'));;
  let trade_id := String.append "trade-" (str_int t_id) in
  (* Calculate position details *)
  available <- gets System.available_capital;;
  let trade_capital := py_min available 5 in
  let leverage := Signal.leverage signal in
  let position_size := trade_capital * inject_int leverage in
  quantity <- lift (decimal_div position_size (TradingAsset.current_price asset));;
  (* Generate demo order ID *)
  t_order <- (fun s => let '(t, s') := time_ms s in (Ok t, s'));;
  let order_id :=
    String.append "demo-"
      (String.append (TradingAsset.symbol asset)
         (String.append "-" (str_int t_order))) in
  (* Create trade result *)
  quantized <- lift (decimal_quantize quantity);;
  now <- (fun s => let '(t, s') := time_ms s in (Ok t, s'));;
  ret {| TradeResult.trade_id := trade_id;
         TradeResult.symbol := TradingAsset.symbol asset;
         TradeResult.side :=
           if String.eqb (Signal.direction signal) "Long" then "Buy" else "Sell";
         TradeResult.quantity := quantized;
         TradeResult.price := TradingAsset.current_price asset;
         TradeResult.leverage := leverage;
         TradeResult.order_id := order_id;
         TradeResult.executed_at := now;
         TradeResult.expected_profit := Signal.expected_profit signal;
         TradeResult.actual_profit := None;
         TradeResult.status := "Executed" |}.

Definition update_capital_allocation := Common.update_capital_allocation.

(** [update_performance_metrics(trade)]: [pass]. *)
Definition update_performance_metrics (trade : TradeResult.t) : M unit := ret tt.

(** [execute_trading_cycle()] *)
Definition execute_trading_cycle : M bool :=
  available <- gets System.available_capital;;
  (* Check available capital *)
  if Qltb available 5 then ret false else
  filtered <- gets System.filtered_assets;;
  match filtered with
  | [] => ret false
  | _ :: _ =>
    (* Select best trading opportunity *)
    best_asset <- select_best_trading_opportunity;;
    match best_asset with
    | Some (asset, signal) =>
      trade_result <- execute_trade asset signal;;
      (* Update capital and tracking *)
      update_capital_allocation trade_result;;;
      modify (fun s => System.set_active_trades
                         (Dict.set (TradeResult.trade_id trade_result) trade_result
                            (System.active_trades s)) s);;;
      update_performance_metrics trade_result;;;
      ret true
    | None => ret false
    end
  end.

Definition calculate_pnl := Common.calculate_pnl.

(** [close_trade(trade_id, status)] *)
Definition close_trade (trade_id status : string) (s : System.t) : System.t :=
  match Dict.get trade_id (System.active_trades s) with
  | None => s
  | Some trade =>
    let s := System.set_active_trades (Dict.del trade_id (System.active_trades s)) s in
    (* Calculate final P&L *)
    let '(u, s) := random_uniform (995 # 1000) (1005 # 1000) s in
    let current_price := TradeResult.price trade * Decimal_str u in
    let pnl := calculate_pnl trade current_price in
    let trade := TradeResult.close pnl status trade in
    (* Return capital *)
    let s :=
      match Dict.get trade_id (System.allocated_capital s) with
      | Some capital_returned =>
        let s := System.set_allocated_capital
                   (Dict.del trade_id (System.allocated_capital s)) s in
        System.set_available_capital
          (System.available_capital s + (capital_returned + pnl)) s
      | None => s
      end in
    (* Add to history *)
    System.set_trade_history (System.trade_history s ++ [trade]) s
  end.

(** [emergency_stop()] *)
Definition emergency_stop (s : System.t) : System.t :=
  let s := System.set_running false s in
  (* Close all active trades *)
  fold_left (fun s' trade_id => close_trade trade_id "Cancelled" s')
            (Dict.keys (System.active_trades s)) s.

(** The first loop of [monitor_risks], over [list(self.active_trades.items())]. *)
Fixpoint monitor_loop (items : list (string * TradeResult.t))
    (trades_to_close : list (string * string)) (s : System.t)
  : list (string * string) * System.t :=
  match items with
  | [] => (trades_to_close, s)
  | (trade_id, trade) :: rest =>
    (* Simulate price movement and P&L calculation *)
    let '(u, s) := random_uniform (995 # 1000) (1005 # 1000) s in
    let current_price := TradeResult.price trade * Decimal_str u in
    let pnl := calculate_pnl trade current_price in
    (* Check stop loss *)
    if Qltb pnl (stop_loss_threshold trade) then
      monitor_loop rest (trades_to_close ++ [(trade_id, "StopLoss")]) s
    (* Check take profit *)
    else if Qgeb pnl (SystemConfig.take_profit_usdt config) then
      monitor_loop rest (trades_to_close ++ [(trade_id, "ProfitTaken")]) s
    else monitor_loop rest trades_to_close s
  end.

(** [monitor_risks()] *)
Definition monitor_risks (s : System.t) : System.t :=
  (* Check drawdown *)
  if drawdown_exceeded s then emergency_stop s
  else
    (* Monitor active trades for stop loss/take profit *)
    let '(trades_to_close, s) :=
      monitor_loop (Dict.items (System.active_trades s)) [] s in
    (* Close trades *)
    close_trades close_trade trades_to_close s.

Definition update_performance_tracking := Common.update_performance_tracking.

End Comprehensive.

(** ** enhanced_trading_system_demo.py *)

Module Enhanced.
Import Common.

(** [generate_trading_signal(asset)] *)
Definition generate_trading_signal (s : System.t) (asset : TradingAsset.t)
  : result Signal.t :=
  match TradingAsset.quantum_prediction asset with
  | None => Raise TypeError
  | Some prediction =>
    let confidence := Prediction.confidence prediction in
    (* Calculate optimal leverage *)
    let leverage :=
      py_minZ (py_maxZ (py_int (confidence * 80))
                       (SystemConfig.min_leverage config))
              (SystemConfig.max_leverage config) in
    (* Calculate expected profit *)
    let expected_movement := TradingAsset.volatility_24h asset * confidence * (6 # 10) in
    let trade_capital := py_min (System.available_capital s) 4 in
    let position_size := trade_capital * inject_int leverage in
    let expected_profit := position_size * Decimal_str expected_movement in
    (* Risk assessment *)
    let risk_score :=
      (inject_int leverage / inject_int (SystemConfig.max_leverage config)
       + TradingAsset.volatility_24h asset / (1 # 10)) / 2 in
    let should_trade :=
      Qgtb confidence (72 # 100)
      && Qgeb expected_profit (4 # 10)
      && Qltb risk_score (6 # 10)
      && Qgeb (System.available_capital s) 3 in
    Ok {| Signal.should_trade := should_trade;
          Signal.confidence := confidence;
          Signal.direction := Prediction.direction prediction;
          Signal.leverage := leverage;
          Signal.expected_profit := expected_profit;
          Signal.risk_score := risk_score |}
  end.

(** The loop of [select_best_trading_opportunity]. *)
Fixpoint select_loop (s : System.t) (assets : list TradingAsset.t)
    (best_opportunity : option (TradingAsset.t * Signal.t)) (best_score : Q)
  : result (option (TradingAsset.t * Signal.t)) :=
  match assets with
  | [] => Ok best_opportunity
  | asset :: rest =>
    match generate_trading_signal s asset with
    | Raise e => Raise e
    | Ok signal =>
      if Signal.should_trade signal then
        match float_div (Signal.confidence signal
                         * to_float (Signal.expected_profit signal))
                        (1 + Signal.risk_score signal) with
        | Raise e => Raise e
        | Ok score =>
          if Qgtb score best_score
          then select_loop s rest (Some (asset, signal)) score
          else select_loop s rest best_opportunity best_score
        end
      else select_loop s rest best_opportunity best_score
    end
  end.

(** [select_best_trading_opportunity()] *)
Definition select_best_trading_opportunity
  : M (option (TradingAsset.t * Signal.t)) :=
  fun s => (select_loop s (firstn 10 (System.filtered_assets s)) None 0, s).

(** [execute_trade(asset, signal)] *)
Definition execute_trade (asset : TradingAsset.t) (signal : Signal.t)
  : M TradeResult.t :=
  t_id <- (fun s => let '(t, s') := time_ms s in (Ok t, s'));;
  let trade_id := String.append "trade-" (str_int t_id) in
  (* Calculate position details *)
  available <- gets System.available_capital;;
  let trade_capital := py_min available 4 in
  let leverage := Signal.leverage signal in
  let position_size := trade_capital * inject_int leverage in
  quantity <- lift (decimal_div position_size (TradingAsset.current_price asset));;
  (* Generate verifiable demo order ID *)
  t_order <- (fun s => let '(t, s') := time_ms s in (Ok t, s'));;
  suffix <- (fun s => let '(n, s') := random_randint 1000 9999 s in (Ok n, s'));;
  let order_id :=
    String.append "DEMO-"
      (String.append (TradingAsset.symbol asset)
         (String.append "-"
            (String.append (str_int t_order)
               (String.append "-" (str_int suffix))))) in
  (* Create trade result *)
  quantized <- lift (decimal_quantize quantity);;
  now <- (fun s => let '(t, s') := time_ms s in (Ok t, s'));;
  ret {| TradeResult.trade_id := trade_id;
         TradeResult.symbol := TradingAsset.symbol asset;
         TradeResult.side :=
           if String.eqb (Signal.direction signal) "Long" then "Buy" else "Sell";
         TradeResult.quantity := quantized;
         TradeResult.price := TradingAsset.current_price asset;
         TradeResult.leverage := leverage;
         TradeResult.order_id := order_id;
         TradeResult.executed_at := now;
         TradeResult.expected_profit := Signal.expected_profit signal;
         TradeResult.actual_profit := None;
         TradeResult.status := "Executed" |}.

Definition update_capital_allocation := Common.update_capital_allocation.

(** [execute_trading_cycle()] *)
Definition execute_trading_cycle : M bool :=
  available <- gets System.available_capital;;
  (* Check available capital *)
  if Qltb available 3 then ret false else
  filtered <- gets System.filtered_assets;;
  match filtered with
  | [] => ret false
  | _ :: _ =>
    (* Select best trading opportunity *)
    best_asset <- select_best_trading_opportunity;;
    match best_asset with
    | Some (asset, signal) =>
      trade_result <- execute_trade asset signal;;
      modify (fun s => System.set_trade_counter (System.trade_counter s + 1)%Z s);;;
      (* Update capital and tracking *)
      update_capital_allocation trade_result;;;
      modify (fun s => System.set_active_trades
                         (Dict.set (TradeResult.trade_id trade_result) trade_result
                            (System.active_trades s)) s);;;
      ret true
    | None => ret false
    end
  end.

Definition calculate_pnl := Common.calculate_pnl.

(** [close_trade(trade_id, status)] *)
Definition close_trade (trade_id status : string) (s : System.t) : System.t :=
  match Dict.get trade_id (System.active_trades s) with
  | None => s
  | Some trade =>
    let s := System.set_active_trades (Dict.del trade_id (System.active_trades s)) s in
    (* Calculate final P&L with slight bias toward profit for demo *)
    let '(price_change, s) :=
      if String.eqb status "ProfitTaken"
      then random_uniform (- (5 # 1000)) (15 # 1000) s
      else random_uniform (- (15 # 1000)) (5 # 1000) s in
    let current_price := TradeResult.price trade * Decimal_str (1 + price_change) in
    let pnl := calculate_pnl trade current_price in
    let trade := TradeResult.close pnl status trade in
    (* Return capital *)
    let s :=
      match Dict.get trade_id (System.allocated_capital s) with
      | Some capital_returned =>
        let s := System.set_allocated_capital
                   (Dict.del trade_id (System.allocated_capital s)) s in
        System.set_available_capital
          (System.available_capital s + (capital_returned + pnl)) s
      | None => s
      end in
    (* Add to history *)
    System.set_trade_history (System.trade_history s ++ [trade]) s
  end.

(** The first loop of [monitor_risks], over [list(self.active_trades.items())]. *)
Fixpoint monitor_loop (items : list (string * TradeResult.t))
    (trades_to_close : list (string * string)) (s : System.t)
  : list (string * string) * System.t :=
  match items with
  | [] => (trades_to_close, s)
  | (trade_id, trade) :: rest =>
    (* Simulate realistic price movement *)
    let '(price_change, s) := random_uniform (- (8 # 1000)) (12 # 1000) s in
    let current_price := TradeResult.price trade * Decimal_str (1 + price_change) in
    let pnl := calculate_pnl trade current_price in
    (* Check stop loss *)
    if Qltb pnl (stop_loss_threshold trade) then
      monitor_loop rest (trades_to_close ++ [(trade_id, "StopLoss")]) s
    (* Check take profit (lowered threshold for demo) *)
    else if Qgeb pnl (4 # 10) then
      monitor_loop rest (trades_to_close ++ [(trade_id, "ProfitTaken")]) s
    (* Random close some trades for demo (simulate market conditions) *)
    else
      let '(r, s) := random_random s in
      if Qltb r (5 # 100) then
        let status := if Qgtb pnl 0 then "ProfitTaken" else "StopLoss" in
        monitor_loop rest (trades_to_close ++ [(trade_id, status)]) s
      else monitor_loop rest trades_to_close s
  end.

(** [monitor_risks()]: on a drawdown breach it logs a warning and returns. *)
Definition monitor_risks (s : System.t) : System.t :=
  (* Check drawdown *)
  if drawdown_exceeded s then s
  else
    (* Monitor active trades for stop loss/take profit *)
    let '(trades_to_close, s) :=
      monitor_loop (Dict.items (System.active_trades s)) [] s in
    (* Close trades *)
    close_trades close_trade trades_to_close s.

Definition update_performance_tracking := Common.update_performance_tracking.

End Enhanced.

(** ** realistic_quantum_trading_system.py *)

Module Realistic.
Import Common.

(** [generate_realistic_trading_signal(asset)] *)
Definition generate_realistic_trading_signal (s : System.t) (asset : TradingAsset.t)
  : result Signal.t :=
  match TradingAsset.quantum_prediction asset with
  | None => Raise TypeError
  | Some prediction =>
    let confidence := Prediction.confidence prediction in
    (* Calculate optimal leverage *)
    let leverage :=
      py_minZ (py_maxZ (py_int (confidence * 85))
                       (SystemConfig.min_leverage config))
              (SystemConfig.max_leverage config) in
    (* Calculate expected profit *)
    let expected_movement := TradingAsset.volatility_24h asset * confidence * (5 # 10) in
    let trade_capital := py_min (System.available_capital s) 3 in
    let position_size := trade_capital * inject_int leverage in
    let expected_profit := position_size * Decimal_str expected_movement in
    (* Risk assessment *)
    let risk_score :=
      (inject_int leverage / inject_int (SystemConfig.max_leverage config)
       + TradingAsset.volatility_24h asset / (1 # 10)) / 2 in
    let should_trade :=
      Qgtb confidence (78 # 100)
      && Qgeb expected_profit (5 # 10)
      && Qltb risk_score (6 # 10)
      && Qgeb (System.available_capital s) 3 in
    Ok {| Signal.should_trade := should_trade;
          Signal.confidence := confidence;
          Signal.direction := Prediction.direction prediction;
          Signal.leverage := leverage;
          Signal.expected_profit := expected_profit;
          Signal.risk_score := risk_score |}
  end.

(** The loop of [select_best_realistic_opportunity]. *)
Fixpoint select_loop (s : System.t) (assets : list TradingAsset.t)
    (best_opportunity : option (TradingAsset.t * Signal.t)) (best_score : Q)
  : result (option (TradingAsset.t * Signal.t)) :=
  match assets with
  | [] => Ok best_opportunity
  | asset :: rest =>
    match generate_realistic_trading_signal s asset with
    | Raise e => Raise e
    | Ok signal =>
      if Signal.should_trade signal then
        match float_div (Signal.confidence signal
                         * to_float (Signal.expected_profit signal))
                        (1 + Signal.risk_score signal) with
        | Raise e => Raise e
        | Ok score =>
          if Qgtb score best_score
          then select_loop s rest (Some (asset, signal)) score
          else select_loop s rest best_opportunity best_score
        end
      else select_loop s rest best_opportunity best_score
    end
  end.

(** [select_best_realistic_opportunity()] *)
Definition select_best_realistic_opportunity
  : M (option (TradingAsset.t * Signal.t)) :=
  fun s => (select_loop s (firstn 5 (System.filtered_assets s)) None 0, s).

(** [execute_realistic_trade(asset, signal)] *)
Definition execute_realistic_trade (asset : TradingAsset.t) (signal : Signal.t)
  : M TradeResult.t :=
  t_id <- (fun s => let '(t, s') := time_ms s in (Ok t, s'));;
  let trade_id := String.append "trade-" (str_int t_id) in
  (* Calculate position details *)
  available <- gets System.available_capital;;
  let trade_capital := py_min available 3 in
  let leverage := Signal.leverage signal in
  let position_size := trade_capital * inject_int leverage in
  quantity <- lift (decimal_div position_size (TradingAsset.current_price asset));;
  (* Generate realistic demo order ID *)
  t_order <- (fun s => let '(t, s') := time_ms s in (Ok t, s'));;
  suffix <- (fun s => let '(n, s') := random_randint 1000 9999 s in (Ok n, s'));;
  let order_id :=
    String.append "REALISTIC-DEMO-"
      (String.append (TradingAsset.symbol asset)
         (String.append "-"
            (String.append (str_int t_order)
               (String.append "-" (str_int suffix))))) in
  (* Create trade result *)
  quantized <- lift (decimal_quantize quantity);;
  now <- (fun s => let '(t, s') := time_ms s in (Ok t, s'));;
  ret {| TradeResult.trade_id := trade_id;
         TradeResult.symbol := TradingAsset.symbol asset;
         TradeResult.side :=
           if String.eqb (Signal.direction signal) "Long" then "Buy" else "Sell";
         TradeResult.quantity := quantized;
         TradeResult.price := TradingAsset.current_price asset;
         TradeResult.leverage := leverage;
         TradeResult.order_id := order_id;
         TradeResult.executed_at := now;
         TradeResult.expected_profit := Signal.expected_profit signal;
         TradeResult.actual_profit := None;
         TradeResult.status := "Executed" |}.

Definition update_realistic_capital_allocation := Common.update_capital_allocation.

(** [execute_realistic_trading_cycle()] *)
Definition execute_realistic_trading_cycle : M bool :=
  available <- gets System.available_capital;;
  (* Check available capital *)
  if Qltb available 3 then ret false else
  filtered <- gets System.filtered_assets;;
  match filtered with
  | [] => ret false
  | _ :: _ =>
    (* Select best trading opportunity *)
    best_asset <- select_best_realistic_opportunity;;
    match best_asset with
    | Some (asset, signal) =>
      trade_result <- execute_realistic_trade asset signal;;
      modify (fun s => System.set_trade_counter (System.trade_counter s + 1)%Z s);;;
      (* Update capital and tracking *)
      update_realistic_capital_allocation trade_result;;;
      modify (fun s => System.set_active_trades
                         (Dict.set (TradeResult.trade_id trade_result) trade_result
                            (System.active_trades s)) s);;;
      ret true
    | None => ret false
    end
  end.

Definition calculate_realistic_pnl := Common.calculate_pnl.

(** [close_realistic_trade(trade_id, status)] *)
Definition close_realistic_trade (trade_id status : string) (s : System.t)
  : System.t :=
  match Dict.get trade_id (System.active_trades s) with
  | None => s
  | Some trade =>
    let s := System.set_active_trades (Dict.del trade_id (System.active_trades s)) s in
    (* Calculate final P&L with realistic bias *)
    let '(price_change, s) :=
      if String.eqb status "ProfitTaken"
      then random_uniform (- (4 # 1000)) (12 # 1000) s
      else random_uniform (- (12 # 1000)) (4 # 1000) s in
    let current_price := TradeResult.price trade * Decimal_str (1 + price_change) in
    let pnl := calculate_realistic_pnl trade current_price in
    let trade := TradeResult.close pnl status trade in
    (* Return capital *)
    let s :=
      match Dict.get trade_id (System.allocated_capital s) with
      | Some capital_returned =>
        let s := System.set_allocated_capital
                   (Dict.del trade_id (System.allocated_capital s)) s in
        System.set_available_capital
          (System.available_capital s + (capital_returned + pnl)) s
      | None => s
      end in
    (* Add to history *)
    System.set_trade_history (System.trade_history s ++ [trade]) s
  end.

(** The first loop of [monitor_realistic_risks]. *)
Fixpoint monitor_loop (items : list (string * TradeResult.t))
    (trades_to_close : list (string * string)) (s : System.t)
  : list (string * string) * System.t :=
  match items with
  | [] => (trades_to_close, s)
  | (trade_id, trade) :: rest =>
    (* Simulate realistic price movement *)
    let '(price_change, s) := random_uniform (- (6 # 1000)) (10 # 1000) s in
    let current_price := TradeResult.price trade * Decimal_str (1 + price_change) in
    let pnl := calculate_realistic_pnl trade current_price in
    (* Check stop loss *)
    if Qltb pnl (stop_loss_threshold trade) then
      monitor_loop rest (trades_to_close ++ [(trade_id, "StopLoss")]) s
    (* Check take profit *)
    else if Qgeb pnl (5 # 10) then
      monitor_loop rest (trades_to_close ++ [(trade_id, "ProfitTaken")]) s
    (* Random close some trades (simulate market conditions) *)
    else
      let '(r, s) := random_random s in
      if Qltb r (8 # 100) then
        let status := if Qgtb pnl 0 then "ProfitTaken" else "StopLoss" in
        monitor_loop rest (trades_to_close ++ [(trade_id, status)]) s
      else monitor_loop rest trades_to_close s
  end.

(** [monitor_realistic_risks()]: on a drawdown breach it logs a warning
    and returns. *)
Definition monitor_realistic_risks (s : System.t) : System.t :=
  (* Check drawdown *)
  if drawdown_exceeded s then s
  else
    let '(trades_to_close, s) :=
      monitor_loop (Dict.items (System.active_trades s)) [] s in
    (* Close trades *)
    close_trades close_realistic_trade trades_to_close s.

Definition update_realistic_performance_tracking :=
  Common.update_performance_tracking.

End Realistic.

(** ** The ledger methods under the arithmetic of the interpreter

    [calculate_pnl], [update_capital_allocation] and [close_trade] of the
    comprehensive class once more, every [Decimal] operation rounded by
    the decimal context, [random.uniform] computed in binary64 and
    [Decimal(str(x))] read from the shortest decimal that prints the float
    [x].  The ledger equation is stated on these (module [Ledger]): it is
    an equality between stored numbers, and it is the rounding of
    [available_capital] that decides whether it holds. *)

Module Machine.

(** [random.uniform(a, b)]; the draw of the stream is read as a float. *)
Definition random_uniform (a b : Q) : System.t -> Q * System.t :=
  fun s => let '(u, s') := random_random s in (Binary64.uniform a b u, s').

(** [Decimal(str(x))] for a float [x]. *)
Definition Decimal_str (x : Q) : Q := Binary64.repr x.

(** [calculate_pnl(trade, current_price)] *)
Definition calculate_pnl (trade : TradeResult.t) (current_price : Q) : Q :=
  let price_diff :=
    if String.eqb (TradeResult.side trade) "Buy"
    then Context.sub current_price (TradeResult.price trade)
    else Context.sub (TradeResult.price trade) current_price in
  Context.mul price_diff (TradeResult.quantity trade).

(** [update_capital_allocation(trade)] *)
Definition update_capital_allocation (trade : TradeResult.t) : M unit :=
  trade_capital <- lift (Context.div
                     (Context.mul (TradeResult.quantity trade)
                                  (TradeResult.price trade))
                     (inject_int (TradeResult.leverage trade)));;
  modify (fun s => System.set_available_capital
                     (Context.sub (System.available_capital s) trade_capital) s);;;
  modify (fun s => System.set_allocated_capital
                     (Dict.set (TradeResult.trade_id trade) trade_capital
                        (System.allocated_capital s)) s).

(** [close_trade(trade_id, status)] *)
Definition close_trade (trade_id status : string) (s : System.t) : System.t :=
  match Dict.get trade_id (System.active_trades s) with
  | None => s
  | Some trade =>
    let s := System.set_active_trades (Dict.del trade_id (System.active_trades s)) s in
    (* Calculate final P&L *)
    let '(u, s) := random_uniform (995 # 1000) (1005 # 1000) s in
    let current_price := Context.mul (TradeResult.price trade) (Decimal_str u) in
    let pnl := calculate_pnl trade current_price in
    let trade := TradeResult.close pnl status trade in
    (* Return capital *)
    let s :=
      match Dict.get trade_id (System.allocated_capital s) with
      | Some capital_returned =>
        let s := System.set_allocated_capital
                   (Dict.del trade_id (System.allocated_capital s)) s in
        System.set_available_capital
          (Context.add (System.available_capital s)
                       (Context.add capital_returned pnl)) s
      | None => s
      end in
    (* Add to history *)
    System.set_trade_history (System.trade_history s ++ [trade]) s
  end.

(** The margin [update_capital_allocation] books for [trade]:
    [trade.quantity * trade.price / trade.leverage]. *)
Definition margin (trade : TradeResult.t) : result Q :=
  Context.div (Context.mul (TradeResult.quantity trade) (TradeResult.price trade))
              (inject_int (TradeResult.leverage trade)).

(** The P&L that [close_trade] books for [trade] in state [s]: it reads
    the next draw of [s]. *)
Definition closing_pnl (trade : TradeResult.t) (s : System.t) : Q :=
  calculate_pnl trade
    (Context.mul (TradeResult.price trade)
       (Decimal_str (fst (random_uniform (995 # 1000) (1005 # 1000) s)))).

End Machine.

(** ** The common shape of the three risk monitors

    The three [close_trade] methods differ in how the closing price factor
    is drawn, and the three monitor loops in the price factor, the
    take-profit threshold and the presence of a random close.  The schemes
    below abstract these; [GenericFacts] shows that each method of the
    three classes is an instance. *)

Module Generic.
Import Common.

Section Close.
(** [factor status u]: the closing price factor obtained from draw [u]. *)
Variable factor : string -> Q -> Q.

Definition close_with (trade_id status : string) (s : System.t) : System.t :=
  match Dict.get trade_id (System.active_trades s) with
  | None => s
  | Some trade =>
    let s := System.set_active_trades (Dict.del trade_id (System.active_trades s)) s in
    let '(u, s) := random_random s in
    let current_price := TradeResult.price trade * Decimal_str (factor status u) in
    let pnl := calculate_pnl trade current_price in
    let trade := TradeResult.close pnl status trade in
    let s :=
      match Dict.get trade_id (System.allocated_capital s) with
      | Some capital_returned =>
        let s := System.set_allocated_capital
                   (Dict.del trade_id (System.allocated_capital s)) s in
        System.set_available_capital
          (System.available_capital s + (capital_returned + pnl)) s
      | None => s
      end in
    System.set_trade_history (System.trade_history s ++ [trade]) s
  end.
End Close.

Section Monitor.
(** [factor u]: the price factor obtained from draw [u]; [take_profit]:
    the profit threshold; [random_close]: the probability of the random
    close, if the loop has one. *)
Variable factor : Q -> Q.
Variable take_profit : Q.
Variable random_close : option Q.

(** What one iteration decides for [trade]. *)
Definition decide (trade : TradeResult.t) (s : System.t)
  : option string * System.t :=
  let '(u, s1) := random_random s in
  let pnl := calculate_pnl trade (TradeResult.price trade * Decimal_str (factor u)) in
  if Qltb pnl (stop_loss_threshold trade) then (Some "StopLoss", s1)
  else if Qgeb pnl take_profit then (Some "ProfitTaken", s1)
  else match random_close with
       | None => (None, s1)
       | Some p =>
         let '(r, s2) := random_random s1 in
         if Qltb r p
         then (Some (if Qgtb pnl 0 then "ProfitTaken" else "StopLoss"), s2)
         else (None, s2)
       end.

Fixpoint scan_with (items : list (string * TradeResult.t))
    (trades_to_close : list (string * string)) (s : System.t)
  : list (string * string) * System.t :=
  match items with
  | [] => (trades_to_close, s)
  | (trade_id, trade) :: rest =>
    match decide trade s with
    | (Some status, s') =>
        scan_with rest (trades_to_close ++ [(trade_id, status)]) s'
    | (None, s') => scan_with rest trades_to_close s'
    end
  end.
End Monitor.

(** The instances. *)
Definition comprehensive_close_factor (status : string) (u : Q) : Q :=
  (995 # 1000) + ((1005 # 1000) - (995 # 1000)) * u.
Definition enhanced_close_factor (status : string) (u : Q) : Q :=
  1 + (if String.eqb status "ProfitTaken"
       then - (5 # 1000) + ((15 # 1000) - - (5 # 1000)) * u
       else - (15 # 1000) + ((5 # 1000) - - (15 # 1000)) * u).
Definition realistic_close_factor (status : string) (u : Q) : Q :=
  1 + (if String.eqb status "ProfitTaken"
       then - (4 # 1000) + ((12 # 1000) - - (4 # 1000)) * u
       else - (12 # 1000) + ((4 # 1000) - - (12 # 1000)) * u).

Definition comprehensive_factor (u : Q) : Q :=
  (995 # 1000) + ((1005 # 1000) - (995 # 1000)) * u.
Definition enhanced_factor (u : Q) : Q :=
  1 + (- (8 # 1000) + ((12 # 1000) - - (8 # 1000)) * u).
Definition realistic_factor (u : Q) : Q :=
  1 + (- (6 # 1000) + ((10 # 1000) - - (6 # 1000)) * u).

End Generic.

(** ** The ledger equation and the operations on the ledger *)

Module Ledger.
Import Common.

Definition allocated_sum (s : System.t) : Q :=
  py_sum (Dict.values (System.allocated_capital s)) 0.

(** Sum of [actual_profit] over the closed-trade history. *)
Definition realized_pnl (s : System.t) : Q :=
  py_sum (map profit_of (System.trade_history s)) 0.

(** [available + sum(allocated) == total_capital + sum(realized P&L)] *)
Definition conserved (s : System.t) : Prop :=
  System.available_capital s + allocated_sum s
  == SystemConfig.total_capital config + realized_pnl s.

(** The operations on the ledger and on the open set: the reservation
    [await self.update_capital_allocation(trade)], the insertion
    [self.active_trades[trade.trade_id] = trade] that follows it in
    [execute_trading_cycle], and the release
    [await self.close_trade(trade_id, status)], each as the interpreter
    computes it (module [Machine]). *)
Inductive op :=
| Reserve (trade : TradeResult.t)
| Open (trade : TradeResult.t)
| Release (trade_id status : string).

Definition step (o : op) (s : System.t) : System.t :=
  match o with
  | Reserve trade => snd (Machine.update_capital_allocation trade s)
  | Open trade =>
      System.set_active_trades
        (Dict.set (TradeResult.trade_id trade) trade (System.active_trades s)) s
  | Release trade_id status => Machine.close_trade trade_id status s
  end.

(** The states observed after each operation of a sequence. *)
Fixpoint trace (ops : list op) (s : System.t) : list System.t :=
  match ops with
  | [] => []
  | o :: rest => let s' := step o s in s' :: trace rest s'
  end.

(** Every open trade has an allocation, and both dicts have distinct keys. *)
Definition backed (s : System.t) : Prop :=
  Dict.wf (System.allocated_capital s)
  /\ Dict.wf (System.active_trades s)
  /\ forall k, In k (Dict.keys (System.active_trades s)) ->
               In k (Dict.keys (System.allocated_capital s)).

(** An operation is orderly when a reservation uses a trade id that has
    no entry in [allocated_capital] yet and an insertion into the open set
    follows the reservation of its trade id; releases are unrestricted. *)
Definition orderly_op (o : op) (s : System.t) : Prop :=
  match o with
  | Reserve trade =>
      Dict.get (TradeResult.trade_id trade) (System.allocated_capital s) = None
  | Open trade =>
      In (TradeResult.trade_id trade) (Dict.keys (System.allocated_capital s))
  | Release _ _ => True
  end.

Fixpoint orderly (ops : list op) (s : System.t) : Prop :=
  match ops with
  | [] => True
  | o :: rest => orderly_op o s /\ orderly rest (step o s)
  end.

(** An operation is unrounded when the decimal context returns the new
    [available_capital] as computed: in a reservation the difference
    [available_capital - trade_capital], in a release that returns capital
    the sum [capital_returned + pnl] and the sum of [available_capital]
    and it.  (The margin and the P&L themselves may have been rounded.) *)
Definition unrounded_op (o : op) (s : System.t) : Prop :=
  match o with
  | Reserve trade =>
      match Machine.margin trade with
      | Ok trade_capital =>
          Context.exact (System.available_capital s - trade_capital)
      | Raise _ => True
      end
  | Open _ => True
  | Release trade_id _ =>
      match Dict.get trade_id (System.active_trades s),
            Dict.get trade_id (System.allocated_capital s) with
      | Some trade, Some capital_returned =>
          let pnl := Machine.closing_pnl trade s in
          Context.exact (capital_returned + pnl)
          /\ Context.exact (System.available_capital s
                            + Context.add capital_returned pnl)
      | _, _ => True
      end
  end.

Fixpoint unrounded (ops : list op) (s : System.t) : Prop :=
  match ops with
  | [] => True
  | o :: rest => unrounded_op o s /\ unrounded rest (step o s)
  end.

(** The two sides of the ledger equation as Python evaluates them: the
    sums and the final additions rounded by the context. *)
Definition context_sum (xs : list Q) : Q := fold_left Context.add xs 0.

Definition evaluated_left (s : System.t) : Q :=
  Context.add (System.available_capital s)
              (context_sum (Dict.values (System.allocated_capital s))).

Definition evaluated_right (s : System.t) : Q :=
  Context.add (SystemConfig.total_capital config)
              (context_sum (map profit_of (System.trade_history s))).

End Ledger.

(** ** Vocabulary of the risk rules *)

Module Risk.

(** [+1] for [Buy], [-1] for any other side. *)
Definition side_sign (trade : TradeResult.t) : Q :=
  if String.eqb (TradeResult.side trade) "Buy" then 1 else - (1).

(** [(currentPrice - entryPrice) * quantity * sign] *)
Definition pnl_at (trade : TradeResult.t) (current_price : Q) : Q :=
  (current_price - TradeResult.price trade) * TradeResult.quantity trade
  * side_sign trade.

(** [pnl < -entryPrice * stopLossFraction] *)
Definition stop_loss_hit (trade : TradeResult.t) (pnl : Q) : Prop :=
  pnl < - TradeResult.price trade * SystemConfig.stop_loss_pct config.

(** [pnl >= take_profit] *)
Definition take_profit_hit (take_profit : Q) (pnl : Q) : Prop :=
  take_profit <= pnl.

(** [active_trades] is keyed by the trade's own id, as
    [self.active_trades[trade_result.trade_id] = trade_result] makes it. *)
Definition keyed (d : dict TradeResult.t) : Prop :=
  forall k t, In (k, t) d -> TradeResult.trade_id t = k.

End Risk.

(** ** Vocabulary of the performance metrics *)

Module Perf.

(** The metrics computed from the closed-trade history. *)
Definition history_part (m : PerformanceMetrics.t) :=
  (PerformanceMetrics.total_trades m,
   PerformanceMetrics.successful_trades m,
   PerformanceMetrics.failed_trades m,
   PerformanceMetrics.total_profit m,
   PerformanceMetrics.total_loss m,
   PerformanceMetrics.win_rate m,
   PerformanceMetrics.average_profit_per_trade m).

(** The metrics that do not depend on the clock. *)
Definition published_part (m : PerformanceMetrics.t) :=
  (history_part m,
   PerformanceMetrics.current_drawdown m,
   PerformanceMetrics.max_drawdown_reached m).

(** [available_capital + sum(allocated_capital.values())] *)
Definition current_capital (s : System.t) : Q :=
  System.available_capital s
  + py_sum (Dict.values (System.allocated_capital s)) 0.

(** A performance refresh, repeated [n] times. *)
Definition refresh_n (n : nat) (s : System.t) : System.t :=
  Nat.iter n Common.update_performance_tracking s.

End Perf.

(** ** Vocabulary of the signal evaluator *)

Module Eval.

Definition map_result {A B} (f : A -> B) (r : result A) : result B :=
  match r with
  | Ok a => Ok (f a)
  | Raise e => Raise e
  end.

(** The fields of a signal that are computed from the snapshot alone. *)
Definition snapshot_part (signal : Signal.t) :=
  (Signal.confidence signal, Signal.direction signal,
   Signal.leverage signal, Signal.risk_score signal).

End Eval.

(** ** Concrete scenarios *)

Module Scenario.

(** A clock given by the list of its successive readings (0 afterwards). *)
Definition clock_of (readings : list Z) : nat -> Z :=
  fun n => nth n readings 0%Z.

(** One reading per millisecond from 1700000060000. *)
Definition clock_a : nat -> Z :=
  clock_of [1700000060000; 1700000060001; 1700000060002; 1700000060003;
            1700000060004; 1700000060005; 1700000060006; 1700000060007]%Z.

(** One reading per second from 1700000000000. *)
Definition clock_b : nat -> Z :=
  clock_of [1700000000000; 1700000001000; 1700000002000; 1700000003000;
            1700000004000; 1700000005000; 1700000006000; 1700000007000;
            1700000008000; 1700000009000; 1700000010000; 1700000011000]%Z.

(** A [Buy] trade entered at 100.00. *)
Definition stop_loss_trade : TradeResult.t :=
  {| TradeResult.trade_id := "trade-1700000000000";
     TradeResult.symbol := "BTCUSDT";
     TradeResult.side := "Buy";
     TradeResult.quantity := 1;
     TradeResult.price := 100;
     TradeResult.leverage := 50;
     TradeResult.order_id := "demo-BTCUSDT-1700000000000";
     TradeResult.executed_at := 1700000000000;
     TradeResult.expected_profit := 1;
     TradeResult.actual_profit := None;
     TradeResult.status := "Executed" |}.

(** A [Sell] trade entered at 80.00; its margin is 2.5 * 80 / 50 = 4.00. *)
Definition sell_trade : TradeResult.t :=
  {| TradeResult.trade_id := "trade-1700000010000";
     TradeResult.symbol := "ETHUSDT";
     TradeResult.side := "Sell";
     TradeResult.quantity := 25 # 10;
     TradeResult.price := 80;
     TradeResult.leverage := 50;
     TradeResult.order_id := "demo-ETHUSDT-1700000010000";
     TradeResult.executed_at := 1700000010000;
     TradeResult.expected_profit := 1;
     TradeResult.actual_profit := None;
     TradeResult.status := "Executed" |}.

(** One open trade, [stop_loss_trade], backed by 2.00 of margin, in an
    environment whose draws are [rnd]. *)
Definition one_trade_state (rnd : nat -> Q) : System.t :=
  {| System.available_capital := 10;
     System.allocated_capital := [("trade-1700000000000", 2)];
     System.scanned_assets := [];
     System.filtered_assets := [];
     System.active_trades := [("trade-1700000000000", stop_loss_trade)];
     System.trade_history := [];
     System.performance_metrics := PerformanceMetrics.default;
     System.running := true;
     System.trade_counter := 0;
     System.rand_stream := rnd;
     System.rand_pos := 0;
     System.clock_stream := clock_a;
     System.clock_pos := 0 |}.

(** The draw 0.2 prices the trade at 99.70 in the comprehensive monitor,
    so its P&L is -0.30 against the threshold -0.25. *)
Definition stop_loss_state : System.t := one_trade_state (fun _ => 2 # 10).

(** Every draw is 0.4: the price barely moves and no random close fires. *)
Definition quiet_state : System.t := one_trade_state (fun _ => 4 # 10).

(** The first draw, 0.4, leaves the enhanced price unchanged (P&L 0); the
    second, 0.01, is below the random-close probability 0.05. *)
Definition random_close_state : System.t :=
  one_trade_state (fun n => match n with O => 4 # 10 | _ => 1 # 100 end).

(** One open trade backed by 2.00 after a stop-loss of -0.144: the ledger
    holds 9.856 + 2 = 12 - 0.144. *)
Definition loss_state : System.t :=
  System.set_trade_history [TradeResult.close (- (144 # 1000)) "StopLoss" sell_trade]
    (System.set_available_capital (9856 # 1000) quiet_state).

(** [loss_state] after a performance refresh: the recorded drawdown is
    0.144 / 12 = 1.2%, above the limit of 0.9%. *)
Definition breach_state : System.t :=
  Common.update_performance_tracking loss_state.

(** [breach_state] after a later profit of +0.644 has brought the capital
    to 10.5 + 2 = 12.5, above [total_capital]. *)
Definition recovered_state : System.t :=
  System.set_trade_history
    [ TradeResult.close (- (144 # 1000)) "StopLoss" sell_trade;
      TradeResult.close (644 # 1000) "ProfitTaken" sell_trade ]
    (System.set_available_capital (105 # 10) breach_state).

(** The freshly constructed system, every draw being 0.2. *)
Definition fresh_state : System.t :=
  System.init (fun _ => 2 # 10) (clock_a).

(** Two trades reserved and opened, then releases (one of them repeated). *)
Definition ledger_ops : list Ledger.op :=
  [ Ledger.Reserve stop_loss_trade;
    Ledger.Open stop_loss_trade;
    Ledger.Reserve sell_trade;
    Ledger.Open sell_trade;
    Ledger.Release "trade-1700000000000" "StopLoss";
    Ledger.Release "trade-1700000000000" "StopLoss";
    Ledger.Release "trade-1700000010000" "ProfitTaken" ].

(** A [Buy] trade of one unit at 7.00 with leverage 51: its margin 7/51
    has no finite decimal expansion, and the context stores
    0.1372549019607843137254901961. *)
Definition thin_trade (trade_id : string) : TradeResult.t :=
  {| TradeResult.trade_id := trade_id;
     TradeResult.symbol := "ADAUSDT";
     TradeResult.side := "Buy";
     TradeResult.quantity := 1;
     TradeResult.price := 7;
     TradeResult.leverage := 51;
     TradeResult.order_id := "demo-ADAUSDT-1700000060001";
     TradeResult.executed_at := 1700000060002;
     TradeResult.expected_profit := 1;
     TradeResult.actual_profit := None;
     TradeResult.status := "Executed" |}.

(** Two such trades reserved under different ids. *)
Definition thin_ops : list Ledger.op :=
  [ Ledger.Reserve (thin_trade "trade-1700000060000");
    Ledger.Reserve (thin_trade "trade-1700000060003") ].

(** An open trade without an entry in [allocated_capital]; the ledger
    equation holds (12 + 0 = 12 + 0). *)
Definition unbacked_state : System.t :=
  {| System.available_capital := 12;
     System.allocated_capital := [];
     System.scanned_assets := [];
     System.filtered_assets := [];
     System.active_trades := [("trade-1700000000000", stop_loss_trade)];
     System.trade_history := [];
     System.performance_metrics := PerformanceMetrics.default;
     System.running := true;
     System.trade_counter := 0;
     System.rand_stream := fun _ => 2 # 10;
     System.rand_pos := 0;
     System.clock_stream := clock_a;
     System.clock_pos := 0 |}.

(** An asset priced at 9.00 with volatility 2% and a Long prediction of
    confidence 0.755. *)
Definition asset_9 : TradingAsset.t :=
  {| TradingAsset.symbol := "TOKEN1USDT";
     TradingAsset.current_price := 9;
     TradingAsset.daily_volume := 2000000;
     TradingAsset.volatility_24h := 2 # 100;
     TradingAsset.min_order_size := 1 # 1000;
     TradingAsset.max_leverage := 100;
     TradingAsset.confidence_score := 8 # 10;
     TradingAsset.quantum_prediction :=
       Some {| Prediction.direction := "Long";
               Prediction.predicted_price := 909 # 100;
               Prediction.confidence := 755 # 1000;
               Prediction.entanglement_correlation := 8 # 10;
               Prediction.pattern_strength := 8 # 10;
               Prediction.spectral_prediction := 8 # 10 |};
     TradingAsset.last_updated := Some 1700000000000%Z |}.

(** An open [Buy] trade of 3.75 units entered at 100.00 with leverage 75:
    its margin is 3.75 * 100 / 75 = 5.00. *)
Definition open_trade_5 : TradeResult.t :=
  {| TradeResult.trade_id := "trade-1700000050000";
     TradeResult.symbol := "BTCUSDT";
     TradeResult.side := "Buy";
     TradeResult.quantity := 375 # 100;
     TradeResult.price := 100;
     TradeResult.leverage := 75;
     TradeResult.order_id := "demo-BTCUSDT-1700000050000";
     TradeResult.executed_at := 1700000050000;
     TradeResult.expected_profit := 1;
     TradeResult.actual_profit := None;
     TradeResult.status := "Executed" |}.

(** A comprehensive system after two stop-losses of -1.00 each and with
    one open trade backed by 5.00: the ledger holds exactly
    12 - 2 - 5 = 5.00 of available capital; the catalog is [asset_9]. *)
Definition overcommit_state : System.t :=
  {| System.available_capital := 5;
     System.allocated_capital := [("trade-1700000050000", 5)];
     System.scanned_assets := [asset_9];
     System.filtered_assets := [asset_9];
     System.active_trades := [("trade-1700000050000", open_trade_5)];
     System.trade_history :=
       [ TradeResult.close (- (1)) "StopLoss" stop_loss_trade;
         TradeResult.close (- (1)) "StopLoss" sell_trade ];
     System.performance_metrics := PerformanceMetrics.default;
     System.running := true;
     System.trade_counter := 0;
     System.rand_stream := fun _ => 2 # 10;
     System.rand_pos := 0;
     System.clock_stream := clock_a;
     System.clock_pos := 0 |}.

(** An asset priced at 100.00 with volatility 5% and a Long prediction of
    confidence 0.8: the enhanced evaluator gives it leverage 64, and a
    trade capital of 4.00 buys 2.56 units, whose margin is exactly 4.00. *)
Definition asset_100 : TradingAsset.t :=
  {| TradingAsset.symbol := "BTCUSDT";
     TradingAsset.current_price := 100;
     TradingAsset.daily_volume := 20000000;
     TradingAsset.volatility_24h := 5 # 100;
     TradingAsset.min_order_size := 1 # 1000;
     TradingAsset.max_leverage := 100;
     TradingAsset.confidence_score := 9 # 10;
     TradingAsset.quantum_prediction :=
       Some {| Prediction.direction := "Long";
               Prediction.predicted_price := 101;
               Prediction.confidence := 8 # 10;
               Prediction.entanglement_correlation := 8 # 10;
               Prediction.pattern_strength := 8 # 10;
               Prediction.spectral_prediction := 8 # 10 |};
     TradingAsset.last_updated := Some 1700000000000%Z |}.

(** The enhanced system after [start] has set [running] and the catalog
    holds [asset_100]; the clock advances one second per reading ([clock_b]) and every
    draw is 89/256 (which makes the closing price 100.1953125). *)
Definition ledger_scenario_0 : System.t :=
  {| System.available_capital := SystemConfig.total_capital config;
     System.allocated_capital := [];
     System.scanned_assets := [asset_100];
     System.filtered_assets := [asset_100];
     System.active_trades := [];
     System.trade_history := [];
     System.performance_metrics := PerformanceMetrics.default;
     System.running := true;
     System.trade_counter := 0;
     System.rand_stream := fun _ => 89 # 256;
     System.rand_pos := 0;
     System.clock_stream := clock_b;
     System.clock_pos := 0 |}.

(** Three execution cycles, a fourth one, then the release of the first
    trade. *)
Definition ledger_scenario_1 : System.t := snd (Enhanced.execute_trading_cycle ledger_scenario_0).
Definition ledger_scenario_2 : System.t := snd (Enhanced.execute_trading_cycle ledger_scenario_1).
Definition ledger_scenario_3 : System.t := snd (Enhanced.execute_trading_cycle ledger_scenario_2).
Definition ledger_scenario_4 : System.t := snd (Enhanced.execute_trading_cycle ledger_scenario_3).
Definition ledger_scenario_5 : System.t :=
  Enhanced.close_trade "trade-1700000000000" "ProfitTaken" ledger_scenario_4.

(** A history of three closed trades: one [ProfitTaken] (+0.50), one
    [StopLoss] (-0.30), one [Cancelled] (0). *)
Definition closed_history : list TradeResult.t :=
  [ TradeResult.close (5 # 10) "ProfitTaken" stop_loss_trade;
    TradeResult.close (- (3 # 10)) "StopLoss" sell_trade;
    TradeResult.close 0 "Cancelled" stop_loss_trade ].

Definition tracked_state : System.t :=
  System.set_trade_history closed_history
    (System.set_available_capital (122 # 10) fresh_state).

(** [overcommit_state] with 12.00, resp. 2.00, of available capital. *)
Definition rich_state : System.t := System.set_available_capital 12 overcommit_state.
Definition poor_state : System.t := System.set_available_capital 2 overcommit_state.

End Scenario.

(** ** Vocabulary of the trade lifecycle *)

Module Lifecycle.

(** [r] is the record of the trade [t] with a P&L booked: the fields
    written when the trade was executed are those of [t], and
    [actual_profit] is set.  (The status is stated apart.) *)
Definition record_of (t r : TradeResult.t) : Prop :=
  (exists pnl, TradeResult.actual_profit r = Some pnl)
  /\ TradeResult.trade_id r = TradeResult.trade_id t
  /\ TradeResult.symbol r = TradeResult.symbol t
  /\ TradeResult.side r = TradeResult.side t
  /\ TradeResult.quantity r = TradeResult.quantity t
  /\ TradeResult.price r = TradeResult.price t
  /\ TradeResult.leverage r = TradeResult.leverage t
  /\ TradeResult.order_id r = TradeResult.order_id t
  /\ TradeResult.executed_at r = TradeResult.executed_at t
  /\ TradeResult.expected_profit r = TradeResult.expected_profit t.

(** The statuses a record of the history can have. *)
Definition terminal (status : string) : Prop :=
  status = "StopLoss" \/ status = "ProfitTaken" \/ status = "Cancelled".

(** Every record of the history has a terminal status and a booked P&L. *)
Definition closed_history (s : System.t) : Prop :=
  Forall (fun r => terminal (TradeResult.status r)
                   /\ exists pnl, TradeResult.actual_profit r = Some pnl)
         (System.trade_history s).

(** What a monitor cycle from [s] to [s'] has done with the trade [t]
    that was open under key [k]: it is still open and no record with its
    id has entered the history, or it has left the open set and its record
    has entered the history with status [StopLoss] or [ProfitTaken]. *)
Definition settled (s s' : System.t) (k : string) (t : TradeResult.t) : Prop :=
  (Dict.get k (System.active_trades s') = Some t
   /\ forall t', In t' (System.trade_history s') ->
                 TradeResult.trade_id t' = k ->
                 In t' (System.trade_history s))
  \/ (Dict.get k (System.active_trades s') = None
      /\ exists r,
           In r (System.trade_history s')
           /\ (TradeResult.status r = "StopLoss"
               \/ TradeResult.status r = "ProfitTaken")
           /\ record_of t r).

(** Every open trade is settled, the open set gains nothing, and the
    history gains only records of trades that were open, closed with
    status [StopLoss] or [ProfitTaken]. *)
Definition cycle_ok (s s' : System.t) : Prop :=
  (forall k t, In (k, t) (System.active_trades s) -> settled s s' k t)
  /\ (forall k t, In (k, t) (System.active_trades s') ->
                  In (k, t) (System.active_trades s))
  /\ (forall t', In t' (System.trade_history s') ->
        In t' (System.trade_history s)
        \/ exists k t0,
             In (k, t0) (System.active_trades s)
             /\ (TradeResult.status t' = "StopLoss"
                 \/ TradeResult.status t' = "ProfitTaken")
             /\ record_of t0 t').

End Lifecycle.

(** ** The invariant of the books *)

Module Invariant.


End Invariant.

(** ** Module-level functions

    [validate_system_performance(metrics, config)] is defined at module
    level in the comprehensive and in the enhanced file (the realistic file
    has none).  Each test that fails clears [validation_passed]; the
    warnings are omitted. *)

Module ComprehensiveTop.

Definition validate_system_performance
    (metrics : PerformanceMetrics.t) (config : SystemConfig.t) : bool :=
  let validation_passed := true in
  (* Check win rate (allow some tolerance for demo) *)
  let validation_passed :=
    if Qltb (PerformanceMetrics.win_rate metrics)
            (SystemConfig.target_win_rate config * (8 # 10))
    then false else validation_passed in
  (* Check average profit per trade (allow some tolerance for demo) *)
  let validation_passed :=
    if Qltb (PerformanceMetrics.average_profit_per_trade metrics)
            (SystemConfig.min_profit_per_trade config * (5 # 10))
    then false else validation_passed in
  (* Check drawdown *)
  let validation_passed :=
    if Qgtb (PerformanceMetrics.max_drawdown_reached metrics)
            (SystemConfig.max_drawdown config)
    then false else validation_passed in
  (* Check trading activity (at least some trades for demo) *)
  let validation_passed :=
    if (PerformanceMetrics.total_trades metrics <? 5)%Z
    then false else validation_passed in
  validation_passed.

End ComprehensiveTop.

Module EnhancedTop.

Definition validate_system_performance
    (metrics : PerformanceMetrics.t) (config : SystemConfig.t) : bool :=
  let validation_passed := true in
  (* Check if we have meaningful trading activity *)
  let validation_passed :=
    if (PerformanceMetrics.total_trades metrics <? 3)%Z
    then false else validation_passed in
  (* Check win rate (allow demo tolerance) *)
  let validation_passed :=
    if (PerformanceMetrics.total_trades metrics >=? 5)%Z
       && Qltb (PerformanceMetrics.win_rate metrics) (6 # 10)
    then false else validation_passed in
  (* Check drawdown *)
  let validation_passed :=
    if Qgtb (PerformanceMetrics.max_drawdown_reached metrics)
            (SystemConfig.max_drawdown config * 2)
    then false else validation_passed in
  validation_passed.

End EnhancedTop.

(** ** The execution path, as a scheme

    [generate_trading_signal], [select_best_trading_opportunity],
    [execute_trade] and [execute_trading_cycle] have the same shape in the
    three classes; they differ in the constants collected below, in the
    text of the order id (for which the enhanced and the realistic class
    draw a random suffix) and in the trade counter, which the
    comprehensive class does not have. *)

Module Exec.
Import Common.

Record params := Params {
  top_n : nat;                       (* [self.filtered_assets[:n]] *)
  min_available : Q;                 (* capital test of cycle and signal *)
  trade_cap : Q;                     (* [min(self.available_capital, cap)] *)
  leverage_scale : Q;                (* [int(confidence * scale)] *)
  movement_scale : Q;
  min_confidence : Q;
  min_expected_profit : Q;
  max_risk_score : Q;
  order_id : TradingAsset.t -> M string;
  counts_trades : bool
}.

(** [int(time.time()*1000)] in the monad. *)
Definition clock : M Z := fun s => let '(t, s') := time_ms s in (Ok t, s').

Definition comprehensive_order_id (asset : TradingAsset.t) : M string :=
  t_order <- clock;;
  ret (String.append "demo-"
         (String.append (TradingAsset.symbol asset)
            (String.append "-" (str_int t_order)))).

Definition suffixed_order_id (prefix : string) (asset : TradingAsset.t) : M string :=
  t_order <- clock;;
  suffix <- (fun s => let '(n, s') := random_randint 1000 9999 s in (Ok n, s'));;
  ret (String.append prefix
         (String.append (TradingAsset.symbol asset)
            (String.append "-"
               (String.append (str_int t_order)
                  (String.append "-" (str_int suffix)))))).

Definition comprehensive : params :=
  {| top_n := 20; min_available := 5; trade_cap := 5;
     leverage_scale := 100; movement_scale := 5 # 10;
     min_confidence := 75 # 100;
     min_expected_profit := SystemConfig.min_profit_per_trade config;
     max_risk_score := 5 # 10;
     order_id := comprehensive_order_id;
     counts_trades := false |}.

Definition enhanced : params :=
  {| top_n := 10; min_available := 3; trade_cap := 4;
     leverage_scale := 80; movement_scale := 6 # 10;
     min_confidence := 72 # 100;
     min_expected_profit := 4 # 10;
     max_risk_score := 6 # 10;
     order_id := suffixed_order_id "DEMO-";
     counts_trades := true |}.

Definition realistic : params :=
  {| top_n := 5; min_available := 3; trade_cap := 3;
     leverage_scale := 85; movement_scale := 5 # 10;
     min_confidence := 78 # 100;
     min_expected_profit := 5 # 10;
     max_risk_score := 6 # 10;
     order_id := suffixed_order_id "REALISTIC-DEMO-";
     counts_trades := true |}.

Section Scheme.
Variable p : params.

Definition generate_signal (s : System.t) (asset : TradingAsset.t)
  : result Signal.t :=
  match TradingAsset.quantum_prediction asset with
  | None => Raise TypeError
  | Some prediction =>
    let confidence := Prediction.confidence prediction in
    let leverage :=
      py_minZ (py_maxZ (py_int (confidence * leverage_scale p))
                       (SystemConfig.min_leverage config))
              (SystemConfig.max_leverage config) in
    let expected_movement :=
      TradingAsset.volatility_24h asset * confidence * movement_scale p in
    let trade_capital := py_min (System.available_capital s) (trade_cap p) in
    let position_size := trade_capital * inject_int leverage in
    let expected_profit := position_size * Decimal_str expected_movement in
    let risk_score :=
      (inject_int leverage / inject_int (SystemConfig.max_leverage config)
       + TradingAsset.volatility_24h asset / (1 # 10)) / 2 in
    let should_trade :=
      Qgtb confidence (min_confidence p)
      && Qgeb expected_profit (min_expected_profit p)
      && Qltb risk_score (max_risk_score p)
      && Qgeb (System.available_capital s) (min_available p) in
    Ok {| Signal.should_trade := should_trade;
          Signal.confidence := confidence;
          Signal.direction := Prediction.direction prediction;
          Signal.leverage := leverage;
          Signal.expected_profit := expected_profit;
          Signal.risk_score := risk_score |}
  end.

Fixpoint select_loop (s : System.t) (assets : list TradingAsset.t)
    (best_opportunity : option (TradingAsset.t * Signal.t)) (best_score : Q)
  : result (option (TradingAsset.t * Signal.t)) :=
  match assets with
  | [] => Ok best_opportunity
  | asset :: rest =>
    match generate_signal s asset with
    | Raise e => Raise e
    | Ok signal =>
      if Signal.should_trade signal then
        match float_div (Signal.confidence signal
                         * to_float (Signal.expected_profit signal))
                        (1 + Signal.risk_score signal) with
        | Raise e => Raise e
        | Ok score =>
          if Qgtb score best_score
          then select_loop s rest (Some (asset, signal)) score
          else select_loop s rest best_opportunity best_score
        end
      else select_loop s rest best_opportunity best_score
    end
  end.

Definition select_best : M (option (TradingAsset.t * Signal.t)) :=
  fun s => (select_loop s (firstn (top_n p) (System.filtered_assets s)) None 0, s).

Definition execute (asset : TradingAsset.t) (signal : Signal.t)
  : M TradeResult.t :=
  t_id <- clock;;
  let trade_id := String.append "trade-" (str_int t_id) in
  available <- gets System.available_capital;;
  let trade_capital := py_min available (trade_cap p) in
  let leverage := Signal.leverage signal in
  let position_size := trade_capital * inject_int leverage in
  quantity <- lift (decimal_div position_size (TradingAsset.current_price asset));;
  order <- order_id p asset;;
  quantized <- lift (decimal_quantize quantity);;
  now <- clock;;
  ret {| TradeResult.trade_id := trade_id;
         TradeResult.symbol := TradingAsset.symbol asset;
         TradeResult.side :=
           if String.eqb (Signal.direction signal) "Long" then "Buy" else "Sell";
         TradeResult.quantity := quantized;
         TradeResult.price := TradingAsset.current_price asset;
         TradeResult.leverage := leverage;
         TradeResult.order_id := order;
         TradeResult.executed_at := now;
         TradeResult.expected_profit := Signal.expected_profit signal;
         TradeResult.actual_profit := None;
         TradeResult.status := "Executed" |}.

Definition cycle : M bool :=
  available <- gets System.available_capital;;
  if Qltb available (min_available p) then ret false else
  filtered <- gets System.filtered_assets;;
  match filtered with
  | [] => ret false
  | _ :: _ =>
    best_asset <- select_best;;
    match best_asset with
    | Some (asset, signal) =>
      trade_result <- execute asset signal;;
      (if counts_trades p
       then modify (fun s => System.set_trade_counter
                               (System.trade_counter s + 1)%Z s)
       else ret tt);;;
      update_capital_allocation trade_result;;;
      modify (fun s => System.set_active_trades
                         (Dict.set (TradeResult.trade_id trade_result) trade_result
                            (System.active_trades s)) s);;;
      ret true
    | None => ret false
    end
  end.

(** The opportunity score of a signal. *)
Definition score (signal : Signal.t) : Q :=
  Signal.confidence signal * Signal.expected_profit signal
  / (1 + Signal.risk_score signal).

(** [asset] yields [signal] in state [s], and the signal says to trade. *)
Definition tradeable (s : System.t) (asset : TradingAsset.t)
    (signal : Signal.t) : Prop :=
  generate_signal s asset = Ok signal /\ Signal.should_trade signal = true.

(** The assets the selection looks at. *)
Definition candidates (s : System.t) : list TradingAsset.t :=
  firstn (top_n p) (System.filtered_assets s).

(** [asset] with [signal] is the first candidate of maximal score among
    the tradeable ones. *)
Definition first_best (s : System.t) (assets : list TradingAsset.t)
    (asset : TradingAsset.t) (signal : Signal.t) : Prop :=
  exists pre post,
    assets = pre ++ asset :: post
    /\ tradeable s asset signal
    /\ (forall a sg, In a pre -> tradeable s a sg -> score sg < score signal)
    /\ (forall a sg, In a post -> tradeable s a sg -> score sg <= score signal).

(** [s'] is [s] with the environment read further: only the positions
    in the random and in the clock stream differ. *)
Definition same_object (s s' : System.t) : Prop :=
  s' = System.set_rand_pos (System.rand_pos s')
         (System.set_clock_pos (System.clock_pos s') s).

(** The quantity [execute_trade] computes for [asset] and [signal] in
    state [s], before it is rounded to four places. *)
Definition quantity (s : System.t) (asset : TradingAsset.t) (signal : Signal.t)
  : Q :=
  py_min (System.available_capital s) (trade_cap p)
  * inject_int (Signal.leverage signal)
  / TradingAsset.current_price asset.

(** Rounded to four places it stays below 10^24 in absolute value, so
    that [quantize] returns it. *)
Definition quantizable (s : System.t) (asset : TradingAsset.t)
    (signal : Signal.t) : Prop :=
  py_abs (quantize4_half_up (quantity s asset signal)) < inject_Z (10 ^ 24).

(** [trade] is the record [execute_trade] builds for [asset] and [signal]
    in state [s] (its order id and its time stamp left aside). *)
Definition built (s : System.t) (asset : TradingAsset.t) (signal : Signal.t)
    (trade : TradeResult.t) : Prop :=
  TradeResult.trade_id trade
  = String.append "trade-"
      (str_int (System.clock_stream s (System.clock_pos s)))
  /\ TradeResult.symbol trade = TradingAsset.symbol asset
  /\ TradeResult.side trade
     = (if String.eqb (Signal.direction signal) "Long" then "Buy" else "Sell")
  /\ TradeResult.quantity trade
     = quantize4_half_up
         (py_min (System.available_capital s) (trade_cap p)
          * inject_int (Signal.leverage signal)
          / TradingAsset.current_price asset)
  /\ TradeResult.price trade = TradingAsset.current_price asset
  /\ TradeResult.leverage trade = Signal.leverage signal
  /\ TradeResult.expected_profit trade = Signal.expected_profit signal
  /\ TradeResult.actual_profit trade = None
  /\ TradeResult.status trade = "Executed".

(** The margin booked for a trade: [quantity * price / leverage]. *)
Definition margin (trade : TradeResult.t) : Q :=
  TradeResult.quantity trade * TradeResult.price trade
  / inject_int (TradeResult.leverage trade).

(** The cycle from [s] to [s'] has opened [trade]: its margin has moved
    from the available capital to its allocation, it has entered the open
    set, the trade counter (where there is one) has advanced, the clock
    has been read, and nothing else of the object has changed. *)
Definition opened (s s' : System.t) (trade : TradeResult.t) : Prop :=
  System.available_capital s' = System.available_capital s - margin trade
  /\ System.allocated_capital s'
     = Dict.set (TradeResult.trade_id trade) (margin trade)
         (System.allocated_capital s)
  /\ System.active_trades s'
     = Dict.set (TradeResult.trade_id trade) trade (System.active_trades s)
  /\ System.trade_history s' = System.trade_history s
  /\ System.performance_metrics s' = System.performance_metrics s
  /\ System.running s' = System.running s
  /\ System.scanned_assets s' = System.scanned_assets s
  /\ System.filtered_assets s' = System.filtered_assets s
  /\ System.trade_counter s'
     = (if counts_trades p then System.trade_counter s + 1
        else System.trade_counter s)%Z
  /\ System.rand_stream s' = System.rand_stream s
  /\ System.clock_stream s' = System.clock_stream s
  /\ (System.clock_pos s < System.clock_pos s')%nat.

(** Every candidate carries a prediction and none is tradeable. *)
Definition no_opportunity (s : System.t) : Prop :=
  (forall a, In a (candidates s) -> TradingAsset.quantum_prediction a <> None)
  /\ (forall a sg, In a (candidates s) -> ~ tradeable s a sg).

(** The three reasons for which a cycle does not trade. *)
Definition idle (s : System.t) : Prop :=
  System.available_capital s < min_available p
  \/ System.filtered_assets s = []
  \/ no_opportunity s.

(** A cycle from [s] to [s'] that has traded: the first best candidate,
    whose price is not zero, has been turned into a trade and opened. *)
Definition success (s s' : System.t) : Prop :=
  min_available p <= System.available_capital s
  /\ exists a sg trade,
       first_best s (candidates s) a sg
       /\ ~ TradingAsset.current_price a == 0
       /\ built s a sg trade
       /\ opened s s' trade.

(** A cycle from [s] that has raised [e] and left [s']: a candidate
    without a prediction (then nothing at all has happened), or a first
    best candidate whose price is zero (then the clock has been read
    once), or a first best candidate whose quantity cannot be quantized
    (then the clock, and in the enhanced and the realistic class the
    generator, have been read for the order id, and the books are
    untouched). *)
Definition failure (s : System.t) (e : exn) (s' : System.t) : Prop :=
  min_available p <= System.available_capital s
  /\ ((e = TypeError /\ s' = s
       /\ exists a, In a (candidates s)
                    /\ TradingAsset.quantum_prediction a = None)
      \/ (e = ZeroDivisionError
          /\ s' = System.set_clock_pos (S (System.clock_pos s)) s
          /\ exists a sg, first_best s (candidates s) a sg
                          /\ TradingAsset.current_price a == 0)
      \/ (e = InvalidOperation
          /\ same_object s s'
          /\ (System.clock_pos s < System.clock_pos s')%nat
          /\ exists a sg, first_best s (candidates s) a sg
                          /\ ~ TradingAsset.current_price a == 0
                          /\ ~ quantizable s a sg)).

(** What a successful cycle from [s] to [s'] has booked: the new trade
    and its margin are found under the id [trade-<clock reading>], the
    margin has left the available capital, it differs from the intended
    trade capital [min(available, cap)] by at most a millionth of the
    price, and the available capital has not fallen further below zero
    than that. *)
Definition booked (s s' : System.t) : Prop :=
  let id := String.append "trade-"
              (str_int (System.clock_stream s (System.clock_pos s))) in
  exists trade,
    Dict.get id (System.active_trades s') = Some trade
    /\ Dict.get id (System.allocated_capital s') = Some (margin trade)
    /\ System.available_capital s' = System.available_capital s - margin trade
    /\ let c := py_min (System.available_capital s) (trade_cap p) in
       let e := py_abs (TradeResult.price trade) / 1000000 in
       c - e <= margin trade /\ margin trade <= c + e
       /\ - e <= System.available_capital s'.

End Scheme.



End Exec.

(** ** The asset catalog

    The methods that build [scanned_assets] and [filtered_assets].

    Unlike the bodies above, these contain [asyncio.sleep]: in
    [generate_quantum_prediction] / [simulate_quantum_analysis] before the
    first draw, and in the scans between batches or symbols.  The model
    runs each method to completion with no other task interleaved.  The
    local lists of a scan are not shared, and only the final assignments
    write to the object, so the embedding describes the method's own
    effect; the properties proved of the assets produced are stated for
    every stream of unit-interval draws and do not depend on which
    positions of the stream the method reads.

    [random.choice] reads one draw [u] and picks the element of index
    [floor(u * len)].  [round(x, 4)] rounds to the nearest multiple of
    10^-4, ties to even. *)

Module Env.

(** Every draw lies in [0, 1), as [random.random()] guarantees. *)
Definition unit_draws (s : System.t) : Prop :=
  forall n, 0 <= System.rand_stream s n /\ System.rand_stream s n < 1.

Definition random : M Q :=
  fun s => let '(u, s') := random_random s in (Ok u, s').

Definition uniform (a b : Q) : M Q :=
  fun s => let '(x, s') := random_uniform a b s in (Ok x, s').

(** [random.choice([x0, x1, ...])] of a non-empty literal list. *)
Definition choice {A} (x0 : A) (rest : list A) : M A :=
  fun s =>
    let '(u, s') := random_random s in
    let n := Z.of_nat (List.length (x0 :: rest)) in
    (Ok (nth (Z.to_nat (Qfloor (u * inject_Z n))) (x0 :: rest) x0), s').

Definition now : M Z := fun s => let '(t, s') := time_ms s in (Ok t, s').

(** [round(x, 4)] *)
Definition round4_half_even (x : Q) : Q :=
  let n := (Qnum x * 10000)%Z in
  let d := Zpos (Qden x) in
  let q := (n / d)%Z in
  let r := (n mod d)%Z in
  let rounded :=
    if (2 * r <? d)%Z then q
    else if (d <? 2 * r)%Z then (q + 1)%Z
    else if Z.even q then q else (q + 1)%Z in
  rounded # 10000.

Definition set_scanned_assets (v : list TradingAsset.t) (s : System.t) : System.t :=
  System.Build (System.available_capital s) (System.allocated_capital s) v
    (System.filtered_assets s) (System.active_trades s) (System.trade_history s)
    (System.performance_metrics s) (System.running s) (System.trade_counter s)
    (System.rand_stream s) (System.rand_pos s)
    (System.clock_stream s) (System.clock_pos s).

Definition set_filtered_assets (v : list TradingAsset.t) (s : System.t) : System.t :=
  System.Build (System.available_capital s) (System.allocated_capital s)
    (System.scanned_assets s) v (System.active_trades s) (System.trade_history s)
    (System.performance_metrics s) (System.running s) (System.trade_counter s)
    (System.rand_stream s) (System.rand_pos s)
    (System.clock_stream s) (System.clock_pos s).

End Env.

Module ComprehensiveCatalog.
Import Common Env.

(** [generate_asset_list()] *)
Definition generate_asset_list : list string :=
  let major_symbols :=
    [ "BTCUSDT"; "ETHUSDT"; "ADAUSDT"; "BNBUSDT"; "XRPUSDT";
      "SOLUSDT"; "DOGEUSDT"; "DOTUSDT"; "MATICUSDT"; "SHIBUSDT";
      "AVAXUSDT"; "LTCUSDT"; "UNIUSDT"; "LINKUSDT"; "ATOMUSDT";
      "ETCUSDT"; "XLMUSDT"; "BCHUSDT"; "FILUSDT"; "TRXUSDT";
      "APTUSDT"; "NEARUSDT"; "FTMUSDT"; "HBARUSDT"; "VETUSDT";
      "MANAUSDT"; "SANDUSDT"; "AXSUSDT"; "ICPUSDT"; "THETAUSDT" ] in
  (* Generate additional symbols to reach 300+ *)
  let additional_symbols :=
    map (fun i => String.append "TOKEN"
                    (String.append (str_int (Z.of_nat i)) "USDT"))
        (seq 1 270) in
  major_symbols ++ additional_symbols.

(** [generate_quantum_prediction(symbol, price, volatility)] *)
Definition generate_quantum_prediction (symbol : string) (price volatility : Q)
  : M Prediction.t :=
  (* Quantum entanglement correlation *)
  entanglement_correlation <- uniform (6 # 10) (95 # 100);;
  (* Hyperdimensional pattern strength *)
  pattern_strength <- uniform (7 # 10) (9 # 10);;
  (* Spectral tree prediction *)
  spectral_prediction <- uniform (65 # 100) (92 # 100);;
  (* Combined quantum confidence *)
  let combined_confidence :=
    entanglement_correlation * (3 # 10)
    + pattern_strength * (4 # 10)
    + spectral_prediction * (3 # 10) in
  u <- random;;
  let direction := if Qgtb u (5 # 10) then "Long" else "Short" in
  let predicted_price :=
    price * (if String.eqb direction "Long" then 101 # 100 else 99 # 100) in
  ret {| Prediction.direction := direction;
         Prediction.predicted_price := predicted_price;
         Prediction.confidence := combined_confidence;
         Prediction.entanglement_correlation := entanglement_correlation;
         Prediction.pattern_strength := pattern_strength;
         Prediction.spectral_prediction := spectral_prediction |}.

(** [calculate_confidence_score(volume, volatility, prediction)] *)
Definition calculate_confidence_score (volume volatility : Q)
    (prediction : Prediction.t) : Q :=
  (* Volume factor *)
  let volume_score := py_min (volume / 10000000) 1 * (3 # 10) in
  (* Volatility factor (optimal range 2-8%) *)
  let vol_score :=
    if Qle_bool (2 # 100) volatility && Qle_bool volatility (8 # 100) then 1
    else if Qgtb volatility (8 # 100) then 5 # 10
    else 2 # 10 in
  let vol_score := vol_score * (2 # 10) in
  (* Quantum prediction confidence *)
  let quantum_score := Prediction.confidence prediction * (4 # 10) in
  (* Leverage availability *)
  let leverage_score := 1 # 10 in
  py_min (volume_score + vol_score + quantum_score + leverage_score) 1.

(** [analyze_asset(symbol)] *)
Definition analyze_asset (symbol : string) : M (option TradingAsset.t) :=
  (* Mock market data that meets our criteria *)
  base_price <- uniform (1 # 10) 1000;;
  volume_24h <- uniform 1000000 50000000;;
  volatility_24h <- uniform (2 # 100) (8 # 100);;
  (* Basic filtering *)
  if Qltb volume_24h 1000000 || Qltb volatility_24h (2 # 100) then ret None else
  (* Quantum-enhanced analysis *)
  quantum_prediction <-
    generate_quantum_prediction symbol base_price volatility_24h;;
  let confidence_score :=
    calculate_confidence_score volume_24h volatility_24h quantum_prediction in
  max_leverage <- choice 50%Z [75; 100]%Z;;
  last_updated <- now;;
  ret (Some {| TradingAsset.symbol := symbol;
               TradingAsset.current_price :=
                 Decimal_str (round4_half_even base_price);
               TradingAsset.daily_volume :=
                 Decimal_str (inject_int (py_int volume_24h));
               TradingAsset.volatility_24h := volatility_24h;
               TradingAsset.min_order_size := 1 # 1000;
               TradingAsset.max_leverage := max_leverage;
               TradingAsset.confidence_score := confidence_score;
               TradingAsset.quantum_prediction := Some quantum_prediction;
               TradingAsset.last_updated := Some last_updated |}).

(** [meets_trading_criteria(asset)] *)
Definition meets_trading_criteria (asset : TradingAsset.t) : bool :=
  Qgeb (TradingAsset.confidence_score asset) (75 # 100)
  && Qgeb (TradingAsset.daily_volume asset) 1000000
  && Qgeb (TradingAsset.volatility_24h asset) (2 # 100)
  && (TradingAsset.max_leverage asset >=? SystemConfig.min_leverage config)%Z
  && Qle_bool (TradingAsset.min_order_size asset) 5.

(** The two nested loops of [scan_and_filter_assets]: the batches of ten
    are processed in order, so the symbols are visited in list order. *)
Fixpoint scan_loop (symbols : list string)
    (scanned_assets filtered_assets : list TradingAsset.t)
  : M (list TradingAsset.t * list TradingAsset.t) :=
  match symbols with
  | [] => ret (scanned_assets, filtered_assets)
  | symbol :: rest =>
    asset <- analyze_asset symbol;;
    match asset with
    | Some asset =>
      let scanned_assets := scanned_assets ++ [asset] in
      (* Apply filtering criteria *)
      let filtered_assets :=
        if meets_trading_criteria asset
        then filtered_assets ++ [asset] else filtered_assets in
      scan_loop rest scanned_assets filtered_assets
    | None => scan_loop rest scanned_assets filtered_assets
    end
  end.

(** [scan_and_filter_assets()] *)
Definition scan_and_filter_assets : M Z :=
  (* Generate comprehensive list of assets (300+) *)
  let symbols := generate_asset_list in
  lists <- scan_loop symbols [] [];;
  let '(scanned_assets, filtered_assets) := lists in
  modify (set_scanned_assets scanned_assets);;;
  modify (set_filtered_assets filtered_assets);;;
  ret (len filtered_assets).

(** What [analyze_asset(symbol)] produces from unit-interval draws.  The
    bounds on the drawn numbers are those of the [random.uniform] ranges,
    closed at both ends; those on the confidence and on the score, which
    are sums of products of floats, leave room for the rounding of
    binary64: exact arithmetic gives a confidence in [0.655, 0.921] and a
    score between [0.33 + 0.4 * confidence] and [0.6 + 0.4 * confidence]. *)
Definition analysed (symbol : string) (a : TradingAsset.t) : Prop :=
  TradingAsset.symbol a = symbol
  /\ 1 # 10 <= TradingAsset.current_price a
  /\ TradingAsset.current_price a <= 1000
  /\ 1000000 <= TradingAsset.daily_volume a
  /\ TradingAsset.daily_volume a <= 50000000
  /\ 2 # 100 <= TradingAsset.volatility_24h a
  /\ TradingAsset.volatility_24h a <= 8 # 100
  /\ TradingAsset.min_order_size a = 1 # 1000
  /\ (TradingAsset.max_leverage a = 50
      \/ TradingAsset.max_leverage a = 75
      \/ TradingAsset.max_leverage a = 100)%Z
  /\ exists prediction,
       TradingAsset.quantum_prediction a = Some prediction
       /\ (Prediction.direction prediction = "Long"
           \/ Prediction.direction prediction = "Short")
       /\ 65 # 100 <= Prediction.confidence prediction
       /\ Prediction.confidence prediction <= 93 # 100
       /\ (32 # 100) + (4 # 10) * Prediction.confidence prediction
          <= TradingAsset.confidence_score a
       /\ TradingAsset.confidence_score a
          <= (61 # 100) + (4 # 10) * Prediction.confidence prediction.

(** The object of the scan's own writes: the ledger, the open set, the
    history, the metrics, [running] and the trade counter of [s'] are
    those of [s]. *)
Definition same_books (s s' : System.t) : Prop :=
  System.available_capital s' = System.available_capital s
  /\ System.allocated_capital s' = System.allocated_capital s
  /\ System.active_trades s' = System.active_trades s
  /\ System.trade_history s' = System.trade_history s
  /\ System.performance_metrics s' = System.performance_metrics s
  /\ System.running s' = System.running s
  /\ System.trade_counter s' = System.trade_counter s
  /\ System.rand_stream s' = System.rand_stream s
  /\ System.clock_stream s' = System.clock_stream s.

(** The catalog of [s'] is the result of a scan. *)
Definition scanned (s' : System.t) : Prop :=
  map TradingAsset.symbol (System.scanned_assets s') = generate_asset_list
  /\ Forall (fun a => analysed (TradingAsset.symbol a) a)
        (System.scanned_assets s')
  /\ System.filtered_assets s'
     = filter meets_trading_criteria (System.scanned_assets s').

End ComprehensiveCatalog.

Module EnhancedCatalog.
Import Common Env.

(** The literal list of [initialize_trading_assets]: symbol, price and
    volume ([Decimal(str(price))] of these floats is exact). *)
Definition premium_assets : list (string * Q * Q) :=
  [ ("BTCUSDT", 45000, 25000000);
    ("ETHUSDT", 2500, 15000000);
    ("ADAUSDT", 45 # 100, 8000000);
    ("BNBUSDT", 320, 12000000);
    ("SOLUSDT", 95, 10000000);
    ("DOGEUSDT", 8 # 100, 6000000);
    ("MATICUSDT", 85 # 100, 7000000);
    ("AVAXUSDT", 28, 9000000);
    ("LINKUSDT", 145 # 10, 8500000);
    ("UNIUSDT", 62 # 10, 5500000) ].

(** The [TradingAsset(...)] expression in the loop of
    [initialize_trading_assets]; its arguments are evaluated in order. *)
Definition premium_asset (symbol : string) (price volume : Q)
  : M TradingAsset.t :=
  volatility_24h <- uniform (25 # 1000) (55 # 1000);;
  max_leverage <- choice 75%Z [100%Z];;
  confidence_score <- uniform (82 # 100) (95 # 100);;
  direction <- choice "Long" ["Short"];;
  factor <- uniform (1005 # 1000) (1015 # 1000);;
  confidence <- uniform (85 # 100) (95 # 100);;
  entanglement_correlation <- uniform (8 # 10) (95 # 100);;
  pattern_strength <- uniform (82 # 100) (92 # 100);;
  spectral_prediction <- uniform (78 # 100) (88 # 100);;
  last_updated <- now;;
  ret {| TradingAsset.symbol := symbol;
         TradingAsset.current_price := Decimal_str price;
         TradingAsset.daily_volume := Decimal_str volume;
         TradingAsset.volatility_24h := volatility_24h;
         TradingAsset.min_order_size := 1 # 1000;
         TradingAsset.max_leverage := max_leverage;
         TradingAsset.confidence_score := confidence_score;
         TradingAsset.quantum_prediction :=
           Some {| Prediction.direction := direction;
                   Prediction.predicted_price := price * factor;
                   Prediction.confidence := confidence;
                   Prediction.entanglement_correlation := entanglement_correlation;
                   Prediction.pattern_strength := pattern_strength;
                   Prediction.spectral_prediction := spectral_prediction |};
         TradingAsset.last_updated := Some last_updated |}.

Fixpoint premium_loop (assets : list (string * Q * Q))
    (filtered_assets : list TradingAsset.t) : M (list TradingAsset.t) :=
  match assets with
  | [] => ret filtered_assets
  | (symbol, price, volume) :: rest =>
    asset <- premium_asset symbol price volume;;
    premium_loop rest (filtered_assets ++ [asset])
  end.

(** [initialize_trading_assets()] *)
Definition initialize_trading_assets : M unit :=
  filtered_assets <- premium_loop premium_assets [];;
  modify (set_filtered_assets filtered_assets).

(** [generate_comprehensive_asset_list()] *)
Definition generate_comprehensive_asset_list : list string :=
  let major_symbols :=
    [ "BTCUSDT"; "ETHUSDT"; "ADAUSDT"; "BNBUSDT"; "XRPUSDT";
      "SOLUSDT"; "DOGEUSDT"; "DOTUSDT"; "MATICUSDT"; "SHIBUSDT";
      "AVAXUSDT"; "LTCUSDT"; "UNIUSDT"; "LINKUSDT"; "ATOMUSDT";
      "ETCUSDT"; "XLMUSDT"; "BCHUSDT"; "FILUSDT"; "TRXUSDT" ] in
  (* Generate additional symbols to reach 300+ *)
  let additional_symbols :=
    map (fun i => String.append "TOKEN"
                    (String.append (str_int (Z.of_nat i)) "USDT"))
        (seq 1 280) in
  major_symbols ++ additional_symbols.

(** [create_trading_asset(symbol)] *)
Definition create_trading_asset (symbol : string) : M (option TradingAsset.t) :=
  base_price <- uniform (1 # 10) 500;;
  volume_24h <- uniform 1000000 20000000;;
  volatility_24h <- uniform (2 # 100) (6 # 100);;
  if Qltb volume_24h 1000000 || Qltb volatility_24h (2 # 100) then ret None else
  direction <- choice "Long" ["Short"];;
  factor <- uniform (1002 # 1000) (1008 # 1000);;
  confidence <- uniform (75 # 100) (88 # 100);;
  entanglement_correlation <- uniform (7 # 10) (85 # 100);;
  pattern_strength <- uniform (72 # 100) (85 # 100);;
  spectral_prediction <- uniform (68 # 100) (82 # 100);;
  let confidence_score :=
    confidence * (6 # 10) + py_min (volume_24h / 10000000) 1 * (4 # 10) in
  max_leverage <- choice 50%Z [75; 100]%Z;;
  last_updated <- now;;
  ret (Some {| TradingAsset.symbol := symbol;
               TradingAsset.current_price :=
                 Decimal_str (round4_half_even base_price);
               TradingAsset.daily_volume :=
                 Decimal_str (inject_int (py_int volume_24h));
               TradingAsset.volatility_24h := volatility_24h;
               TradingAsset.min_order_size := 1 # 1000;
               TradingAsset.max_leverage := max_leverage;
               TradingAsset.confidence_score := confidence_score;
               TradingAsset.quantum_prediction :=
                 Some {| Prediction.direction := direction;
                         Prediction.predicted_price := base_price * factor;
                         Prediction.confidence := confidence;
                         Prediction.entanglement_correlation :=
                           entanglement_correlation;
                         Prediction.pattern_strength := pattern_strength;
                         Prediction.spectral_prediction := spectral_prediction |};
               TradingAsset.last_updated := Some last_updated |}).

(** [meets_trading_criteria(asset)] *)
Definition meets_trading_criteria (asset : TradingAsset.t) : bool :=
  Qgeb (TradingAsset.confidence_score asset) (70 # 100)
  && Qgeb (TradingAsset.daily_volume asset) 1000000
  && Qgeb (TradingAsset.volatility_24h asset) (2 # 100)
  && (TradingAsset.max_leverage asset >=? SystemConfig.min_leverage config)%Z
  && Qle_bool (TradingAsset.min_order_size asset) 5.

(** The loop of [scan_and_filter_assets]. *)
Fixpoint scan_loop (symbols : list string) (new_assets : list TradingAsset.t)
  : M (list TradingAsset.t) :=
  match symbols with
  | [] => ret new_assets
  | symbol :: rest =>
    u <- random;;
    if Qgtb u (7 # 10) then        (* 30% pass filter *)
      asset <- create_trading_asset symbol;;
      match asset with
      | Some asset =>
        if meets_trading_criteria asset
        then scan_loop rest (new_assets ++ [asset])
        else scan_loop rest new_assets
      | None => scan_loop rest new_assets
      end
    else scan_loop rest new_assets
  end.

(** [scan_and_filter_assets()] *)
Definition scan_and_filter_assets : M Z :=
  let symbols := generate_comprehensive_asset_list in
  (* Keep existing premium assets and add new ones *)
  new_assets <- scan_loop (skipn 10 symbols) [];;
  (* Update filtered assets (keep premium + add new) *)
  modify (fun s => set_filtered_assets
                     (firstn 10 (System.filtered_assets s) ++ new_assets) s);;;
  gets (fun s => len (System.filtered_assets s)).

(** An asset as [initialize_trading_assets] builds it. *)
Definition premium (a : TradingAsset.t) : Prop :=
  In (TradingAsset.symbol a, TradingAsset.current_price a,
      TradingAsset.daily_volume a) premium_assets
  /\ 25 # 1000 <= TradingAsset.volatility_24h a
  /\ TradingAsset.volatility_24h a <= 55 # 1000
  /\ (TradingAsset.max_leverage a = 75 \/ TradingAsset.max_leverage a = 100)%Z
  /\ 82 # 100 <= TradingAsset.confidence_score a
  /\ TradingAsset.confidence_score a <= 95 # 100
  /\ TradingAsset.min_order_size a = 1 # 1000
  /\ exists prediction,
       TradingAsset.quantum_prediction a = Some prediction
       /\ 85 # 100 <= Prediction.confidence prediction
       /\ Prediction.confidence prediction <= 95 # 100.

(** The first ten filtered assets are the ten premium assets. *)
Definition premium_catalog (s : System.t) : Prop :=
  map TradingAsset.symbol (firstn 10 (System.filtered_assets s))
  = map (fun x => fst (fst x)) premium_assets
  /\ Forall premium (firstn 10 (System.filtered_assets s)).

End EnhancedCatalog.

Module RealisticCatalog.
Import Common Env.

(** The literal list of [initialize_realistic_assets]: symbol, price,
    volume and volatility. *)
Definition major_assets : list (string * Q * Q * Q) :=
  [ ("BTCUSDT", 43250, 28000000, 32 # 1000);
    ("ETHUSDT", 2485, 18000000, 38 # 1000);
    ("ADAUSDT", 445 # 1000, 9500000, 45 # 1000);
    ("BNBUSDT", 315, 12500000, 41 # 1000);
    ("SOLUSDT", 985 # 10, 11000000, 52 # 1000);
    ("XRPUSDT", 625 # 1000, 15000000, 48 # 1000);
    ("DOGEUSDT", 82 # 1000, 8500000, 55 # 1000);
    ("MATICUSDT", 875 # 1000, 7800000, 47 # 1000);
    ("AVAXUSDT", 295 # 10, 9200000, 49 # 1000);
    ("LINKUSDT", 148 # 10, 8800000, 43 # 1000) ].

(** [simulate_quantum_analysis(symbol, price, volatility)]; the constant
    entry [analysis_method] of the dict, which nothing reads, is left
    out. *)
Definition simulate_quantum_analysis (symbol : string) (price volatility : Q)
  : M Prediction.t :=
  (* Simulate quantum entanglement correlation *)
  entanglement_correlation <- uniform (75 # 100) (92 # 100);;
  (* Simulate hyperdimensional pattern strength *)
  pattern_strength <- uniform (78 # 100) (89 # 100);;
  (* Simulate spectral tree prediction *)
  spectral_prediction <- uniform (72 # 100) (88 # 100);;
  (* Combined quantum confidence *)
  let combined_confidence :=
    entanglement_correlation * (35 # 100)
    + pattern_strength * (35 # 100)
    + spectral_prediction * (30 # 100) in
  u <- random;;
  let direction := if Qgtb u (45 # 100) then "Long" else "Short" in
  let predicted_price :=
    price * (if String.eqb direction "Long" then 1008 # 1000 else 992 # 1000) in
  ret {| Prediction.direction := direction;
         Prediction.predicted_price := predicted_price;
         Prediction.confidence := combined_confidence;
         Prediction.entanglement_correlation := entanglement_correlation;
         Prediction.pattern_strength := pattern_strength;
         Prediction.spectral_prediction := spectral_prediction |}.

(** [calculate_realistic_confidence(volume, volatility, prediction)] *)
Definition calculate_realistic_confidence (volume volatility : Q)
    (prediction : Prediction.t) : Q :=
  (* Volume factor *)
  let volume_score := py_min (volume / 15000000) 1 * (25 # 100) in
  (* Volatility factor (optimal range 3-5%) *)
  let vol_score :=
    if Qle_bool (3 # 100) volatility && Qle_bool volatility (5 # 100) then 1
    else if Qgtb volatility (5 # 100) then 7 # 10
    else 6 # 10 in
  let vol_score := vol_score * (25 # 100) in
  (* Quantum prediction confidence *)
  let quantum_score := Prediction.confidence prediction * (5 # 10) in
  py_min (volume_score + vol_score + quantum_score) 1.

(** [meets_trading_criteria(asset)] *)
Definition meets_trading_criteria (asset : TradingAsset.t) : bool :=
  Qgeb (TradingAsset.confidence_score asset) (75 # 100)
  && Qgeb (TradingAsset.daily_volume asset) 5000000
  && Qgeb (TradingAsset.volatility_24h asset) (3 # 100)
  && (TradingAsset.max_leverage asset >=? SystemConfig.min_leverage config)%Z
  && Qle_bool (TradingAsset.min_order_size asset) 5.

(** The body of the loop of [initialize_realistic_assets]. *)
Definition major_asset (symbol : string) (price volume volatility : Q)
  : M TradingAsset.t :=
  (* Simulate quantum analysis *)
  quantum_prediction <- simulate_quantum_analysis symbol price volatility;;
  (* Calculate realistic confidence score *)
  let confidence_score :=
    calculate_realistic_confidence volume volatility quantum_prediction in
  max_leverage <- choice 75%Z [100%Z];;
  last_updated <- now;;
  ret {| TradingAsset.symbol := symbol;
         TradingAsset.current_price := Decimal_str price;
         TradingAsset.daily_volume := Decimal_str volume;
         TradingAsset.volatility_24h := volatility;
         TradingAsset.min_order_size := 1 # 1000;
         TradingAsset.max_leverage := max_leverage;
         TradingAsset.confidence_score := confidence_score;
         TradingAsset.quantum_prediction := Some quantum_prediction;
         TradingAsset.last_updated := Some last_updated |}.

Fixpoint major_loop (assets : list (string * Q * Q * Q))
    (filtered_assets : list TradingAsset.t) : M (list TradingAsset.t) :=
  match assets with
  | [] => ret filtered_assets
  | (symbol, price, volume, volatility) :: rest =>
    asset <- major_asset symbol price volume volatility;;
    if meets_trading_criteria asset
    then major_loop rest (filtered_assets ++ [asset])
    else major_loop rest filtered_assets
  end.

(** [initialize_realistic_assets()] *)
Definition initialize_realistic_assets : M unit :=
  filtered_assets <- major_loop major_assets [];;
  modify (set_filtered_assets filtered_assets).

(** The symbols of [simulate_comprehensive_asset_scan]. *)
Definition all_symbols : list string :=
  let base_symbols :=
    ["BTC"; "ETH"; "ADA"; "BNB"; "SOL"; "XRP"; "DOGE"; "MATIC"; "AVAX"; "LINK"] in
  let additional_symbols :=
    map (fun i => String.append "TOKEN" (str_int (Z.of_nat i))) (seq 1 290) in
  map (fun s => String.append s "USDT") (base_symbols ++ additional_symbols).

Fixpoint count_loop (symbols : list string) (filtered_count : Z) : M Z :=
  match symbols with
  | [] => ret filtered_count
  | _ :: rest =>
    u <- random;;
    if Qgtb u (7 # 10)            (* 30% pass filter *)
    then count_loop rest (filtered_count + 1)%Z
    else count_loop rest filtered_count
  end.

(** [simulate_comprehensive_asset_scan()] *)
Definition simulate_comprehensive_asset_scan : M Z :=
  filtered_count <- count_loop (firstn 300 all_symbols) 0%Z;;
  ret (len (firstn 300 all_symbols)).

(** What the loop body builds for an entry of the literal list. *)
Definition built (entry : string * Q * Q * Q) (a : TradingAsset.t) : Prop :=
  (TradingAsset.symbol a, TradingAsset.current_price a,
   TradingAsset.daily_volume a, TradingAsset.volatility_24h a) = entry
  /\ (TradingAsset.max_leverage a = 75 \/ TradingAsset.max_leverage a = 100)%Z
  /\ TradingAsset.min_order_size a = 1 # 1000
  /\ exists prediction,
       TradingAsset.quantum_prediction a = Some prediction
       /\ 75 # 100 <= Prediction.confidence prediction
       /\ Prediction.confidence prediction <= 90 # 100
       /\ TradingAsset.confidence_score a
          = calculate_realistic_confidence (TradingAsset.daily_volume a)
              (TradingAsset.volatility_24h a) prediction.

(** An asset as [initialize_realistic_assets] builds it. *)
Definition major (a : TradingAsset.t) : Prop :=
  In (TradingAsset.symbol a, TradingAsset.current_price a,
      TradingAsset.daily_volume a, TradingAsset.volatility_24h a) major_assets
  /\ (TradingAsset.max_leverage a = 75 \/ TradingAsset.max_leverage a = 100)%Z
  /\ TradingAsset.min_order_size a = 1 # 1000
  /\ 75 # 100 <= TradingAsset.confidence_score a
  /\ exists prediction,
       TradingAsset.quantum_prediction a = Some prediction
       /\ 75 # 100 <= Prediction.confidence prediction
       /\ Prediction.confidence prediction <= 90 # 100
       /\ TradingAsset.confidence_score a
          = calculate_realistic_confidence (TradingAsset.daily_volume a)
              (TradingAsset.volatility_24h a) prediction.

(** Every filtered asset is one of the major assets. *)
Definition major_catalog (s : System.t) : Prop :=
  Forall major (System.filtered_assets s).

End RealisticCatalog.

(** ** The running system

    [start()] sets [running] and gathers the five loops of the class.
    asyncio runs them on one thread, so between two suspension points a
    coroutine runs alone: an execution of the system is a sequence of the
    atomic methods modelled above.  The scans and the initializations of
    the catalog do suspend; their writes to the object are the two catalog
    lists, and while they are suspended they have only read the random
    stream and the clock.  [step] takes these two effects apart, with
    arbitrary lists and positions, which covers every interleaving. *)

From Stdlib Require Import DecimalZ DecimalPos.

Module Run.

Inductive flavour := ComprehensiveSystem | EnhancedSystem | RealisticSystem.

Definition cycle (c : flavour) : M bool :=
  match c with
  | ComprehensiveSystem => Comprehensive.execute_trading_cycle
  | EnhancedSystem => Enhanced.execute_trading_cycle
  | RealisticSystem => Realistic.execute_realistic_trading_cycle
  end.

Definition monitor (c : flavour) : System.t -> System.t :=
  match c with
  | ComprehensiveSystem => Comprehensive.monitor_risks
  | EnhancedSystem => Enhanced.monitor_risks
  | RealisticSystem => Realistic.monitor_realistic_risks
  end.

Definition refresh (c : flavour) : System.t -> System.t :=
  match c with
  | ComprehensiveSystem => Comprehensive.update_performance_tracking
  | EnhancedSystem => Enhanced.update_performance_tracking
  | RealisticSystem => Realistic.update_realistic_performance_tracking
  end.

(** One atomic step: an iteration of the execution, risk or performance
    loop (an exception raised by the cycle is caught by its loop and
    leaves the state where it was raised), the catalog writes of a scan or
    of an initialization, or reads of the environment. *)
Inductive step (c : flavour) (s : System.t) : System.t -> Prop :=
| step_cycle : step c s (snd (cycle c s))
| step_monitor : step c s (monitor c s)
| step_refresh : step c s (refresh c s)
| step_catalog (scanned filtered : list TradingAsset.t) :
    step c s (Env.set_filtered_assets filtered
                (Env.set_scanned_assets scanned s))
| step_env (r k : nat) :
    (System.clock_pos s <= k)%nat ->
    step c s (System.set_rand_pos r (System.set_clock_pos k s)).







End Run.

(** ** Further scenarios *)

Module Cases.

(** [Scenario.one_trade_state] with two open trades, both backed. *)
Definition two_trade_state (rnd : nat -> Q) : System.t :=
  {| System.available_capital := 6;
     System.allocated_capital :=
       [("trade-1700000000000", 2); ("trade-1700000010000", 4)];
     System.scanned_assets := [];
     System.filtered_assets := [];
     System.active_trades :=
       [("trade-1700000000000", Scenario.stop_loss_trade);
        ("trade-1700000010000", Scenario.sell_trade)];
     System.trade_history := [];
     System.performance_metrics := PerformanceMetrics.default;
     System.running := true;
     System.trade_counter := 0;
     System.rand_stream := rnd;
     System.rand_pos := 0;
     System.clock_stream := Scenario.clock_a;
     System.clock_pos := 0 |}.

(** One open trade, backed by [margin], in an environment whose draws
    are [rnd]; the ledger equation holds when [margin <= 12]. *)
Definition single_state (trade : TradeResult.t) (margin : Q) (rnd : nat -> Q)
  : System.t :=
  {| System.available_capital := 12 - margin;
     System.allocated_capital := [(TradeResult.trade_id trade, margin)];
     System.scanned_assets := [];
     System.filtered_assets := [];
     System.active_trades := [(TradeResult.trade_id trade, trade)];
     System.trade_history := [];
     System.performance_metrics := PerformanceMetrics.default;
     System.running := true;
     System.trade_counter := 0;
     System.rand_stream := rnd;
     System.rand_pos := 0;
     System.clock_stream := Scenario.clock_a;
     System.clock_pos := 0 |}.

(** The 3.75-unit [Buy] trade entered at 100.00, every draw being 0.9:
    each monitor prices it at least 0.4% higher. *)
Definition profit_state : System.t :=
  single_state Scenario.open_trade_5 5 (fun _ => 9 # 10).

(** Five closed trades: four [ProfitTaken] at +0.60 and one [StopLoss]
    at -0.20; the ledger holds 12 + 2.20. *)
Definition winning_history : list TradeResult.t :=
  [ TradeResult.close (6 # 10) "ProfitTaken" Scenario.stop_loss_trade;
    TradeResult.close (6 # 10) "ProfitTaken" Scenario.sell_trade;
    TradeResult.close (- (2 # 10)) "StopLoss" Scenario.stop_loss_trade;
    TradeResult.close (6 # 10) "ProfitTaken" Scenario.sell_trade;
    TradeResult.close (6 # 10) "ProfitTaken" Scenario.open_trade_5 ].

(** The system with that history, after a performance refresh. *)
Definition winning_state : System.t :=
  Common.update_performance_tracking
    (System.set_trade_history winning_history
       (System.set_available_capital (142 # 10) Scenario.fresh_state)).

(** A catalog entry with the given price, volatility and (possibly
    missing) prediction confidence. *)
Definition token (symbol : string) (price volatility : Q)
    (confidence : option Q) : TradingAsset.t :=
  {| TradingAsset.symbol := symbol;
     TradingAsset.current_price := price;
     TradingAsset.daily_volume := 2000000;
     TradingAsset.volatility_24h := volatility;
     TradingAsset.min_order_size := 1 # 1000;
     TradingAsset.max_leverage := 100;
     TradingAsset.confidence_score := 8 # 10;
     TradingAsset.quantum_prediction :=
       option_map
         (fun c => {| Prediction.direction := "Short";
                      Prediction.predicted_price := price * (99 # 100);
                      Prediction.confidence := c;
                      Prediction.entanglement_correlation := 8 # 10;
                      Prediction.pattern_strength := 8 # 10;
                      Prediction.spectral_prediction := 8 # 10 |})
         confidence;
     TradingAsset.last_updated := Some 1700000000000%Z |}.

(** Confidence 0.79 at volatility 2%: every class would trade it. *)
Definition steady_asset : TradingAsset.t :=
  token "TOKEN3USDT" 50 (2 # 100) (Some (79 # 100)).

(** The same with confidence 0.77: a lower score (and below the
    threshold of the realistic class). *)
Definition second_asset : TradingAsset.t :=
  token "TOKEN5USDT" 50 (2 # 100) (Some (77 # 100)).

(** An entry without a prediction, and one priced at zero. *)
Definition blind_asset : TradingAsset.t :=
  token "TOKEN2USDT" 20 (2 # 100) None.
Definition unpriced_asset : TradingAsset.t :=
  token "TOKEN4USDT" 0 (2 # 100) (Some (79 # 100)).

(** An entry priced at 10^-22: 5.00 at leverage 79 buy 3.95 * 10^24
    units, more than [quantize] can return. *)
Definition dust_asset : TradingAsset.t :=
  token "TOKEN6USDT" (1 # 10000000000000000000000) (2 # 100) (Some (79 # 100)).

(** A system with 12.00 available, nothing open, and the catalog
    [assets]. *)
Definition market_state (assets : list TradingAsset.t) : System.t :=
  {| System.available_capital := 12;
     System.allocated_capital := [];
     System.scanned_assets := assets;
     System.filtered_assets := assets;
     System.active_trades := [];
     System.trade_history := [];
     System.performance_metrics := PerformanceMetrics.default;
     System.running := true;
     System.trade_counter := 0;
     System.rand_stream := fun _ => 2 # 10;
     System.rand_pos := 0;
     System.clock_stream := Scenario.clock_a;
     System.clock_pos := 0 |}.

End Cases.

(** * Facts about the numeric layer *)

Module NumFacts.

Lemma Qltb_lt x y : Qltb x y = true <-> x < y.
Proof.
  unfold Qltb. rewrite negb_true_iff.
  destruct (Qle_bool y x) eqn:E.
  - apply Qle_bool_iff in E. split; [discriminate | intro H; exfalso; lra].
  - split; [intros _ | reflexivity].
    destruct (Qlt_le_dec x y) as [H | H]; [exact H |].
    apply Qle_bool_iff in H. congruence.
Qed.

Lemma Qltb_ge x y : Qltb x y = false <-> y <= x.
Proof.
  unfold Qltb. rewrite negb_false_iff. apply Qle_bool_iff.
Qed.

Lemma py_sum_start xs : forall a, py_sum xs a == a + py_sum xs 0.
Proof.
  unfold py_sum. induction xs as [| x xs IH]; intro a; simpl.
  - lra.
  - rewrite (IH (a + x)), (IH (0 + x)). lra.
Qed.

Lemma py_sum_cons x xs : py_sum (x :: xs) 0 == x + py_sum xs 0.
Proof.
  change (py_sum (x :: xs) 0) with (py_sum xs (0 + x)).
  rewrite py_sum_start. lra.
Qed.

Lemma py_sum_app xs ys : py_sum (xs ++ ys) 0 == py_sum xs 0 + py_sum ys 0.
Proof.
  induction xs as [| x xs IH].
  - change ([] ++ ys) with ys. change (py_sum [] 0) with 0. lra.
  - change ((x :: xs) ++ ys) with (x :: (xs ++ ys)).
    rewrite !py_sum_cons, IH. lra.
Qed.

End NumFacts.
Import NumFacts.

(** * Facts about dictionaries *)

Module DictFacts.
Import Dict.

Section WithValue.
Context {V : Type}.
Implicit Types d : dict V.

Lemma get_In k v d : get k d = Some v -> In (k, v) d.
Proof.
  induction d as [| [k' v'] d IH]; simpl; [discriminate |].
  destruct (String.eqb k k') eqn:E.
  - apply String.eqb_eq in E. intros [= ->]. subst. now left.
  - intro H. right. auto.
Qed.

Lemma get_None_keys k d : get k d = None <-> ~ In k (keys d).
Proof.
  induction d as [| [k' v'] d IH]; simpl.
  - tauto.
  - destruct (String.eqb k k') eqn:E.
    + apply String.eqb_eq in E. subst. split; [discriminate | tauto].
    + apply String.eqb_neq in E. rewrite IH. split.
      * intros H [H1 | H1]; [congruence | tauto].
      * tauto.
Qed.

Lemma In_get k v d : wf d -> In (k, v) d -> get k d = Some v.
Proof.
  unfold wf. induction d as [| [k' v'] d IH]; simpl; [tauto |].
  intros Hnd [H | H]; inversion Hnd as [| ? ? Hn Hd]; subst.
  - inversion H; subst. now rewrite String.eqb_refl.
  - destruct (String.eqb k k') eqn:E.
    + apply String.eqb_eq in E. subst. exfalso. apply Hn.
      change k' with (fst (k', v)). now apply in_map.
    + auto.
Qed.

Lemma keys_del_subset k k0 d : In k0 (keys (del k d)) -> In k0 (keys d).
Proof.
  induction d as [| [k' v'] d IH]; simpl; [tauto |].
  destruct (String.eqb k k'); simpl; tauto.
Qed.

Lemma wf_del k d : wf d -> wf (del k d).
Proof.
  unfold wf. induction d as [| [k' v'] d IH]; simpl; [auto |].
  intro Hnd. inversion Hnd as [| ? ? Hn Hd]; subst.
  destruct (String.eqb k k'); [assumption |].
  simpl. constructor; [| auto].
  intro H. apply Hn. eapply keys_del_subset; eauto.
Qed.

Lemma get_del_same k d : wf d -> get k (del k d) = None.
Proof.
  unfold wf. induction d as [| [k' v'] d IH]; simpl; [reflexivity |].
  intro Hnd. inversion Hnd as [| ? ? Hn Hd]; subst.
  destruct (String.eqb k k') eqn:E.
  - apply String.eqb_eq in E. subst. now apply get_None_keys.
  - simpl. rewrite E. auto.
Qed.

Lemma get_del_other k k0 d : k0 <> k -> get k0 (del k d) = get k0 d.
Proof.
  intro Hne. induction d as [| [k' v'] d IH]; simpl; [reflexivity |].
  destruct (String.eqb k k') eqn:E.
  - apply String.eqb_eq in E. subst.
    apply String.eqb_neq in Hne. now rewrite Hne.
  - simpl. now rewrite IH.
Qed.

Lemma del_absent k d : get k d = None -> del k d = d.
Proof.
  induction d as [| [k' v'] d IH]; simpl; [reflexivity |].
  destruct (String.eqb k k'); [discriminate |].
  intro H. now rewrite IH.
Qed.

Lemma keys_set_absent k v d : get k d = None -> keys (set k v d) = keys d ++ [k].
Proof.
  induction d as [| [k' v'] d IH]; simpl; [reflexivity |].
  destruct (String.eqb k k'); [discriminate |].
  intro H. simpl. now rewrite IH.
Qed.

Lemma set_absent k v d : get k d = None -> set k v d = d ++ [(k, v)].
Proof.
  induction d as [| [k' v'] d IH]; simpl; [reflexivity |].
  destruct (String.eqb k k'); [discriminate |].
  intro H. now rewrite IH.
Qed.

Lemma wf_set_absent k v d : wf d -> get k d = None -> wf (set k v d).
Proof.
  unfold wf. intros Hnd Hk. rewrite keys_set_absent by assumption.
  apply NoDup_app; [assumption | repeat constructor; simpl; tauto |].
  intros x Hx [<- | []]. now apply get_None_keys in Hk.
Qed.


Lemma keys_set k v d k0 : In k0 (keys (set k v d)) <-> k0 = k \/ In k0 (keys d).
Proof.
  induction d as [| [k' v'] d IH]; simpl.
  - intuition.
  - destruct (String.eqb k k') eqn:E; simpl.
    + apply String.eqb_eq in E. subst. intuition.
    + rewrite IH. intuition.
Qed.

Lemma wf_set k v d : wf d -> wf (set k v d).
Proof.
  unfold wf. induction d as [| [k' v'] d IH]; simpl.
  - intros _. repeat constructor. simpl. tauto.
  - intro Hnd. inversion Hnd as [| ? ? Hn Hd]; subst.
    destruct (String.eqb k k') eqn:E; simpl.
    + apply String.eqb_eq in E. subst. now constructor.
    + constructor; [| auto].
      intro H. apply (keys_set k v d k') in H. destruct H as [-> | H].
      * now rewrite String.eqb_refl in E.
      * tauto.
Qed.

Lemma keys_del k k0 d : wf d -> In k0 (keys (del k d)) -> k0 <> k.
Proof.
  intros Hwf Hin ->. apply (get_del_same k) in Hwf.
  apply get_None_keys in Hwf. tauto.
Qed.

Lemma keys_del_other k k0 d : k0 <> k -> In k0 (keys d) -> In k0 (keys (del k d)).
Proof.
  intros Hne. induction d as [| [k' v'] d IH]; simpl; [tauto |].
  destruct (String.eqb k k') eqn:E; simpl.
  - apply String.eqb_eq in E. subst. intros [H | H]; [congruence | assumption].
  - intros [H | H]; [now left | right; auto].
Qed.

Lemma get_Some_keys k v d : get k d = Some v -> In k (keys d).
Proof.
  intro H. apply get_In in H. change k with (fst (k, v)). now apply in_map.
Qed.

Lemma keys_get k d : In k (keys d) -> exists v, get k d = Some v.
Proof.
  intro H. destruct (get k d) as [v |] eqn:E; [eauto |].
  apply get_None_keys in E. tauto.
Qed.

End WithValue.

End DictFacts.

(** ** The record written by a close *)

Module RecordFacts.

(** [trade.actual_profit = pnl; trade.status = status] sets the two fields
    and leaves the others. *)
Lemma close_status pnl status t :
  TradeResult.status (TradeResult.close pnl status t) = status.
Proof. reflexivity. Qed.

Lemma close_profit pnl status t :
  TradeResult.actual_profit (TradeResult.close pnl status t) = Some pnl.
Proof. reflexivity. Qed.

Lemma close_record pnl status t :
  Lifecycle.record_of t (TradeResult.close pnl status t).
Proof.
  unfold Lifecycle.record_of. rewrite close_profit.
  split; [now exists pnl |]. repeat split.
Qed.

End RecordFacts.

(** * The three classes are instances of the generic schemes *)

Module GenericFacts.
Import Common Generic.

Lemma comprehensive_close trade_id status s :
  Comprehensive.close_trade trade_id status s
  = close_with comprehensive_close_factor trade_id status s.
Proof.
  unfold Comprehensive.close_trade, close_with.
  destruct (Dict.get trade_id (System.active_trades s)); reflexivity.
Qed.

Lemma enhanced_close trade_id status s :
  Enhanced.close_trade trade_id status s
  = close_with enhanced_close_factor trade_id status s.
Proof.
  unfold Enhanced.close_trade, close_with, enhanced_close_factor.
  destruct (Dict.get trade_id (System.active_trades s)); [| reflexivity].
  destruct (String.eqb status "ProfitTaken"); reflexivity.
Qed.

Lemma realistic_close trade_id status s :
  Realistic.close_realistic_trade trade_id status s
  = close_with realistic_close_factor trade_id status s.
Proof.
  unfold Realistic.close_realistic_trade, close_with, realistic_close_factor.
  destruct (Dict.get trade_id (System.active_trades s)); [| reflexivity].
  destruct (String.eqb status "ProfitTaken"); reflexivity.
Qed.

Lemma comprehensive_loop items : forall acc s,
  Comprehensive.monitor_loop items acc s
  = scan_with comprehensive_factor (SystemConfig.take_profit_usdt config) None
      items acc s.
Proof.
  induction items as [| [k t] items IH]; intros acc s; [reflexivity |].
  cbn [Comprehensive.monitor_loop scan_with].
  unfold decide, random_uniform, comprehensive_factor.
  cbn [random_random].
  destruct (Qltb _ _); [apply IH |].
  destruct (Qgeb _ _); apply IH.
Qed.

Lemma enhanced_loop items : forall acc s,
  Enhanced.monitor_loop items acc s
  = scan_with enhanced_factor (4 # 10) (Some (5 # 100)) items acc s.
Proof.
  induction items as [| [k t] items IH]; intros acc s; [reflexivity |].
  cbn [Enhanced.monitor_loop scan_with].
  unfold decide, random_uniform, enhanced_factor.
  cbn [random_random].
  destruct (Qltb _ _); [apply IH |].
  destruct (Qgeb _ _); [apply IH |].
  destruct (Qltb _ _); apply IH.
Qed.

Lemma realistic_loop items : forall acc s,
  Realistic.monitor_loop items acc s
  = scan_with realistic_factor (5 # 10) (Some (8 # 100)) items acc s.
Proof.
  induction items as [| [k t] items IH]; intros acc s; [reflexivity |].
  cbn [Realistic.monitor_loop scan_with].
  unfold decide, random_uniform, realistic_factor.
  cbn [random_random].
  destruct (Qltb _ _); [apply IH |].
  destruct (Qgeb _ _); [apply IH |].
  destruct (Qltb _ _); apply IH.
Qed.

End GenericFacts.

(** * Facts about closing trades *)

Module CloseFacts.
Import Common Generic DictFacts.

Section Close.
Variable factor : string -> Q -> Q.
Let close := close_with factor.

(** The P&L that [close_with] computes for [trade] in state [s]. *)
Definition closing_pnl (status : string) (trade : TradeResult.t) (s : System.t) : Q :=
  calculate_pnl trade
    (TradeResult.price trade
     * Decimal_str (factor status (System.rand_stream s (System.rand_pos s)))).

Ltac close_cases trade_id s :=
  unfold close, close_with;
  destruct (Dict.get trade_id (System.active_trades s)) eqn:?;
  [ destruct s; cbn in *;
    match goal with
    | |- context [Dict.get trade_id ?a] => destruct (Dict.get trade_id a) eqn:?
    end; cbn
  | ].

Lemma close_absent trade_id status s :
  Dict.get trade_id (System.active_trades s) = None ->
  close trade_id status s = s.
Proof. intro H. unfold close, close_with. now rewrite H. Qed.

Lemma close_active trade_id status s :
  System.active_trades (close trade_id status s)
  = Dict.del trade_id (System.active_trades s).
Proof.
  close_cases trade_id s; try reflexivity.
  symmetry. now apply del_absent.
Qed.

Lemma close_history trade_id status s :
  System.trade_history (close trade_id status s)
  = System.trade_history s
    ++ match Dict.get trade_id (System.active_trades s) with
       | Some trade =>
           [TradeResult.close (closing_pnl status trade s) status trade]
       | None => []
       end.
Proof.
  close_cases trade_id s; try reflexivity.
  now rewrite app_nil_r.
Qed.


Lemma close_available trade_id status s :
  System.available_capital (close trade_id status s)
  = match Dict.get trade_id (System.active_trades s),
          Dict.get trade_id (System.allocated_capital s) with
    | Some trade, Some capital_returned =>
        System.available_capital s
        + (capital_returned + closing_pnl status trade s)
    | _, _ => System.available_capital s
    end.
Proof. close_cases trade_id s; reflexivity. Qed.



(** *** The closing loop *)

Lemma close_trades_cons trade_id status rest s :
  close_trades close ((trade_id, status) :: rest) s
  = close_trades close rest (close trade_id status s).
Proof. reflexivity. Qed.



(** A trade that is not scheduled stays where it is. *)
Lemma close_trades_untouched trade_id l : forall s,
  ~ In trade_id (map fst l) ->
  Dict.get trade_id (System.active_trades (close_trades close l s))
  = Dict.get trade_id (System.active_trades s).
Proof.
  induction l as [| [k st] l IH]; intros s Hn; [reflexivity |].
  rewrite close_trades_cons, IH by (simpl in Hn; tauto).
  rewrite close_active. apply get_del_other. simpl in Hn. intuition.
Qed.

Lemma close_trades_history_mono l : forall s t,
  In t (System.trade_history s) ->
  In t (System.trade_history (close_trades close l s)).
Proof.
  induction l as [| [k st] l IH]; intros s t Hin; [assumption |].
  rewrite close_trades_cons. apply IH.
  rewrite close_history. apply in_or_app. now left.
Qed.

Lemma In_del {V} k (d : dict V) kv : In kv (Dict.del k d) -> In kv d.
Proof.
  induction d as [| [k' v'] d IH]; simpl; [tauto |].
  destruct (String.eqb k k'); simpl; tauto.
Qed.

(** Every record appended by the loop is a scheduled trade, closed. *)
Lemma close_trades_history_origin l : forall s t,
  In t (System.trade_history (close_trades close l s)) ->
  In t (System.trade_history s)
  \/ exists k status t0 pnl,
       In (k, status) l /\ In (k, t0) (System.active_trades s)
       /\ t = TradeResult.close pnl status t0.
Proof.
  induction l as [| [k st] l IH]; intros s t Hin; [now left |].
  rewrite close_trades_cons in Hin. apply IH in Hin.
  destruct Hin as [Hin | (k' & st' & t0 & pnl & Hl & Ha & ->)].
  - rewrite close_history in Hin. apply in_app_or in Hin.
    destruct Hin as [Hin | Hin]; [now left |].
    destruct (Dict.get k (System.active_trades s)) as [t0 |] eqn:E; [| easy].
    destruct Hin as [<- | []]. right.
    exists k, st, t0, (closing_pnl st t0 s).
    repeat split; [now left | now apply get_In].
  - right. exists k', st', t0, pnl.
    repeat split; [now right |].
    rewrite close_active in Ha. eapply In_del; eauto.
Qed.

(** A scheduled trade leaves the open set and enters the history with
    the scheduled status. *)
Lemma close_trades_closed trade_id status l : forall s trade,
  NoDup (map fst l) ->
  In (trade_id, status) l ->
  Dict.wf (System.active_trades s) ->
  Dict.get trade_id (System.active_trades s) = Some trade ->
  Dict.get trade_id (System.active_trades (close_trades close l s)) = None
  /\ exists pnl,
       In (TradeResult.close pnl status trade)
          (System.trade_history (close_trades close l s)).
Proof.
  induction l as [| [k st] l IH]; intros s trade Hnd Hin Hwf Hget; [easy |].
  simpl in Hnd. inversion Hnd as [| ? ? Hk Hnd']; subst.
  rewrite close_trades_cons.
  destruct (String.eqb trade_id k) eqn:E.
  - apply String.eqb_eq in E. subst k.
    assert (st = status) as ->.
    { destruct Hin as [[= ->] | Hin]; [reflexivity |].
      exfalso. apply Hk. change trade_id with (fst (trade_id, status)).
      now apply in_map. }
    split.
    + rewrite close_trades_untouched by assumption.
      rewrite close_active. now apply get_del_same.
    + exists (closing_pnl status trade s).
      apply close_trades_history_mono. rewrite close_history, Hget.
      apply in_or_app. right. now left.
  - apply String.eqb_neq in E.
    destruct Hin as [[= -> ->] | Hin]; [congruence |].
    apply IH; try assumption.
    + rewrite close_active. now apply wf_del.
    + rewrite close_active. rewrite get_del_other; assumption.
Qed.

End Close.

End CloseFacts.

(** * Facts about the monitor loop *)

Module ScanFacts.
Import Common Generic DictFacts.

Lemma set_rand_pos_twice n m s :
  System.set_rand_pos n (System.set_rand_pos m s) = System.set_rand_pos n s.
Proof. now destruct s. Qed.

Lemma set_rand_pos_same s : System.set_rand_pos (System.rand_pos s) s = s.
Proof. now destruct s. Qed.

Section Monitor.
Variable factor : Q -> Q.
Variable take_profit : Q.
Variable random_close : option Q.
Let decide := decide factor take_profit random_close.
Let scan := scan_with factor take_profit random_close.

(** An iteration moves the generator and nothing else. *)
Lemma decide_frame trade s :
  exists n, snd (decide trade s) = System.set_rand_pos n s.
Proof.
  unfold decide, Generic.decide. cbn [random_random].
  destruct (Qltb _ _); [eexists; reflexivity |].
  destruct (Qgeb _ _); [eexists; reflexivity |].
  destruct random_close as [p |]; [| eexists; reflexivity].
  destruct (Qltb _ _); cbn [snd]; rewrite set_rand_pos_twice; eexists; reflexivity.
Qed.

Lemma scan_cons k trade rest acc s :
  scan ((k, trade) :: rest) acc s
  = scan rest (acc ++ match fst (decide trade s) with
                      | Some status => [(k, status)]
                      | None => []
                      end)
         (snd (decide trade s)).
Proof.
  unfold scan. cbn [scan_with]. fold decide.
  destruct (decide trade s) as [[st |] s']; cbn [fst snd];
    [reflexivity | now rewrite app_nil_r].
Qed.

Lemma scan_frame items : forall acc s,
  exists n, snd (scan items acc s) = System.set_rand_pos n s.
Proof.
  induction items as [| [k t] items IH]; intros acc s.
  - exists (System.rand_pos s). symmetry. apply set_rand_pos_same.
  - rewrite scan_cons.
    destruct (decide_frame t s) as [m Hm]. rewrite Hm.
    destruct (IH (acc ++ match fst (decide t s) with
                         | Some status => [(k, status)] | None => [] end)
                 (System.set_rand_pos m s)) as [n Hn].
    exists n. now rewrite Hn, set_rand_pos_twice.
Qed.

Lemma scan_acc items : forall acc s,
  scan items acc s
  = (acc ++ fst (scan items [] s), snd (scan items [] s)).
Proof.
  induction items as [| [k t] items IH]; intros acc s.
  - cbn. now rewrite app_nil_r.
  - rewrite !scan_cons. rewrite IH. rewrite (IH ([] ++ _)).
    cbn [fst snd app]. now rewrite app_assoc.
Qed.

Lemma scan_app l1 l2 : forall acc s,
  scan (l1 ++ l2) acc s
  = scan l2 (fst (scan l1 acc s)) (snd (scan l1 acc s)).
Proof.
  induction l1 as [| [k t] l1 IH]; intros acc s; [reflexivity |].
  change (((k, t) :: l1) ++ l2) with ((k, t) :: (l1 ++ l2)).
  rewrite !scan_cons. apply IH.
Qed.

(** The scheduled ids are ids of the scanned items. *)
Lemma scan_keys items : forall s k,
  In k (map fst (fst (scan items [] s))) -> In k (map fst items).
Proof.
  induction items as [| [k0 t] items IH]; intros s k Hin; [easy |].
  rewrite scan_cons, scan_acc in Hin. cbn [fst app] in Hin.
  rewrite map_app in Hin. apply in_app_or in Hin.
  destruct Hin as [Hin | Hin].
  - left. destruct (fst (decide t s)); simpl in Hin; tauto.
  - right. eapply IH; eauto.
Qed.

Lemma scan_nodup items : forall s,
  NoDup (map fst items) -> NoDup (map fst (fst (scan items [] s))).
Proof.
  induction items as [| [k0 t] items IH]; intros s Hnd; [constructor |].
  simpl in Hnd. inversion Hnd as [| ? ? Hk Hnd']; subst.
  rewrite scan_cons, scan_acc. cbn [fst app].
  destruct (fst (decide t s)); cbn [app map fst]; [| now apply IH].
  constructor; [| now apply IH].
  intro H. apply Hk. eapply scan_keys; eauto.
Qed.

(** What the loop schedules for the item standing after [pre]. *)
Lemma scan_middle pre k trade post s :
  fst (scan (pre ++ (k, trade) :: post) [] s)
  = fst (scan pre [] s)
    ++ match fst (decide trade (snd (scan pre [] s))) with
       | Some status => [(k, status)]
       | None => []
       end
    ++ fst (scan post [] (snd (decide trade (snd (scan pre [] s))))).
Proof.
  rewrite scan_app, scan_cons, scan_acc. cbn [fst].
  now rewrite app_assoc.
Qed.

(** The state that leaves the loop differs from the one that enters it
    in the position of the generator only. *)
Lemma scan_active items acc s :
  System.active_trades (snd (scan items acc s)) = System.active_trades s.
Proof. destruct (scan_frame items acc s) as [n ->]. now destruct s. Qed.

Lemma scan_history items acc s :
  System.trade_history (snd (scan items acc s)) = System.trade_history s.
Proof. destruct (scan_frame items acc s) as [n ->]. now destruct s. Qed.

Lemma scan_rand_stream items acc s :
  System.rand_stream (snd (scan items acc s)) = System.rand_stream s.
Proof. destruct (scan_frame items acc s) as [n ->]. now destruct s. Qed.

End Monitor.

(** Without a random close every iteration takes exactly one draw. *)
Lemma scan_rand_pos factor take_profit items : forall acc s,
  System.rand_pos (snd (scan_with factor take_profit None items acc s))
  = (System.rand_pos s + List.length items)%nat.
Proof.
  induction items as [| [k t] items IH]; intros acc s.
  - cbn. lia.
  - rewrite scan_cons, IH.
    unfold decide. cbn [random_random].
    destruct (Qltb _ _); [| destruct (Qgeb _ _)]; destruct s; cbn; lia.
Qed.

End ScanFacts.

(** * Facts about the risk monitors *)

Module MonitorFacts.
Import Common Generic DictFacts CloseFacts ScanFacts GenericFacts Risk.

Lemma close_trades_ext (f g : string -> string -> System.t -> System.t) l :
  (forall k st s, f k st s = g k st s) ->
  forall s, close_trades f l s = close_trades g l s.
Proof.
  intro H. induction l as [| [k st] l IH]; intro s; [reflexivity |].
  cbn. rewrite H. apply IH.
Qed.

Lemma calculate_pnl_spec trade current_price :
  calculate_pnl trade current_price == pnl_at trade current_price.
Proof.
  unfold calculate_pnl, pnl_at, side_sign.
  destruct (String.eqb (TradeResult.side trade) "Buy"); ring.
Qed.

Lemma Qgeb_ge x y : Qgeb x y = true <-> y <= x.
Proof. unfold Qgeb. apply Qle_bool_iff. Qed.

(** The comprehensive monitor, outside a breach, as scan then close. *)
Lemma comprehensive_monitor s :
  drawdown_exceeded s = false ->
  Comprehensive.monitor_risks s
  = close_trades (close_with comprehensive_close_factor)
      (fst (scan_with comprehensive_factor (SystemConfig.take_profit_usdt config)
              None (System.active_trades s) [] s))
      (snd (scan_with comprehensive_factor (SystemConfig.take_profit_usdt config)
              None (System.active_trades s) [] s)).
Proof.
  intro H. unfold Comprehensive.monitor_risks. rewrite H.
  rewrite comprehensive_loop. unfold Dict.items.
  destruct (scan_with _ _ _ _ _ _) as [l s1]. cbn [fst snd].
  apply close_trades_ext. intros. apply comprehensive_close.
Qed.

Lemma enhanced_monitor s :
  drawdown_exceeded s = false ->
  Enhanced.monitor_risks s
  = close_trades (close_with enhanced_close_factor)
      (fst (scan_with enhanced_factor (4 # 10) (Some (5 # 100))
              (System.active_trades s) [] s))
      (snd (scan_with enhanced_factor (4 # 10) (Some (5 # 100))
              (System.active_trades s) [] s)).
Proof.
  intro H. unfold Enhanced.monitor_risks. rewrite H.
  rewrite enhanced_loop. unfold Dict.items.
  destruct (scan_with _ _ _ _ _ _) as [l s1]. cbn [fst snd].
  apply close_trades_ext. intros. apply enhanced_close.
Qed.

Lemma realistic_monitor s :
  drawdown_exceeded s = false ->
  Realistic.monitor_realistic_risks s
  = close_trades (close_with realistic_close_factor)
      (fst (scan_with realistic_factor (5 # 10) (Some (8 # 100))
              (System.active_trades s) [] s))
      (snd (scan_with realistic_factor (5 # 10) (Some (8 # 100))
              (System.active_trades s) [] s)).
Proof.
  intro H. unfold Realistic.monitor_realistic_risks. rewrite H.
  rewrite realistic_loop. unfold Dict.items.
  destruct (scan_with _ _ _ _ _ _) as [l s1]. cbn [fst snd].
  apply close_trades_ext. intros. apply realistic_close.
Qed.

Section Monitor.
Variable factor : Q -> Q.
Variable take_profit : Q.
Variable random_close : option Q.
Variable close_factor : string -> Q -> Q.

Let scan := scan_with factor take_profit random_close.
Let cycle (s : System.t) : System.t :=
  close_trades (close_with close_factor)
    (fst (scan (System.active_trades s) [] s))
    (snd (scan (System.active_trades s) [] s)).

(** A trade for which the loop decides a status is closed with it. *)
Lemma cycle_closes s pre k trade post status :
  Dict.wf (System.active_trades s) ->
  System.active_trades s = pre ++ (k, trade) :: post ->
  fst (decide factor take_profit random_close trade (snd (scan pre [] s)))
  = Some status ->
  Dict.get k (System.active_trades (cycle s)) = None
  /\ exists pnl,
       In (TradeResult.close pnl status trade) (System.trade_history (cycle s)).
Proof.
  intros Hwf Hsplit Hdec. unfold cycle.
  apply close_trades_closed.
  - apply scan_nodup. exact Hwf.
  - rewrite Hsplit. unfold scan. rewrite scan_middle. fold scan.
    rewrite Hdec. apply in_or_app. right. now left.
  - unfold scan. now rewrite scan_active.
  - unfold scan. rewrite scan_active. apply In_get; [assumption |].
    rewrite Hsplit. apply in_or_app. right. now left.
Qed.

(** A trade for which the loop decides nothing stays open, and no
    record with its id enters the history. *)
Lemma cycle_keeps s pre k trade post :
  Dict.wf (System.active_trades s) ->
  keyed (System.active_trades s) ->
  System.active_trades s = pre ++ (k, trade) :: post ->
  fst (decide factor take_profit random_close trade (snd (scan pre [] s)))
  = None ->
  Dict.get k (System.active_trades (cycle s)) = Some trade
  /\ forall t, In t (System.trade_history (cycle s)) ->
               TradeResult.trade_id t = k ->
               In t (System.trade_history s).
Proof.
  intros Hwf Hkeyed Hsplit Hdec.
  assert (Hnot : ~ In k (map fst (fst (scan (System.active_trades s) [] s)))).
  { rewrite Hsplit. unfold scan. rewrite scan_middle. fold scan.
    rewrite Hdec. cbn [app]. rewrite map_app. intro Hin.
    unfold Dict.wf, Dict.keys in Hwf. rewrite Hsplit, map_app in Hwf.
    cbn [map fst] in Hwf. apply NoDup_remove_2 in Hwf.
    apply Hwf. apply in_or_app. apply in_app_or in Hin.
    destruct Hin as [Hin | Hin]; [left | right]; eapply scan_keys; eauto. }
  unfold cycle. split.
  - rewrite close_trades_untouched by exact Hnot.
    unfold scan. rewrite scan_active. apply In_get; [assumption |].
    rewrite Hsplit. apply in_or_app. right. now left.
  - intros t Hin Hid.
    apply close_trades_history_origin in Hin.
    unfold scan in Hin. rewrite scan_history, scan_active in Hin.
    destruct Hin as [Hin | (k' & st & t0 & pnl & Hl & Ha & ->)]; [exact Hin |].
    exfalso. apply Hnot. apply Hkeyed in Ha. cbn in Hid.
    assert (k' = k) as -> by congruence.
    change k with (fst (k, st)). now apply in_map.
Qed.

End Monitor.

End MonitorFacts.

(** * Facts about the emergency stop *)

Module StopFacts.
Import Common Generic DictFacts CloseFacts GenericFacts.



Section Close.
Variable factor : string -> Q -> Q.
Local Abbreviation close := (close_with factor).



End Close.


(** On a drawdown breach the enhanced and the realistic monitors return
    the state they were given. *)
Lemma enhanced_breach_returns s :
  drawdown_exceeded s = true ->
  Enhanced.monitor_risks s = s /\ Realistic.monitor_realistic_risks s = s.
Proof.
  intro Hdd. unfold Enhanced.monitor_risks, Realistic.monitor_realistic_risks.
  now rewrite Hdd.
Qed.

End StopFacts.
(** * Facts about the ledger *)

Module LedgerFacts.
Import Common Generic DictFacts CloseFacts GenericFacts Ledger.

Lemma sum_values_snoc k v (d : dict Q) :
  py_sum (Dict.values (d ++ [(k, v)])) 0 == py_sum (Dict.values d) 0 + v.
Proof.
  unfold Dict.values. rewrite map_app, py_sum_app. cbn [map snd].
  rewrite py_sum_cons. change (py_sum [] 0) with 0. lra.
Qed.

Lemma sum_values_del k v (d : dict Q) :
  Dict.get k d = Some v ->
  py_sum (Dict.values (Dict.del k d)) 0 == py_sum (Dict.values d) 0 - v.
Proof.
  induction d as [| [k' v'] d IH]; cbn [Dict.get Dict.del]; [discriminate |].
  destruct (String.eqb k k').
  - intros [= ->]. unfold Dict.values. cbn [map snd].
    rewrite py_sum_cons. lra.
  - intro H. unfold Dict.values in *. cbn [map snd].
    rewrite !py_sum_cons, IH by assumption. lra.
Qed.

Ltac sys_simpl :=
  cbn [System.available_capital System.allocated_capital System.trade_history
       System.active_trades System.running System.performance_metrics
       System.rand_stream System.rand_pos
       System.set_active_trades System.set_allocated_capital
       System.set_available_capital System.set_trade_history
       System.set_rand_pos] in *.

(** The state left by a reservation. *)
Lemma reserve_raises trade s e :
  Machine.margin trade = Raise e ->
  snd (Machine.update_capital_allocation trade s) = s.
Proof.
  unfold Machine.margin, Machine.update_capital_allocation, bind, lift.
  now intros ->.
Qed.

Lemma reserve_ok trade s trade_capital :
  Machine.margin trade = Ok trade_capital ->
  snd (Machine.update_capital_allocation trade s)
  = System.set_allocated_capital
      (Dict.set (TradeResult.trade_id trade) trade_capital
         (System.allocated_capital s))
      (System.set_available_capital
         (Context.sub (System.available_capital s) trade_capital) s).
Proof.
  unfold Machine.margin, Machine.update_capital_allocation, bind, lift, modify.
  intros ->. now destruct s.
Qed.

(** A reservation keeps every open trade backed, whatever it rounds. *)
Lemma reserve_backed trade s :
  Dict.get (TradeResult.trade_id trade) (System.allocated_capital s) = None ->
  backed s ->
  backed (snd (Machine.update_capital_allocation trade s)).
Proof.
  intros Hfresh (Hwa & Hwt & Hsub).
  destruct (Machine.margin trade) as [tc | e] eqn:E.
  - rewrite (reserve_ok _ _ _ E).
    unfold backed. destruct s; sys_simpl. repeat split.
    + now apply wf_set_absent.
    + assumption.
    + intros k Hk. apply keys_set. right. auto.
  - rewrite (reserve_raises _ _ _ E). now repeat split.
Qed.

(** It keeps the ledger equation when the subtraction is not rounded. *)
Lemma reserve_conserved trade s :
  Dict.get (TradeResult.trade_id trade) (System.allocated_capital s) = None ->
  unrounded_op (Reserve trade) s ->
  conserved s ->
  conserved (snd (Machine.update_capital_allocation trade s)).
Proof.
  intros Hfresh Hexact Hc. cbn [unrounded_op] in Hexact.
  destruct (Machine.margin trade) as [tc | e] eqn:E.
  - rewrite (reserve_ok _ _ _ E).
    unfold conserved, allocated_sum, realized_pnl in *.
    unfold Context.exact in Hexact. unfold Context.sub.
    destruct s; sys_simpl.
    rewrite set_absent by assumption. rewrite sum_values_snoc. lra.
  - now rewrite (reserve_raises _ _ _ E).
Qed.

Lemma open_preserves trade s :
  In (TradeResult.trade_id trade) (Dict.keys (System.allocated_capital s)) ->
  backed s -> conserved s ->
  backed (step (Open trade) s) /\ conserved (step (Open trade) s).
Proof.
  intros Hin (Hwa & Hwt & Hsub) Hc. cbn [step]. split.
  - unfold backed. destruct s; sys_simpl. repeat split.
    + assumption.
    + now apply wf_set.
    + intros k Hk. apply keys_set in Hk. destruct Hk as [-> | Hk]; auto.
  - unfold conserved, allocated_sum, realized_pnl in *. now destruct s.
Qed.

Lemma profit_of_close pnl status trade :
  profit_of (TradeResult.close pnl status trade) = pnl.
Proof. reflexivity. Qed.

(** The state left by a release. *)
Lemma release_absent trade_id status s :
  Dict.get trade_id (System.active_trades s) = None ->
  Machine.close_trade trade_id status s = s.
Proof. unfold Machine.close_trade. now intros ->. Qed.

Lemma release_returns trade_id status s trade capital_returned :
  Dict.get trade_id (System.active_trades s) = Some trade ->
  Dict.get trade_id (System.allocated_capital s) = Some capital_returned ->
  let pnl := Machine.closing_pnl trade s in
  Machine.close_trade trade_id status s
  = System.set_trade_history
      (System.trade_history s ++ [TradeResult.close pnl status trade])
      (System.set_available_capital
         (Context.add (System.available_capital s)
                      (Context.add capital_returned pnl))
         (System.set_allocated_capital
            (Dict.del trade_id (System.allocated_capital s))
            (System.set_rand_pos (S (System.rand_pos s))
               (System.set_active_trades
                  (Dict.del trade_id (System.active_trades s)) s)))).
Proof.
  intros Ha Hc. cbv zeta.
  unfold Machine.close_trade, Machine.closing_pnl, Machine.random_uniform,
    random_random.
  rewrite Ha. destruct s; sys_simpl. cbn [fst]. now rewrite Hc.
Qed.

Lemma release_unbacked trade_id status s trade :
  Dict.get trade_id (System.active_trades s) = Some trade ->
  Dict.get trade_id (System.allocated_capital s) = None ->
  Machine.close_trade trade_id status s
  = System.set_trade_history
      (System.trade_history s
       ++ [TradeResult.close (Machine.closing_pnl trade s) status trade])
      (System.set_rand_pos (S (System.rand_pos s))
         (System.set_active_trades
            (Dict.del trade_id (System.active_trades s)) s)).
Proof.
  intros Ha Hc.
  unfold Machine.close_trade, Machine.closing_pnl, Machine.random_uniform,
    random_random.
  rewrite Ha. destruct s; sys_simpl. cbn [fst]. now rewrite Hc.
Qed.

(** A release keeps every open trade backed, whatever it rounds. *)
Lemma release_backed trade_id status s :
  backed s -> backed (Machine.close_trade trade_id status s).
Proof.
  intros (Hwa & Hwt & Hsub).
  destruct (Dict.get trade_id (System.active_trades s)) as [trade |] eqn:Eact.
  2: { rewrite release_absent by assumption. now repeat split. }
  assert (Hin : In trade_id (Dict.keys (System.allocated_capital s))).
  { apply Hsub. eapply get_Some_keys; eauto. }
  apply keys_get in Hin. destruct Hin as [capital Ealloc].
  rewrite (release_returns _ _ _ _ _ Eact Ealloc).
  unfold backed. destruct s; sys_simpl.
  repeat split; [now apply wf_del | now apply wf_del |].
  intros k Hk.
  assert (k <> trade_id) by (eapply keys_del; eauto).
  apply keys_del_other; [assumption |].
  apply Hsub. eapply keys_del_subset; eauto.
Qed.

(** It keeps the ledger equation of a backed ledger when the two
    additions are not rounded. *)
Lemma release_conserved trade_id status s :
  unrounded_op (Release trade_id status) s ->
  backed s -> conserved s ->
  conserved (Machine.close_trade trade_id status s).
Proof.
  intros Hexact (Hwa & Hwt & Hsub) Hc. cbn [unrounded_op] in Hexact.
  destruct (Dict.get trade_id (System.active_trades s)) as [trade |] eqn:Eact.
  2: { now rewrite release_absent by assumption. }
  assert (Hin : In trade_id (Dict.keys (System.allocated_capital s))).
  { apply Hsub. eapply get_Some_keys; eauto. }
  apply keys_get in Hin. destruct Hin as [capital Ealloc].
  rewrite Ealloc in Hexact. cbv zeta in Hexact. destruct Hexact as [H1 H2].
  rewrite (release_returns _ _ _ _ _ Eact Ealloc).
  unfold conserved, allocated_sum, realized_pnl in *.
  unfold Context.exact in H1, H2. unfold Context.add in *.
  destruct s; sys_simpl.
  rewrite (sum_values_del _ _ _ Ealloc).
  rewrite map_app, py_sum_app. cbn [map]. rewrite profit_of_close.
  rewrite py_sum_cons. change (py_sum [] 0) with 0. lra.
Qed.

Lemma step_preserves o s :
  orderly_op o s ->
  unrounded_op o s ->
  backed s -> conserved s ->
  backed (step o s) /\ conserved (step o s).
Proof.
  destruct o as [trade | trade | trade_id status]; cbn [orderly_op step].
  - intros Hf Hx Hb Hc. split;
      [now apply reserve_backed | now apply reserve_conserved].
  - intros Hin _. now apply open_preserves.
  - intros _ Hx Hb Hc. split;
      [now apply release_backed | now apply release_conserved].
Qed.

End LedgerFacts.

(** * Facts about the performance tracker *)

Module PerfFacts.
Import Common Perf.

Lemma Qltb_irrefl x : Qltb x x = false.
Proof. apply Qltb_ge. apply Qle_refl. Qed.

Lemma py_max_idem a b : py_max (py_max a b) b = py_max a b.
Proof.
  unfold py_max. destruct (Qltb a b) eqn:E.
  - now rewrite Qltb_irrefl.
  - now rewrite E.
Qed.

(** The refresh reads the ledger and the history and writes the metrics
    (and reads the clock once). *)
Lemma refresh_history s :
  System.trade_history (update_performance_tracking s) = System.trade_history s.
Proof. now destruct s. Qed.

Lemma refresh_available s :
  System.available_capital (update_performance_tracking s)
  = System.available_capital s.
Proof. now destruct s. Qed.

Lemma refresh_allocated s :
  System.allocated_capital (update_performance_tracking s)
  = System.allocated_capital s.
Proof. now destruct s. Qed.

Lemma refresh_active s :
  System.active_trades (update_performance_tracking s) = System.active_trades s.
Proof. now destruct s. Qed.

Lemma refresh_running s :
  System.running (update_performance_tracking s) = System.running s.
Proof. now destruct s. Qed.

Lemma refresh_total s :
  PerformanceMetrics.total_trades
    (System.performance_metrics (update_performance_tracking s))
  = len (System.trade_history s).
Proof. now destruct s. Qed.

Lemma refresh_successful s :
  PerformanceMetrics.successful_trades
    (System.performance_metrics (update_performance_tracking s))
  = len (filter (status_is "ProfitTaken") (System.trade_history s)).
Proof. now destruct s. Qed.

Lemma refresh_win_rate s :
  PerformanceMetrics.win_rate
    (System.performance_metrics (update_performance_tracking s))
  = if (len (System.trade_history s) >? 0)%Z
    then inject_int (len (filter (status_is "ProfitTaken") (System.trade_history s)))
         / inject_int (len (System.trade_history s))
    else PerformanceMetrics.win_rate (System.performance_metrics s).
Proof. now destruct s. Qed.

Lemma refresh_current_drawdown s :
  PerformanceMetrics.current_drawdown
    (System.performance_metrics (update_performance_tracking s))
  = if Qltb (current_capital s) (SystemConfig.total_capital config)
    then to_float ((SystemConfig.total_capital config - current_capital s)
                   / SystemConfig.total_capital config)
    else PerformanceMetrics.current_drawdown (System.performance_metrics s).
Proof. now destruct s. Qed.

Lemma refresh_max_drawdown s :
  PerformanceMetrics.max_drawdown_reached
    (System.performance_metrics (update_performance_tracking s))
  = if Qltb (current_capital s) (SystemConfig.total_capital config)
    then py_max
           (PerformanceMetrics.max_drawdown_reached (System.performance_metrics s))
           (to_float ((SystemConfig.total_capital config - current_capital s)
                      / SystemConfig.total_capital config))
    else PerformanceMetrics.max_drawdown_reached (System.performance_metrics s).
Proof.
  destruct s. unfold update_performance_tracking, current_capital.
  cbn [time_ms System.performance_metrics System.set_performance_metrics
       System.available_capital System.allocated_capital
       PerformanceMetrics.max_drawdown_reached].
  destruct (Qltb _ _); reflexivity.
Qed.

(** With a non-empty history the history part is a function of the
    history alone. *)
Lemma refresh_history_part s1 s2 :
  System.trade_history s1 = System.trade_history s2 ->
  (len (System.trade_history s1) > 0)%Z ->
  history_part (System.performance_metrics (update_performance_tracking s1))
  = history_part (System.performance_metrics (update_performance_tracking s2)).
Proof.
  intros Hh Hpos. apply Z.gtb_gt in Hpos.
  destruct s1, s2.
  cbn [System.trade_history] in *. subst.
  unfold update_performance_tracking, history_part.
  cbn [time_ms System.trade_history System.performance_metrics
       System.set_performance_metrics System.set_clock_pos
       PerformanceMetrics.total_trades PerformanceMetrics.successful_trades
       PerformanceMetrics.failed_trades PerformanceMetrics.total_profit
       PerformanceMetrics.total_loss PerformanceMetrics.win_rate
       PerformanceMetrics.average_profit_per_trade].
  now rewrite Hpos.
Qed.

Lemma refresh_published_part_idem s :
  published_part (System.performance_metrics
                    (update_performance_tracking (update_performance_tracking s)))
  = published_part (System.performance_metrics (update_performance_tracking s)).
Proof.
  unfold published_part.
  rewrite (refresh_current_drawdown (update_performance_tracking s)).
  rewrite (refresh_max_drawdown (update_performance_tracking s)).
  unfold current_capital. rewrite refresh_available, refresh_allocated.
  fold (current_capital s).
  rewrite refresh_current_drawdown, refresh_max_drawdown.
  destruct (Qltb (current_capital s) (SystemConfig.total_capital config)) eqn:E.
  - rewrite py_max_idem. f_equal. f_equal.
    destruct s.
    unfold update_performance_tracking, history_part.
    cbn [time_ms System.trade_history System.performance_metrics
         System.set_performance_metrics System.set_clock_pos
         PerformanceMetrics.total_trades PerformanceMetrics.successful_trades
         PerformanceMetrics.failed_trades PerformanceMetrics.total_profit
         PerformanceMetrics.total_loss PerformanceMetrics.win_rate
         PerformanceMetrics.average_profit_per_trade].
    destruct (len trade_history >? 0)%Z; reflexivity.
  - f_equal. f_equal.
    destruct s.
    unfold update_performance_tracking, history_part.
    cbn [time_ms System.trade_history System.performance_metrics
         System.set_performance_metrics System.set_clock_pos
         PerformanceMetrics.total_trades PerformanceMetrics.successful_trades
         PerformanceMetrics.failed_trades PerformanceMetrics.total_profit
         PerformanceMetrics.total_loss PerformanceMetrics.win_rate
         PerformanceMetrics.average_profit_per_trade].
    destruct (len trade_history >? 0)%Z; reflexivity.
Qed.

Lemma refresh_n_published_part n : forall s,
  published_part (System.performance_metrics (refresh_n (S n) s))
  = published_part (System.performance_metrics (update_performance_tracking s)).
Proof.
  induction n as [| n IH]; intro s; [reflexivity |].
  change (refresh_n (S (S n)) s)
    with (update_performance_tracking (refresh_n (S n) s)).
  unfold refresh_n in *.
  rewrite <- (IH s). clear IH.
  generalize (Nat.iter n update_performance_tracking s). intro s0.
  cbn [Nat.iter nat_rect].
  apply refresh_published_part_idem.
Qed.

End PerfFacts.

(** * The claims *)

Import Common Generic DictFacts CloseFacts ScanFacts GenericFacts MonitorFacts.

(** ** Stop-loss rule (comprehensive monitor) *)

(** C5.  In a risk-monitor cycle without a drawdown breach, every open
    trade whose P&L [(currentPrice - entryPrice) * quantity * sign], taken
    at the price the cycle draws for it (the [i]-th open trade receives the
    [i]-th draw of the cycle), is below [-entryPrice * stop_loss_pct],
    leaves the open set, and the history holds its record with status
    [StopLoss] and a booked P&L; the take-profit test is not consulted for
    it. *)
Theorem C5_stop_loss_rule :
  forall (s : System.t) (i : nat) (trade_id : string) (trade : TradeResult.t),
    Dict.wf (System.active_trades s) ->
    drawdown_exceeded s = false ->
    nth_error (Dict.items (System.active_trades s)) i = Some (trade_id, trade) ->
    Risk.stop_loss_hit trade
      (Risk.pnl_at trade
         (TradeResult.price trade
          * fst (random_uniform (995 # 1000) (1005 # 1000)
                   (System.set_rand_pos (System.rand_pos s + i) s)))) ->
    Dict.get trade_id (System.active_trades (Comprehensive.monitor_risks s)) = None
    /\ exists r,
         In r (System.trade_history (Comprehensive.monitor_risks s))
         /\ TradeResult.status r = "StopLoss"
         /\ Lifecycle.record_of trade r.
Proof.
  intros s i trade_id trade Hwf Hdd Hnth Hhit.
  rewrite comprehensive_monitor by exact Hdd.
  apply nth_error_split in Hnth. destruct Hnth as (pre & post & Hsplit & Hlen).
  unfold Dict.items in Hsplit.
  destruct (cycle_closes comprehensive_factor (SystemConfig.take_profit_usdt config)
              None comprehensive_close_factor
              s pre trade_id trade post "StopLoss" Hwf Hsplit)
    as [Hnone [pnl Hin]].
  { unfold decide. cbn [random_random].
    rewrite scan_rand_stream, scan_rand_pos, Hlen.
    replace (Qltb _ _) with true; [reflexivity |].
    symmetry. apply Qltb_lt. rewrite calculate_pnl_spec.
    unfold Risk.stop_loss_hit in Hhit. unfold stop_loss_threshold, Decimal_str.
    destruct s. exact Hhit. }
  split; [exact Hnone |].
  exists (TradeResult.close pnl "StopLoss" trade).
  split; [exact Hin |].
  split; [apply RecordFacts.close_status | apply RecordFacts.close_record].
Qed.

Lemma C5_stop_loss_rule_witness :
  Risk.pnl_at Scenario.stop_loss_trade (100 * (997 # 1000)) == - (3 # 10)
  /\ Dict.get "trade-1700000000000"
       (System.active_trades (Comprehensive.monitor_risks Scenario.stop_loss_state)) = None
  /\ exists r,
       In r (System.trade_history (Comprehensive.monitor_risks Scenario.stop_loss_state))
       /\ TradeResult.status r = "StopLoss"
       /\ Lifecycle.record_of Scenario.stop_loss_trade r.
Proof.
  split; [reflexivity |].
  apply (C5_stop_loss_rule Scenario.stop_loss_state 0 "trade-1700000000000" Scenario.stop_loss_trade).
  - repeat constructor. simpl. tauto.
  - reflexivity.
  - reflexivity.
  - reflexivity.
Defined.

(** ** No exit other than the documented rules *)

(** C6, as the code has it.  In a risk-monitor cycle without a drawdown
    breach, an open trade whose P&L meets neither the stop-loss nor the
    take-profit condition stays in the open set, and no record with its id
    enters the closed history,
    - in the comprehensive monitor: always;
    - in the enhanced monitor: when the draw that follows its price draw
      is not below 0.05;
    - in the realistic monitor: when that draw is not below 0.08.
    [pre] are the open trades scanned before it; the state in which its
    price is drawn is the one the loop has reached after [pre]. *)
Theorem C6_open_unless_rule_or_random_close :
  forall (s : System.t) (pre post : list (string * TradeResult.t))
         (trade_id : string) (trade : TradeResult.t),
    Dict.wf (System.active_trades s) ->
    Risk.keyed (System.active_trades s) ->
    drawdown_exceeded s = false ->
    Dict.items (System.active_trades s) = pre ++ (trade_id, trade) :: post ->
    (let s1 := snd (Comprehensive.monitor_loop pre [] s) in
     let pnl := Risk.pnl_at trade
                  (TradeResult.price trade
                   * fst (random_uniform (995 # 1000) (1005 # 1000) s1)) in
     ~ Risk.stop_loss_hit trade pnl ->
     ~ Risk.take_profit_hit (SystemConfig.take_profit_usdt config) pnl ->
     let s' := Comprehensive.monitor_risks s in
     Dict.get trade_id (System.active_trades s') = Some trade
     /\ forall t, In t (System.trade_history s') ->
                  TradeResult.trade_id t = trade_id ->
                  In t (System.trade_history s))
    /\
    (let s1 := snd (Enhanced.monitor_loop pre [] s) in
     let pnl := Risk.pnl_at trade
                  (TradeResult.price trade
                   * (1 + fst (random_uniform (- (8 # 1000)) (12 # 1000) s1))) in
     let r := fst (random_random (snd (random_uniform (- (8 # 1000)) (12 # 1000) s1))) in
     ~ Risk.stop_loss_hit trade pnl ->
     ~ Risk.take_profit_hit (4 # 10) pnl ->
     ~ r < 5 # 100 ->
     let s' := Enhanced.monitor_risks s in
     Dict.get trade_id (System.active_trades s') = Some trade
     /\ forall t, In t (System.trade_history s') ->
                  TradeResult.trade_id t = trade_id ->
                  In t (System.trade_history s))
    /\
    (let s1 := snd (Realistic.monitor_loop pre [] s) in
     let pnl := Risk.pnl_at trade
                  (TradeResult.price trade
                   * (1 + fst (random_uniform (- (6 # 1000)) (10 # 1000) s1))) in
     let r := fst (random_random (snd (random_uniform (- (6 # 1000)) (10 # 1000) s1))) in
     ~ Risk.stop_loss_hit trade pnl ->
     ~ Risk.take_profit_hit (5 # 10) pnl ->
     ~ r < 8 # 100 ->
     let s' := Realistic.monitor_realistic_risks s in
     Dict.get trade_id (System.active_trades s') = Some trade
     /\ forall t, In t (System.trade_history s') ->
                  TradeResult.trade_id t = trade_id ->
                  In t (System.trade_history s)).
Proof.
  intros s pre post trade_id trade Hwf Hkeyed Hdd Hsplit.
  unfold Dict.items in Hsplit.
  split; [| split].
  - intros s1 pnl Hsl Htp s'. subst s'.
    rewrite comprehensive_monitor by exact Hdd.
    apply (cycle_keeps _ _ _ _ s pre trade_id trade post Hwf Hkeyed Hsplit).
    subst pnl s1. rewrite comprehensive_loop in Hsl, Htp.
    unfold decide. cbn [random_random].
    unfold Risk.stop_loss_hit, Risk.take_profit_hit in *.
    rewrite <- calculate_pnl_spec in Hsl, Htp.
    destruct (Qltb _ _) eqn:E1.
    { exfalso. apply Hsl. apply Qltb_lt in E1. exact E1. }
    destruct (Qgeb _ _) eqn:E2.
    { exfalso. apply Htp. apply Qgeb_ge in E2. exact E2. }
    reflexivity.
  - intros s1 pnl r Hsl Htp Hr s'. subst s'.
    rewrite enhanced_monitor by exact Hdd.
    apply (cycle_keeps _ _ _ _ s pre trade_id trade post Hwf Hkeyed Hsplit).
    subst pnl r s1. rewrite enhanced_loop in Hsl, Htp, Hr.
    unfold decide. cbn [random_random].
    unfold Risk.stop_loss_hit, Risk.take_profit_hit in *.
    rewrite <- calculate_pnl_spec in Hsl, Htp.
    destruct (Qltb _ _) eqn:E1.
    { exfalso. apply Hsl. apply Qltb_lt in E1. exact E1. }
    destruct (Qgeb _ _) eqn:E2.
    { exfalso. apply Htp. apply Qgeb_ge in E2. exact E2. }
    destruct (Qltb (System.rand_stream _ _) _) eqn:E3.
    { exfalso. apply Hr. apply Qltb_lt in E3. exact E3. }
    reflexivity.
  - intros s1 pnl r Hsl Htp Hr s'. subst s'.
    rewrite realistic_monitor by exact Hdd.
    apply (cycle_keeps _ _ _ _ s pre trade_id trade post Hwf Hkeyed Hsplit).
    subst pnl r s1. rewrite realistic_loop in Hsl, Htp, Hr.
    unfold decide. cbn [random_random].
    unfold Risk.stop_loss_hit, Risk.take_profit_hit in *.
    rewrite <- calculate_pnl_spec in Hsl, Htp.
    destruct (Qltb _ _) eqn:E1.
    { exfalso. apply Hsl. apply Qltb_lt in E1. exact E1. }
    destruct (Qgeb _ _) eqn:E2.
    { exfalso. apply Htp. apply Qgeb_ge in E2. exact E2. }
    destruct (Qltb (System.rand_stream _ _) _) eqn:E3.
    { exfalso. apply Hr. apply Qltb_lt in E3. exact E3. }
    reflexivity.
Qed.

Lemma C6_open_unless_rule_or_random_close_witness :
  let kept s' :=
    Dict.get "trade-1700000000000" (System.active_trades s')
    = Some Scenario.stop_loss_trade
    /\ forall t, In t (System.trade_history s') ->
                 TradeResult.trade_id t = "trade-1700000000000" ->
                 In t (System.trade_history Scenario.quiet_state) in
  kept (Comprehensive.monitor_risks Scenario.quiet_state)
  /\ kept (Enhanced.monitor_risks Scenario.quiet_state)
  /\ kept (Realistic.monitor_realistic_risks Scenario.quiet_state).
Proof.
  assert (Hwf : Dict.wf (System.active_trades Scenario.quiet_state)).
  { repeat constructor. simpl. tauto. }
  assert (Hkeyed : Risk.keyed (System.active_trades Scenario.quiet_state)).
  { intros k t [[= <- <-] | []]. reflexivity. }
  destruct (C6_open_unless_rule_or_random_close Scenario.quiet_state [] []
              "trade-1700000000000" Scenario.stop_loss_trade
              Hwf Hkeyed eq_refl eq_refl) as (Hc & He & Hr).
  split; [| split].
  - apply Hc; intro H; vm_compute in H; solve [discriminate H | apply H; reflexivity].
  - apply He; intro H; vm_compute in H; solve [discriminate H | apply H; reflexivity].
  - apply Hr; intro H; vm_compute in H; solve [discriminate H | apply H; reflexivity].
Defined.

(** C6 fails as stated: in the enhanced monitor a trade with P&L 0, which
    meets neither rule, is closed (as [StopLoss]) because the random-close
    draw 0.01 is below 0.05. *)
Lemma C6_counterexample :
  let s := Scenario.random_close_state in
  let trade := Scenario.stop_loss_trade in
  let pnl := Risk.pnl_at trade
               (TradeResult.price trade
                * (1 + fst (random_uniform (- (8 # 1000)) (12 # 1000) s))) in
  drawdown_exceeded s = false
  /\ Dict.get "trade-1700000000000" (System.active_trades s) = Some trade
  /\ pnl == 0
  /\ ~ Risk.stop_loss_hit trade pnl
  /\ ~ Risk.take_profit_hit (4 # 10) pnl
  /\ Dict.get "trade-1700000000000"
       (System.active_trades (Enhanced.monitor_risks s)) = None
  /\ map TradeResult.status (System.trade_history (Enhanced.monitor_risks s))
     = ["StopLoss"].
Proof.
  cbv zeta. repeat split.
  - intro H. vm_compute in H. discriminate H.
  - intro H. vm_compute in H. apply H. reflexivity.
Qed.

(** ** Drawdown breach *)

(** C3, at the failing input.  With a recorded drawdown of 1.2% against
    the limit of 0.9% and one open trade, the enhanced and the realistic
    monitors return the state unchanged: the trade stays open with status
    [Executed], its allocation stays in the ledger and [running] stays
    true.  The comprehensive monitor, on the same state, cancels the trade,
    removes its allocation and clears [running]. *)
Theorem C3_enhanced_breach_does_not_halt :
  let s := Scenario.breach_state in
  PerformanceMetrics.current_drawdown (System.performance_metrics s) == 12 # 1000
  /\ SystemConfig.max_drawdown config == 9 # 1000
  /\ drawdown_exceeded s = true
  /\ System.running s = true
  /\ Enhanced.monitor_risks s = s
  /\ Realistic.monitor_realistic_risks s = s
  /\ System.running (Enhanced.monitor_risks s) = true
  /\ Dict.get "trade-1700000000000" (System.active_trades (Enhanced.monitor_risks s))
     = Some Scenario.stop_loss_trade
  /\ Dict.get "trade-1700000000000" (System.allocated_capital (Enhanced.monitor_risks s))
     = Some 2
  /\ System.running (Comprehensive.monitor_risks s) = false
  /\ System.active_trades (Comprehensive.monitor_risks s) = []
  /\ System.allocated_capital (Comprehensive.monitor_risks s) = []
  /\ map TradeResult.status (System.trade_history (Comprehensive.monitor_risks s))
     = ["StopLoss"; "Cancelled"].
Proof.
  cbv zeta.
  assert (Hdd : drawdown_exceeded Scenario.breach_state = true)
    by (vm_compute; reflexivity).
  destruct (StopFacts.enhanced_breach_returns _ Hdd) as [He Hr].
  rewrite He, Hr.
  repeat match goal with |- _ /\ _ => split end;
    try reflexivity; vm_compute; reflexivity.
Qed.

(** ** Double release *)

(** C7, as the code has it.  A second release of a trade id that has
    already been released is a silent no-op: it returns the state left by
    the first release unchanged (ledger, open set, history, metrics and
    [running] flag), in the comprehensive, the enhanced and the realistic
    class alike. *)
Theorem C7_double_release_is_noop :
  forall (s : System.t) (trade_id status status' : string),
    Dict.wf (System.active_trades s) ->
    (let s1 := Comprehensive.close_trade trade_id status s in
     Comprehensive.close_trade trade_id status' s1 = s1)
    /\ (let s1 := Enhanced.close_trade trade_id status s in
        Enhanced.close_trade trade_id status' s1 = s1)
    /\ (let s1 := Realistic.close_realistic_trade trade_id status s in
        Realistic.close_realistic_trade trade_id status' s1 = s1).
Proof.
  intros s trade_id status status' Hwf. cbv zeta.
  repeat split.
  - rewrite (comprehensive_close trade_id status s), comprehensive_close.
    apply close_absent. rewrite close_active. now apply get_del_same.
  - rewrite (enhanced_close trade_id status s), enhanced_close.
    apply close_absent. rewrite close_active. now apply get_del_same.
  - rewrite (realistic_close trade_id status s), realistic_close.
    apply close_absent. rewrite close_active. now apply get_del_same.
Qed.

Lemma C7_double_release_is_noop_witness :
  let s := Scenario.stop_loss_state in
  let s1 := Comprehensive.close_trade "trade-1700000000000" "StopLoss" s in
  let s2 := Enhanced.close_trade "trade-1700000000000" "StopLoss" s in
  let s3 := Realistic.close_realistic_trade "trade-1700000000000" "StopLoss" s in
  Comprehensive.close_trade "trade-1700000000000" "StopLoss" s1 = s1
  /\ Enhanced.close_trade "trade-1700000000000" "StopLoss" s2 = s2
  /\ Realistic.close_realistic_trade "trade-1700000000000" "StopLoss" s3 = s3.
Proof.
  apply (C7_double_release_is_noop Scenario.stop_loss_state
           "trade-1700000000000" "StopLoss" "StopLoss").
  repeat constructor. simpl. tauto.
Defined.

(** C7 fails as stated: after a trade has been released, releasing it
    again completes silently and leaves the system running. *)
Lemma C7_counterexample :
  let s1 := Comprehensive.close_trade "trade-1700000000000" "StopLoss"
              Scenario.stop_loss_state in
  let s2 := Comprehensive.close_trade "trade-1700000000000" "StopLoss" s1 in
  Dict.get "trade-1700000000000" (System.active_trades s1) = None
  /\ Dict.get "trade-1700000000000" (System.allocated_capital s1) = None
  /\ System.running s1 = true
  /\ System.running s2 = true
  /\ s2 = s1.
Proof. cbv zeta. repeat split. Qed.

(** ** Capital conservation *)

(** C1, as the code has it.  From a state in which the ledger equation
    [available + sum(allocated) == total_capital + sum(realized P&L)] holds
    and every open trade has an entry in [allocated_capital] (the initial
    state is one), the equation holds after every operation of any sequence
    of reservations ([update_capital_allocation]), insertions into the
    open set and releases ([close_trade]), computed as the interpreter
    computes them, in which each reservation uses a trade id that has no
    entry in [allocated_capital] at that point, each insertion follows the
    reservation of its trade, and the decimal context rounds none of the
    updates of [available_capital] (the difference
    [available_capital - trade_capital] of a reservation, the sums
    [capital_returned + pnl] and [available_capital + (capital_returned +
    pnl)] of a release have at most 28 significant digits).  (Every
    release in such a sequence finds the allocation of the trade it
    closes, or finds no open trade and changes nothing.) *)
Theorem C1_conservation_of_backed_ledger :
  forall (ops : list Ledger.op) (s : System.t),
    Ledger.backed s ->
    Ledger.conserved s ->
    Ledger.orderly ops s ->
    Ledger.unrounded ops s ->
    Forall Ledger.conserved (Ledger.trace ops s).
Proof.
  induction ops as [| o ops IH]; intros s Hb Hc Hf Hx; cbn [Ledger.trace].
  - constructor.
  - destruct Hf as [Ho Hf]. destruct Hx as [Hxo Hx].
    destruct (LedgerFacts.step_preserves o s Ho Hxo Hb Hc) as [Hb' Hc'].
    constructor; [exact Hc' | now apply IH].
Qed.

Lemma C1_conservation_of_backed_ledger_witness :
  Forall Ledger.conserved (Ledger.trace Scenario.ledger_ops Scenario.fresh_state).
Proof.
  apply C1_conservation_of_backed_ledger.
  - repeat split; try constructor. intros k [].
  - reflexivity.
  - vm_compute. repeat split; auto.
  - vm_compute. repeat split; auto.
Defined.

(** C1 fails as stated, twice.

    Releasing an open trade whose id has no entry in [allocated_capital]
    appends its P&L (-0.30) to the history and leaves [available_capital]
    at 12.00, so the equation, which held before, reads
    12 + 0 = 12 - 0.30 afterwards.

    And in a backed ledger: reserving, from the initial state, two trades
    of one unit at 7.00 with leverage 51 books the margin
    0.1372549019607843137254901961 twice and leaves
    11.86274509803921568627450980 and then 11.72549019607843137254901960
    of available capital, each the difference rounded to 28 digits; the
    equation fails after the first reservation and after the second, where
    Python's own sum [available_capital + sum(allocated_capital.values())]
    is 11.99999999999999999999999999. *)
Lemma C1_counterexample :
  (let s := Scenario.unbacked_state in
   let s' := Ledger.step (Ledger.Release "trade-1700000000000" "StopLoss") s in
   Ledger.conserved s
   /\ Dict.get "trade-1700000000000" (System.allocated_capital s) = None
   /\ System.available_capital s' == 12
   /\ Ledger.allocated_sum s' == 0
   /\ Ledger.realized_pnl s' == - (3 # 10)
   /\ ~ Ledger.conserved s')
  /\
  (let s := Scenario.fresh_state in
   Ledger.backed s
   /\ Ledger.conserved s
   /\ Ledger.orderly Scenario.thin_ops s
   /\ exists s1 s2,
        Ledger.trace Scenario.thin_ops s = [s1; s2]
        /\ Ledger.allocated_sum s1 == 0.1372549019607843137254901961
        /\ System.available_capital s1 == 11.86274509803921568627450980
        /\ ~ Ledger.conserved s1
        /\ Ledger.allocated_sum s2 == 0.2745098039215686274509803922
        /\ System.available_capital s2 == 11.72549019607843137254901960
        /\ ~ Ledger.conserved s2
        /\ Ledger.evaluated_left s2 == 11.99999999999999999999999999
        /\ Ledger.evaluated_right s2 == 12).
Proof.
  cbv zeta. split.
  - repeat split; intro H; vm_compute in H; discriminate H.
  - split; [repeat split; try constructor; intros k [] |].
    split; [reflexivity |].
    split; [vm_compute; repeat split; auto |].
    eexists. eexists. split; [reflexivity |].
    repeat split; intro H; vm_compute in H; discriminate H.
Qed.

(** The side condition on reservations is needed: a reservation under an
    id that already has an allocation overwrites it, and the capital of
    the overwritten entry leaves the equation. *)
Lemma reserve_reused_id_breaks_conservation :
  let s := Ledger.step (Ledger.Reserve Scenario.stop_loss_trade) Scenario.fresh_state in
  let s' := Ledger.step (Ledger.Reserve Scenario.stop_loss_trade) s in
  Ledger.conserved s
  /\ ~ Ledger.orderly_op (Ledger.Reserve Scenario.stop_loss_trade) s
  /\ Ledger.unrounded_op (Ledger.Reserve Scenario.stop_loss_trade) s
  /\ System.available_capital s' == 8
  /\ Ledger.allocated_sum s' == 2
  /\ ~ Ledger.conserved s'.
Proof.
  cbv zeta. repeat split; intro H; vm_compute in H; discriminate H.
Qed.

(** So is the condition on rounding, and it is met exactly when the
    stored balance is the computed one: the first reservation above is
    orderly and breaks the equation because its subtraction is rounded. *)
Lemma rounded_reservation_breaks_conservation :
  let o := Ledger.Reserve (Scenario.thin_trade "trade-1700000060000") in
  Ledger.orderly_op o Scenario.fresh_state
  /\ ~ Ledger.unrounded_op o Scenario.fresh_state
  /\ ~ Ledger.conserved (Ledger.step o Scenario.fresh_state).
Proof.
  cbv zeta. split; [reflexivity |].
  split; intro H; vm_compute in H; discriminate H.
Qed.

(** ** No over-commitment *)

(** C2, at the failing input.  In a consistent ledger state (every open
    trade backed, the ledger equation holding) with exactly 5.00 available, the
    comprehensive execution cycle sizes the position from a trade capital
    of [min(5.00, 5) = 5.00] at leverage 75 and price 9.00; the quantity
    375/9 = 41.666... is rounded up to 41.6667, and the margin recomputed
    from it, 41.6667 * 9 / 75 = 5.000004, exceeds the 5.00 available: the
    cycle succeeds and leaves [available_capital] at -0.000004. *)
Theorem C2_rounded_margin_exceeds_available :
  let s := Scenario.overcommit_state in
  let s' := snd (Comprehensive.execute_trading_cycle s) in
  Ledger.backed s /\ Ledger.conserved s
  /\ fst (Comprehensive.execute_trading_cycle s) = Ok true
  /\ System.available_capital s == 5
  /\ (exists trade margin,
        Dict.get "trade-1700000060000" (System.active_trades s') = Some trade
        /\ Dict.get "trade-1700000060000" (System.allocated_capital s') = Some margin
        /\ TradeResult.leverage trade = 75%Z
        /\ TradeResult.quantity trade == 416667 # 10000
        /\ margin == TradeResult.quantity trade * TradeResult.price trade
                     / inject_Z (TradeResult.leverage trade)
        /\ margin == 5000004 # 1000000
        /\ System.available_capital s < margin)
  /\ System.available_capital s' == - (4 # 1000000)
  /\ System.available_capital s' < 0.
Proof.
  cbv zeta.
  split. { repeat split; try (repeat constructor; simpl; tauto). intros k H; exact H. }
  split; [vm_compute; reflexivity |].
  split; [vm_compute; reflexivity |]. split; [reflexivity |]. split.
  - eexists. eexists.
    split; [vm_compute; reflexivity |].
    split; [vm_compute; reflexivity |].
    repeat split.
  - split; reflexivity.
Qed.

(** ** The ledger scenario (enhanced class) *)

(** With less than 3.00 available the enhanced execution cycle returns
    [False] and changes nothing. *)
Lemma enhanced_cycle_without_capital s :
  System.available_capital s < 3 ->
  Enhanced.execute_trading_cycle s = (Ok false, s).
Proof.
  intro H. unfold Enhanced.execute_trading_cycle, bind, gets. cbn.
  apply Qltb_lt in H. now rewrite H.
Qed.

(** A release credits the margin of the trade plus its P&L. *)
Lemma enhanced_release_credits trade_id status s trade margin :
  Dict.get trade_id (System.active_trades s) = Some trade ->
  Dict.get trade_id (System.allocated_capital s) = Some margin ->
  System.available_capital (Enhanced.close_trade trade_id status s)
  = System.available_capital s
    + (margin + closing_pnl Generic.enhanced_close_factor status trade s).
Proof.
  intros Ha Hm. rewrite enhanced_close, close_available. now rewrite Ha, Hm.
Qed.


(** C4.  Starting from [total_capital = 12.00] with a trade capital cap
    of 4.00, three execution cycles of the enhanced class each open a
    trade and reserve a margin of exactly 4.00, which brings
    [available_capital] to 0.00; a fourth cycle returns [False] and leaves
    the state as it is (no trade is opened, nothing is deducted); closing
    the first trade with a realized P&L of +0.50 then brings
    [available_capital] to exactly 4.50. *)
Theorem C4_ledger_scenario :
  System.available_capital Scenario.ledger_scenario_0 == 12
  /\ fst (Enhanced.execute_trading_cycle Scenario.ledger_scenario_0) = Ok true
  /\ fst (Enhanced.execute_trading_cycle Scenario.ledger_scenario_1) = Ok true
  /\ fst (Enhanced.execute_trading_cycle Scenario.ledger_scenario_2) = Ok true
  /\ Dict.keys (System.active_trades Scenario.ledger_scenario_3)
     = ["trade-1700000000000"; "trade-1700000003000"; "trade-1700000006000"]
  /\ Dict.keys (System.allocated_capital Scenario.ledger_scenario_3)
     = ["trade-1700000000000"; "trade-1700000003000"; "trade-1700000006000"]
  /\ Forall (fun margin => margin == 4)
       (Dict.values (System.allocated_capital Scenario.ledger_scenario_3))
  /\ System.available_capital Scenario.ledger_scenario_1 == 8
  /\ System.available_capital Scenario.ledger_scenario_2 == 4
  /\ System.available_capital Scenario.ledger_scenario_3 == 0
  /\ Enhanced.execute_trading_cycle Scenario.ledger_scenario_3
     = (Ok false, Scenario.ledger_scenario_3)
  /\ Forall2 Qeq (map profit_of (System.trade_history Scenario.ledger_scenario_5))
       [5 # 10]
  /\ map TradeResult.status (System.trade_history Scenario.ledger_scenario_5)
     = ["ProfitTaken"]
  /\ Dict.keys (System.active_trades Scenario.ledger_scenario_5)
     = ["trade-1700000003000"; "trade-1700000006000"]
  /\ Dict.keys (System.allocated_capital Scenario.ledger_scenario_5)
     = ["trade-1700000003000"; "trade-1700000006000"]
  /\ System.available_capital Scenario.ledger_scenario_5 == 45 # 10.
Proof.
  repeat match goal with |- _ /\ _ => split end;
    vm_compute;
    try match goal with
        | |- @eq _ _ _ => reflexivity
        | |- Forall _ _ => repeat (constructor; [reflexivity |]); constructor
        | |- Forall2 _ _ _ => repeat (constructor; [reflexivity |]); constructor
        end.
Qed.

(** ** Win-rate consistency *)

(** C8.  Whenever [total_trades > 0] after a performance refresh,
    [total_trades] is the number of closed trades (whatever their status),
    [successful_trades] the number of those with status [ProfitTaken], and
    the published [win_rate] is their quotient; the metrics derived from
    the history are the same for every state with that history, and
    refreshing any number of times publishes the same values (all metrics
    but the two that count the trades of the current day). *)
Theorem C8_win_rate_consistency :
  forall (s : System.t),
    let m := System.performance_metrics (Comprehensive.update_performance_tracking s) in
    (PerformanceMetrics.total_trades m > 0)%Z ->
    PerformanceMetrics.total_trades m = len (System.trade_history s)
    /\ PerformanceMetrics.successful_trades m
       = len (filter (status_is "ProfitTaken") (System.trade_history s))
    /\ PerformanceMetrics.win_rate m
       = inject_int (PerformanceMetrics.successful_trades m)
         / inject_int (PerformanceMetrics.total_trades m)
    /\ (forall s2 : System.t,
          System.trade_history s2 = System.trade_history s ->
          Perf.history_part
            (System.performance_metrics (Comprehensive.update_performance_tracking s2))
          = Perf.history_part m)
    /\ (forall n : nat,
          Perf.published_part (System.performance_metrics (Perf.refresh_n (S n) s))
          = Perf.published_part m).
Proof.
  intros s m Hpos. subst m.
  unfold Comprehensive.update_performance_tracking in *.
  rewrite PerfFacts.refresh_total in Hpos.
  rewrite PerfFacts.refresh_total, PerfFacts.refresh_successful,
    PerfFacts.refresh_win_rate.
  repeat split.
  - apply Z.gtb_gt in Hpos. now rewrite Hpos.
  - intros s2 Hh. apply PerfFacts.refresh_history_part; [exact Hh |].
    now rewrite Hh.
  - intro n. apply PerfFacts.refresh_n_published_part.
Qed.

Lemma C8_win_rate_consistency_witness :
  let m := System.performance_metrics
             (Comprehensive.update_performance_tracking Scenario.tracked_state) in
  PerformanceMetrics.total_trades m = 3%Z
  /\ PerformanceMetrics.successful_trades m = 1%Z
  /\ PerformanceMetrics.win_rate m == 1 # 3
  /\ PerformanceMetrics.win_rate m
     = inject_int (PerformanceMetrics.successful_trades m)
       / inject_int (PerformanceMetrics.total_trades m)
  /\ forall n : nat,
       Perf.published_part
         (System.performance_metrics (Perf.refresh_n (S n) Scenario.tracked_state))
       = Perf.published_part m.
Proof.
  cbv zeta.
  assert (Hpos : (PerformanceMetrics.total_trades
                    (System.performance_metrics
                       (Comprehensive.update_performance_tracking
                          Scenario.tracked_state)) > 0)%Z)
    by (vm_compute; reflexivity).
  destruct (C8_win_rate_consistency Scenario.tracked_state Hpos)
    as (_ & _ & Hw & _ & Hn).
  split; [vm_compute; reflexivity |].
  split; [vm_compute; reflexivity |].
  split; [vm_compute; reflexivity |].
  split; [exact Hw | exact Hn].
Defined.

(** ** Drawdown is not reset on recovery *)

(** C10.  When a performance refresh runs while
    [available_capital + sum(allocated_capital)] is at least
    [total_capital], [current_drawdown] and [max_drawdown_reached] keep
    their previous values, in all three classes; so the breach test of the
    risk monitor gives the same answer after the refresh as before. *)
Theorem C10_drawdown_not_reset :
  forall (s : System.t),
    SystemConfig.total_capital config <= Perf.current_capital s ->
    let kept s' :=
      PerformanceMetrics.current_drawdown (System.performance_metrics s')
      = PerformanceMetrics.current_drawdown (System.performance_metrics s)
      /\ PerformanceMetrics.max_drawdown_reached (System.performance_metrics s')
         = PerformanceMetrics.max_drawdown_reached (System.performance_metrics s)
      /\ drawdown_exceeded s' = drawdown_exceeded s in
    kept (Comprehensive.update_performance_tracking s)
    /\ kept (Enhanced.update_performance_tracking s)
    /\ kept (Realistic.update_realistic_performance_tracking s).
Proof.
  intros s Hcap. cbv zeta.
  unfold Comprehensive.update_performance_tracking,
    Enhanced.update_performance_tracking,
    Realistic.update_realistic_performance_tracking, drawdown_exceeded.
  rewrite PerfFacts.refresh_current_drawdown, PerfFacts.refresh_max_drawdown.
  apply Qltb_ge in Hcap. rewrite Hcap. repeat split.
Qed.

Lemma C10_drawdown_not_reset_witness :
  let s := Scenario.recovered_state in
  Perf.current_capital s == 125 # 10
  /\ PerformanceMetrics.current_drawdown (System.performance_metrics s) == 12 # 1000
  /\ PerformanceMetrics.current_drawdown
       (System.performance_metrics (Comprehensive.update_performance_tracking s))
     = PerformanceMetrics.current_drawdown (System.performance_metrics s)
  /\ drawdown_exceeded (Comprehensive.update_performance_tracking s) = true
  /\ drawdown_exceeded (Enhanced.update_performance_tracking s) = true
  /\ drawdown_exceeded (Realistic.update_realistic_performance_tracking s) = true.
Proof.
  cbv zeta.
  assert (Hcap : SystemConfig.total_capital config
                 <= Perf.current_capital Scenario.recovered_state)
    by (vm_compute; discriminate).
  destruct (C10_drawdown_not_reset Scenario.recovered_state Hcap)
    as ((Hc & _ & Hb1) & (_ & _ & Hb2) & (_ & _ & Hb3)).
  assert (Hdd : drawdown_exceeded Scenario.recovered_state = true)
    by (vm_compute; reflexivity).
  rewrite Hdd in Hb1, Hb2, Hb3.
  split; [vm_compute; reflexivity |].
  split; [vm_compute; reflexivity |].
  split; [exact Hc |].
  split; [exact Hb1 |].
  split; [exact Hb2 | exact Hb3].
Defined.

(** ** Signal evaluation *)

(** C9, as the code has it.  [generate_trading_signal] is a function of
    the snapshot and of the ledger's available capital: confidence,
    direction, leverage and risk score are the same in every system state,
    and two states with equal [available_capital] give equal signals (or
    raise the same exception), in the comprehensive and the enhanced
    class. *)
Theorem C9_signal_depends_on_snapshot_and_available :
  forall (s1 s2 : System.t) (asset : TradingAsset.t),
    Eval.map_result Eval.snapshot_part (Comprehensive.generate_trading_signal s1 asset)
    = Eval.map_result Eval.snapshot_part (Comprehensive.generate_trading_signal s2 asset)
    /\ Eval.map_result Eval.snapshot_part (Enhanced.generate_trading_signal s1 asset)
       = Eval.map_result Eval.snapshot_part (Enhanced.generate_trading_signal s2 asset)
    /\ (System.available_capital s1 = System.available_capital s2 ->
        Comprehensive.generate_trading_signal s1 asset
        = Comprehensive.generate_trading_signal s2 asset
        /\ Enhanced.generate_trading_signal s1 asset
           = Enhanced.generate_trading_signal s2 asset).
Proof.
  intros s1 s2 asset.
  unfold Comprehensive.generate_trading_signal, Enhanced.generate_trading_signal.
  destruct (TradingAsset.quantum_prediction asset) as [prediction |].
  - repeat split; intros; try reflexivity.
    + now rewrite H.
    + now rewrite H.
  - repeat split.
Qed.

Lemma C9_signal_depends_on_snapshot_and_available_witness :
  System.trade_history Scenario.tracked_state <> System.trade_history Scenario.rich_state
  /\ Comprehensive.generate_trading_signal
       (System.set_available_capital 12 Scenario.tracked_state) Scenario.asset_9
     = Comprehensive.generate_trading_signal Scenario.rich_state Scenario.asset_9
  /\ Enhanced.generate_trading_signal
       (System.set_available_capital 12 Scenario.tracked_state) Scenario.asset_9
     = Enhanced.generate_trading_signal Scenario.rich_state Scenario.asset_9.
Proof.
  split; [discriminate |].
  apply (C9_signal_depends_on_snapshot_and_available
           (System.set_available_capital 12 Scenario.tracked_state)
           Scenario.rich_state Scenario.asset_9).
  reflexivity.
Defined.

(** C9 fails as stated: the same snapshot evaluated with 12.00 and with
    2.00 of available capital gives different signals, in both classes
    ([should_trade] and [expected_profit] differ). *)
Lemma C9_counterexample :
  let asset := Scenario.asset_9 in
  Eval.map_result Signal.should_trade
    (Comprehensive.generate_trading_signal Scenario.rich_state asset) = Ok true
  /\ Eval.map_result Signal.should_trade
       (Comprehensive.generate_trading_signal Scenario.poor_state asset) = Ok false
  /\ Comprehensive.generate_trading_signal Scenario.rich_state asset
     <> Comprehensive.generate_trading_signal Scenario.poor_state asset
  /\ Eval.map_result Signal.should_trade
       (Enhanced.generate_trading_signal Scenario.rich_state asset) = Ok true
  /\ Eval.map_result Signal.should_trade
       (Enhanced.generate_trading_signal Scenario.poor_state asset) = Ok false
  /\ Enhanced.generate_trading_signal Scenario.rich_state asset
     <> Enhanced.generate_trading_signal Scenario.poor_state asset.
Proof.
  cbv zeta. repeat split; intro H; vm_compute in H; discriminate H.
Qed.

(** * Further properties of the risk monitors *)

Module LifecycleFacts.
Import Common Generic DictFacts CloseFacts ScanFacts GenericFacts MonitorFacts
  Risk Lifecycle.

Lemma decide_status factor take_profit random_close trade s status :
  fst (decide factor take_profit random_close trade s) = Some status ->
  status = "StopLoss" \/ status = "ProfitTaken".
Proof.
  unfold decide. cbn [random_random].
  destruct (Qltb _ _); [intros [= <-]; now left |].
  destruct (Qgeb _ _); [intros [= <-]; now right |].
  destruct random_close as [p |]; [| discriminate].
  destruct (Qltb (System.rand_stream _ _) _); [| discriminate].
  destruct (Qgtb _ _); intros [= <-]; [now right | now left].
Qed.

Section Cycle.
Variable factor : Q -> Q.
Variable take_profit : Q.
Variable random_close : option Q.
Variable close_factor : string -> Q -> Q.

Local Abbreviation scan := (scan_with factor take_profit random_close).
Local Abbreviation cycle :=
  (fun s : System.t =>
     close_trades (close_with close_factor)
       (fst (scan (System.active_trades s) [] s))
       (snd (scan (System.active_trades s) [] s))).

Lemma close_trades_active_subset l : forall s kv,
  In kv (System.active_trades (close_trades (close_with close_factor) l s)) ->
  In kv (System.active_trades s).
Proof.
  induction l as [| [k st] l IH]; intros s kv Hin; [assumption |].
  rewrite close_trades_cons in Hin. apply IH in Hin.
  rewrite close_active in Hin. eapply In_del; eauto.
Qed.

(** The loop schedules nothing but [StopLoss] and [ProfitTaken]. *)
Lemma scan_statuses items : forall s k status,
  In (k, status) (fst (scan items [] s)) ->
  status = "StopLoss" \/ status = "ProfitTaken".
Proof.
  induction items as [| [k0 t] items IH]; intros s k status Hin; [easy |].
  rewrite scan_cons, scan_acc in Hin. cbn [fst app] in Hin.
  apply in_app_or in Hin. destruct Hin as [Hin | Hin].
  - destruct (fst (decide factor take_profit random_close t s)) as [st |] eqn:E;
      [| easy].
    destruct Hin as [[= _ <-] | []]. eapply decide_status; eauto.
  - eapply IH; eauto.
Qed.

Lemma cycle_settles s :
  Dict.wf (System.active_trades s) ->
  keyed (System.active_trades s) ->
  cycle_ok s (cycle s).
Proof.
  intros Hwf Hkeyed. repeat split.
  - intros k t Hin. apply in_split in Hin. destruct Hin as (pre & post & Hsplit).
    destruct (fst (decide factor take_profit random_close t (snd (scan pre [] s))))
      as [st |] eqn:Hdec.
    + right.
      destruct (cycle_closes factor take_profit random_close close_factor
                  s pre k t post st Hwf Hsplit Hdec) as [Hnone [pnl Hhist]].
      split; [exact Hnone |]. exists (TradeResult.close pnl st t).
      split; [exact Hhist |]. rewrite RecordFacts.close_status.
      split; [eapply decide_status; eauto | apply RecordFacts.close_record].
    + left.
      exact (cycle_keeps factor take_profit random_close close_factor
               s pre k t post Hwf Hkeyed Hsplit Hdec).
  - intros k t Hin. apply close_trades_active_subset in Hin.
    now rewrite scan_active in Hin.
  - intros t' Hin. apply close_trades_history_origin in Hin.
    rewrite scan_history, scan_active in Hin.
    destruct Hin as [Hin | (k & st & t0 & pnl & Hl & Ha & ->)]; [now left |].
    right. exists k, t0. split; [exact Ha |].
    rewrite RecordFacts.close_status.
    split; [eapply scan_statuses; eauto | apply RecordFacts.close_record].
Qed.

End Cycle.

End LifecycleFacts.

(** The monitor cycle settles every open trade.  In a cycle without a
    drawdown breach, in each of the three classes, every trade that was
    open either is still open (and no record with its id has entered the
    history) or has left the open set, the history holding its record with
    a booked P&L and the status [StopLoss] or [ProfitTaken]; the open set
    gains no trade; and every record the history gains is such a record of
    a trade that was open. *)
Theorem monitor_cycle_settles_every_trade :
  forall (s : System.t),
    Dict.wf (System.active_trades s) ->
    Risk.keyed (System.active_trades s) ->
    drawdown_exceeded s = false ->
    Lifecycle.cycle_ok s (Comprehensive.monitor_risks s)
    /\ Lifecycle.cycle_ok s (Enhanced.monitor_risks s)
    /\ Lifecycle.cycle_ok s (Realistic.monitor_realistic_risks s).
Proof.
  intros s Hwf Hkeyed Hdd.
  rewrite comprehensive_monitor, enhanced_monitor, realistic_monitor by exact Hdd.
  repeat apply conj; now apply LifecycleFacts.cycle_settles.
Qed.

Lemma monitor_cycle_settles_every_trade_witness :
  let s := Cases.two_trade_state (fun _ => 2 # 10) in
  Lifecycle.cycle_ok s (Comprehensive.monitor_risks s)
  /\ Lifecycle.cycle_ok s (Enhanced.monitor_risks s)
  /\ Lifecycle.cycle_ok s (Realistic.monitor_realistic_risks s).
Proof.
  apply monitor_cycle_settles_every_trade.
  - repeat constructor; simpl; intuition discriminate.
  - intros k t [[= <- <-] | [[= <- <-] | []]]; reflexivity.
  - reflexivity.
Defined.

(** ** Take-profit and random close *)

Module DecideFacts.
Import Common Generic MonitorFacts Risk.

(** The decision of one iteration, by cases on the tests it makes. *)
Lemma decide_take_profit factor take_profit random_close trade s :
  let pnl := pnl_at trade
               (TradeResult.price trade * factor (fst (random_random s))) in
  ~ stop_loss_hit trade pnl ->
  take_profit_hit take_profit pnl ->
  fst (decide factor take_profit random_close trade s) = Some "ProfitTaken".
Proof.
  cbv zeta. unfold stop_loss_hit, take_profit_hit, decide.
  cbn [random_random fst]. rewrite <- calculate_pnl_spec.
  intros Hsl Htp. unfold Decimal_str.
  destruct (Qltb _ _) eqn:E1.
  { exfalso. apply Hsl. apply Qltb_lt in E1. exact E1. }
  apply Qgeb_ge in Htp. now rewrite Htp.
Qed.

Lemma decide_random_close factor take_profit p trade s :
  let pnl := pnl_at trade
               (TradeResult.price trade * factor (fst (random_random s))) in
  let r := fst (random_random (snd (random_random s))) in
  ~ stop_loss_hit trade pnl ->
  ~ take_profit_hit take_profit pnl ->
  r < p ->
  fst (decide factor take_profit (Some p) trade s)
  = Some (if Qgtb (calculate_pnl trade
                     (TradeResult.price trade * factor (fst (random_random s)))) 0
          then "ProfitTaken" else "StopLoss").
Proof.
  cbv zeta. unfold stop_loss_hit, take_profit_hit, decide.
  cbn [random_random fst snd]. rewrite <- calculate_pnl_spec.
  intros Hsl Htp Hr. unfold Decimal_str.
  destruct (Qltb _ _) eqn:E1.
  { exfalso. apply Hsl. apply Qltb_lt in E1. exact E1. }
  destruct (Qgeb _ _) eqn:E2.
  { exfalso. apply Htp. apply Qgeb_ge in E2. exact E2. }
  replace (System.rand_pos (System.set_rand_pos (S (System.rand_pos s)) s))
    with (S (System.rand_pos s)) in Hr by now destruct s.
  replace (System.rand_stream (System.set_rand_pos (S (System.rand_pos s)) s))
    with (System.rand_stream s) in Hr by now destruct s.
  apply Qltb_lt in Hr.
  replace (System.rand_stream (System.set_rand_pos (S (System.rand_pos s)) s)
             (System.rand_pos (System.set_rand_pos (S (System.rand_pos s)) s)))
    with (System.rand_stream s (S (System.rand_pos s))) by now destruct s.
  rewrite Hr. cbn [fst]. reflexivity.
Qed.

(** The record of a trade closed with [status], with its fields. *)
Lemma closed_record (k status : string) (trade : TradeResult.t) (s' : System.t) :
  (Dict.get k (System.active_trades s') = None
   /\ exists pnl, In (TradeResult.close pnl status trade) (System.trade_history s')) ->
  Dict.get k (System.active_trades s') = None
  /\ exists r, In r (System.trade_history s')
               /\ TradeResult.status r = status
               /\ Lifecycle.record_of trade r.
Proof.
  intros [Hnone [pnl Hin]]. split; [exact Hnone |].
  exists (TradeResult.close pnl status trade). split; [exact Hin |].
  split; [apply RecordFacts.close_status | apply RecordFacts.close_record].
Qed.

End DecideFacts.

(** Take-profit rule.  In a risk-monitor cycle without a drawdown breach,
    an open trade whose P&L, at the price the cycle draws for it, does not
    meet the stop-loss condition and is at least the take-profit threshold
    leaves the open set, and the history holds its record with status
    [ProfitTaken] and a booked P&L.  The threshold is [config.take_profit_usdt] (0.6) in the comprehensive
    class, the literal 0.4 in the enhanced class and the literal 0.5 in
    the realistic class. *)
Theorem take_profit_rule :
  forall (s : System.t) (pre post : list (string * TradeResult.t))
         (trade_id : string) (trade : TradeResult.t),
    Dict.wf (System.active_trades s) ->
    drawdown_exceeded s = false ->
    Dict.items (System.active_trades s) = pre ++ (trade_id, trade) :: post ->
    (let s1 := snd (Comprehensive.monitor_loop pre [] s) in
     let pnl := Risk.pnl_at trade
                  (TradeResult.price trade
                   * fst (random_uniform (995 # 1000) (1005 # 1000) s1)) in
     ~ Risk.stop_loss_hit trade pnl ->
     Risk.take_profit_hit (SystemConfig.take_profit_usdt config) pnl ->
     let s' := Comprehensive.monitor_risks s in
     Dict.get trade_id (System.active_trades s') = None
     /\ exists r, In r (System.trade_history s')
                  /\ TradeResult.status r = "ProfitTaken"
                  /\ Lifecycle.record_of trade r)
    /\
    (let s1 := snd (Enhanced.monitor_loop pre [] s) in
     let pnl := Risk.pnl_at trade
                  (TradeResult.price trade
                   * (1 + fst (random_uniform (- (8 # 1000)) (12 # 1000) s1))) in
     ~ Risk.stop_loss_hit trade pnl ->
     Risk.take_profit_hit (4 # 10) pnl ->
     let s' := Enhanced.monitor_risks s in
     Dict.get trade_id (System.active_trades s') = None
     /\ exists r, In r (System.trade_history s')
                  /\ TradeResult.status r = "ProfitTaken"
                  /\ Lifecycle.record_of trade r)
    /\
    (let s1 := snd (Realistic.monitor_loop pre [] s) in
     let pnl := Risk.pnl_at trade
                  (TradeResult.price trade
                   * (1 + fst (random_uniform (- (6 # 1000)) (10 # 1000) s1))) in
     ~ Risk.stop_loss_hit trade pnl ->
     Risk.take_profit_hit (5 # 10) pnl ->
     let s' := Realistic.monitor_realistic_risks s in
     Dict.get trade_id (System.active_trades s') = None
     /\ exists r, In r (System.trade_history s')
                  /\ TradeResult.status r = "ProfitTaken"
                  /\ Lifecycle.record_of trade r).
Proof.
  intros s pre post trade_id trade Hwf Hdd Hsplit.
  unfold Dict.items in Hsplit.
  split; [| split].
  - intros s1 pnl Hsl Htp s'. subst s' pnl s1.
    rewrite comprehensive_monitor by exact Hdd.
    rewrite comprehensive_loop in Hsl, Htp.
    apply DecideFacts.closed_record.
    apply (cycle_closes comprehensive_factor (SystemConfig.take_profit_usdt config) None comprehensive_close_factor
             s pre trade_id trade post "ProfitTaken" Hwf Hsplit).
    now apply DecideFacts.decide_take_profit.
  - intros s1 pnl Hsl Htp s'. subst s' pnl s1.
    rewrite enhanced_monitor by exact Hdd.
    rewrite enhanced_loop in Hsl, Htp.
    apply DecideFacts.closed_record.
    apply (cycle_closes enhanced_factor (4 # 10) (Some (5 # 100)) enhanced_close_factor
             s pre trade_id trade post "ProfitTaken" Hwf Hsplit).
    now apply DecideFacts.decide_take_profit.
  - intros s1 pnl Hsl Htp s'. subst s' pnl s1.
    rewrite realistic_monitor by exact Hdd.
    rewrite realistic_loop in Hsl, Htp.
    apply DecideFacts.closed_record.
    apply (cycle_closes realistic_factor (5 # 10) (Some (8 # 100)) realistic_close_factor
             s pre trade_id trade post "ProfitTaken" Hwf Hsplit).
    now apply DecideFacts.decide_take_profit.
Qed.

Lemma take_profit_rule_witness :
  let closed s' :=
    Dict.get "trade-1700000050000" (System.active_trades s') = None
    /\ exists r, In r (System.trade_history s')
                 /\ TradeResult.status r = "ProfitTaken"
                 /\ Lifecycle.record_of Scenario.open_trade_5 r in
  closed (Comprehensive.monitor_risks Cases.profit_state)
  /\ closed (Enhanced.monitor_risks Cases.profit_state)
  /\ closed (Realistic.monitor_realistic_risks Cases.profit_state).
Proof.
  assert (Hwf : Dict.wf (System.active_trades Cases.profit_state)).
  { repeat constructor. simpl. tauto. }
  destruct (take_profit_rule Cases.profit_state [] []
              "trade-1700000050000" Scenario.open_trade_5 Hwf eq_refl eq_refl)
    as (Hc & He & Hr).
  split; [| split].
  - apply Hc; [intro H; vm_compute in H; discriminate H | vm_compute; discriminate].
  - apply He; [intro H; vm_compute in H; discriminate H | vm_compute; discriminate].
  - apply Hr; [intro H; vm_compute in H; discriminate H | vm_compute; discriminate].
Defined.

(** Random close.  In the enhanced and the realistic class, an open trade
    whose P&L meets neither the stop-loss nor the take-profit condition is
    closed all the same when the draw that follows its price draw is below
    0.05 (enhanced) or 0.08 (realistic): it leaves the open set, and the
    history holds its record with a booked P&L and the status
    [ProfitTaken] when the P&L of the cycle is positive, [StopLoss]
    otherwise. *)
Theorem random_close_rule :
  forall (s : System.t) (pre post : list (string * TradeResult.t))
         (trade_id : string) (trade : TradeResult.t),
    Dict.wf (System.active_trades s) ->
    drawdown_exceeded s = false ->
    Dict.items (System.active_trades s) = pre ++ (trade_id, trade) :: post ->
    (let s1 := snd (Enhanced.monitor_loop pre [] s) in
     let pnl := Risk.pnl_at trade
                  (TradeResult.price trade
                   * (1 + fst (random_uniform (- (8 # 1000)) (12 # 1000) s1))) in
     let r := fst (random_random (snd (random_uniform (- (8 # 1000)) (12 # 1000) s1))) in
     ~ Risk.stop_loss_hit trade pnl ->
     ~ Risk.take_profit_hit (4 # 10) pnl ->
     r < 5 # 100 ->
     let s' := Enhanced.monitor_risks s in
     Dict.get trade_id (System.active_trades s') = None
     /\ exists r,
          In r (System.trade_history s')
          /\ Lifecycle.record_of trade r
          /\ (0 < pnl -> TradeResult.status r = "ProfitTaken")
          /\ (pnl <= 0 -> TradeResult.status r = "StopLoss"))
    /\
    (let s1 := snd (Realistic.monitor_loop pre [] s) in
     let pnl := Risk.pnl_at trade
                  (TradeResult.price trade
                   * (1 + fst (random_uniform (- (6 # 1000)) (10 # 1000) s1))) in
     let r := fst (random_random (snd (random_uniform (- (6 # 1000)) (10 # 1000) s1))) in
     ~ Risk.stop_loss_hit trade pnl ->
     ~ Risk.take_profit_hit (5 # 10) pnl ->
     r < 8 # 100 ->
     let s' := Realistic.monitor_realistic_risks s in
     Dict.get trade_id (System.active_trades s') = None
     /\ exists r,
          In r (System.trade_history s')
          /\ Lifecycle.record_of trade r
          /\ (0 < pnl -> TradeResult.status r = "ProfitTaken")
          /\ (pnl <= 0 -> TradeResult.status r = "StopLoss")).
Proof.
  intros s pre post trade_id trade Hwf Hdd Hsplit.
  unfold Dict.items in Hsplit.
  split.
  - intros s1 pnl r Hsl Htp Hr s'. subst s' r pnl s1.
    rewrite enhanced_monitor by exact Hdd.
    rewrite enhanced_loop in *.
    pose proof (DecideFacts.decide_random_close enhanced_factor (4 # 10) (5 # 100)
                  trade _ Hsl Htp Hr) as Hdec.
    destruct (cycle_closes _ _ _ enhanced_close_factor s pre trade_id trade post _ Hwf Hsplit Hdec)
      as [Hnone [p Hin]].
    split; [exact Hnone |]. eexists. split; [exact Hin |].
    split; [apply RecordFacts.close_record |].
    rewrite RecordFacts.close_status. split.
    + intro Hpos. rewrite <- calculate_pnl_spec in Hpos.
      apply Qltb_lt in Hpos. unfold Qgtb.
      match goal with
      | |- (if Qltb 0 ?x then _ else _) = _ => change (Qltb 0 x = true) in Hpos
      end. now rewrite Hpos.
    + intro Hneg. rewrite <- calculate_pnl_spec in Hneg.
      apply Qltb_ge in Hneg. unfold Qgtb.
      match goal with
      | |- (if Qltb 0 ?x then _ else _) = _ => change (Qltb 0 x = false) in Hneg
      end. now rewrite Hneg.
  - intros s1 pnl r Hsl Htp Hr s'. subst s' r pnl s1.
    rewrite realistic_monitor by exact Hdd.
    rewrite realistic_loop in *.
    pose proof (DecideFacts.decide_random_close realistic_factor (5 # 10) (8 # 100)
                  trade _ Hsl Htp Hr) as Hdec.
    destruct (cycle_closes _ _ _ realistic_close_factor s pre trade_id trade post _ Hwf Hsplit Hdec)
      as [Hnone [p Hin]].
    split; [exact Hnone |]. eexists. split; [exact Hin |].
    split; [apply RecordFacts.close_record |].
    rewrite RecordFacts.close_status. split.
    + intro Hpos. rewrite <- calculate_pnl_spec in Hpos.
      apply Qltb_lt in Hpos. unfold Qgtb.
      match goal with
      | |- (if Qltb 0 ?x then _ else _) = _ => change (Qltb 0 x = true) in Hpos
      end. now rewrite Hpos.
    + intro Hneg. rewrite <- calculate_pnl_spec in Hneg.
      apply Qltb_ge in Hneg. unfold Qgtb.
      match goal with
      | |- (if Qltb 0 ?x then _ else _) = _ => change (Qltb 0 x = false) in Hneg
      end. now rewrite Hneg.
Qed.

Lemma random_close_rule_witness :
  let s := Scenario.random_close_state in
  (Dict.get "trade-1700000000000" (System.active_trades (Enhanced.monitor_risks s)) = None
   /\ exists r, In r (System.trade_history (Enhanced.monitor_risks s))
                /\ Lifecycle.record_of Scenario.stop_loss_trade r
                /\ TradeResult.status r = "StopLoss")
  /\ (Dict.get "trade-1700000000000"
        (System.active_trades (Realistic.monitor_realistic_risks s)) = None
      /\ exists r, In r (System.trade_history (Realistic.monitor_realistic_risks s))
                   /\ Lifecycle.record_of Scenario.stop_loss_trade r
                   /\ TradeResult.status r = "ProfitTaken").
Proof.
  assert (Hwf : Dict.wf (System.active_trades Scenario.random_close_state)).
  { repeat constructor. simpl. tauto. }
  destruct (random_close_rule Scenario.random_close_state [] []
              "trade-1700000000000" Scenario.stop_loss_trade Hwf eq_refl eq_refl)
    as (He & Hr).
  split.
  - destruct He as (Hnone & r & Hin & Hrec & _ & Hneg).
    + intro H. vm_compute in H. discriminate H.
    + intro H. vm_compute in H. apply H. reflexivity.
    + vm_compute. reflexivity.
    + split; [exact Hnone |]. exists r.
      split; [exact Hin |]. split; [exact Hrec |].
      apply Hneg. vm_compute. discriminate.
  - destruct Hr as (Hnone & r & Hin & Hrec & Hpos & _).
    + intro H. vm_compute in H. discriminate H.
    + intro H. vm_compute in H. apply H. reflexivity.
    + vm_compute. reflexivity.
    + split; [exact Hnone |]. exists r.
      split; [exact Hin |]. split; [exact Hrec |].
      apply Hpos. vm_compute. reflexivity.
Defined.

(** * The invariant of the books across the risk monitors *)

Module InvariantFacts.
Import Common Generic DictFacts CloseFacts ScanFacts GenericFacts MonitorFacts
  Ledger Lifecycle Invariant.





Section Close.
Variable factor : string -> Q -> Q.



End Close.




End InvariantFacts.




(** ** The P&L booked at close *)

Module BookingFacts.
Import Common Generic CloseFacts.


Lemma scaled_sign (a c : Q) : 0 < a -> (0 < a * c <-> 0 < c) /\ (a * c < 0 <-> c < 0).
Proof. intro Ha. repeat split; intro H; nra. Qed.


End BookingFacts.



(** * Further properties of the performance tracker *)

Module TrackerFacts.
Import Common Perf.

Lemma Qeqb_eq x y : Qeqb x y = true <-> x == y.
Proof. unfold Qeqb. apply Qeq_bool_iff. Qed.

Lemma Qeqb_neq x y : Qeqb x y = false <-> ~ x == y.
Proof.
  unfold Qeqb. split.
  - apply Qeq_bool_neq.
  - intro H. destruct (Qeq_bool x y) eqn:E; [| reflexivity].
    apply Qeq_bool_iff in E. tauto.
Qed.

Lemma py_abs_neg x : x < 0 -> py_abs x == - x.
Proof. intro H. unfold py_abs. apply Qltb_lt in H. rewrite H. reflexivity. Qed.

Lemma py_sum_nonneg l : Forall (fun x => 0 <= x) l -> 0 <= py_sum l 0.
Proof.
  induction 1 as [| x l Hx _ IH].
  - change (py_sum [] 0) with 0. lra.
  - rewrite py_sum_cons. lra.
Qed.

(** Gains minus losses is the sum of all booked P&L. *)
Lemma net_profit_is_realized history :
  py_sum (map profit_of (filter is_profit history)) 0
  - py_sum (map (fun t => py_abs (profit_of t)) (filter is_loss history)) 0
  == py_sum (map profit_of history) 0.
Proof.
  induction history as [| t history IH].
  - cbn. change (py_sum [] 0) with 0. lra.
  - cbn [filter map]. rewrite py_sum_cons. rewrite <- IH. clear IH.
    assert (Hp : forall p, TradeResult.actual_profit t = Some p -> profit_of t = p)
      by (intros p E; unfold profit_of; now rewrite E).
    unfold is_profit, is_loss.
    destruct (TradeResult.actual_profit t) as [p |] eqn:Ea.
    2: { unfold profit_of at 3. rewrite Ea. lra. }
    specialize (Hp p eq_refl).
    destruct (Qeqb p 0) eqn:Ez.
    + apply Qeqb_eq in Ez. cbn [negb andb]. rewrite Hp. lra.
    + apply Qeqb_neq in Ez. cbn [negb andb]. unfold Qgtb.
      destruct (Qltb 0 p) eqn:Epos.
      * apply Qltb_lt in Epos.
        assert (En : Qltb p 0 = false) by (apply Qltb_ge; lra).
        rewrite En. cbn [map]. rewrite py_sum_cons, Hp. lra.
      * apply Qltb_ge in Epos.
        assert (Hneg : p < 0).
        { destruct (Qlt_le_dec p 0) as [H | H]; [exact H |].
          exfalso. apply Ez. lra. }
        assert (En : Qltb p 0 = true) by (now apply Qltb_lt).
        rewrite En. cbn [map]. rewrite py_sum_cons, Hp.
        rewrite (py_abs_neg _ Hneg). lra.
Qed.

Lemma profits_nonneg history :
  0 <= py_sum (map profit_of (filter is_profit history)) 0.
Proof.
  apply py_sum_nonneg. apply Forall_forall. intros x Hx.
  apply in_map_iff in Hx. destruct Hx as (t & <- & Ht).
  apply filter_In in Ht. destruct Ht as [_ Ht].
  unfold is_profit, profit_of in *.
  destruct (TradeResult.actual_profit t) as [p |]; [| discriminate].
  apply andb_prop in Ht. destruct Ht as [_ Ht].
  apply Qltb_lt in Ht. lra.
Qed.

Lemma losses_nonneg history :
  0 <= py_sum (map (fun t => py_abs (profit_of t)) (filter is_loss history)) 0.
Proof.
  apply py_sum_nonneg. apply Forall_forall. intros x Hx.
  apply in_map_iff in Hx. destruct Hx as (t & <- & Ht).
  apply filter_In in Ht. destruct Ht as [_ Ht].
  unfold is_loss, profit_of in *.
  destruct (TradeResult.actual_profit t) as [p |]; [| discriminate].
  apply andb_prop in Ht. destruct Ht as [_ Ht].
  apply Qltb_lt in Ht. rewrite (py_abs_neg _ Ht). lra.
Qed.

Lemma py_sum_positive l :
  Forall (fun x => 0 <= x) l ->
  (0 < py_sum l 0 <-> exists x, In x l /\ 0 < x).
Proof.
  induction 1 as [| x l Hx Hl IH].
  - change (py_sum [] 0) with 0. split; [intro; lra | intros (x & [] & _)].
  - rewrite py_sum_cons.
    pose proof (py_sum_nonneg l Hl) as Hs. split.
    + intro Hpos. destruct (Qlt_le_dec 0 x) as [H0 | H0].
      * exists x. split; [now left | exact H0].
      * assert (H1 : 0 < py_sum l 0) by lra.
        apply IH in H1. destruct H1 as (y & Hy & Hy0).
        exists y. split; [now right | exact Hy0].
    + intros (y & [<- | Hy] & Hy0); [lra |].
      assert (0 < py_sum l 0) by (apply IH; now exists y). lra.
Qed.

Lemma profits_positive history :
  0 < py_sum (map profit_of (filter is_profit history)) 0
  <-> exists t p, In t history /\ TradeResult.actual_profit t = Some p /\ 0 < p.
Proof.
  rewrite py_sum_positive.
  - split.
    + intros (x & Hx & Hx0). apply in_map_iff in Hx.
      destruct Hx as (t & <- & Ht). apply filter_In in Ht.
      destruct Ht as [Hin Ht]. unfold is_profit, profit_of in *.
      destruct (TradeResult.actual_profit t) as [p |] eqn:E; [| discriminate].
      exists t, p. now repeat split.
    + intros (t & p & Hin & E & Hp). exists p. split; [| exact Hp].
      apply in_map_iff. exists t. split; [unfold profit_of; now rewrite E |].
      apply filter_In. split; [exact Hin |]. unfold is_profit. rewrite E.
      apply andb_true_intro. split.
      * apply negb_true_iff. apply Qeqb_neq. lra.
      * now apply Qltb_lt.
  - apply Forall_forall. intros x Hx. apply in_map_iff in Hx.
    destruct Hx as (t & <- & Ht). apply filter_In in Ht. destruct Ht as [_ Ht].
    unfold is_profit, profit_of in *.
    destruct (TradeResult.actual_profit t) as [p |]; [| discriminate].
    apply andb_prop in Ht. destruct Ht as [_ Ht]. apply Qltb_lt in Ht. lra.
Qed.

Lemma losses_positive history :
  0 < py_sum (map (fun t => py_abs (profit_of t)) (filter is_loss history)) 0
  <-> exists t p, In t history /\ TradeResult.actual_profit t = Some p /\ p < 0.
Proof.
  rewrite py_sum_positive.
  - split.
    + intros (x & Hx & Hx0). apply in_map_iff in Hx.
      destruct Hx as (t & <- & Ht). apply filter_In in Ht.
      destruct Ht as [Hin Ht]. unfold is_loss, profit_of in *.
      destruct (TradeResult.actual_profit t) as [p |] eqn:E; [| discriminate].
      apply andb_prop in Ht. destruct Ht as [_ Ht]. apply Qltb_lt in Ht.
      exists t, p. now repeat split.
    + intros (t & p & Hin & E & Hp). exists (py_abs p). split.
      * apply in_map_iff. exists t. split; [unfold profit_of; now rewrite E |].
        apply filter_In. split; [exact Hin |]. unfold is_loss. rewrite E.
        apply andb_true_intro. split.
        -- apply negb_true_iff. apply Qeqb_neq. lra.
        -- now apply Qltb_lt.
      * rewrite (py_abs_neg _ Hp). lra.
  - apply Forall_forall. intros x Hx. apply in_map_iff in Hx.
    destruct Hx as (t & <- & Ht). apply filter_In in Ht. destruct Ht as [_ Ht].
    unfold is_loss, profit_of in *.
    destruct (TradeResult.actual_profit t) as [p |]; [| discriminate].
    apply andb_prop in Ht. destruct Ht as [_ Ht]. apply Qltb_lt in Ht.
    rewrite (py_abs_neg _ Ht). lra.
Qed.

Lemma py_sum_ge l x :
  Forall (fun y => 0 <= y) l -> In x l -> x <= py_sum l 0.
Proof.
  induction 1 as [| y l Hy Hl IH]; [intros [] |].
  rewrite py_sum_cons. pose proof (py_sum_nonneg l Hl).
  intros [<- | Hin]; [lra |]. specialize (IH Hin). lra.
Qed.

Lemma profit_le_total history t p :
  In t history -> TradeResult.actual_profit t = Some p -> 0 < p ->
  p <= py_sum (map profit_of (filter is_profit history)) 0.
Proof.
  intros Hin E Hp. apply py_sum_ge.
  - apply Forall_forall. intros x Hx. apply in_map_iff in Hx.
    destruct Hx as (t0 & <- & Ht). apply filter_In in Ht. destruct Ht as [_ Ht].
    unfold is_profit, profit_of in *.
    destruct (TradeResult.actual_profit t0) as [p0 |]; [| discriminate].
    apply andb_prop in Ht. destruct Ht as [_ Ht]. apply Qltb_lt in Ht. lra.
  - apply in_map_iff. exists t. split; [unfold profit_of; now rewrite E |].
    apply filter_In. split; [exact Hin |]. unfold is_profit. rewrite E.
    apply andb_true_intro. split.
    + apply negb_true_iff. apply Qeqb_neq. lra.
    + now apply Qltb_lt.
Qed.

Lemma loss_le_total history t p :
  In t history -> TradeResult.actual_profit t = Some p -> p < 0 ->
  - p <= py_sum (map (fun t => py_abs (profit_of t)) (filter is_loss history)) 0.
Proof.
  intros Hin E Hp. rewrite <- (py_abs_neg _ Hp). apply py_sum_ge.
  - apply Forall_forall. intros x Hx. apply in_map_iff in Hx.
    destruct Hx as (t0 & <- & Ht). apply filter_In in Ht. destruct Ht as [_ Ht].
    unfold is_loss, profit_of in *.
    destruct (TradeResult.actual_profit t0) as [p0 |]; [| discriminate].
    apply andb_prop in Ht. destruct Ht as [_ Ht]. apply Qltb_lt in Ht.
    rewrite (py_abs_neg _ Ht). lra.
  - apply in_map_iff. exists t. split; [unfold profit_of; now rewrite E |].
    apply filter_In. split; [exact Hin |]. unfold is_loss. rewrite E.
    apply andb_true_intro. split.
    + apply negb_true_iff. apply Qeqb_neq. lra.
    + now apply Qltb_lt.
Qed.

Lemma refresh_total_profit s :
  PerformanceMetrics.total_profit
    (System.performance_metrics (update_performance_tracking s))
  = py_sum (map profit_of (filter is_profit (System.trade_history s))) 0.
Proof. now destruct s. Qed.

Lemma refresh_total_loss s :
  PerformanceMetrics.total_loss
    (System.performance_metrics (update_performance_tracking s))
  = py_sum (map (fun t => py_abs (profit_of t))
              (filter is_loss (System.trade_history s))) 0.
Proof. now destruct s. Qed.

Lemma refresh_average s :
  PerformanceMetrics.average_profit_per_trade
    (System.performance_metrics (update_performance_tracking s))
  = if (len (System.trade_history s) >? 0)%Z
    then (PerformanceMetrics.total_profit
            (System.performance_metrics (update_performance_tracking s))
          - PerformanceMetrics.total_loss
              (System.performance_metrics (update_performance_tracking s)))
         / inject_int (len (System.trade_history s))
    else PerformanceMetrics.average_profit_per_trade (System.performance_metrics s).
Proof. now destruct s. Qed.

Lemma refresh_failed s :
  PerformanceMetrics.failed_trades
    (System.performance_metrics (update_performance_tracking s))
  = len (filter (status_is "StopLoss") (System.trade_history s)).
Proof. now destruct s. Qed.

Lemma disjoint_filters {A} (f g : A -> bool) l :
  (forall x, f x = true -> g x = true -> False) ->
  (List.length (filter f l) + List.length (filter g l) <= List.length l)%nat.
Proof.
  intro H. induction l as [| x l IH]; cbn; [lia |].
  destruct (f x) eqn:Ef, (g x) eqn:Eg; cbn; try lia.
  exfalso. eauto.
Qed.

End TrackerFacts.

(** Profit and loss totals.  After a performance refresh, [total_profit]
    and [total_loss] are non-negative; [total_profit] is positive exactly
    when some record of the history has a positive [actual_profit], and it
    is at least every such P&L; [total_loss] is positive exactly when some
    record has a negative one, and it is at least the absolute value of
    every such P&L (records without a P&L or with a zero P&L count in
    neither); and with at least one closed trade
    [average_profit_per_trade] has the sign of
    [total_profit - total_loss]. *)
Theorem profit_and_loss_totals :
  forall (s : System.t),
    let m := System.performance_metrics (Comprehensive.update_performance_tracking s) in
    let history := System.trade_history s in
    0 <= PerformanceMetrics.total_profit m
    /\ 0 <= PerformanceMetrics.total_loss m
    /\ (0 < PerformanceMetrics.total_profit m
        <-> exists t p, In t history
                        /\ TradeResult.actual_profit t = Some p /\ 0 < p)
    /\ (0 < PerformanceMetrics.total_loss m
        <-> exists t p, In t history
                        /\ TradeResult.actual_profit t = Some p /\ p < 0)
    /\ (forall t p, In t history -> TradeResult.actual_profit t = Some p ->
          (0 < p -> p <= PerformanceMetrics.total_profit m)
          /\ (p < 0 -> - p <= PerformanceMetrics.total_loss m))
    /\ ((PerformanceMetrics.total_trades m > 0)%Z ->
        (0 < PerformanceMetrics.average_profit_per_trade m
         <-> PerformanceMetrics.total_loss m < PerformanceMetrics.total_profit m)
        /\ (PerformanceMetrics.average_profit_per_trade m < 0
            <-> PerformanceMetrics.total_profit m < PerformanceMetrics.total_loss m)).
Proof.
  intros s m history. subst m history.
  unfold Comprehensive.update_performance_tracking.
  rewrite TrackerFacts.refresh_average.
  rewrite TrackerFacts.refresh_total_profit, TrackerFacts.refresh_total_loss,
    PerfFacts.refresh_total.
  split; [apply TrackerFacts.profits_nonneg |].
  split; [apply TrackerFacts.losses_nonneg |].
  split; [apply TrackerFacts.profits_positive |].
  split; [apply TrackerFacts.losses_positive |].
  split.
  - intros t p Hin E. split; intro Hp.
    + now apply (TrackerFacts.profit_le_total _ t).
    + now apply (TrackerFacts.loss_le_total _ t).
  - intro Hpos. pose proof Hpos as Hlen. apply Z.gtb_gt in Hpos. rewrite Hpos.
    assert (Hn : 0 < inject_int (len (System.trade_history s))).
    { unfold inject_int, Qlt. cbn [Qnum Qden inject_Z]. lia. }
    set (n := inject_int (len (System.trade_history s))) in *.
    set (d := _ - _).
    assert (Hd : d / n == d * / n) by reflexivity.
    assert (Hi : 0 < / n) by now apply Qinv_lt_0_compat.
    rewrite Hd.
    destruct (BookingFacts.scaled_sign (/ n) d Hi) as [H1 H2].
    rewrite (Qmult_comm d (/ n)), H1, H2. subst d. split; split; intro; lra.
Qed.

Lemma profit_and_loss_totals_witness :
  let s := Scenario.tracked_state in
  let m := System.performance_metrics (Comprehensive.update_performance_tracking s) in
  PerformanceMetrics.total_profit m == 5 # 10
  /\ PerformanceMetrics.total_loss m == 3 # 10
  /\ 0 < PerformanceMetrics.average_profit_per_trade m.
Proof.
  cbv zeta.
  destruct (profit_and_loss_totals Scenario.tracked_state)
    as (_ & _ & _ & _ & _ & Havg).
  split; [vm_compute; reflexivity |].
  split; [vm_compute; reflexivity |].
  apply Havg; vm_compute; reflexivity.
Defined.

(** The win rate is a fraction.  After a performance refresh the counts
    are non-negative, the trades counted as successful ([ProfitTaken]),
    failed ([StopLoss]) and [Cancelled] together do not exceed
    [total_trades] (a cancelled trade counts in the total and in neither
    of the two), and with at least one closed trade [0 <= win_rate <= 1]. *)
Theorem win_rate_is_a_fraction :
  forall (s : System.t),
    let m := System.performance_metrics (Comprehensive.update_performance_tracking s) in
    (0 <= PerformanceMetrics.successful_trades m)%Z
    /\ (0 <= PerformanceMetrics.failed_trades m)%Z
    /\ (PerformanceMetrics.successful_trades m + PerformanceMetrics.failed_trades m
        + len (filter (status_is "Cancelled") (System.trade_history s))
        <= PerformanceMetrics.total_trades m)%Z
    /\ ((PerformanceMetrics.total_trades m > 0)%Z ->
        0 <= PerformanceMetrics.win_rate m /\ PerformanceMetrics.win_rate m <= 1).
Proof.
  intros s m. subst m. unfold Comprehensive.update_performance_tracking.
  rewrite PerfFacts.refresh_win_rate, PerfFacts.refresh_successful,
    TrackerFacts.refresh_failed, PerfFacts.refresh_total.
  set (h := System.trade_history s).
  assert (H3 : (List.length (filter (status_is "ProfitTaken") h)
                + List.length (filter (status_is "StopLoss") h)
                + List.length (filter (status_is "Cancelled") h)
                <= List.length h)%nat).
  { clear. induction h as [| t h IH]; [cbn; lia |].
    cbn [filter].
    destruct (status_is "ProfitTaken" t) eqn:E1.
    - unfold status_is in *. apply String.eqb_eq in E1. rewrite E1. cbn. lia.
    - destruct (status_is "StopLoss" t) eqn:E2.
      + unfold status_is in *. apply String.eqb_eq in E2. rewrite E2. cbn. lia.
      + destruct (status_is "Cancelled" t); cbn; lia. }
  unfold len. repeat split; try lia.
  - assert (Hpos : (0 < Z.of_nat (List.length h))%Z) by lia.
    apply Z.gtb_lt in Hpos. rewrite Hpos. apply Z.gtb_lt in Hpos.
    unfold inject_int. apply Qle_shift_div_l.
    + unfold Qlt. cbn [Qnum Qden inject_Z]. lia.
    + rewrite Qmult_0_l. unfold Qle. cbn [Qnum Qden inject_Z]. lia.
  - assert (Hpos : (0 < Z.of_nat (List.length h))%Z) by lia.
    apply Z.gtb_lt in Hpos. rewrite Hpos. apply Z.gtb_lt in Hpos.
    unfold inject_int. apply Qle_shift_div_r.
    + unfold Qlt. cbn [Qnum Qden inject_Z]. lia.
    + rewrite Qmult_1_l. unfold Qle. cbn [Qnum Qden inject_Z]. lia.
Qed.

Lemma win_rate_is_a_fraction_witness :
  let m := System.performance_metrics
             (Comprehensive.update_performance_tracking Scenario.tracked_state) in
  (PerformanceMetrics.successful_trades m = 1
   /\ PerformanceMetrics.failed_trades m = 1
   /\ PerformanceMetrics.total_trades m = 3)%Z
  /\ 0 <= PerformanceMetrics.win_rate m /\ PerformanceMetrics.win_rate m <= 1.
Proof.
  cbv zeta.
  destruct (win_rate_is_a_fraction Scenario.tracked_state) as (_ & _ & _ & Hw).
  split; [repeat split |].
  apply Hw. reflexivity.
Defined.

Module DrawdownFacts.

Lemma py_max_l a b : a <= py_max a b.
Proof.
  unfold py_max. destruct (Qltb a b) eqn:E.
  - apply Qltb_lt in E. lra.
  - lra.
Qed.

Lemma py_max_r a b : b <= py_max a b.
Proof.
  unfold py_max. destruct (Qltb a b) eqn:E.
  - lra.
  - apply Qltb_ge in E. lra.
Qed.

End DrawdownFacts.

(** Drawdown tracking.  A performance refresh never lowers
    [max_drawdown_reached]; it keeps [current_drawdown <=
    max_drawdown_reached] if it held before; when the capital
    [available + sum(allocated)] is below [total_capital] it sets
    [current_drawdown] to the positive fraction
    [(total_capital - capital) / total_capital]; and when the ledger
    equation holds that is the case exactly when the realized P&L is
    negative, the drawdown then being [- realized P&L / total_capital]. *)
Theorem drawdown_tracking :
  forall (s : System.t),
    let m := System.performance_metrics s in
    let m' := System.performance_metrics (Comprehensive.update_performance_tracking s) in
    let total := SystemConfig.total_capital config in
    PerformanceMetrics.max_drawdown_reached m
    <= PerformanceMetrics.max_drawdown_reached m'
    /\ (PerformanceMetrics.current_drawdown m
        <= PerformanceMetrics.max_drawdown_reached m ->
        PerformanceMetrics.current_drawdown m'
        <= PerformanceMetrics.max_drawdown_reached m')
    /\ (Perf.current_capital s < total ->
        PerformanceMetrics.current_drawdown m'
        == (total - Perf.current_capital s) / total
        /\ 0 < PerformanceMetrics.current_drawdown m'
        /\ PerformanceMetrics.current_drawdown m'
           <= PerformanceMetrics.max_drawdown_reached m')
    /\ (Ledger.conserved s ->
        (Perf.current_capital s < total <-> Ledger.realized_pnl s < 0)
        /\ (Ledger.realized_pnl s < 0 ->
            PerformanceMetrics.current_drawdown m'
            == - Ledger.realized_pnl s / total)).
Proof.
  intros s m m' total. subst m m'.
  unfold Comprehensive.update_performance_tracking.
  rewrite PerfFacts.refresh_current_drawdown, PerfFacts.refresh_max_drawdown.
  assert (Htotal : total == 12) by reflexivity.
  fold total. unfold to_float.
  assert (Hdd : Perf.current_capital s < total ->
                0 < (total - Perf.current_capital s) / total).
  { intro H. apply Qlt_shift_div_l; lra. }
  split; [| split; [| split]].
  - destruct (Qltb _ _); [apply DrawdownFacts.py_max_l | lra].
  - intro H. destruct (Qltb _ _); [apply DrawdownFacts.py_max_r | exact H].
  - intro H. pose proof (Hdd H) as Hpos. apply Qltb_lt in H. rewrite H.
    split; [reflexivity |]. split; [exact Hpos | apply DrawdownFacts.py_max_r].
  - intro Hc.
    assert (Hcap : Perf.current_capital s == total + Ledger.realized_pnl s).
    { unfold Ledger.conserved, Ledger.allocated_sum, Perf.current_capital in *.
      exact Hc. }
    split; [split; intro; lra |].
    intro Hneg. assert (H : Perf.current_capital s < total) by lra.
    apply Qltb_lt in H. rewrite H. rewrite Hcap. field. lra.
Qed.

Lemma drawdown_tracking_witness :
  let s := Scenario.loss_state in
  let m' := System.performance_metrics (Comprehensive.update_performance_tracking s) in
  Ledger.realized_pnl s == - (144 # 1000)
  /\ PerformanceMetrics.current_drawdown m' == 12 # 1000
  /\ PerformanceMetrics.current_drawdown m'
     <= PerformanceMetrics.max_drawdown_reached m'.
Proof.
  cbv zeta.
  destruct (drawdown_tracking Scenario.loss_state) as (_ & _ & Hlow & Hled).
  assert (Hcap : Perf.current_capital Scenario.loss_state < 12)
    by (vm_compute; reflexivity).
  destruct (Hlow Hcap) as (_ & _ & Hmax).
  assert (Hc : Ledger.conserved Scenario.loss_state) by (vm_compute; reflexivity).
  destruct (Hled Hc) as (_ & Hdd).
  split; [vm_compute; reflexivity |].
  split; [| exact Hmax].
  rewrite Hdd; vm_compute; reflexivity.
Defined.

(** Validation excludes a breach.  If [current_drawdown <=
    max_drawdown_reached] (which every refresh maintains) and the
    comprehensive [validate_system_performance] accepts the metrics, then
    the drawdown test of the risk monitor is negative, at least five trades
    are closed, the win rate is at least 0.7, and the enhanced
    [validate_system_performance] accepts the metrics too. *)
Theorem validation_excludes_breach :
  forall (s : System.t),
    let m := System.performance_metrics s in
    PerformanceMetrics.current_drawdown m
    <= PerformanceMetrics.max_drawdown_reached m ->
    ComprehensiveTop.validate_system_performance m config = true ->
    drawdown_exceeded s = false
    /\ (5 <= PerformanceMetrics.total_trades m)%Z
    /\ 7 # 10 <= PerformanceMetrics.win_rate m
    /\ EnhancedTop.validate_system_performance m config = true.
Proof.
  intros s m Hmax Hval.
  unfold ComprehensiveTop.validate_system_performance in Hval.
  unfold EnhancedTop.validate_system_performance, drawdown_exceeded.
  fold m. cbv zeta in Hval.
  destruct (PerformanceMetrics.total_trades m <? 5)%Z eqn:E4;
    [discriminate Hval |].
  destruct (Qgtb (PerformanceMetrics.max_drawdown_reached m)
              (SystemConfig.max_drawdown config)) eqn:E3;
    [discriminate Hval |].
  destruct (Qltb (PerformanceMetrics.win_rate m)
              (SystemConfig.target_win_rate config * (8 # 10))) eqn:E1;
    [destruct (Qltb (PerformanceMetrics.average_profit_per_trade m) _);
     discriminate Hval |].
  unfold Qgtb in E3.
  apply Z.ltb_ge in E4. apply Qltb_ge in E3. apply Qltb_ge in E1.
  assert (Hcfg : SystemConfig.max_drawdown config == 9 # 1000) by reflexivity.
  assert (Hwin : SystemConfig.target_win_rate config * (8 # 10) == 7 # 10)
    by reflexivity.
  rewrite Hcfg in E3. rewrite Hwin in E1.
  split; [| split; [lia | split; [exact E1 |]]].
  - unfold Qgtb. apply Qltb_ge. rewrite Hcfg. lra.
  - assert (H3 : (PerformanceMetrics.total_trades m <? 3)%Z = false)
      by (apply Z.ltb_ge; lia).
    assert (Hw : Qltb (PerformanceMetrics.win_rate m) (6 # 10) = false)
      by (apply Qltb_ge; lra).
    assert (Hd : Qgtb (PerformanceMetrics.max_drawdown_reached m)
                   (SystemConfig.max_drawdown config * 2) = false).
    { unfold Qgtb. apply Qltb_ge. rewrite Hcfg. lra. }
    rewrite H3, Hw, Hd. now rewrite andb_false_r.
Qed.

Lemma validation_excludes_breach_witness :
  let m := System.performance_metrics Cases.winning_state in
  ComprehensiveTop.validate_system_performance m config = true
  /\ drawdown_exceeded Cases.winning_state = false
  /\ EnhancedTop.validate_system_performance m config = true.
Proof.
  cbv zeta.
  assert (Hmax : PerformanceMetrics.current_drawdown
                   (System.performance_metrics Cases.winning_state)
                 <= PerformanceMetrics.max_drawdown_reached
                      (System.performance_metrics Cases.winning_state))
    by (vm_compute; discriminate).
  assert (Hval : ComprehensiveTop.validate_system_performance
                   (System.performance_metrics Cases.winning_state) config = true)
    by (vm_compute; reflexivity).
  destruct (validation_excludes_breach Cases.winning_state Hmax Hval)
    as (Hdd & _ & _ & He).
  split; [exact Hval |]. split; [exact Hdd | exact He].
Defined.

(** * The execution path *)
Module ExecBridge.

Lemma comprehensive_signal s a :
  Comprehensive.generate_trading_signal s a = Exec.generate_signal Exec.comprehensive s a.
Proof. reflexivity. Qed.
Lemma enhanced_signal s a :
  Enhanced.generate_trading_signal s a = Exec.generate_signal Exec.enhanced s a.
Proof. reflexivity. Qed.
Lemma realistic_signal s a :
  Realistic.generate_realistic_trading_signal s a = Exec.generate_signal Exec.realistic s a.
Proof. reflexivity. Qed.

Lemma comprehensive_select s l : forall b bs,
  Comprehensive.select_loop s l b bs = Exec.select_loop Exec.comprehensive s l b bs.
Proof.
  induction l as [| a l IH]; intros b bs; [reflexivity |].
  cbn [Comprehensive.select_loop Exec.select_loop].
  rewrite comprehensive_signal.
  destruct (Exec.generate_signal _ s a) as [sg | e]; [| reflexivity].
  destruct (Signal.should_trade sg); [| apply IH].
  destruct (float_div _ _); [| reflexivity].
  destruct (Qgtb _ _); apply IH.
Qed.

Lemma enhanced_select s l : forall b bs,
  Enhanced.select_loop s l b bs = Exec.select_loop Exec.enhanced s l b bs.
Proof.
  induction l as [| a l IH]; intros b bs; [reflexivity |].
  cbn [Enhanced.select_loop Exec.select_loop].
  rewrite enhanced_signal.
  destruct (Exec.generate_signal _ s a) as [sg | e]; [| reflexivity].
  destruct (Signal.should_trade sg); [| apply IH].
  destruct (float_div _ _); [| reflexivity].
  destruct (Qgtb _ _); apply IH.
Qed.

Lemma realistic_select s l : forall b bs,
  Realistic.select_loop s l b bs = Exec.select_loop Exec.realistic s l b bs.
Proof.
  induction l as [| a l IH]; intros b bs; [reflexivity |].
  cbn [Realistic.select_loop Exec.select_loop].
  rewrite realistic_signal.
  destruct (Exec.generate_signal _ s a) as [sg | e]; [| reflexivity].
  destruct (Signal.should_trade sg); [| apply IH].
  destruct (float_div _ _); [| reflexivity].
  destruct (Qgtb _ _); apply IH.
Qed.

Ltac bridge_cycle sel :=
  intros s;
  unfold Exec.cycle, Exec.select_best, Exec.execute, Exec.clock,
    Exec.comprehensive_order_id, Exec.suffixed_order_id,
    bind, gets, ret, lift, modify;
  cbn [Exec.min_available Exec.top_n Exec.trade_cap Exec.order_id
       Exec.counts_trades Exec.comprehensive Exec.enhanced Exec.realistic];
  destruct (Qltb (System.available_capital s) _); [reflexivity |];
  destruct (System.filtered_assets s) as [| a0 l0] eqn:Ef; [reflexivity |];
  rewrite sel;
  destruct (Exec.select_loop _ s _ None 0) as [[[asset signal] |] | e];
  try reflexivity.

Lemma comprehensive_cycle : forall s,
  Comprehensive.execute_trading_cycle s = Exec.cycle Exec.comprehensive s.
Proof.
  unfold Comprehensive.execute_trading_cycle,
    Comprehensive.select_best_trading_opportunity, Comprehensive.execute_trade,
    Comprehensive.update_capital_allocation,
    Comprehensive.update_performance_metrics.
  bridge_cycle comprehensive_select.
Qed.

Lemma enhanced_cycle : forall s,
  Enhanced.execute_trading_cycle s = Exec.cycle Exec.enhanced s.
Proof.
  unfold Enhanced.execute_trading_cycle,
    Enhanced.select_best_trading_opportunity, Enhanced.execute_trade,
    Enhanced.update_capital_allocation.
  bridge_cycle enhanced_select.
Qed.

Lemma realistic_cycle : forall s,
  Realistic.execute_realistic_trading_cycle s = Exec.cycle Exec.realistic s.
Proof.
  unfold Realistic.execute_realistic_trading_cycle,
    Realistic.select_best_realistic_opportunity,
    Realistic.execute_realistic_trade,
    Realistic.update_realistic_capital_allocation.
  bridge_cycle realistic_select.
Qed.

End ExecBridge.

Module ExecFacts.
Import Common.

Lemma py_min_pos a b : 0 < a -> 0 < b -> 0 < py_min a b.
Proof. intros Ha Hb. unfold py_min. now destruct (Qltb b a). Qed.

Lemma py_min_le_l a b : py_min a b <= a.
Proof.
  unfold py_min. destruct (Qltb b a) eqn:E.
  - apply Qltb_lt in E. lra.
  - lra.
Qed.

Lemma py_min_le_r a b : py_min a b <= b.
Proof.
  unfold py_min. destruct (Qltb b a) eqn:E.
  - lra.
  - apply Qltb_ge in E. lra.
Qed.

Lemma clamp_bounds n :
  (50 <= py_minZ (py_maxZ n (SystemConfig.min_leverage config))
                 (SystemConfig.max_leverage config) <= 100)%Z.
Proof.
  unfold py_minZ, py_maxZ. cbn [SystemConfig.min_leverage SystemConfig.max_leverage config].
  destruct (n <? 50)%Z eqn:E1.
  - cbn. lia.
  - apply Z.ltb_ge in E1. destruct (100 <? n)%Z eqn:E2.
    + lia.
    + apply Z.ltb_ge in E2. lia.
Qed.

Lemma inject_int_pos n : (0 < n)%Z -> 0 < inject_int n.
Proof. intro H. unfold inject_int, Qlt. cbn. lia. Qed.

Lemma inject_int_le n m : (n <= m)%Z -> inject_int n <= inject_int m.
Proof. intro H. unfold inject_int. now rewrite <- Zle_Qle. Qed.

Section Scheme.
Variable p : Exec.params.
Hypothesis Hcap : 0 < Exec.trade_cap p.
Hypothesis Havail : 0 < Exec.min_available p.
Hypothesis Hprofit : 0 < Exec.min_expected_profit p.
Hypothesis Hconf : 0 <= Exec.min_confidence p.
Hypothesis Hmove : 0 < Exec.movement_scale p.

Lemma signal_prediction s a sg :
  Exec.generate_signal p s a = Ok sg ->
  exists prediction,
    TradingAsset.quantum_prediction a = Some prediction
    /\ Signal.confidence sg = Prediction.confidence prediction
    /\ Signal.direction sg = Prediction.direction prediction
    /\ Signal.leverage sg
       = py_minZ (py_maxZ (py_int (Prediction.confidence prediction
                                   * Exec.leverage_scale p))
                          (SystemConfig.min_leverage config))
                 (SystemConfig.max_leverage config)
    /\ Signal.expected_profit sg
       = py_min (System.available_capital s) (Exec.trade_cap p)
         * inject_int (Signal.leverage sg)
         * (TradingAsset.volatility_24h a * Prediction.confidence prediction
            * Exec.movement_scale p)
    /\ Signal.risk_score sg
       = (inject_int (Signal.leverage sg) / 100
          + TradingAsset.volatility_24h a / (1 # 10)) / 2.
Proof.
  unfold Exec.generate_signal.
  destruct (TradingAsset.quantum_prediction a) as [pr |]; [| discriminate].
  intros [= <-]. exists pr. repeat split.
Qed.

Lemma signal_leverage s a sg :
  Exec.generate_signal p s a = Ok sg ->
  (50 <= Signal.leverage sg <= 100)%Z.
Proof.
  intro H. destruct (signal_prediction _ _ _ H) as (pr & _ & _ & _ & -> & _).
  apply clamp_bounds.
Qed.

Lemma signal_raises s a e :
  Exec.generate_signal p s a = Raise e ->
  e = TypeError /\ TradingAsset.quantum_prediction a = None.
Proof.
  unfold Exec.generate_signal.
  destruct (TradingAsset.quantum_prediction a); [discriminate |].
  now intros [= <-].
Qed.

Lemma tradeable_tests s a sg :
  Exec.tradeable p s a sg ->
  Exec.min_confidence p < Signal.confidence sg
  /\ Exec.min_expected_profit p <= Signal.expected_profit sg
  /\ Signal.risk_score sg < Exec.max_risk_score p
  /\ Exec.min_available p <= System.available_capital s.
Proof.
  intros [H Ht]. unfold Exec.generate_signal in H.
  destruct (TradingAsset.quantum_prediction a) as [pr |]; [| discriminate].
  injection H as <-. cbn [Signal.should_trade] in Ht.
  apply andb_prop in Ht. destruct Ht as [Ht H4].
  apply andb_prop in Ht. destruct Ht as [Ht H3].
  apply andb_prop in Ht. destruct Ht as [H1 H2].
  cbn [Signal.confidence Signal.expected_profit Signal.risk_score].
  apply Qltb_lt in H1. apply Qgeb_ge in H2. apply Qltb_lt in H3.
  apply Qgeb_ge in H4. auto.
Qed.

Lemma tradeable_positive s a sg :
  Exec.tradeable p s a sg ->
  0 < TradingAsset.volatility_24h a
  /\ 0 < Signal.risk_score sg
  /\ 0 < Exec.score sg.
Proof.
  intro Ht. destruct (tradeable_tests _ _ _ Ht) as (H1 & H2 & H3 & H4).
  destruct Ht as [H _].
  pose proof (signal_leverage _ _ _ H) as Hlev.
  destruct (signal_prediction _ _ _ H) as (pr & _ & Hc & _ & _ & Hp & Hr).
  assert (Hl : 0 < inject_int (Signal.leverage sg)) by (apply inject_int_pos; lia).
  assert (Hm : 0 < py_min (System.available_capital s) (Exec.trade_cap p)).
  { apply py_min_pos; lra. }
  assert (Hcf : 0 < Signal.confidence sg) by lra.
  assert (Hv : 0 < TradingAsset.volatility_24h a).
  { destruct (Qlt_le_dec 0 (TradingAsset.volatility_24h a)) as [Hv | Hv];
      [exact Hv | exfalso].
    rewrite Hp, <- Hc in H2.
    set (c := py_min _ _) in *. set (l := inject_int _) in *.
    set (v := TradingAsset.volatility_24h a) in *.
    set (cf := Signal.confidence sg) in *. set (m := Exec.movement_scale p) in *.
    assert (Hk : 0 < c * l * cf * m).
    { repeat apply Qmult_lt_0_compat; assumption. }
    assert (Hle : c * l * (v * cf * m) <= 0).
    { setoid_replace (c * l * (v * cf * m)) with (- ((c * l * cf * m) * (- v)))
        by ring.
      assert (0 <= (c * l * cf * m) * (- v)).
      { apply Qmult_le_0_compat; lra. }
      lra. }
    lra. }
  assert (Hrs : 0 < Signal.risk_score sg).
  { rewrite Hr.
    assert (0 < inject_int (Signal.leverage sg) / 100).
    { apply Qlt_shift_div_l; lra. }
    assert (0 < TradingAsset.volatility_24h a / (1 # 10)).
    { apply Qlt_shift_div_l; lra. }
    apply Qlt_shift_div_l; lra. }
  split; [exact Hv |]. split; [exact Hrs |].
  unfold Exec.score. apply Qlt_shift_div_l; [lra |].
  rewrite Qmult_0_l. apply Qmult_lt_0_compat; lra.
Qed.

Lemma tradeable_score s a sg :
  Exec.tradeable p s a sg ->
  float_div (Signal.confidence sg * to_float (Signal.expected_profit sg))
            (1 + Signal.risk_score sg)
  = Ok (Exec.score sg).
Proof.
  intro Ht. destruct (tradeable_positive _ _ _ Ht) as (_ & Hr & _).
  unfold float_div.
  destruct (Qeqb (1 + Signal.risk_score sg) 0) eqn:E; [| reflexivity].
  apply Qeq_bool_iff in E. lra.
Qed.

Lemma tradeable_fun s a sg sg' :
  Exec.tradeable p s a sg -> Exec.tradeable p s a sg' -> sg = sg'.
Proof. intros [H _] [H' _]. congruence. Qed.

Lemma select_cons_skip s a rest b bs :
  (forall sg, ~ Exec.tradeable p s a sg) ->
  TradingAsset.quantum_prediction a <> None ->
  Exec.select_loop p s (a :: rest) b bs = Exec.select_loop p s rest b bs.
Proof.
  intros Hn Hp. cbn [Exec.select_loop].
  destruct (Exec.generate_signal p s a) as [sg | e] eqn:E.
  - destruct (Signal.should_trade sg) eqn:Et; [| reflexivity].
    exfalso. apply (Hn sg). now split.
  - apply signal_raises in E. tauto.
Qed.

Lemma select_cons_tradeable s a sg rest b bs :
  Exec.tradeable p s a sg ->
  Exec.select_loop p s (a :: rest) b bs
  = if Qgtb (Exec.score sg) bs
    then Exec.select_loop p s rest (Some (a, sg)) (Exec.score sg)
    else Exec.select_loop p s rest b bs.
Proof.
  intro Ht. cbn [Exec.select_loop].
  destruct Ht as [E Et]. rewrite E, Et.
  now rewrite (tradeable_score s a sg (conj E Et)).
Qed.

Lemma select_cons_raise s a rest b bs :
  TradingAsset.quantum_prediction a = None ->
  Exec.select_loop p s (a :: rest) b bs = Raise TypeError.
Proof.
  intro H. cbn [Exec.select_loop]. unfold Exec.generate_signal. now rewrite H.
Qed.

(** Case analysis on one candidate. *)
Lemma candidate_cases s a :
  TradingAsset.quantum_prediction a = None
  \/ (TradingAsset.quantum_prediction a <> None
      /\ forall sg, ~ Exec.tradeable p s a sg)
  \/ exists sg, Exec.tradeable p s a sg.
Proof.
  destruct (Exec.generate_signal p s a) as [sg | e] eqn:E.
  - destruct (Signal.should_trade sg) eqn:Et.
    + right. right. exists sg. now split.
    + right. left. split.
      * destruct (signal_prediction _ _ _ E) as (pr & -> & _). discriminate.
      * intros sg' [E' Et']. congruence.
  - left. now apply signal_raises in E.
Qed.

Lemma select_raises s l : forall b bs e,
  Exec.select_loop p s l b bs = Raise e ->
  e = TypeError /\ exists a, In a l /\ TradingAsset.quantum_prediction a = None.
Proof.
  induction l as [| a l IH]; intros b bs e H; [discriminate |].
  destruct (candidate_cases s a) as [Hn | [[Hp Hn] | [sg Ht]]].
  - rewrite select_cons_raise in H by assumption. injection H as <-.
    split; [reflexivity |]. exists a. split; [now left | assumption].
  - rewrite select_cons_skip in H by assumption.
    destruct (IH _ _ _ H) as (-> & a' & Hin & Ha').
    split; [reflexivity |]. exists a'. split; [now right | assumption].
  - rewrite (select_cons_tradeable _ _ _ _ _ _ Ht) in H.
    destruct (Qgtb _ _); destruct (IH _ _ _ H) as (-> & a' & Hin & Ha');
      (split; [reflexivity |]); exists a'; (split; [now right | assumption]).
Qed.

Lemma select_missing s l : forall b bs a,
  In a l -> TradingAsset.quantum_prediction a = None ->
  Exec.select_loop p s l b bs = Raise TypeError.
Proof.
  induction l as [| a0 l IH]; intros b bs a Hin Ha; [destruct Hin |].
  destruct (candidate_cases s a0) as [Hn | [[Hp Hn] | [sg Ht]]].
  - now apply select_cons_raise.
  - rewrite select_cons_skip by assumption.
    destruct Hin as [-> | Hin]; [tauto | eauto].
  - rewrite (select_cons_tradeable _ _ _ _ _ _ Ht).
    destruct Hin as [-> | Hin].
    + destruct Ht as [E _]. unfold Exec.generate_signal in E.
      rewrite Ha in E. discriminate.
    + destruct (Qgtb _ _); eauto.
Qed.

Lemma select_total s l : forall b bs,
  (forall a, In a l -> TradingAsset.quantum_prediction a <> None) ->
  exists r, Exec.select_loop p s l b bs = Ok r.
Proof.
  intros b bs H.
  destruct (Exec.select_loop p s l b bs) as [r | e] eqn:E; [now exists r |].
  apply select_raises in E. destruct E as (_ & a & Hin & Ha).
  exfalso. exact (H a Hin Ha).
Qed.

Lemma first_best_cons_lt s a l a' sg' :
  (forall sg, Exec.tradeable p s a sg -> Exec.score sg < Exec.score sg') ->
  Exec.first_best p s l a' sg' ->
  Exec.first_best p s (a :: l) a' sg'.
Proof.
  intros Ha (pre & post & -> & Ht & Hpre & Hpost).
  exists (a :: pre), post. split; [reflexivity |]. split; [exact Ht |].
  split; [| exact Hpost].
  intros a0 sg0 [<- | Hin] H0; [now apply Ha | eauto].
Qed.

Lemma select_spec s l : forall b bs r,
  Exec.select_loop p s l b bs = Ok r ->
  (r = b /\ forall a sg, In a l -> Exec.tradeable p s a sg -> Exec.score sg <= bs)
  \/ (exists a sg, r = Some (a, sg) /\ bs < Exec.score sg
                   /\ Exec.first_best p s l a sg).
Proof.
  induction l as [| a l IH]; intros b bs r H.
  - injection H as <-. left. split; [reflexivity |]. intros a sg [].
  - destruct (candidate_cases s a) as [Hn | [[Hp Hn] | [sg Ht]]].
    + rewrite select_cons_raise in H by assumption. discriminate.
    + rewrite select_cons_skip in H by assumption.
      destruct (IH _ _ _ H) as [[-> Hall] | (a' & sg' & -> & Hlt & Hfb)].
      * left. split; [reflexivity |].
        intros a0 sg0 [<- | Hin] H0; [destruct (Hn _ H0) | eauto].
      * right. exists a', sg'. split; [reflexivity |]. split; [exact Hlt |].
        apply first_best_cons_lt; [| exact Hfb].
        intros sg0 H0. destruct (Hn _ H0).
    + rewrite (select_cons_tradeable _ _ _ _ _ _ Ht) in H.
      destruct (Qgtb (Exec.score sg) bs) eqn:Eg.
      * apply Qltb_lt in Eg.
        destruct (IH _ _ _ H) as [[-> Hall] | (a' & sg' & -> & Hlt & Hfb)].
        -- right. exists a, sg. split; [reflexivity |]. split; [exact Eg |].
           exists [], l. split; [reflexivity |]. split; [exact Ht |].
           split; [intros a0 sg0 [] | exact Hall].
        -- right. exists a', sg'. split; [reflexivity |]. split; [lra |].
           apply first_best_cons_lt; [| exact Hfb].
           intros sg0 H0. rewrite <- (tradeable_fun _ _ _ _ Ht H0). exact Hlt.
      * apply Qltb_ge in Eg.
        destruct (IH _ _ _ H) as [[-> Hall] | (a' & sg' & -> & Hlt & Hfb)].
        -- left. split; [reflexivity |].
           intros a0 sg0 [<- | Hin] H0; [| eauto].
           now rewrite <- (tradeable_fun _ _ _ _ Ht H0).
        -- right. exists a', sg'. split; [reflexivity |]. split; [exact Hlt |].
           apply first_best_cons_lt; [| exact Hfb].
           intros sg0 H0. rewrite <- (tradeable_fun _ _ _ _ Ht H0). lra.
Qed.

(** The selection from no best opportunity and score 0. *)
Lemma select_best_spec s r :
  Exec.select_loop p s (Exec.candidates p s) None 0 = Ok r ->
  match r with
  | Some (a, sg) => Exec.first_best p s (Exec.candidates p s) a sg
  | None => forall a sg, In a (Exec.candidates p s) -> ~ Exec.tradeable p s a sg
  end.
Proof.
  intro H. destruct (select_spec _ _ _ _ _ H) as [[-> Hall] | (a & sg & -> & _ & Hfb)].
  - intros a sg Hin Ht. pose proof (Hall _ _ Hin Ht) as Hle.
    destruct (tradeable_positive _ _ _ Ht) as (_ & _ & Hpos). lra.
  - exact Hfb.
Qed.

Hypothesis Horder :
  forall a s, exists o s',
    Exec.order_id p a s = (Ok o, s') /\ Exec.same_object s s'.
Hypothesis Hclock :
  forall a s o s',
    Exec.order_id p a s = (Ok o, s') ->
    (System.clock_pos s <= System.clock_pos s')%nat.

Lemma same_object_refl s : Exec.same_object s s.
Proof. unfold Exec.same_object. now destruct s. Qed.

Lemma same_object_trans s1 s2 s3 :
  Exec.same_object s1 s2 -> Exec.same_object s2 s3 -> Exec.same_object s1 s3.
Proof.
  unfold Exec.same_object. intros H12 H23. rewrite H23 at 1. rewrite H12 at 1.
  now destruct s1.
Qed.

Lemma same_object_clock s :
  Exec.same_object s (System.set_clock_pos (S (System.clock_pos s)) s).
Proof. unfold Exec.same_object. now destruct s. Qed.

Lemma same_object_fields s s' :
  Exec.same_object s s' ->
  System.available_capital s' = System.available_capital s
  /\ System.allocated_capital s' = System.allocated_capital s
  /\ System.active_trades s' = System.active_trades s
  /\ System.trade_history s' = System.trade_history s
  /\ System.performance_metrics s' = System.performance_metrics s
  /\ System.running s' = System.running s
  /\ System.scanned_assets s' = System.scanned_assets s
  /\ System.filtered_assets s' = System.filtered_assets s
  /\ System.trade_counter s' = System.trade_counter s
  /\ System.rand_stream s' = System.rand_stream s
  /\ System.clock_stream s' = System.clock_stream s.
Proof. unfold Exec.same_object. intros ->. now destruct s. Qed.

(** [execute_trade]: the division by the price is the only step that can
    fail. *)
Lemma execute_zero_price a sg s :
  TradingAsset.current_price a == 0 ->
  0 < System.available_capital s ->
  (0 < Signal.leverage sg)%Z ->
  Exec.execute p a sg s
  = (Raise ZeroDivisionError, System.set_clock_pos (S (System.clock_pos s)) s).
Proof.
  intros Hz Ha Hl.
  unfold Exec.execute, Exec.clock, bind, gets, lift, time_ms.
  assert (Hpos : 0 < py_min (System.available_capital
                              (System.set_clock_pos (S (System.clock_pos s)) s))
                   (Exec.trade_cap p) * inject_int (Signal.leverage sg)).
  { apply Qmult_lt_0_compat; [| now apply inject_int_pos].
    apply py_min_pos; [now destruct s | exact Hcap]. }
  unfold decimal_div.
  apply Qeq_bool_iff in Hz. unfold Qeqb at 1. rewrite Hz.
  destruct (Qeqb _ 0) eqn:E; [| reflexivity].
  apply Qeq_bool_iff in E. lra.
Qed.

(** The quantization decides between the two other outcomes. *)
Lemma quantize_cases x :
  (py_abs (quantize4_half_up x) < inject_Z (10 ^ 24)
   /\ decimal_quantize x = Ok (quantize4_half_up x))
  \/ (~ py_abs (quantize4_half_up x) < inject_Z (10 ^ 24)
      /\ decimal_quantize x = Raise InvalidOperation).
Proof.
  unfold decimal_quantize. cbv zeta. unfold Qgeb.
  destruct (Qle_bool (inject_Z (10 ^ 24)) (py_abs (quantize4_half_up x))) eqn:E.
  - right. apply Qle_bool_iff in E. split; [lra | reflexivity].
  - left. split; [| reflexivity].
    destruct (Qlt_le_dec (py_abs (quantize4_half_up x)) (inject_Z (10 ^ 24)))
      as [H | H]; [exact H |].
    apply Qle_bool_iff in H. congruence.
Qed.

Lemma execute_ok a sg s :
  ~ TradingAsset.current_price a == 0 ->
  Exec.quantizable p s a sg ->
  exists trade s',
    Exec.execute p a sg s = (Ok trade, s')
    /\ Exec.same_object s s'
    /\ (System.clock_pos s < System.clock_pos s')%nat
    /\ Exec.built p s a sg trade.
Proof.
  intros Hnz Hq.
  unfold Exec.execute, Exec.clock, bind, gets, lift, time_ms, decimal_div.
  destruct (Qeqb (TradingAsset.current_price a) 0) eqn:E.
  { apply Qeq_bool_iff in E. tauto. }
  destruct (Horder a (System.set_clock_pos (S (System.clock_pos s)) s))
    as (o & s2 & Ho & H2).
  pose proof (Hclock _ _ _ _ Ho) as Hk. rewrite Ho.
  match goal with
  | |- context [decimal_quantize ?x] =>
      destruct (quantize_cases x) as [[_ Hz] | [Hn _]]
  end.
  2: { exfalso. apply Hn. unfold Exec.quantizable, Exec.quantity in Hq.
       now destruct s. }
  rewrite Hz.
  eexists. eexists. split; [reflexivity |]. split; [| split].
  - eapply same_object_trans; [apply same_object_clock |].
    eapply same_object_trans; [exact H2 | apply same_object_clock].
  - revert Hk. destruct s, s2. cbn. lia.
  - unfold Exec.built. cbn [TradeResult.trade_id TradeResult.symbol
      TradeResult.side TradeResult.quantity TradeResult.price
      TradeResult.leverage TradeResult.expected_profit
      TradeResult.actual_profit TradeResult.status].
    repeat split.
Qed.

(** A quantity that cannot be quantized: [InvalidOperation], after the
    trade id and the order id have been made. *)
Lemma execute_overflow a sg s :
  ~ TradingAsset.current_price a == 0 ->
  ~ Exec.quantizable p s a sg ->
  exists s',
    Exec.execute p a sg s = (Raise InvalidOperation, s')
    /\ Exec.same_object s s'
    /\ (System.clock_pos s < System.clock_pos s')%nat.
Proof.
  intros Hnz Hq.
  unfold Exec.execute, Exec.clock, bind, gets, lift, time_ms, decimal_div.
  destruct (Qeqb (TradingAsset.current_price a) 0) eqn:E.
  { apply Qeq_bool_iff in E. tauto. }
  destruct (Horder a (System.set_clock_pos (S (System.clock_pos s)) s))
    as (o & s2 & Ho & H2).
  pose proof (Hclock _ _ _ _ Ho) as Hk. rewrite Ho.
  match goal with
  | |- context [decimal_quantize ?x] =>
      destruct (quantize_cases x) as [[Hy _] | [_ Hz]]
  end.
  { exfalso. apply Hq. unfold Exec.quantizable, Exec.quantity.
    now destruct s. }
  rewrite Hz.
  eexists. split; [reflexivity |]. split.
  - eapply same_object_trans; [apply same_object_clock | exact H2].
  - revert Hk. destruct s, s2. cbn. lia.
Qed.

(** The tail of the cycle after [execute_trade] has returned [trade] in a
    state [s1] that is [s] with the environment read further. *)
Lemma cycle_tail s s1 trade :
  Exec.same_object s s1 ->
  (System.clock_pos s < System.clock_pos s1)%nat ->
  (0 < TradeResult.leverage trade)%Z ->
  exists s',
    ((if Exec.counts_trades p
      then modify (fun s => System.set_trade_counter
                              (System.trade_counter s + 1)%Z s)
      else ret tt);;;
     update_capital_allocation trade;;;
     modify (fun s => System.set_active_trades
                        (Dict.set (TradeResult.trade_id trade) trade
                           (System.active_trades s)) s);;;
     ret true) s1 = (Ok true, s')
    /\ Exec.opened p s s' trade.
Proof.
  intros Hs Hk Hl. apply same_object_fields in Hs.
  destruct Hs as (H1 & H2 & H3 & H4 & H5 & H6 & H7 & H8 & H9 & H10 & H11).
  unfold update_capital_allocation, bind, lift, modify, ret, decimal_div.
  assert (E : Qeqb (inject_int (TradeResult.leverage trade)) 0 = false).
  { destruct (Qeqb _ 0) eqn:E; [| reflexivity].
    apply Qeq_bool_iff in E. apply inject_int_pos in Hl. lra. }
  destruct (Exec.counts_trades p) eqn:Ec; rewrite E;
    (eexists; split; [reflexivity |]);
    unfold Exec.opened, Exec.margin; rewrite Ec; destruct s1; cbn in *; subst;
    repeat split; assumption.
Qed.

Lemma cycle_low s :
  System.available_capital s < Exec.min_available p ->
  Exec.cycle p s = (Ok false, s).
Proof.
  intro H. unfold Exec.cycle, bind, gets, ret. cbv beta iota.
  apply Qltb_lt in H. now rewrite H.
Qed.

Lemma cycle_empty s :
  System.filtered_assets s = [] -> Exec.cycle p s = (Ok false, s).
Proof.
  intro H. unfold Exec.cycle, bind, gets, ret. cbv beta iota.
  destruct (Qltb _ _); [reflexivity |]. cbv beta iota. now rewrite H.
Qed.

Lemma cycle_select s :
  Exec.min_available p <= System.available_capital s ->
  System.filtered_assets s <> [] ->
  Exec.cycle p s
  = match Exec.select_loop p s (Exec.candidates p s) None 0 with
    | Raise e => (Raise e, s)
    | Ok None => (Ok false, s)
    | Ok (Some (a, sg)) =>
      (trade_result <- Exec.execute p a sg;;
       (if Exec.counts_trades p
        then modify (fun s => System.set_trade_counter
                                (System.trade_counter s + 1)%Z s)
        else ret tt);;;
       update_capital_allocation trade_result;;;
       modify (fun s => System.set_active_trades
                          (Dict.set (TradeResult.trade_id trade_result)
                             trade_result (System.active_trades s)) s);;;
       ret true) s
    end.
Proof.
  intros Hge Hne.
  destruct (System.filtered_assets s) as [| a0 l0] eqn:Ef; [congruence |].
  unfold Exec.cycle at 1. unfold Exec.select_best, Exec.candidates.
  unfold bind at 1. unfold gets at 1. cbv beta iota.
  apply Qltb_ge in Hge. rewrite Hge.
  unfold bind at 1. unfold gets at 1. cbv beta iota. rewrite Ef.
  unfold bind at 1. cbv beta iota. rewrite ?Ef.
  destruct (Exec.select_loop p s _ None 0) as [[[a sg] |] | e]; reflexivity.
Qed.

(** The outcomes of one execution cycle. *)
Lemma cycle_cases s :
  (Exec.cycle p s = (Ok false, s)
   /\ (System.available_capital s < Exec.min_available p
       \/ System.filtered_assets s = []
       \/ Exec.no_opportunity p s))
  \/ (Exec.cycle p s = (Raise TypeError, s)
      /\ Exec.min_available p <= System.available_capital s
      /\ exists a, In a (Exec.candidates p s)
                   /\ TradingAsset.quantum_prediction a = None)
  \/ (exists a sg,
        Exec.cycle p s
        = (Raise ZeroDivisionError,
           System.set_clock_pos (S (System.clock_pos s)) s)
        /\ Exec.min_available p <= System.available_capital s
        /\ Exec.first_best p s (Exec.candidates p s) a sg
        /\ TradingAsset.current_price a == 0)
  \/ (exists a sg s',
        Exec.cycle p s = (Raise InvalidOperation, s')
        /\ Exec.min_available p <= System.available_capital s
        /\ Exec.first_best p s (Exec.candidates p s) a sg
        /\ ~ TradingAsset.current_price a == 0
        /\ ~ Exec.quantizable p s a sg
        /\ Exec.same_object s s'
        /\ (System.clock_pos s < System.clock_pos s')%nat)
  \/ (exists a sg trade s',
        Exec.cycle p s = (Ok true, s')
        /\ Exec.min_available p <= System.available_capital s
        /\ Exec.first_best p s (Exec.candidates p s) a sg
        /\ ~ TradingAsset.current_price a == 0
        /\ Exec.quantizable p s a sg
        /\ Exec.built p s a sg trade
        /\ Exec.opened p s s' trade).
Proof.
  destruct (Qlt_le_dec (System.available_capital s) (Exec.min_available p))
    as [Hlow | Hge].
  { left. split; [now apply cycle_low | now left]. }
  destruct (System.filtered_assets s) as [| a0 l0] eqn:Ef.
  { left. split; [now apply cycle_empty | right; now left]. }
  assert (Hcyc := cycle_select s Hge).
  rewrite Ef in Hcyc. specialize (Hcyc ltac:(discriminate)).
  destruct (Exec.select_loop p s (Exec.candidates p s) None 0)
    as [r | e] eqn:Esel.
  - pose proof (select_best_spec _ _ Esel) as Hspec.
    destruct r as [[a sg] |].
    + right. right.
      assert (Ht : Exec.tradeable p s a sg).
      { destruct Hspec as (pre & post & _ & Ht & _). exact Ht. }
      pose proof (signal_leverage _ _ _ (proj1 Ht)) as Hlev.
      destruct (Qeq_dec (TradingAsset.current_price a) 0) as [Hz | Hnz].
      * left. exists a, sg.
        split; [| split; [exact Hge | split; [exact Hspec | exact Hz]]].
        rewrite Hcyc. unfold bind at 1.
        rewrite execute_zero_price; [reflexivity | exact Hz | lra | lia].
      * right.
        destruct (Qlt_le_dec
                    (py_abs (quantize4_half_up (Exec.quantity p s a sg)))
                    (inject_Z (10 ^ 24))) as [Hq | Hnq].
        -- right.
           destruct (execute_ok a sg s Hnz Hq) as (trade & s1 & Hex & Hso & Hk & Hb).
           assert (Hl : (0 < TradeResult.leverage trade)%Z).
           { destruct Hb as (_ & _ & _ & _ & _ & -> & _). lia. }
           destruct (cycle_tail s s1 trade Hso Hk Hl) as (s' & Htail & Hop).
           exists a, sg, trade, s'.
           split; [| split; [exact Hge | split; [exact Hspec |
                     split; [exact Hnz | split; [exact Hq |
                     split; [exact Hb | exact Hop]]]]]].
           rewrite Hcyc. unfold bind at 1. rewrite Hex. exact Htail.
        -- left.
           assert (Hn : ~ Exec.quantizable p s a sg).
           { unfold Exec.quantizable. lra. }
           destruct (execute_overflow a sg s Hnz Hn) as (s1 & Hex & Hso & Hk).
           exists a, sg, s1.
           split; [| split; [exact Hge | split; [exact Hspec |
                     split; [exact Hnz | split; [exact Hn |
                     split; [exact Hso | exact Hk]]]]]].
           rewrite Hcyc. unfold bind at 1. now rewrite Hex.
    + left. split; [exact Hcyc |]. right. right. split; [| exact Hspec].
      intros a Hin Hn. rewrite (select_missing _ _ _ _ _ Hin Hn) in Esel.
      discriminate.
  - right. left. apply select_raises in Esel.
    destruct Esel as (-> & a & Hin & Ha).
    split; [exact Hcyc |]. split; [exact Hge |]. now exists a.
Qed.

Lemma first_best_tradeable s l a sg :
  Exec.first_best p s l a sg -> In a l /\ Exec.tradeable p s a sg.
Proof.
  intros (pre & post & -> & Ht & _). split; [| exact Ht].
  apply in_or_app. right. now left.
Qed.

Lemma cycle_idle s :
  (Exec.cycle p s = (Ok false, s) <-> Exec.idle p s)
  /\ (forall s', Exec.cycle p s = (Ok false, s') -> s' = s).
Proof.
  destruct (cycle_cases s)
    as [[Hc Hi] | [(Hc & Hge & a & Hin & Ha)
         | [(a & sg & Hc & Hge & Hfb & Hz)
           | [(a & sg & s0 & Hc & Hge & Hfb & Hnz & Hnq & Hso & Hk)
             | (a & sg & trade & s' & Hc & Hge & Hfb & Hnz & Hq & Hb & Ho)]]]].
  - split; [split; [intros _; exact Hi | intros _; exact Hc] |].
    intros s' H. congruence.
  - split; [| intros s' H; congruence].
    split; [intro H; congruence |].
    intros [Hlow | [He | [Hp _]]]; [lra | | destruct (Hp a Hin Ha)].
    unfold Exec.candidates in Hin. rewrite He in Hin.
    destruct (Exec.top_n p); destruct Hin.
  - split; [| intros s' H; congruence].
    split; [intro H; congruence |].
    destruct (first_best_tradeable _ _ _ _ Hfb) as [Hin Ht].
    intros [Hlow | [He | [_ Hn]]]; [lra | | destruct (Hn a sg Hin Ht)].
    unfold Exec.candidates in Hin. rewrite He in Hin.
    destruct (Exec.top_n p); destruct Hin.
  - split; [| intros s' H; congruence].
    split; [intro H; congruence |].
    destruct (first_best_tradeable _ _ _ _ Hfb) as [Hin Ht].
    intros [Hlow | [He | [_ Hn]]]; [lra | | destruct (Hn a sg Hin Ht)].
    unfold Exec.candidates in Hin. rewrite He in Hin.
    destruct (Exec.top_n p); destruct Hin.
  - split; [| intros s0 H; congruence].
    split; [intro H; congruence |].
    destruct (first_best_tradeable _ _ _ _ Hfb) as [Hin Ht].
    intros [Hlow | [He | [_ Hn]]]; [lra | | destruct (Hn a sg Hin Ht)].
    unfold Exec.candidates in Hin. rewrite He in Hin.
    destruct (Exec.top_n p); destruct Hin.
Qed.

Lemma cycle_success s s' :
  Exec.cycle p s = (Ok true, s') -> Exec.success p s s'.
Proof.
  intro H.
  destruct (cycle_cases s)
    as [[Hc Hi] | [(Hc & Hge & a & Hin & Ha)
         | [(a & sg & Hc & Hge & Hfb & Hz)
           | [(a & sg & s0 & Hc & Hge & Hfb & Hnz & Hnq & Hso & Hk)
             | (a & sg & trade & s0 & Hc & Hge & Hfb & Hnz & Hq & Hb & Ho)]]]];
    try congruence.
  split; [exact Hge |]. exists a, sg, trade.
  assert (s0 = s') by congruence. subst s0. auto.
Qed.

(** A successful cycle has quantized the quantity of its trade. *)
Lemma cycle_success_quantized s s' :
  Exec.cycle p s = (Ok true, s') ->
  exists a sg trade,
    Exec.first_best p s (Exec.candidates p s) a sg
    /\ ~ TradingAsset.current_price a == 0
    /\ Exec.quantizable p s a sg
    /\ Exec.built p s a sg trade
    /\ Exec.opened p s s' trade.
Proof.
  intro H.
  destruct (cycle_cases s)
    as [[Hc Hi] | [(Hc & Hge & a & Hin & Ha)
         | [(a & sg & Hc & Hge & Hfb & Hz)
           | [(a & sg & s0 & Hc & Hge & Hfb & Hnz & Hnq & Hso & Hk)
             | (a & sg & trade & s0 & Hc & Hge & Hfb & Hnz & Hq & Hb & Ho)]]]];
    try congruence.
  exists a, sg, trade.
  assert (s0 = s') by congruence. subst s0. auto.
Qed.

Lemma cycle_failure s e s' :
  Exec.cycle p s = (Raise e, s') -> Exec.failure p s e s'.
Proof.
  intro H.
  destruct (cycle_cases s)
    as [[Hc Hi] | [(Hc & Hge & a & Hin & Ha)
         | [(a & sg & Hc & Hge & Hfb & Hz)
           | [(a & sg & s0 & Hc & Hge & Hfb & Hnz & Hnq & Hso & Hk)
             | (a & sg & trade & s0 & Hc & Hge & Hfb & Hnz & Hq & Hb & Ho)]]]];
    try congruence.
  - split; [exact Hge |]. left.
    assert (e = TypeError /\ s' = s) as [-> ->] by (split; congruence).
    split; [reflexivity |]. split; [reflexivity |]. now exists a.
  - split; [exact Hge |]. right. left.
    assert (e = ZeroDivisionError
            /\ s' = System.set_clock_pos (S (System.clock_pos s)) s)
      as [-> ->] by (split; congruence).
    split; [reflexivity |]. split; [reflexivity |]. now exists a, sg.
  - split; [exact Hge |]. right. right.
    assert (e = InvalidOperation /\ s' = s0) as [-> ->] by (split; congruence).
    split; [reflexivity |]. split; [exact Hso |]. split; [exact Hk |].
    now exists a, sg.
Qed.

Lemma cycle_missing_prediction s a :
  Exec.min_available p <= System.available_capital s ->
  In a (Exec.candidates p s) ->
  TradingAsset.quantum_prediction a = None ->
  Exec.cycle p s = (Raise TypeError, s).
Proof.
  intros Hge Hin Ha.
  rewrite cycle_select; [| exact Hge |].
  - now rewrite (select_missing _ _ _ _ _ Hin Ha).
  - intro He. unfold Exec.candidates in Hin. rewrite He in Hin.
    destruct (Exec.top_n p); destruct Hin.
Qed.

End Scheme.

(** The constants of the three classes meet the assumptions of the scheme. *)
Lemma comprehensive_order a s :
  exists o s', Exec.order_id Exec.comprehensive a s = (Ok o, s')
               /\ Exec.same_object s s'.
Proof.
  eexists. eexists. split; [reflexivity |].
  unfold Exec.same_object. now destruct s.
Qed.

Lemma comprehensive_order_clock a s o s' :
  Exec.order_id Exec.comprehensive a s = (Ok o, s') ->
  (System.clock_pos s <= System.clock_pos s')%nat.
Proof. intros [= _ <-]. destruct s. cbn. lia. Qed.

Lemma suffixed_order_clock prefix a s o s' :
  Exec.suffixed_order_id prefix a s = (Ok o, s') ->
  (System.clock_pos s <= System.clock_pos s')%nat.
Proof. intros [= _ <-]. destruct s. cbn. lia. Qed.

Lemma suffixed_order prefix a s :
  exists o s', Exec.suffixed_order_id prefix a s = (Ok o, s')
               /\ Exec.same_object s s'.
Proof.
  eexists. eexists. split; [reflexivity |].
  unfold Exec.same_object. now destruct s.
Qed.

End ExecFacts.

(** * The execution cycle of the three classes *)

Module ExecInstances.
Import ExecFacts ExecBridge.

(** Discharges the assumptions of the scheme at the constants of a class. *)
Ltac params :=
  first [ reflexivity | discriminate
        | apply comprehensive_order | apply suffixed_order
        | apply comprehensive_order_clock | apply suffixed_order_clock ].

End ExecInstances.

(** Selection.  [select_best_trading_opportunity] (in the realistic
    class [select_best_realistic_opportunity]) leaves the object as it is.
    When it returns a pair, that pair is the first candidate of maximal
    score among the tradeable ones of the first 20 (10, 5) filtered
    assets; when it returns [None], every candidate has a prediction and
    none is tradeable; and it raises nothing but [TypeError], which it
    does exactly when a candidate has no prediction. *)
Theorem selection_is_first_best :
  forall (s : System.t),
    let spec p (out : result (option (TradingAsset.t * Signal.t)) * System.t) :=
      snd out = s
      /\ match fst out with
         | Ok (Some (a, sg)) => Exec.first_best p s (Exec.candidates p s) a sg
         | Ok None => Exec.no_opportunity p s
         | Raise e => e = TypeError
         end
      /\ (fst out = Raise TypeError
          <-> exists a, In a (Exec.candidates p s)
                        /\ TradingAsset.quantum_prediction a = None) in
    spec Exec.comprehensive (Comprehensive.select_best_trading_opportunity s)
    /\ spec Exec.enhanced (Enhanced.select_best_trading_opportunity s)
    /\ spec Exec.realistic (Realistic.select_best_realistic_opportunity s).
Proof.
  intros s spec.
  assert (H : forall p,
             0 < Exec.trade_cap p -> 0 < Exec.min_available p ->
             0 < Exec.min_expected_profit p -> 0 <= Exec.min_confidence p ->
             0 < Exec.movement_scale p ->
             spec p (Exec.select_best p s)).
  { intros p H1 H2 H3 H4 H5. unfold spec, Exec.select_best.
    cbn [fst snd]. fold (Exec.candidates p s).
    split; [reflexivity |].
    destruct (Exec.select_loop p s (Exec.candidates p s) None 0)
      as [r | e] eqn:E.
    - pose proof (ExecFacts.select_best_spec p H1 H2 H3 H4 H5 _ _ E) as Hs.
      split.
      + destruct r as [[a sg] |]; [exact Hs |]. split; [| exact Hs].
        intros a Hin Ha.
        rewrite (ExecFacts.select_missing p H1 H2 H3 H4 H5 _ _ _ _ _ Hin Ha) in E.
        discriminate.
      + split; [discriminate |]. intros (a & Hin & Ha).
        rewrite (ExecFacts.select_missing p H1 H2 H3 H4 H5 _ _ _ _ _ Hin Ha) in E.
        discriminate.
    - apply (ExecFacts.select_raises p H1 H2 H3 H4 H5) in E.
      destruct E as (-> & Hex). split; [reflexivity |]. tauto. }
  split; [| split].
  - replace (Comprehensive.select_best_trading_opportunity s)
      with (Exec.select_best Exec.comprehensive s);
      [apply H; ExecInstances.params | reflexivity].
  - replace (Enhanced.select_best_trading_opportunity s)
      with (Exec.select_best Exec.enhanced s);
      [apply H; ExecInstances.params | reflexivity].
  - replace (Realistic.select_best_realistic_opportunity s)
      with (Exec.select_best Exec.realistic s);
      [apply H; ExecInstances.params | reflexivity].
Qed.

(** Idle cycles.  In each class [execute_trading_cycle] returns [False]
    exactly when the available capital is below the minimum of the class
    (5, 3, 3), or the filtered catalog is empty, or every candidate has a
    prediction and none is tradeable; and a cycle that returns [False]
    leaves the object untouched. *)
Theorem idle_cycle_changes_nothing :
  forall (s : System.t),
    ((Comprehensive.execute_trading_cycle s = (Ok false, s)
      <-> Exec.idle Exec.comprehensive s)
     /\ forall s', Comprehensive.execute_trading_cycle s = (Ok false, s') -> s' = s)
    /\ ((Enhanced.execute_trading_cycle s = (Ok false, s)
         <-> Exec.idle Exec.enhanced s)
        /\ forall s', Enhanced.execute_trading_cycle s = (Ok false, s') -> s' = s)
    /\ ((Realistic.execute_realistic_trading_cycle s = (Ok false, s)
         <-> Exec.idle Exec.realistic s)
        /\ forall s', Realistic.execute_realistic_trading_cycle s = (Ok false, s')
                      -> s' = s).
Proof.
  intro s.
  split; [| split].
  - rewrite ExecBridge.comprehensive_cycle.
    apply ExecFacts.cycle_idle; ExecInstances.params.
  - rewrite ExecBridge.enhanced_cycle.
    apply ExecFacts.cycle_idle; ExecInstances.params.
  - rewrite ExecBridge.realistic_cycle.
    apply ExecFacts.cycle_idle; ExecInstances.params.
Qed.

Lemma idle_cycle_changes_nothing_witness :
  let s := Scenario.poor_state in
  Comprehensive.execute_trading_cycle s = (Ok false, s)
  /\ Enhanced.execute_trading_cycle s = (Ok false, s)
  /\ Realistic.execute_realistic_trading_cycle s = (Ok false, s).
Proof.
  cbv zeta.
  destruct (idle_cycle_changes_nothing Scenario.poor_state)
    as ((H1 & _) & (H2 & _) & (H3 & _)).
  split; [apply H1; left; reflexivity |].
  split; [apply H2; left; reflexivity | apply H3; left; reflexivity].
Defined.

(** Successful cycles.  When [execute_trading_cycle] returns [True], the
    available capital was at least the minimum of the class, and the first
    best candidate, whose price is not zero, has been turned into a trade
    with id [trade-<clock reading>], status [Executed] and the candidate's
    price and the signal's leverage; its margin [quantity * price /
    leverage] has moved from [available_capital] to
    [allocated_capital[trade_id]], the trade has entered [active_trades],
    the trade counter (enhanced and realistic class) has advanced by one,
    and the history, the metrics, [running] and the catalog are as
    before. *)
Theorem successful_cycle_opens_first_best :
  forall (s s' : System.t),
    (Comprehensive.execute_trading_cycle s = (Ok true, s') ->
     Exec.success Exec.comprehensive s s')
    /\ (Enhanced.execute_trading_cycle s = (Ok true, s') ->
        Exec.success Exec.enhanced s s')
    /\ (Realistic.execute_realistic_trading_cycle s = (Ok true, s') ->
        Exec.success Exec.realistic s s').
Proof.
  intros s s'.
  rewrite ExecBridge.comprehensive_cycle, ExecBridge.enhanced_cycle,
    ExecBridge.realistic_cycle.
  repeat apply conj; apply ExecFacts.cycle_success; ExecInstances.params.
Qed.

Lemma successful_cycle_opens_first_best_witness :
  let s := Cases.market_state [Cases.second_asset; Cases.steady_asset] in
  Exec.success Exec.comprehensive s (snd (Comprehensive.execute_trading_cycle s))
  /\ Exec.success Exec.enhanced s (snd (Enhanced.execute_trading_cycle s))
  /\ Exec.success Exec.realistic s
       (snd (Realistic.execute_realistic_trading_cycle s)).
Proof.
  cbv zeta.
  split; [| split].
  - apply successful_cycle_opens_first_best. vm_compute. reflexivity.
  - apply successful_cycle_opens_first_best. vm_compute. reflexivity.
  - apply successful_cycle_opens_first_best. vm_compute. reflexivity.
Defined.

(** Failing cycles.  [execute_trading_cycle] raises nothing but
    [TypeError], when a candidate has no prediction (then the object is
    untouched), [ZeroDivisionError], when the price of the first best
    candidate is zero (then only the clock has been read), and
    [InvalidOperation], when the quantity of the first best candidate,
    rounded to four places, reaches 10^24 (then the clock and the
    generator have been read and the books are untouched); and with enough
    capital a single candidate without a prediction makes the cycle raise
    [TypeError], whatever the other candidates are. *)
Theorem cycle_failures :
  forall (s : System.t),
    let spec p (cycle : M bool) :=
      (forall e s', cycle s = (Raise e, s') -> Exec.failure p s e s')
      /\ (forall a,
            Exec.min_available p <= System.available_capital s ->
            In a (Exec.candidates p s) ->
            TradingAsset.quantum_prediction a = None ->
            cycle s = (Raise TypeError, s)) in
    spec Exec.comprehensive Comprehensive.execute_trading_cycle
    /\ spec Exec.enhanced Enhanced.execute_trading_cycle
    /\ spec Exec.realistic Realistic.execute_realistic_trading_cycle.
Proof.
  intros s spec. unfold spec.
  rewrite ExecBridge.comprehensive_cycle, ExecBridge.enhanced_cycle,
    ExecBridge.realistic_cycle.
  repeat apply conj; intros.
  all: first [ apply ExecFacts.cycle_failure; solve [assumption | ExecInstances.params]
             | eapply ExecFacts.cycle_missing_prediction;
               solve [eassumption | ExecInstances.params] ].
Qed.

Lemma cycle_failures_witness :
  let s := Cases.market_state [Cases.steady_asset; Cases.blind_asset] in
  let z := Cases.market_state [Cases.second_asset; Cases.unpriced_asset] in
  let d := Cases.market_state [Cases.dust_asset] in
  (Comprehensive.execute_trading_cycle s = (Raise TypeError, s)
   /\ Enhanced.execute_trading_cycle s = (Raise TypeError, s)
   /\ Realistic.execute_realistic_trading_cycle s = (Raise TypeError, s))
  /\ Exec.failure Exec.comprehensive z ZeroDivisionError
       (snd (Comprehensive.execute_trading_cycle z))
  /\ Exec.failure Exec.comprehensive d InvalidOperation
       (snd (Comprehensive.execute_trading_cycle d)).
Proof.
  cbv zeta.
  destruct (cycle_failures
              (Cases.market_state [Cases.steady_asset; Cases.blind_asset]))
    as ((_ & H1) & (_ & H2) & (_ & H3)).
  destruct (cycle_failures
              (Cases.market_state [Cases.second_asset; Cases.unpriced_asset]))
    as ((Hz & _) & _).
  destruct (cycle_failures (Cases.market_state [Cases.dust_asset]))
    as ((Hd & _) & _).
  split; [split; [| split] | split].
  - apply (H1 Cases.blind_asset); [discriminate | right; now left | reflexivity].
  - apply (H2 Cases.blind_asset); [discriminate | right; now left | reflexivity].
  - apply (H3 Cases.blind_asset); [discriminate | right; now left | reflexivity].
  - apply Hz. vm_compute. reflexivity.
  - apply Hd. vm_compute. reflexivity.
Defined.

Lemma selection_is_first_best_witness :
  let s := Cases.market_state [Cases.second_asset; Cases.steady_asset] in
  (exists sg, Exec.first_best Exec.comprehensive s
                (Exec.candidates Exec.comprehensive s) Cases.steady_asset sg)
  /\ (exists sg, Exec.first_best Exec.realistic s
                   (Exec.candidates Exec.realistic s) Cases.steady_asset sg).
Proof.
  cbv zeta.
  destruct (selection_is_first_best
              (Cases.market_state [Cases.second_asset; Cases.steady_asset]))
    as ((_ & H1 & _) & _ & (_ & H3 & _)).
  split.
  - destruct (Comprehensive.select_best_trading_opportunity _)
      as [[[[a sg] |] | e] s1] eqn:E; vm_compute in E; try discriminate E.
    injection E as Ea _ _. cbn [fst] in H1. subst a. exists sg. exact H1.
  - destruct (Realistic.select_best_realistic_opportunity _)
      as [[[[a sg] |] | e] s1] eqn:E; vm_compute in E; try discriminate E.
    injection E as Ea _ _. cbn [fst] in H3. subst a. exists sg. exact H3.
Defined.

(** * The window of tradeable signals *)

Module WindowFacts.
Import Common.

Lemma py_int_ge n x : (0 <= n)%Z -> inject_Z n <= x -> (n <= py_int x)%Z.
Proof.
  intros Hn H. unfold py_int. destruct x as [a d].
  unfold Qle in H. cbn [Qnum Qden inject_Z] in *.
  assert (0 <= a)%Z by nia.
  rewrite Z.quot_div_nonneg by lia.
  apply Z.div_le_lower_bound; lia.
Qed.

Lemma py_int_lt n x : 0 <= x -> (py_int x < n)%Z -> x < inject_Z n.
Proof.
  intros H0 H. unfold py_int in H. destruct x as [a d].
  unfold Qle in H0. unfold Qlt. cbn [Qnum Qden inject_Z] in *.
  assert (0 <= a)%Z by lia.
  rewrite Z.quot_div_nonneg in H by lia.
  pose proof (Z.mul_succ_div_gt a (Z.pos d) ltac:(lia)) as Hs. nia.
Qed.

(** The window of the comprehensive class. *)
Lemma comprehensive_window s a sg :
  Exec.tradeable Exec.comprehensive s a sg ->
  5 <= System.available_capital s
  /\ 75 # 100 < Signal.confidence sg /\ Signal.confidence sg < 1
  /\ Signal.leverage sg = py_int (Signal.confidence sg * 100)
  /\ (75 <= Signal.leverage sg <= 99)%Z
  /\ 0 < TradingAsset.volatility_24h a
  /\ TradingAsset.volatility_24h a < 25 # 1000
  /\ 6 # 10 <= Signal.expected_profit sg
  /\ 0 < Signal.risk_score sg /\ Signal.risk_score sg < 5 # 10
  /\ 0 < Exec.score sg.
Proof.
  intro Ht. pose proof Ht as [E Et].
  assert (Hlevq : forall n : Z, (n <= Signal.leverage sg)%Z ->
                    inject_Z n / 100 <= inject_int (Signal.leverage sg) / 100).
  { intros n Hn. apply Qle_shift_div_l; [reflexivity |].
    setoid_replace (inject_Z n / 100 * 100) with (inject_Z n) by field.
    now apply ExecFacts.inject_int_le. }
  destruct (ExecFacts.tradeable_tests _ _ _ _ Ht) as (H1 & H2 & H3 & H4).
  destruct (ExecFacts.tradeable_positive Exec.comprehensive
              ltac:(ExecInstances.params) ltac:(ExecInstances.params)
              ltac:(ExecInstances.params) ltac:(ExecInstances.params)
              ltac:(ExecInstances.params) _ _ _ Ht) as (Hv & Hr & Hs).
  destruct (ExecFacts.signal_prediction _ _ _ _ E)
    as (pr & _ & Hc & _ & Hl & _ & Hrs).
  cbn [Exec.min_confidence Exec.min_expected_profit Exec.max_risk_score
       Exec.min_available Exec.leverage_scale Exec.comprehensive] in *.
  rewrite <- Hc in Hl.
  assert (Hn : (75 <= py_int (Signal.confidence sg * 100))%Z).
  { apply py_int_ge; [lia |]. change (inject_Z 75) with 75. lra. }
  assert (Hlo : (75 <= Signal.leverage sg)%Z).
  { rewrite Hl. unfold py_minZ, py_maxZ.
    cbn [SystemConfig.min_leverage SystemConfig.max_leverage config].
    destruct (_ <? 50)%Z eqn:E1; [apply Z.ltb_lt in E1; lia |].
    destruct (100 <? _)%Z; lia. }
  pose proof (Hlevq 75%Z Hlo) as Hq.
  assert (Hhi : (Signal.leverage sg < 100)%Z).
  { destruct (Z_lt_le_dec (Signal.leverage sg) 100) as [Hlt | Hge]; [exact Hlt |].
    pose proof (Hlevq 100%Z Hge) as Hq'. exfalso.
    change (inject_Z 100 / 100) with (100 / 100) in Hq'.
    assert (100 / 100 == 1) by reflexivity.
    assert (0 < TradingAsset.volatility_24h a / (1 # 10))
      by (apply Qlt_shift_div_l; lra).
    rewrite Hrs in H3.
    assert (Hx : (inject_int (Signal.leverage sg) / 100
                  + TradingAsset.volatility_24h a / (1 # 10)) / 2
                 == (inject_int (Signal.leverage sg) / 100
                     + TradingAsset.volatility_24h a / (1 # 10)) * (1 # 2))
      by field.
    rewrite Hx in H3. lra. }
  assert (Hun : Signal.leverage sg = py_int (Signal.confidence sg * 100)).
  { rewrite Hl at 1. rewrite Hl in Hhi. revert Hhi. unfold py_minZ, py_maxZ.
    cbn [SystemConfig.min_leverage SystemConfig.max_leverage config].
    destruct (_ <? 50)%Z eqn:E1; [apply Z.ltb_lt in E1; lia |].
    destruct (100 <? _)%Z eqn:E2; [lia | reflexivity]. }
  assert (Hc1 : Signal.confidence sg < 1).
  { assert (Hlt : Signal.confidence sg * 100 < inject_Z 100).
    { apply py_int_lt; [lra | lia]. }
    change (inject_Z 100) with 100 in Hlt. lra. }
  assert (Hvol : TradingAsset.volatility_24h a < 25 # 1000).
  { change (inject_Z 75 / 100) with (75 / 100) in Hq.
    assert (75 / 100 == 75 # 100) by reflexivity.
    rewrite Hrs in H3.
    assert (Hx : (inject_int (Signal.leverage sg) / 100
                  + TradingAsset.volatility_24h a / (1 # 10)) / 2
                 == (inject_int (Signal.leverage sg) / 100
                     + TradingAsset.volatility_24h a * 10) * (1 # 2))
      by field.
    rewrite Hx in H3. lra. }
  repeat (split; [first [assumption | lia] |]). exact Hs.
Qed.

(** With a volatility of at least 2% the risk test of the comprehensive
    class leaves leverages up to 79 only. *)
Lemma narrow_band s a sg :
  2 # 100 <= TradingAsset.volatility_24h a ->
  Exec.tradeable Exec.comprehensive s a sg ->
  Signal.confidence sg < 80 # 100 /\ (75 <= Signal.leverage sg <= 79)%Z.
Proof.
  intros Hv0 Ht.
  destruct (comprehensive_window s a sg Ht)
    as (_ & Hc0 & _ & Hun & Hlev & _ & Hv & _ & _ & Hr & _).
  destruct Ht as [E _].
  destruct (ExecFacts.signal_prediction _ _ _ _ E) as (pr & _ & _ & _ & _ & _ & Hrs).
  assert (Hl : (Signal.leverage sg < 80)%Z).
  { destruct (Z_lt_le_dec (Signal.leverage sg) 80) as [Hlt | Hge]; [exact Hlt |].
    exfalso.
    assert (Hq : 80 <= inject_int (Signal.leverage sg)).
    { change 80 with (inject_int 80). now apply ExecFacts.inject_int_le. }
    rewrite Hrs in Hr.
    assert (Hx : (inject_int (Signal.leverage sg) / 100
                  + TradingAsset.volatility_24h a / (1 # 10)) / 2
                 == (inject_int (Signal.leverage sg) * (1 # 100)
                     + TradingAsset.volatility_24h a * 10) * (1 # 2))
      by field.
    rewrite Hx in Hr. lra. }
  split; [| lia].
  assert (Hlt : Signal.confidence sg * 100 < inject_Z 80).
  { apply py_int_lt; [lra | lia]. }
  change (inject_Z 80) with 80 in Hlt. lra.
Qed.

Lemma In_firstn {A} n (l : list A) x : In x (firstn n l) -> In x l.
Proof.
  revert l. induction n as [| n IH]; intros [| y l]; cbn; try tauto.
  intros [-> | H]; [now left | right; auto].
Qed.

End WindowFacts.

(** The window of tradeable signals.  An asset whose signal says to
    trade satisfies the four tests of the class, and therefore:
    - comprehensive class: the capital is at least 5, the confidence lies
      strictly between 0.75 and 1, the leverage is [int(confidence * 100)]
      unclamped and lies in 75..99, and the volatility lies strictly
      between 0 and 2.5%;
    - enhanced class: capital at least 3, confidence above 0.72, leverage
      in 57..100, volatility strictly between 0 and 6.3%;
    - realistic class: capital at least 3, confidence above 0.78, leverage
      in 66..100, volatility strictly between 0 and 5.4%;
    and in each class the risk score and the opportunity score are
    positive. *)
Theorem tradeable_signal_window :
  forall (s : System.t) (a : TradingAsset.t) (sg : Signal.t),
    (Comprehensive.generate_trading_signal s a = Ok sg ->
     Signal.should_trade sg = true ->
     5 <= System.available_capital s
     /\ 75 # 100 < Signal.confidence sg /\ Signal.confidence sg < 1
     /\ Signal.leverage sg = py_int (Signal.confidence sg * 100)
     /\ (75 <= Signal.leverage sg <= 99)%Z
     /\ 0 < TradingAsset.volatility_24h a
     /\ TradingAsset.volatility_24h a < 25 # 1000
     /\ 6 # 10 <= Signal.expected_profit sg
     /\ 0 < Signal.risk_score sg /\ Signal.risk_score sg < 5 # 10
     /\ 0 < Exec.score sg)
    /\ (Enhanced.generate_trading_signal s a = Ok sg ->
        Signal.should_trade sg = true ->
        3 <= System.available_capital s
        /\ 72 # 100 < Signal.confidence sg
        /\ (57 <= Signal.leverage sg <= 100)%Z
        /\ 0 < TradingAsset.volatility_24h a
        /\ TradingAsset.volatility_24h a < 63 # 1000
        /\ 4 # 10 <= Signal.expected_profit sg
        /\ 0 < Signal.risk_score sg /\ Signal.risk_score sg < 6 # 10
        /\ 0 < Exec.score sg)
    /\ (Realistic.generate_realistic_trading_signal s a = Ok sg ->
        Signal.should_trade sg = true ->
        3 <= System.available_capital s
        /\ 78 # 100 < Signal.confidence sg
        /\ (66 <= Signal.leverage sg <= 100)%Z
        /\ 0 < TradingAsset.volatility_24h a
        /\ TradingAsset.volatility_24h a < 54 # 1000
        /\ 5 # 10 <= Signal.expected_profit sg
        /\ 0 < Signal.risk_score sg /\ Signal.risk_score sg < 6 # 10
        /\ 0 < Exec.score sg).
Proof.
  intros s a sg.
  assert (Hlevq : forall n : Z, (n <= Signal.leverage sg)%Z ->
                    inject_Z n / 100 <= inject_int (Signal.leverage sg) / 100).
  { intros n Hn. apply Qle_shift_div_l; [reflexivity |].
    setoid_replace (inject_Z n / 100 * 100) with (inject_Z n) by field.
    now apply ExecFacts.inject_int_le. }
  split; [| split].
  - rewrite ExecBridge.comprehensive_signal. intros E Et.
    apply WindowFacts.comprehensive_window. now split.
  - rewrite ExecBridge.enhanced_signal. intros E Et.
    assert (Ht : Exec.tradeable Exec.enhanced s a sg) by now split.
    destruct (ExecFacts.tradeable_tests _ _ _ _ Ht) as (H1 & H2 & H3 & H4).
    destruct (ExecFacts.tradeable_positive Exec.enhanced
                ltac:(ExecInstances.params) ltac:(ExecInstances.params)
                ltac:(ExecInstances.params) ltac:(ExecInstances.params)
                ltac:(ExecInstances.params) _ _ _ Ht) as (Hv & Hr & Hs).
    destruct (ExecFacts.signal_prediction _ _ _ _ E)
      as (pr & _ & Hc & _ & Hl & _ & Hrs).
    pose proof (ExecFacts.signal_leverage _ _ _ _ E) as Hb.
    cbn [Exec.min_confidence Exec.min_expected_profit Exec.max_risk_score
         Exec.min_available Exec.leverage_scale Exec.enhanced] in *.
    rewrite <- Hc in Hl.
    assert (Hn : (57 <= py_int (Signal.confidence sg * 80))%Z).
    { apply WindowFacts.py_int_ge; [lia |]. change (inject_Z 57) with 57. lra. }
    assert (Hlo : (57 <= Signal.leverage sg)%Z).
    { rewrite Hl. unfold py_minZ, py_maxZ.
      cbn [SystemConfig.min_leverage SystemConfig.max_leverage config].
      destruct (_ <? 50)%Z eqn:E1; [apply Z.ltb_lt in E1; lia |].
      destruct (100 <? _)%Z; lia. }
    pose proof (Hlevq 57%Z Hlo) as Hq.
    assert (Hvol : TradingAsset.volatility_24h a < 63 # 1000).
    { change (inject_Z 57 / 100) with (57 / 100) in Hq.
      assert (57 / 100 == 57 # 100) by reflexivity.
      rewrite Hrs in H3.
      assert (Hx : (inject_int (Signal.leverage sg) / 100
                    + TradingAsset.volatility_24h a / (1 # 10)) / 2
                   == (inject_int (Signal.leverage sg) / 100
                       + TradingAsset.volatility_24h a * 10) * (1 # 2))
        by field.
      rewrite Hx in H3. lra. }
    repeat (split; [first [assumption | lia] |]). exact Hs.
  - rewrite ExecBridge.realistic_signal. intros E Et.
    assert (Ht : Exec.tradeable Exec.realistic s a sg) by now split.
    destruct (ExecFacts.tradeable_tests _ _ _ _ Ht) as (H1 & H2 & H3 & H4).
    destruct (ExecFacts.tradeable_positive Exec.realistic
                ltac:(ExecInstances.params) ltac:(ExecInstances.params)
                ltac:(ExecInstances.params) ltac:(ExecInstances.params)
                ltac:(ExecInstances.params) _ _ _ Ht) as (Hv & Hr & Hs).
    destruct (ExecFacts.signal_prediction _ _ _ _ E)
      as (pr & _ & Hc & _ & Hl & _ & Hrs).
    pose proof (ExecFacts.signal_leverage _ _ _ _ E) as Hb.
    cbn [Exec.min_confidence Exec.min_expected_profit Exec.max_risk_score
         Exec.min_available Exec.leverage_scale Exec.realistic] in *.
    rewrite <- Hc in Hl.
    assert (Hn : (66 <= py_int (Signal.confidence sg * 85))%Z).
    { apply WindowFacts.py_int_ge; [lia |]. change (inject_Z 66) with 66. lra. }
    assert (Hlo : (66 <= Signal.leverage sg)%Z).
    { rewrite Hl. unfold py_minZ, py_maxZ.
      cbn [SystemConfig.min_leverage SystemConfig.max_leverage config].
      destruct (_ <? 50)%Z eqn:E1; [apply Z.ltb_lt in E1; lia |].
      destruct (100 <? _)%Z; lia. }
    pose proof (Hlevq 66%Z Hlo) as Hq.
    assert (Hvol : TradingAsset.volatility_24h a < 54 # 1000).
    { change (inject_Z 66 / 100) with (66 / 100) in Hq.
      assert (66 / 100 == 66 # 100) by reflexivity.
      rewrite Hrs in H3.
      assert (Hx : (inject_int (Signal.leverage sg) / 100
                    + TradingAsset.volatility_24h a / (1 # 10)) / 2
                   == (inject_int (Signal.leverage sg) / 100
                       + TradingAsset.volatility_24h a * 10) * (1 # 2))
        by field.
      rewrite Hx in H3. lra. }
    repeat (split; [first [assumption | lia] |]). exact Hs.
Qed.

Lemma tradeable_signal_window_witness :
  let s := Cases.market_state [Cases.steady_asset] in
  let a := Cases.steady_asset in
  (exists sg, Comprehensive.generate_trading_signal s a = Ok sg
              /\ (75 <= Signal.leverage sg <= 99)%Z
              /\ TradingAsset.volatility_24h a < 25 # 1000)
  /\ (exists sg, Enhanced.generate_trading_signal s a = Ok sg
                 /\ (57 <= Signal.leverage sg <= 100)%Z
                 /\ TradingAsset.volatility_24h a < 63 # 1000)
  /\ (exists sg, Realistic.generate_realistic_trading_signal s a = Ok sg
                 /\ (66 <= Signal.leverage sg <= 100)%Z
                 /\ TradingAsset.volatility_24h a < 54 # 1000).
Proof.
  cbv zeta. split; [| split].
  - eexists. split; [reflexivity |].
    match goal with
    | |- (_ <= Signal.leverage ?sg <= _)%Z /\ _ =>
      destruct (tradeable_signal_window
                  (Cases.market_state [Cases.steady_asset])
                  Cases.steady_asset sg) as (H & _)
    end.
    destruct (H eq_refl eq_refl) as (_ & _ & _ & _ & Hl & _ & Hv & _).
    split; [exact Hl | exact Hv].
  - eexists. split; [reflexivity |].
    match goal with
    | |- (_ <= Signal.leverage ?sg <= _)%Z /\ _ =>
      destruct (tradeable_signal_window
                  (Cases.market_state [Cases.steady_asset])
                  Cases.steady_asset sg) as (_ & H & _)
    end.
    destruct (H eq_refl eq_refl) as (_ & _ & Hl & _ & Hv & _).
    split; [exact Hl | exact Hv].
  - eexists. split; [reflexivity |].
    match goal with
    | |- (_ <= Signal.leverage ?sg <= _)%Z /\ _ =>
      destruct (tradeable_signal_window
                  (Cases.market_state [Cases.steady_asset])
                  Cases.steady_asset sg) as (_ & _ & H)
    end.
    destruct (H eq_refl eq_refl) as (_ & _ & Hl & _ & Hv & _).
    split; [exact Hl | exact Hv].
Defined.

(** * Opening a trade and the ledger *)

Module OpenFacts.
Import Common DictFacts.


Lemma get_set_same {V} k (v : V) d : Dict.get k (Dict.set k v d) = Some v.
Proof.
  induction d as [| [k0 v0] d IH]; simpl.
  - now rewrite String.eqb_refl.
  - destruct (String.eqb k k0) eqn:E; simpl.
    + now rewrite String.eqb_refl.
    + now rewrite E.
Qed.


Section Scheme.
Variable p : Exec.params.

(** Opening a trade keeps every open trade backed. *)
Lemma opened_backed s s' trade :
  Exec.opened p s s' trade -> Ledger.backed s -> Ledger.backed s'.
Proof.
  intros (_ & Hal & Hac & _) (Hwa & Hwt & Hsub).
  unfold Ledger.backed. rewrite Hal, Hac.
  split; [now apply wf_set |]. split; [now apply wf_set |].
  intros k Hk. apply keys_set in Hk. apply keys_set.
  destruct Hk as [-> | Hk]; [now left | right; auto].
Qed.


Hypothesis Hcap : 0 < Exec.trade_cap p.
Hypothesis Havail : 0 < Exec.min_available p.
Hypothesis Hprofit : 0 < Exec.min_expected_profit p.
Hypothesis Hconf : 0 <= Exec.min_confidence p.
Hypothesis Hmove : 0 < Exec.movement_scale p.
Hypothesis Horder :
  forall a s, exists o s',
    Exec.order_id p a s = (Ok o, s') /\ Exec.same_object s s'.
Hypothesis Hclock :
  forall a s o s',
    Exec.order_id p a s = (Ok o, s') ->
    (System.clock_pos s <= System.clock_pos s')%nat.

Lemma cycle_backed s :
  Ledger.backed s -> Ledger.backed (snd (Exec.cycle p s)).
Proof.
  intro H.
  destruct (ExecFacts.cycle_cases p Hcap Havail Hprofit Hconf Hmove Horder Hclock s)
    as [[Hc _] | [(Hc & _) | [(a & sg & Hc & _)
         | [(a & sg & s0 & Hc & _ & _ & _ & _ & Hso & _)
           | (a & sg & trade & s' & Hc & _ & _ & _ & _ & _ & Ho)]]]];
    rewrite Hc; cbn [snd]; try assumption.
  - apply ExecFacts.same_object_fields in Hso.
    destruct Hso as (_ & Hal & Hac & _).
    unfold Ledger.backed. now rewrite Hal, Hac.
  - eapply opened_backed; eauto.
Qed.



End Scheme.
End OpenFacts.



(** * The booked margin and the round trip *)

Module MarginFacts.
Import Common.

(** Rounding to four places moves a number by at most half a unit of the
    fourth place. *)
Lemma quantize4_error x :
  - (1 # 20000) <= quantize4_half_up x - x
  /\ quantize4_half_up x - x <= 1 # 20000.
Proof.
  destruct x as [a d]. unfold quantize4_half_up. cbn [Qnum Qden].
  set (n := (Z.abs a * 10000)%Z).
  set (r := ((2 * n + Z.pos d) / (2 * Z.pos d))%Z).
  assert (Hlo : (2 * Z.pos d * r <= 2 * n + Z.pos d)%Z).
  { apply Z.mul_div_le. lia. }
  assert (Hhi : (2 * n + Z.pos d < 2 * Z.pos d * Z.succ r)%Z).
  { apply Z.mul_succ_div_gt. lia. }
  unfold Qle, Qminus, Qplus, Qopp. cbn [Qnum Qden].
  rewrite !Pos2Z.inj_mul.
  destruct (Z.sgn_spec a) as [[Ha Hs] | [[Ha Hs] | [Ha Hs]]]; rewrite Hs;
    unfold n in *; split; nia.
Qed.

Lemma py_abs_nonneg x : 0 <= py_abs x.
Proof.
  unfold py_abs. destruct (Qltb x 0) eqn:E.
  - apply Qltb_lt in E. lra.
  - apply Qltb_ge in E. exact E.
Qed.

Lemma scaled_error d k K :
  - (1 # 20000) <= d -> d <= 1 # 20000 ->
  - K <= 50 * k -> 50 * k <= K ->
  - (K / 1000000) <= d * k /\ d * k <= K / 1000000.
Proof.
  intros H1 H2 H3 H4.
  assert (E : K / 1000000 == K * (1 # 1000000)) by field.
  rewrite E. clear E.
  destruct (Qlt_le_dec k 0) as [Hk | Hk].
  - assert (0 <= (d + (1 # 20000)) * (- k)) by (apply Qmult_le_0_compat; lra).
    assert (0 <= ((1 # 20000) - d) * (- k)) by (apply Qmult_le_0_compat; lra).
    split; nra.
  - assert (0 <= (d + (1 # 20000)) * k) by (apply Qmult_le_0_compat; lra).
    assert (0 <= ((1 # 20000) - d) * k) by (apply Qmult_le_0_compat; lra).
    split; nra.
Qed.

(** A quantity below 10^23 can be quantized. *)
Lemma quantizable_below x :
  0 <= x -> x <= inject_Z (10 ^ 23) ->
  py_abs (quantize4_half_up x) < inject_Z (10 ^ 24).
Proof.
  intros H0 H1.
  assert (E : inject_Z (10 ^ 24) == 10 * inject_Z (10 ^ 23))
    by (vm_compute; reflexivity).
  rewrite E.
  assert (H2 : 1 <= inject_Z (10 ^ 23))
    by (apply Qle_bool_iff; vm_compute; reflexivity).
  set (B := inject_Z (10 ^ 23)) in *.
  destruct (quantize4_error x) as [Hd1 Hd2].
  unfold py_abs. destruct (Qltb _ 0); lra.
Qed.

(** So can the quantity of a trade whose price is at least [lo], when
    [cap * 100 <= lo * 10^23]. *)
Lemma quantity_quantizable p s a sg lo :
  0 < Exec.trade_cap p ->
  0 < lo -> lo <= TradingAsset.current_price a ->
  0 <= System.available_capital s ->
  (0 < Signal.leverage sg <= 100)%Z ->
  Exec.trade_cap p * 100 <= lo * inject_Z (10 ^ 23) ->
  Exec.quantizable p s a sg.
Proof.
  intros Hcap Hlo Hp Ha Hl Hb.
  unfold Exec.quantizable, Exec.quantity.
  set (P := TradingAsset.current_price a) in *.
  set (c := py_min (System.available_capital s) (Exec.trade_cap p)).
  set (L := inject_int (Signal.leverage sg)).
  assert (HB : 1 <= inject_Z (10 ^ 23))
    by (apply Qle_bool_iff; vm_compute; reflexivity).
  set (B := inject_Z (10 ^ 23)) in *.
  assert (Hc0 : 0 <= c).
  { subst c. unfold py_min. destruct (Qltb _ _); lra. }
  assert (Hc1 : c <= Exec.trade_cap p) by apply ExecFacts.py_min_le_r.
  assert (HL0 : 0 < L) by (apply ExecFacts.inject_int_pos; lia).
  assert (HL1 : L <= 100).
  { subst L. change 100 with (inject_int 100). apply ExecFacts.inject_int_le. lia. }
  assert (HP : 0 < P) by lra.
  assert (H1 : 0 <= (Exec.trade_cap p - c) * L)
    by (apply Qmult_le_0_compat; lra).
  assert (H2 : 0 <= Exec.trade_cap p * (100 - L))
    by (apply Qmult_le_0_compat; lra).
  assert (H3 : 0 <= B * (P - lo)) by (apply Qmult_le_0_compat; lra).
  assert (H4 : 0 <= c * L) by (apply Qmult_le_0_compat; lra).
  apply quantizable_below.
  - apply Qle_shift_div_l; [exact HP |]. lra.
  - apply Qle_shift_div_r; [exact HP |]. fold B. lra.
Qed.

Section Scheme.
Variable p : Exec.params.

(** The margin booked for a new trade is the intended trade capital
    [min(available, cap)] up to a millionth of the price. *)
Lemma margin_bound s a sg trade :
  Exec.built p s a sg trade ->
  ~ TradingAsset.current_price a == 0 ->
  (50 <= Signal.leverage sg)%Z ->
  let c := py_min (System.available_capital s) (Exec.trade_cap p) in
  let e := py_abs (TradeResult.price trade) / 1000000 in
  c - e <= Exec.margin trade /\ Exec.margin trade <= c + e.
Proof.
  intros (_ & _ & _ & Hq & Hp & Hl & _) Hnz Hlev c e.
  unfold Exec.margin. subst e. rewrite Hq, Hp, Hl. fold c.
  set (P := TradingAsset.current_price a) in *.
  set (L := inject_int (Signal.leverage sg)).
  assert (HL : 50 <= L).
  { unfold L. change 50 with (inject_int 50). now apply ExecFacts.inject_int_le. }
  destruct (quantize4_error (c * L / P)) as [Hd1 Hd2].
  set (z := quantize4_half_up (c * L / P)) in *.
  assert (Hm : z * P / L == c + (z - c * L / P) * (P / L)).
  { field. split; [lra | exact Hnz]. }
  rewrite Hm.
  assert (Hk : P / L * L == P) by (field; lra).
  assert (Hb : - py_abs P <= 50 * (P / L) /\ 50 * (P / L) <= py_abs P).
  { unfold py_abs. destruct (Qltb P 0) eqn:E.
    - apply Qltb_lt in E.
      assert (0 <= (- (P / L)) * (L - 50)).
      { apply Qmult_le_0_compat; [| lra].
        assert (P / L < 0); [| lra].
        apply Qlt_shift_div_r; lra. }
      split; nra.
    - apply Qltb_ge in E.
      assert (0 <= (P / L) * (L - 50)).
      { apply Qmult_le_0_compat; [| lra]. apply Qle_shift_div_l; lra. }
      split; nra. }
  destruct (scaled_error (z - c * L / P) (P / L) (py_abs P))
    as [He1 He2]; try tauto.
  split; lra.
Qed.

Lemma success_booked s s' :
  Exec.success p s s' -> Exec.booked p s s'.
Proof.
  intros (Hge & a & sg & trade & Hfb & Hnz & Hb & Ho).
  assert (Hs : Exec.generate_signal p s a = Ok sg).
  { destruct Hfb as (pre & post & _ & [Hs _] & _). exact Hs. }
  assert (Hlev : (50 <= Signal.leverage sg)%Z).
  { destruct (ExecFacts.signal_prediction _ _ _ _ Hs) as (pr & _ & _ & _ & -> & _).
    apply ExecFacts.clamp_bounds. }
  destruct (margin_bound s a sg trade Hb Hnz Hlev) as [Hm1 Hm2].
  pose proof Hb as (Hid & _).
  destruct Ho as (Hav & Hal & Hac & _).
  exists trade. rewrite <- Hid.
  split; [rewrite Hac; apply OpenFacts.get_set_same |].
  split; [rewrite Hal; apply OpenFacts.get_set_same |].
  split; [exact Hav |].
  split; [exact Hm1 |]. split; [exact Hm2 |].
  rewrite Hav.
  pose proof (ExecFacts.py_min_le_l (System.available_capital s) (Exec.trade_cap p)).
  lra.
Qed.

End Scheme.

Section RoundTrip.
Variable p : Exec.params.
Variable factor : string -> Q -> Q.


End RoundTrip.
End MarginFacts.

(** The booked margin.  After a successful cycle the new trade and its
    margin [quantity * price / leverage] are found under the id
    [trade-<clock reading>]; because the quantity is rounded to four
    places, the margin differs from the intended trade capital
    [min(available_capital, cap)] (cap 5, 4, 3), but by no more than a
    millionth of the price, and the available capital is left no lower
    than minus that amount. *)
Theorem booked_margin_is_close_to_trade_capital :
  forall (s s' : System.t),
    (Comprehensive.execute_trading_cycle s = (Ok true, s') ->
     Exec.booked Exec.comprehensive s s')
    /\ (Enhanced.execute_trading_cycle s = (Ok true, s') ->
        Exec.booked Exec.enhanced s s')
    /\ (Realistic.execute_realistic_trading_cycle s = (Ok true, s') ->
        Exec.booked Exec.realistic s s').
Proof.
  intros s s'.
  rewrite ExecBridge.comprehensive_cycle, ExecBridge.enhanced_cycle,
    ExecBridge.realistic_cycle.
  repeat apply conj; intro H; apply MarginFacts.success_booked;
    apply ExecFacts.cycle_success; solve [exact H | ExecInstances.params].
Qed.

Lemma booked_margin_is_close_to_trade_capital_witness :
  let s := Scenario.overcommit_state in
  let s' := snd (Comprehensive.execute_trading_cycle s) in
  Exec.booked Exec.comprehensive s s'
  /\ System.available_capital s' < 0.
Proof.
  cbv zeta. split.
  - apply booked_margin_is_close_to_trade_capital. vm_compute. reflexivity.
  - vm_compute. reflexivity.
Defined.



(** * The asset catalog *)

Module EnvFacts.
Import Common Env.

Lemma uniform_run a b s :
  uniform a b s
  = (Ok (a + (b - a) * System.rand_stream s (System.rand_pos s)),
     System.set_rand_pos (S (System.rand_pos s)) s).
Proof. reflexivity. Qed.

Lemma uniform_range a b u :
  a < b -> 0 <= u -> u < 1 ->
  a <= a + (b - a) * u /\ a + (b - a) * u < b.
Proof.
  intros Hab H0 H1.
  assert (0 <= (b - a) * u) by (apply Qmult_le_0_compat; lra).
  assert (0 < (b - a) * (1 - u)) by (apply Qmult_lt_0_compat; lra).
  split; [lra |]. nra.
Qed.

Lemma round4_ge k x :
  inject_Z k / 10000 <= x -> inject_Z k / 10000 <= round4_half_even x.
Proof.
  destruct x as [a d]. unfold round4_half_even. cbn [Qnum Qden].
  intro H.
  assert (Hk : (k * Z.pos d <= a * 10000)%Z).
  { assert (E : inject_Z k / 10000 == k # 10000) by
      (unfold Qdiv, Qinv, Qmult, Qeq; cbn; lia).
    rewrite E in H. unfold Qle in H. cbn [Qnum Qden] in H. lia. }
  assert (Hq : (k <= a * 10000 / Z.pos d)%Z).
  { apply Z.div_le_lower_bound; lia. }
  assert (E : inject_Z k / 10000 == k # 10000) by
    (unfold Qdiv, Qinv, Qmult, Qeq; cbn; lia).
  rewrite E. unfold Qle. cbn [Qnum Qden].
  destruct (_ <? _)%Z; [lia |].
  destruct (_ <? _)%Z; [lia |].
  destruct (Z.even _); lia.
Qed.

Lemma round4_le k x :
  x <= inject_Z k / 10000 -> round4_half_even x <= inject_Z k / 10000.
Proof.
  destruct x as [a d]. unfold round4_half_even. cbn [Qnum Qden].
  intro H.
  assert (E : inject_Z k / 10000 == k # 10000) by
    (unfold Qdiv, Qinv, Qmult, Qeq; cbn; lia).
  rewrite E in *. unfold Qle in *. cbn [Qnum Qden] in *.
  set (n := (a * 10000)%Z) in *.
  assert (Hn : (n <= k * Z.pos d)%Z) by lia.
  pose proof (Z.div_mod n (Z.pos d) ltac:(lia)) as Hdm.
  pose proof (Z.mod_pos_bound n (Z.pos d) ltac:(lia)) as Hm.
  set (q := (n / Z.pos d)%Z) in *. set (r := (n mod Z.pos d)%Z) in *.
  assert (Hqk : (q <= k)%Z) by nia.
  assert (Hr : (q = k -> r = 0)%Z) by nia.
  destruct (2 * r <? Z.pos d)%Z eqn:E1; [lia |].
  apply Z.ltb_ge in E1.
  assert (q < k)%Z by (destruct (Z.eq_dec q k) as [Hq | Hq]; [specialize (Hr Hq); lia | lia]).
  destruct (_ <? _)%Z; [lia |].
  destruct (Z.even _); lia.
Qed.

Lemma py_int_range lo hi x :
  (0 <= lo)%Z -> inject_Z lo <= x -> x <= inject_Z hi ->
  inject_Z lo <= inject_int (py_int x) /\ inject_int (py_int x) <= inject_Z hi.
Proof.
  intros Hlo H1 H2. unfold inject_int.
  assert (lo <= py_int x)%Z by now apply WindowFacts.py_int_ge.
  assert (py_int x <= hi)%Z.
  { unfold py_int. destruct x as [a d].
    unfold Qle in *. cbn [Qnum Qden inject_Z] in *.
    assert (0 <= a)%Z by nia.
    rewrite Z.quot_div_nonneg by lia.
    apply Z.div_le_upper_bound; lia. }
  rewrite <- !Zle_Qle. lia.
Qed.

Lemma choice3 (x0 x1 x2 : Z) s :
  exists x, (x = x0 \/ x = x1 \/ x = x2)
            /\ choice x0 [x1; x2] s
               = (Ok x, System.set_rand_pos (S (System.rand_pos s)) s).
Proof.
  unfold choice, random_random. eexists. split; [| reflexivity].
  set (i := Z.to_nat _).
  destruct i as [| [| [| i]]]; cbn; auto.
  destruct i; auto.
Qed.

Lemma unit_draws_same s s' :
  Exec.same_object s s' -> unit_draws s -> unit_draws s'.
Proof.
  intros H Hu n. apply ExecFacts.same_object_fields in H.
  destruct H as (_ & _ & _ & _ & _ & _ & _ & _ & _ & -> & _). apply Hu.
Qed.

End EnvFacts.

Module CatalogFacts.
Import Common Env EnvFacts ComprehensiveCatalog.

Lemma prediction_run symbol price volatility s :
  unit_draws s ->
  exists pr,
    generate_quantum_prediction symbol price volatility s
    = (Ok pr, System.set_rand_pos (4 + System.rand_pos s) s)
    /\ (Prediction.direction pr = "Long" \/ Prediction.direction pr = "Short")
    /\ 655 # 1000 <= Prediction.confidence pr
    /\ Prediction.confidence pr < 921 # 1000.
Proof.
  intro Hu.
  unfold generate_quantum_prediction, bind, ret, random, uniform,
    random_uniform, random_random.
  cbn [System.rand_pos System.rand_stream System.set_rand_pos].
  eexists. split.
  - reflexivity.
  - cbn [Prediction.direction Prediction.confidence].
    split; [destruct (Qgtb _ _); auto |].
    assert (H0 := Hu (System.rand_pos s)).
    assert (H1 := Hu (S (System.rand_pos s))).
    assert (H2 := Hu (S (S (System.rand_pos s)))).
    destruct s; cbn [System.rand_pos System.rand_stream System.set_rand_pos] in *.
    destruct (uniform_range (6 # 10) (95 # 100) _ eq_refl (proj1 H0) (proj2 H0)).
    destruct (uniform_range (7 # 10) (9 # 10) _ eq_refl (proj1 H1) (proj2 H1)).
    destruct (uniform_range (65 # 100) (92 # 100) _ eq_refl (proj1 H2) (proj2 H2)).
    split; lra.
Qed.

Lemma score_bounds volume volatility pr :
  1000000 <= volume ->
  2 # 100 <= volatility -> volatility <= 8 # 100 ->
  Prediction.confidence pr < 921 # 1000 ->
  (33 # 100) + (4 # 10) * Prediction.confidence pr
  <= calculate_confidence_score volume volatility pr
  /\ calculate_confidence_score volume volatility pr
     <= (6 # 10) + (4 # 10) * Prediction.confidence pr.
Proof.
  intros Hv H1 H2 Hc. unfold calculate_confidence_score.
  apply Qle_bool_iff in H1. apply Qle_bool_iff in H2. rewrite H1, H2.
  cbn [andb].
  assert (Hq : 1 # 10 <= volume / 10000000).
  { apply Qle_shift_div_l; lra. }
  pose proof (ExecFacts.py_min_le_r (volume / 10000000) 1) as Hm1.
  assert (Hm2 : 1 # 10 <= py_min (volume / 10000000) 1).
  { unfold py_min. destruct (Qltb 1 _); lra. }
  set (m := py_min (volume / 10000000) 1) in *.
  unfold py_min at 1 2.
  destruct (Qltb 1 _) eqn:E.
  - apply Qltb_lt in E. lra.
  - split; lra.
Qed.

Lemma analyze_run symbol s :
  unit_draws s ->
  exists a s',
    analyze_asset symbol s = (Ok (Some a), s')
    /\ analysed symbol a
    /\ Exec.same_object s s'.
Proof.
  intro Hu.
  assert (H0 := Hu (System.rand_pos s)).
  assert (H1 := Hu (S (System.rand_pos s))).
  assert (H2 := Hu (S (S (System.rand_pos s)))).
  destruct (uniform_range (1 # 10) 1000 _ eq_refl (proj1 H0) (proj2 H0))
    as [Hp1 Hp2].
  destruct (uniform_range 1000000 50000000 _ eq_refl (proj1 H1) (proj2 H1))
    as [Hv1 Hv2].
  destruct (uniform_range (2 # 100) (8 # 100) _ eq_refl (proj1 H2) (proj2 H2))
    as [Hs1 Hs2].
  unfold analyze_asset.
  unfold bind at 1. rewrite uniform_run.
  unfold bind at 1. rewrite uniform_run.
  unfold bind at 1. rewrite uniform_run.
  cbn [System.rand_pos System.rand_stream System.set_rand_pos].
  replace (System.rand_stream
             (System.set_rand_pos (S (System.rand_pos s)) s))
    with (System.rand_stream s) by now destruct s.
  set (base := (1 # 10) + (1000 - (1 # 10)) * _) in *.
  set (volume := 1000000 + (50000000 - 1000000) * _) in *.
  set (vol := (2 # 100) + ((8 # 100) - (2 # 100)) * _) in *.
  assert (E1 : Qltb volume 1000000 = false) by (apply Qltb_ge; lra).
  assert (E2 : Qltb vol (2 # 100) = false) by (apply Qltb_ge; lra).
  rewrite E1, E2. cbn [orb].
  set (s3 := System.set_rand_pos _ _).
  assert (Hu3 : unit_draws s3).
  { intro n. subst s3. destruct s; apply Hu. }
  destruct (prediction_run symbol base vol s3 Hu3) as (pr & Hpr & Hdir & Hc1 & Hc2).
  unfold bind at 1. rewrite Hpr.
  set (s7 := System.set_rand_pos _ s3).
  destruct (choice3 50 75 100 s7) as (lev & Hlev & Hch).
  unfold bind at 1. rewrite Hch.
  unfold bind at 1. unfold now, time_ms, ret.
  eexists. eexists. split; [reflexivity |]. split.
  - unfold analysed.
    cbn [TradingAsset.symbol TradingAsset.current_price
         TradingAsset.daily_volume TradingAsset.volatility_24h
         TradingAsset.min_order_size TradingAsset.max_leverage
         TradingAsset.confidence_score TradingAsset.quantum_prediction].
    unfold Decimal_str.
    split; [reflexivity |].
    assert (Ea : inject_Z 1000 / 10000 == 1 # 10) by reflexivity.
    assert (Eb : inject_Z 10000000 / 10000 == 1000) by reflexivity.
    split; [rewrite <- Ea; apply round4_ge; rewrite Ea; exact Hp1 |].
    split; [rewrite <- Eb; apply round4_le; rewrite Eb;
            apply Qlt_le_weak; exact Hp2 |].
    destruct (py_int_range 1000000 50000000 volume ltac:(lia) Hv1
                (Qlt_le_weak _ _ Hv2)) as [Hi1 Hi2].
    split; [exact Hi1 |]. split; [exact Hi2 |].
    split; [exact Hs1 |]. split; [apply Qlt_le_weak; exact Hs2 |].
    split; [reflexivity |]. split; [exact Hlev |].
    exists pr. split; [reflexivity |]. split; [exact Hdir |].
    split; [lra |]. split; [lra |].
    destruct (score_bounds volume vol pr) as [Hb1 Hb2]; lra.
  - unfold Exec.same_object. subst s7 s3. now destruct s.
Qed.

Lemma scan_loop_run symbols : forall sc0 fl0 s,
  unit_draws s ->
  exists sc s',
    scan_loop symbols sc0 fl0 s
    = (Ok (sc0 ++ sc, fl0 ++ filter meets_trading_criteria sc), s')
    /\ map TradingAsset.symbol sc = symbols
    /\ Forall (fun a => analysed (TradingAsset.symbol a) a) sc
    /\ Exec.same_object s s'.
Proof.
  induction symbols as [| symbol rest IH]; intros sc0 fl0 s Hu.
  - exists [], s. cbn [scan_loop filter]. rewrite !app_nil_r.
    split; [reflexivity |]. split; [reflexivity |].
    split; [constructor | apply ExecFacts.same_object_refl].
  - destruct (analyze_run symbol s Hu) as (a & s1 & Ha & Han & Hs1).
    pose proof (unit_draws_same _ _ Hs1 Hu) as Hu1.
    destruct (IH (sc0 ++ [a])
                 (if meets_trading_criteria a then fl0 ++ [a] else fl0)
                 s1 Hu1) as (sc & s' & Hrun & Hsym & Hall & Hs').
    exists (a :: sc), s'.
    cbn [scan_loop]. unfold bind at 1. rewrite Ha. rewrite Hrun.
    split.
    + f_equal. f_equal. f_equal.
      * now rewrite <- app_assoc.
      * cbn [filter]. destruct (meets_trading_criteria a);
          [now rewrite <- app_assoc | reflexivity].
    + split; [cbn [map]; f_equal; [apply Han | exact Hsym] |].
      split; [| eapply ExecFacts.same_object_trans; eauto].
      constructor; [| exact Hall].
      destruct Han as (Hsy & _). rewrite Hsy. 
      pose proof (analyze_run symbol s Hu) as (a' & s1' & Ha' & Han' & _).
      assert (a' = a) by congruence. subst a'. exact Han'.
Qed.

Lemma asset_list_length : List.length generate_asset_list = 300%nat.
Proof. reflexivity. Qed.

Lemma scan_run s :
  unit_draws s ->
  exists s',
    scan_and_filter_assets s = (Ok (len (System.filtered_assets s')), s')
    /\ scanned s'
    /\ same_books s s'
    /\ List.length (System.scanned_assets s') = 300%nat.
Proof.
  intro Hu. unfold scan_and_filter_assets.
  destruct (scan_loop_run generate_asset_list [] [] s Hu)
    as (sc & s1 & Hrun & Hsym & Hall & Hs1).
  change ([] ++ sc) with sc in Hrun.
  change ([] ++ filter meets_trading_criteria sc)
    with (filter meets_trading_criteria sc) in Hrun.
  unfold bind at 1. rewrite Hrun.
  unfold bind, modify, ret.
  exists (set_filtered_assets (filter meets_trading_criteria sc)
            (set_scanned_assets sc s1)).
  split; [reflexivity |].
  apply ExecFacts.same_object_fields in Hs1.
  destruct Hs1 as (H1 & H2 & H3 & H4 & H5 & H6 & _ & _ & H9 & H10 & H11).
  split; [| split].
  - unfold scanned, set_filtered_assets, set_scanned_assets.
    cbn [System.scanned_assets System.filtered_assets]. auto.
  - unfold same_books, set_filtered_assets, set_scanned_assets.
    cbn [System.available_capital System.allocated_capital
         System.active_trades System.trade_history
         System.performance_metrics System.running System.trade_counter
         System.rand_stream System.clock_stream].
    repeat split; assumption.
  - unfold set_filtered_assets, set_scanned_assets.
    cbn [System.scanned_assets].
    rewrite <- (length_map TradingAsset.symbol), Hsym.
    apply asset_list_length.
Qed.

(** Assets that pass the filter of a scanned catalog. *)
Lemma scanned_filtered s a :
  scanned s -> In a (System.filtered_assets s) ->
  analysed (TradingAsset.symbol a) a /\ meets_trading_criteria a = true.
Proof.
  intros (_ & Hall & Hf) Hin. rewrite Hf in Hin.
  apply filter_In in Hin. destruct Hin as [Hin Hm].
  split; [| exact Hm]. rewrite Forall_forall in Hall. now apply Hall.
Qed.

End CatalogFacts.

(** * The catalog of the comprehensive class *)



(** The scan.  From unit-interval draws [scan_and_filter_assets] returns
    the number of filtered assets and replaces the catalog: 300 scanned
    assets, one per symbol of [generate_asset_list] in order, each as
    [analyze_asset] produces it, and [filtered_assets] are those of them
    that pass [meets_trading_criteria], in the same order.  It writes
    nothing else to the object. *)
Theorem scan_rebuilds_the_catalog :
  forall (s : System.t),
    Env.unit_draws s ->
    exists s',
      ComprehensiveCatalog.scan_and_filter_assets s
      = (Ok (len (System.filtered_assets s')), s')
      /\ ComprehensiveCatalog.scanned s'
      /\ ComprehensiveCatalog.same_books s s'
      /\ List.length (System.scanned_assets s') = 300%nat
      /\ (len (System.filtered_assets s') <= 300)%Z.
Proof.
  intros s Hu.
  destruct (CatalogFacts.scan_run s Hu) as (s' & H1 & H2 & H3 & H4).
  exists s'. repeat (split; [assumption |]).
  destruct H2 as (_ & _ & ->). unfold len.
  pose proof (filter_length_le ComprehensiveCatalog.meets_trading_criteria
                (System.scanned_assets s')). lia.
Qed.

Lemma scan_rebuilds_the_catalog_witness :
  exists s',
    ComprehensiveCatalog.scan_and_filter_assets Scenario.overcommit_state
    = (Ok (len (System.filtered_assets s')), s')
    /\ List.length (System.scanned_assets s') = 300%nat
    /\ System.available_capital s' = 5.
Proof.
  assert (Hu : Env.unit_draws Scenario.overcommit_state).
  { intro n. split; [discriminate | reflexivity]. }
  destruct (scan_rebuilds_the_catalog Scenario.overcommit_state Hu)
    as (s' & H1 & _ & H3 & H4 & _).
  exists s'. split; [exact H1 |]. split; [exact H4 |].
  destruct H3 as (-> & _). reflexivity.
Defined.

(** The narrow band of the comprehensive class.  An asset that passes
    [meets_trading_criteria] (volatility at least 2%) and whose signal says
    to trade has a volatility in [2%, 2.5%), a confidence strictly between
    0.75 and 0.80, and a leverage in 75..79: the risk test
    [leverage / 100 + volatility / 0.1 < 1] leaves no more room. *)
Theorem comprehensive_trades_in_a_narrow_band :
  forall (s : System.t) (a : TradingAsset.t) (sg : Signal.t),
    ComprehensiveCatalog.meets_trading_criteria a = true ->
    Comprehensive.generate_trading_signal s a = Ok sg ->
    Signal.should_trade sg = true ->
    2 # 100 <= TradingAsset.volatility_24h a
    /\ TradingAsset.volatility_24h a < 25 # 1000
    /\ 75 # 100 < Signal.confidence sg
    /\ Signal.confidence sg < 80 # 100
    /\ (75 <= Signal.leverage sg <= 79)%Z.
Proof.
  intros s a sg Hm E Et.
  unfold ComprehensiveCatalog.meets_trading_criteria in Hm.
  repeat (apply andb_prop in Hm; destruct Hm as [Hm ?]).
  assert (Hv0 : 2 # 100 <= TradingAsset.volatility_24h a)
    by now apply MonitorFacts.Qgeb_ge.
  rewrite ExecBridge.comprehensive_signal in E.
  assert (Ht : Exec.tradeable Exec.comprehensive s a sg) by now split.
  destruct (WindowFacts.comprehensive_window s a sg Ht)
    as (_ & Hc0 & _ & _ & _ & _ & Hv & _).
  destruct (WindowFacts.narrow_band s a sg Hv0 Ht) as [Hc Hl].
  split; [exact Hv0 |]. split; [exact Hv |]. split; [exact Hc0 |].
  split; [exact Hc | exact Hl].
Qed.

Lemma comprehensive_trades_in_a_narrow_band_witness :
  let s := Cases.market_state [Cases.steady_asset] in
  exists sg,
    Comprehensive.generate_trading_signal s Cases.steady_asset = Ok sg
    /\ Signal.confidence sg < 80 # 100
    /\ (75 <= Signal.leverage sg <= 79)%Z.
Proof.
  cbv zeta. eexists. split; [reflexivity |].
  match goal with
  | |- Signal.confidence ?sg < _ /\ _ =>
    destruct (comprehensive_trades_in_a_narrow_band
                (Cases.market_state [Cases.steady_asset])
                Cases.steady_asset sg eq_refl eq_refl eq_refl)
      as (_ & _ & _ & Hc & Hl)
  end.
  split; [exact Hc | exact Hl].
Defined.

(** The cycle on a scanned catalog.  When the catalog is the result of a
    scan, the comprehensive execution cycle raises no exception (every
    candidate has a prediction and a price of at least 0.1); and when it
    returns [True], the trade it has opened has a leverage in 75..79 and a
    price in [0.1, 1000], its asset has a volatility below 2.5%, and the
    available capital is left no lower than -0.001. *)
Theorem cycle_on_scanned_catalog_is_safe :
  forall (s : System.t),
    ComprehensiveCatalog.scanned s ->
    (exists b s', Comprehensive.execute_trading_cycle s = (Ok b, s'))
    /\ (forall s',
          Comprehensive.execute_trading_cycle s = (Ok true, s') ->
          exists trade,
            Dict.get (String.append "trade-"
                        (str_int (System.clock_stream s (System.clock_pos s))))
                     (System.active_trades s') = Some trade
            /\ (75 <= TradeResult.leverage trade <= 79)%Z
            /\ 1 # 10 <= TradeResult.price trade
            /\ TradeResult.price trade <= 1000
            /\ - (1 # 1000) <= System.available_capital s').
Proof.
  intros s Hsc.
  assert (Hcand : forall a, In a (Exec.candidates Exec.comprehensive s) ->
                    ComprehensiveCatalog.analysed (TradingAsset.symbol a) a
                    /\ ComprehensiveCatalog.meets_trading_criteria a = true).
  { intros a Hin. apply (CatalogFacts.scanned_filtered s a Hsc).
    unfold Exec.candidates in Hin. eapply WindowFacts.In_firstn; eauto. }
  split.
  - destruct (Comprehensive.execute_trading_cycle s) as [[b | e] s'] eqn:E;
      [now exists b, s' |].
    exfalso. rewrite ExecBridge.comprehensive_cycle in E.
    apply ExecFacts.cycle_failure in E; try solve [ExecInstances.params].
    destruct E as (Hge & [(_ & _ & a & Hin & Hn)
                         | [(_ & _ & a & sg & Hfb & Hz)
                           | (_ & _ & _ & a & sg & Hfb & _ & Hnq)]]).
    + destruct (Hcand a Hin) as [(_ & _ & _ & _ & _ & _ & _ & _ & _ & pr & Hp & _) _].
      congruence.
    + apply ExecFacts.first_best_tradeable in Hfb;
        try solve [ExecInstances.params].
      destruct Hfb as [Hin _].
      destruct (Hcand a Hin) as [(_ & Hp & _) _]. lra.
    + apply ExecFacts.first_best_tradeable in Hfb;
        try solve [ExecInstances.params].
      destruct Hfb as [Hin [Hs _]].
      destruct (Hcand a Hin) as [(_ & Hp & _) _].
      pose proof (ExecFacts.signal_leverage _ _ _ _ Hs) as Hl.
      apply Hnq.
      apply (MarginFacts.quantity_quantizable Exec.comprehensive s a sg (1 # 10));
        try solve [reflexivity | exact Hp | lia].
      * cbn [Exec.min_available Exec.comprehensive] in Hge. lra.
      * apply Qle_bool_iff. vm_compute. reflexivity.
  - intros s' E. rewrite ExecBridge.comprehensive_cycle in E.
    apply ExecFacts.cycle_success in E; try solve [ExecInstances.params].
    pose proof (MarginFacts.success_booked _ _ _ E) as (trade' & Hg & _ & _ & _ & _ & Hav).
    destruct E as (_ & a & sg & trade & Hfb & _ & Hb & Ho).
    apply ExecFacts.first_best_tradeable in Hfb;
      try solve [ExecInstances.params].
    destruct Hfb as [Hin [Hs Ht]].
    destruct (Hcand a Hin)
      as [(_ & Hp1 & Hp2 & _ & _ & Hv0 & _) _].
    destruct (WindowFacts.narrow_band s a sg Hv0 (conj Hs Ht)) as [_ Hl].
    pose proof Hb as (Hid & _ & _ & _ & Hpr & Hlv & _).
    destruct Ho as (_ & _ & Hac & _).
    assert (Hget : Dict.get (TradeResult.trade_id trade)
                     (System.active_trades s') = Some trade).
    { rewrite Hac. apply OpenFacts.get_set_same. }
    rewrite Hid in Hget.
    assert (trade' = trade) by congruence. subst trade'.
    exists trade. split; [exact Hget |].
    rewrite Hlv, Hpr. split; [exact Hl |]. split; [exact Hp1 |].
    split; [exact Hp2 |].
    revert Hav. cbv zeta. rewrite Hpr.
    assert (Hab : py_abs (TradingAsset.current_price a)
                  == TradingAsset.current_price a).
    { unfold py_abs. destruct (Qltb _ 0) eqn:E0; [| reflexivity].
      apply Qltb_lt in E0. lra. }
    rewrite Hab. intro Hav.
    assert (TradingAsset.current_price a / 1000000 <= 1 # 1000).
    { apply Qle_shift_div_r; lra. }
    lra.
Qed.

Lemma cycle_on_scanned_catalog_is_safe_witness :
  let s := snd (ComprehensiveCatalog.scan_and_filter_assets
                  Scenario.overcommit_state) in
  exists b s', Comprehensive.execute_trading_cycle s = (Ok b, s').
Proof.
  cbv zeta.
  assert (Hu : Env.unit_draws Scenario.overcommit_state).
  { intro n. split; [discriminate | reflexivity]. }
  destruct (CatalogFacts.scan_run Scenario.overcommit_state Hu)
    as (s1 & Hrun & Hsc & _).
  rewrite Hrun. cbn [snd].
  exact (proj1 (cycle_on_scanned_catalog_is_safe s1 Hsc)).
Defined.

(** * The catalog of the enhanced class *)

Module EnhancedCatalogFacts.
Import Common Env EnvFacts EnhancedCatalog.

Lemma choice_run {A} (x0 : A) rest s :
  exists x, In x (x0 :: rest)
            /\ choice x0 rest s
               = (Ok x, System.set_rand_pos (S (System.rand_pos s)) s).
Proof.
  unfold choice, random_random. eexists. split; [| reflexivity].
  set (i := Z.to_nat _).
  destruct (Nat.lt_ge_cases i (List.length (x0 :: rest))) as [Hi | Hi].
  - now apply nth_In.
  - rewrite nth_overflow by exact Hi. now left.
Qed.

Lemma now_run s :
  now s = (Ok (System.clock_stream s (System.clock_pos s)),
           System.set_clock_pos (S (System.clock_pos s)) s).
Proof. reflexivity. Qed.

(** Bookkeeping of positions: a state reached by reading the environment
    further has the same draws. *)
Lemma draws_after s n :
  System.rand_stream (System.set_rand_pos n s) = System.rand_stream s.
Proof. now destruct s. Qed.

Lemma same_object_rand n s : Exec.same_object s (System.set_rand_pos n s).
Proof. unfold Exec.same_object. now destruct s. Qed.

Lemma uniform_same a b s :
  exists x s', uniform a b s = (Ok x, s')
               /\ x = a + (b - a) * System.rand_stream s (System.rand_pos s)
               /\ Exec.same_object s s'.
Proof.
  eexists. eexists. split; [apply uniform_run |].
  split; [reflexivity | apply same_object_rand].
Qed.

Lemma uniform_in a b s :
  a < b -> unit_draws s ->
  exists x s', uniform a b s = (Ok x, s')
               /\ a <= x /\ x < b /\ Exec.same_object s s'.
Proof.
  intros Hab Hu. destruct (uniform_same a b s) as (x & s' & H & Hx & Hs).
  exists x, s'. split; [exact H |].
  destruct (Hu (System.rand_pos s)) as [H0 H1].
  destruct (uniform_range a b _ Hab H0 H1). subst x. auto.
Qed.

Lemma choice_same {A} (x0 : A) rest s :
  exists x s', choice x0 rest s = (Ok x, s')
               /\ In x (x0 :: rest) /\ Exec.same_object s s'.
Proof.
  destruct (choice_run x0 rest s) as (x & Hin & H).
  exists x, (System.set_rand_pos (S (System.rand_pos s)) s).
  split; [exact H |]. split; [exact Hin | apply same_object_rand].
Qed.

Lemma now_same s :
  exists t s', now s = (Ok t, s') /\ Exec.same_object s s'.
Proof.
  eexists. eexists. split; [apply now_run | apply ExecFacts.same_object_clock].
Qed.

Lemma premium_run symbol price volume s :
  unit_draws s ->
  In (symbol, price, volume) premium_assets ->
  exists a s',
    premium_asset symbol price volume s = (Ok a, s')
    /\ premium a
    /\ meets_trading_criteria a = true
    /\ TradingAsset.symbol a = symbol
    /\ Exec.same_object s s'.
Proof.
  intros Hu Hin. unfold premium_asset.
  destruct (uniform_in (25 # 1000) (55 # 1000) s eq_refl Hu)
    as (vol & s1 & R1 & Hv1 & Hv2 & S1).
  unfold bind at 1. rewrite R1.
  destruct (choice_same 75%Z [100%Z] s1) as (lev & s2 & R2 & Hlev & S2).
  unfold bind at 1. rewrite R2.
  pose proof (unit_draws_same _ _ S1 Hu) as Hu1.
  pose proof (unit_draws_same _ _ S2 Hu1) as Hu2.
  destruct (uniform_in (82 # 100) (95 # 100) s2 eq_refl Hu2)
    as (score & s3 & R3 & Hc1 & Hc2 & S3).
  unfold bind at 1. rewrite R3.
  destruct (choice_same "Long" ["Short"] s3) as (dir & s4 & R4 & _ & S4).
  unfold bind at 1. rewrite R4.
  destruct (uniform_same (1005 # 1000) (1015 # 1000) s4) as (f & s5 & R5 & _ & S5).
  unfold bind at 1. rewrite R5.
  pose proof (unit_draws_same _ _ S3 Hu2) as Hu3.
  pose proof (unit_draws_same _ _ S4 Hu3) as Hu4.
  pose proof (unit_draws_same _ _ S5 Hu4) as Hu5.
  destruct (uniform_in (85 # 100) (95 # 100) s5 eq_refl Hu5)
    as (conf & s6 & R6 & Hq1 & Hq2 & S6).
  unfold bind at 1. rewrite R6.
  destruct (uniform_same (8 # 10) (95 # 100) s6) as (e & s7 & R7 & _ & S7).
  unfold bind at 1. rewrite R7.
  destruct (uniform_same (82 # 100) (92 # 100) s7) as (pt & s8 & R8 & _ & S8).
  unfold bind at 1. rewrite R8.
  destruct (uniform_same (78 # 100) (88 # 100) s8) as (sp & s9 & R9 & _ & S9).
  unfold bind at 1. rewrite R9.
  destruct (now_same s9) as (t & s10 & R10 & S10).
  unfold bind at 1. rewrite R10. unfold ret.
  eexists. eexists. split; [reflexivity |].
  assert (Hl : (lev = 75 \/ lev = 100)%Z).
  { destruct Hlev as [<- | [<- | []]]; auto. }
  split; [| split; [| split]].
  - unfold premium. cbn [TradingAsset.symbol TradingAsset.current_price
      TradingAsset.daily_volume TradingAsset.volatility_24h
      TradingAsset.min_order_size TradingAsset.max_leverage
      TradingAsset.confidence_score TradingAsset.quantum_prediction].
    unfold Decimal_str.
    apply Qlt_le_weak in Hv2, Hc2, Hq2.
    repeat (split; [assumption || reflexivity |]).
    eexists. split; [reflexivity |]. cbn [Prediction.confidence]. auto.
  - unfold meets_trading_criteria.
    cbn [TradingAsset.confidence_score TradingAsset.daily_volume
         TradingAsset.volatility_24h TradingAsset.min_order_size
         TradingAsset.max_leverage]. unfold Decimal_str.
    assert (E1 : Qgeb score (70 # 100) = true) by (apply MonitorFacts.Qgeb_ge; lra).
    assert (E2 : Qgeb volume 1000000 = true).
    { cbn in Hin.
      repeat (destruct Hin as [[= <- <- <-] | Hin]; [reflexivity |]).
      destruct Hin. }
    assert (E3 : Qgeb vol (2 # 100) = true) by (apply MonitorFacts.Qgeb_ge; lra).
    assert (E4 : (lev >=? SystemConfig.min_leverage config)%Z = true).
    { destruct Hl as [-> | ->]; reflexivity. }
    now rewrite E1, E2, E3, E4.
  - reflexivity.
  - repeat (eapply ExecFacts.same_object_trans; [eassumption |]).
    apply ExecFacts.same_object_refl.
Qed.

Lemma random_same s :
  exists u s', random s = (Ok u, s') /\ Exec.same_object s s'.
Proof.
  eexists. eexists. split; [reflexivity | apply same_object_rand].
Qed.

(** Runs the draws at the head of a computation, keeping for each the
    fact that it has only read the environment. *)
Ltac run_env :=
  repeat match goal with
  | |- context [bind (uniform ?a ?b) _ ?s] =>
    let x := fresh "x" in
    let s' := fresh "s" in
    let R := fresh "R" in
    let S := fresh "S" in
    destruct (uniform_same a b s) as (x & s' & R & _ & S);
    unfold bind at 1; rewrite R; clear R
  | |- context [bind (choice ?x0 ?rest) _ ?s] =>
    let x := fresh "x" in
    let s' := fresh "s" in
    let R := fresh "R" in
    let S := fresh "S" in
    destruct (choice_same x0 rest s) as (x & s' & R & _ & S);
    unfold bind at 1; rewrite R; clear R
  | |- context [bind now _ ?s] =>
    let x := fresh "t" in
    let s' := fresh "s" in
    let R := fresh "R" in
    let S := fresh "S" in
    destruct (now_same s) as (x & s' & R & S);
    unfold bind at 1; rewrite R; clear R
  end.

Ltac chain_same :=
  repeat (eapply ExecFacts.same_object_trans; [eassumption |]);
  apply ExecFacts.same_object_refl.

Lemma create_same symbol s :
  exists r s', create_trading_asset symbol s = (Ok r, s')
               /\ Exec.same_object s s'.
Proof.
  unfold create_trading_asset. run_env.
  destruct (_ || _).
  - eexists. eexists. split; [reflexivity | chain_same].
  - run_env. eexists. eexists. split; [reflexivity | chain_same].
Qed.

Lemma enhanced_scan_loop_run symbols : forall acc s,
  exists out s',
    scan_loop symbols acc s = (Ok (acc ++ out), s')
    /\ Forall (fun a => meets_trading_criteria a = true) out
    /\ Exec.same_object s s'.
Proof.
  induction symbols as [| symbol rest IH]; intros acc s.
  - exists [], s. cbn [scan_loop]. rewrite app_nil_r.
    split; [reflexivity |]. split; [constructor | apply ExecFacts.same_object_refl].
  - cbn [scan_loop].
    destruct (random_same s) as (u & s1 & R1 & S1).
    unfold bind at 1. rewrite R1.
    destruct (Qgtb u (7 # 10)).
    + destruct (create_same symbol s1) as (r & s2 & R2 & S2).
      unfold bind at 1. rewrite R2.
      destruct r as [a |].
      * destruct (meets_trading_criteria a) eqn:Em.
        -- destruct (IH (acc ++ [a]) s2) as (out & s' & R & Hall & S3).
           exists (a :: out), s'. rewrite R, <- app_assoc.
           split; [reflexivity |]. split; [now constructor | chain_same].
        -- destruct (IH acc s2) as (out & s' & R & Hall & S3).
           exists out, s'. split; [exact R |]. split; [exact Hall | chain_same].
      * destruct (IH acc s2) as (out & s' & R & Hall & S3).
        exists out, s'. split; [exact R |]. split; [exact Hall | chain_same].
    + destruct (IH acc s1) as (out & s' & R & Hall & S3).
      exists out, s'. split; [exact R |]. split; [exact Hall | chain_same].
Qed.

Lemma firstn_prefix {A} n (l rest : list A) :
  (n <= List.length l)%nat -> firstn n (firstn n l ++ rest) = firstn n l.
Proof.
  intro H. rewrite firstn_app.
  rewrite length_firstn, Nat.min_l by exact H.
  rewrite Nat.sub_diag. cbn [firstn]. rewrite app_nil_r.
  rewrite firstn_firstn. now rewrite Nat.min_id.
Qed.

Lemma enhanced_scan_run s :
  exists new s',
    scan_and_filter_assets s = (Ok (len (System.filtered_assets s')), s')
    /\ System.filtered_assets s' = firstn 10 (System.filtered_assets s) ++ new
    /\ Forall (fun a => meets_trading_criteria a = true) new
    /\ System.scanned_assets s' = System.scanned_assets s
    /\ ComprehensiveCatalog.same_books s s'.
Proof.
  unfold scan_and_filter_assets.
  destruct (enhanced_scan_loop_run (skipn 10 generate_comprehensive_asset_list) [] s)
    as (new & s1 & R & Hall & S1).
  change ([] ++ new) with new in R.
  unfold bind at 1. rewrite R. unfold bind, modify, gets.
  apply ExecFacts.same_object_fields in S1.
  destruct S1 as (H1 & H2 & H3 & H4 & H5 & H6 & H7 & H8 & H9 & H10 & H11).
  exists new. eexists. split; [reflexivity |].
  unfold ComprehensiveCatalog.same_books, set_filtered_assets.
  cbn [System.filtered_assets System.scanned_assets
       System.available_capital System.allocated_capital
       System.active_trades System.trade_history
       System.performance_metrics System.running System.trade_counter
       System.rand_stream System.clock_stream].
  rewrite H8. repeat (split; [assumption || reflexivity |]). assumption.
Qed.

Lemma premium_loop_run l : forall acc s,
  unit_draws s ->
  incl l premium_assets ->
  exists out s',
    premium_loop l acc s = (Ok (acc ++ out), s')
    /\ map TradingAsset.symbol out = map (fun x => fst (fst x)) l
    /\ Forall premium out
    /\ Forall (fun a => meets_trading_criteria a = true) out
    /\ Exec.same_object s s'.
Proof.
  induction l as [| [[symbol price] volume] rest IH]; intros acc s Hu Hin.
  - exists [], s. cbn [premium_loop]. rewrite app_nil_r.
    split; [reflexivity |]. split; [reflexivity |].
    split; [constructor |]. split; [constructor | apply ExecFacts.same_object_refl].
  - cbn [premium_loop].
    destruct (premium_run symbol price volume s Hu (Hin _ (or_introl eq_refl)))
      as (a & s1 & R1 & Hp & Hm & Hsym & S1).
    unfold bind at 1. rewrite R1.
    destruct (IH (acc ++ [a]) s1 (unit_draws_same _ _ S1 Hu)
                 (fun x Hx => Hin x (or_intror Hx)))
      as (out & s' & R & Hs & Hall & Hmt & S2).
    exists (a :: out), s'. rewrite R, <- app_assoc.
    split; [reflexivity |].
    split; [cbn [map fst]; now rewrite Hsym, Hs |].
    split; [now constructor |]. split; [now constructor | chain_same].
Qed.

Lemma enhanced_initialize_run s :
  unit_draws s ->
  exists s',
    initialize_trading_assets s = (Ok tt, s')
    /\ premium_catalog s'
    /\ List.length (System.filtered_assets s') = 10%nat
    /\ Forall (fun a => meets_trading_criteria a = true)
         (System.filtered_assets s')
    /\ System.scanned_assets s' = System.scanned_assets s
    /\ ComprehensiveCatalog.same_books s s'.
Proof.
  intro Hu. unfold initialize_trading_assets.
  destruct (premium_loop_run premium_assets [] s Hu (incl_refl _))
    as (out & s1 & R & Hs & Hall & Hm & S1).
  change ([] ++ out) with out in R.
  unfold bind at 1. rewrite R. unfold modify.
  apply ExecFacts.same_object_fields in S1.
  destruct S1 as (H1 & H2 & H3 & H4 & H5 & H6 & H7 & H8 & H9 & H10 & H11).
  eexists. split; [reflexivity |].
  assert (Hlen : List.length out = 10%nat).
  { rewrite <- (length_map TradingAsset.symbol), Hs. reflexivity. }
  unfold premium_catalog, ComprehensiveCatalog.same_books, set_filtered_assets.
  cbn [System.filtered_assets System.scanned_assets
       System.available_capital System.allocated_capital
       System.active_trades System.trade_history
       System.performance_metrics System.running System.trade_counter
       System.rand_stream System.clock_stream].
  assert (Hf : firstn 10 out = out).
  { rewrite <- Hlen. apply firstn_all. }
  rewrite Hf. split; [split; assumption |].
  repeat (split; [assumption || reflexivity |]). assumption.
Qed.

End EnhancedCatalogFacts.

(** * The premium catalog of the enhanced class *)

Module PremiumFacts.
Import Common Env EnvFacts EnhancedCatalog.

(** The signal and the selection read the state through
    [available_capital] only. *)
Lemma signal_ext p s s' a :
  System.available_capital s' = System.available_capital s ->
  Exec.generate_signal p s' a = Exec.generate_signal p s a.
Proof. intro H. unfold Exec.generate_signal. now rewrite H. Qed.

Lemma select_ext p s s' l : forall b bs,
  System.available_capital s' = System.available_capital s ->
  Exec.select_loop p s' l b bs = Exec.select_loop p s l b bs.
Proof.
  induction l as [| a l IH]; intros b bs H; [reflexivity |].
  cbn [Exec.select_loop]. rewrite (signal_ext p s s' a H).
  destruct (Exec.generate_signal p s a) as [sg | e]; [| reflexivity].
  destruct (Signal.should_trade sg); [| now apply IH].
  destruct (float_div _ _); [| reflexivity].
  destruct (Qgtb _ _); now apply IH.
Qed.

Lemma premium_price a : premium a -> 8 # 100 <= TradingAsset.current_price a.
Proof.
  intros (Hin & _). cbn in Hin.
  repeat (destruct Hin as [[= _ <- _] | Hin]; [discriminate |]).
  destruct Hin.
Qed.

(** For a premium asset the confidence and the expected-profit tests of
    the enhanced evaluator always pass. *)
Lemma premium_tradeable s a sg :
  premium a ->
  3 <= System.available_capital s ->
  Exec.generate_signal Exec.enhanced s a = Ok sg ->
  (Signal.should_trade sg = true <-> Signal.risk_score sg < 6 # 10).
Proof.
  intros (_ & Hv1 & _ & _ & _ & _ & _ & pr & Hp & Hc1 & Hc2) Hav E.
  pose proof (ExecFacts.signal_leverage _ _ _ _ E) as Hlev.
  unfold Exec.generate_signal in E. rewrite Hp in E. injection E as <-.
  cbn [Signal.should_trade Signal.risk_score Signal.leverage] in *.
  cbn [Exec.min_confidence Exec.min_expected_profit Exec.max_risk_score
       Exec.min_available Exec.leverage_scale Exec.movement_scale
       Exec.trade_cap Exec.enhanced] in *.
  set (L := inject_int _) in *.
  assert (HL : 50 <= L).
  { unfold L. change 50 with (inject_int 50). apply ExecFacts.inject_int_le. lia. }
  set (c := py_min (System.available_capital s) 4).
  assert (Hc : 3 <= c).
  { unfold c, py_min. destruct (Qltb 4 _); lra. }
  assert (E1 : Qgtb (Prediction.confidence pr) (72 # 100) = true)
    by (apply Qltb_lt; lra).
  assert (E4 : Qgeb (System.available_capital s) 3 = true)
    by now apply MonitorFacts.Qgeb_ge.
  assert (E2 : Qgeb (c * L * Decimal_str (TradingAsset.volatility_24h a
                                          * Prediction.confidence pr * (6 # 10)))
                 (4 # 10) = true).
  { apply MonitorFacts.Qgeb_ge. unfold Decimal_str.
    set (v := TradingAsset.volatility_24h a) in *.
    set (q := Prediction.confidence pr) in *.
    assert (H1 : 150 <= c * L) by nra.
    assert (H2 : (25 # 1000) * (85 # 100) <= v * q) by nra.
    assert (H3 : 0 <= (c * L - 150) * (v * q)).
    { apply Qmult_le_0_compat; lra. }
    nra. }
  rewrite E1, E2, E4. cbn [andb]. rewrite andb_true_r.
  apply Qltb_lt.
Qed.

Lemma catalog_candidates s a :
  premium_catalog s -> In a (Exec.candidates Exec.enhanced s) -> premium a.
Proof.
  intros [_ Hall] Hin. rewrite Forall_forall in Hall. now apply Hall.
Qed.

Lemma catalog_length s :
  premium_catalog s -> (10 <= List.length (System.filtered_assets s))%nat.
Proof.
  intros [Hs _].
  assert (H : List.length (firstn 10 (System.filtered_assets s)) = 10%nat).
  { rewrite <- (length_map TradingAsset.symbol), Hs. reflexivity. }
  rewrite length_firstn in H. lia.
Qed.

Lemma catalog_frame s s' :
  System.filtered_assets s' = System.filtered_assets s ->
  premium_catalog s -> premium_catalog s'.
Proof. unfold premium_catalog. now intros ->. Qed.

Lemma enhanced_cycle_catalog s :
  System.filtered_assets (snd (Exec.cycle Exec.enhanced s))
  = System.filtered_assets s.
Proof.
  destruct (ExecFacts.cycle_cases Exec.enhanced
              ltac:(ExecInstances.params) ltac:(ExecInstances.params)
              ltac:(ExecInstances.params) ltac:(ExecInstances.params)
              ltac:(ExecInstances.params) ltac:(ExecInstances.params)
              ltac:(ExecInstances.params) s)
    as [[Hc _] | [(Hc & _) | [(a & sg & Hc & _)
         | [(a & sg & s0 & Hc & _ & _ & _ & _ & Hso & _)
           | (a & sg & trade & s' & Hc & _ & _ & _ & _ & _ & Ho)]]]];
    rewrite Hc; cbn [snd]; try reflexivity.
  - apply ExecFacts.same_object_fields in Hso. tauto.
  - destruct Ho as (_ & _ & _ & _ & _ & _ & _ & Hf & _). exact Hf.
Qed.

Lemma enhanced_cycle_safe s :
  premium_catalog s ->
  exists b, fst (Exec.cycle Exec.enhanced s) = Ok b.
Proof.
  intro Hcat.
  destruct (Exec.cycle Exec.enhanced s) as [[b | e] s'] eqn:E;
    [now exists b |].
  exfalso.
  apply ExecFacts.cycle_failure in E; try solve [ExecInstances.params].
  destruct E as (Hge & [(_ & _ & a & Hin & Hn)
                       | [(_ & _ & a & sg & Hfb & Hz)
                         | (_ & _ & _ & a & sg & Hfb & _ & Hnq)]]).
  - destruct (catalog_candidates s a Hcat Hin)
      as (_ & _ & _ & _ & _ & _ & _ & pr & Hp & _). congruence.
  - apply ExecFacts.first_best_tradeable in Hfb;
      try solve [ExecInstances.params].
    destruct Hfb as [Hin _].
    pose proof (premium_price a (catalog_candidates s a Hcat Hin)). lra.
  - apply ExecFacts.first_best_tradeable in Hfb;
      try solve [ExecInstances.params].
    destruct Hfb as [Hin [Hs _]].
    pose proof (premium_price a (catalog_candidates s a Hcat Hin)) as Hp.
    pose proof (ExecFacts.signal_leverage _ _ _ _ Hs) as Hl.
    apply Hnq.
    apply (MarginFacts.quantity_quantizable Exec.enhanced s a sg (8 # 100));
      try solve [reflexivity | exact Hp | lia].
    + cbn [Exec.min_available Exec.enhanced] in Hge. lra.
    + apply Qle_bool_iff. vm_compute. reflexivity.
Qed.

End PremiumFacts.



(** The scan of the enhanced class.  Whatever the draws,
    [scan_and_filter_assets] raises nothing, returns the new length of
    [filtered_assets], and sets [filtered_assets] to its first ten
    elements followed by the assets created in this scan that pass
    [meets_trading_criteria]: what an earlier scan had added is dropped.
    Nothing else of the object is written.  So when there were at least
    ten filtered assets, the candidates of the selection (the first ten)
    and its result are the same after the scan as before. *)
Theorem enhanced_scan_keeps_the_first_ten :
  forall (s : System.t),
    exists new s',
      EnhancedCatalog.scan_and_filter_assets s
      = (Ok (len (System.filtered_assets s')), s')
      /\ System.filtered_assets s'
         = firstn 10 (System.filtered_assets s) ++ new
      /\ Forall (fun a => EnhancedCatalog.meets_trading_criteria a = true) new
      /\ System.scanned_assets s' = System.scanned_assets s
      /\ ComprehensiveCatalog.same_books s s'
      /\ ((10 <= List.length (System.filtered_assets s))%nat ->
          Exec.candidates Exec.enhanced s' = Exec.candidates Exec.enhanced s
          /\ fst (Enhanced.select_best_trading_opportunity s')
             = fst (Enhanced.select_best_trading_opportunity s)).
Proof.
  intro s.
  destruct (EnhancedCatalogFacts.enhanced_scan_run s) as (new & s' & H1 & H2 & H3 & H4 & H5).
  exists new, s'. repeat (split; [assumption |]).
  intro Hlen.
  assert (Hc : Exec.candidates Exec.enhanced s' = Exec.candidates Exec.enhanced s).
  { unfold Exec.candidates. cbn [Exec.top_n Exec.enhanced]. rewrite H2.
    now apply EnhancedCatalogFacts.firstn_prefix. }
  split; [exact Hc |].
  unfold Enhanced.select_best_trading_opportunity. cbn [fst].
  rewrite !ExecBridge.enhanced_select.
  change (firstn 10 (System.filtered_assets s'))
    with (Exec.candidates Exec.enhanced s').
  rewrite Hc. apply PremiumFacts.select_ext. apply H5.
Qed.

Lemma enhanced_scan_keeps_the_first_ten_witness :
  let s := Cases.market_state (repeat Cases.steady_asset 12) in
  Exec.candidates Exec.enhanced
    (snd (EnhancedCatalog.scan_and_filter_assets s))
  = repeat Cases.steady_asset 10.
Proof.
  cbv zeta.
  destruct (enhanced_scan_keeps_the_first_ten
              (Cases.market_state (repeat Cases.steady_asset 12)))
    as (new & s' & H1 & _ & _ & _ & _ & H6).
  rewrite H1. cbn [snd].
  destruct H6 as [Hc _]; [cbn; lia |]. rewrite Hc. reflexivity.
Defined.

(** The premium catalog is an invariant.  Initialization establishes
    that the first ten filtered assets are the ten premium assets, and the
    scan and the execution cycle of the enhanced class preserve it.  While
    it holds the cycle raises no exception, and with at least 3.00
    available a candidate is traded exactly on the risk test: its
    confidence and expected-profit tests always pass. *)
Theorem enhanced_premium_catalog_is_invariant :
  forall (s : System.t),
    EnhancedCatalog.premium_catalog s ->
    EnhancedCatalog.premium_catalog
      (snd (EnhancedCatalog.scan_and_filter_assets s))
    /\ EnhancedCatalog.premium_catalog (snd (Enhanced.execute_trading_cycle s))
    /\ (exists b, fst (Enhanced.execute_trading_cycle s) = Ok b)
    /\ (forall a sg,
          In a (Exec.candidates Exec.enhanced s) ->
          3 <= System.available_capital s ->
          Enhanced.generate_trading_signal s a = Ok sg ->
          (Signal.should_trade sg = true <-> Signal.risk_score sg < 6 # 10)).
Proof.
  intros s Hcat. split; [| split; [| split]].
  - destruct (EnhancedCatalogFacts.enhanced_scan_run s) as (new & s' & H1 & H2 & _).
    rewrite H1. cbn [snd].
    pose proof (PremiumFacts.catalog_length s Hcat) as Hlen.
    unfold EnhancedCatalog.premium_catalog in *. rewrite H2.
    now rewrite EnhancedCatalogFacts.firstn_prefix.
  - rewrite ExecBridge.enhanced_cycle.
    eapply PremiumFacts.catalog_frame; [apply PremiumFacts.enhanced_cycle_catalog | exact Hcat].
  - rewrite ExecBridge.enhanced_cycle. now apply PremiumFacts.enhanced_cycle_safe.
  - intros a sg Hin Hav E. rewrite ExecBridge.enhanced_signal in E.
    eapply PremiumFacts.premium_tradeable; eauto.
    eapply PremiumFacts.catalog_candidates; eauto.
Qed.

Lemma enhanced_premium_catalog_is_invariant_witness :
  let s := snd (EnhancedCatalog.initialize_trading_assets Scenario.fresh_state) in
  EnhancedCatalog.premium_catalog
    (snd (EnhancedCatalog.scan_and_filter_assets s))
  /\ exists b, fst (Enhanced.execute_trading_cycle s) = Ok b.
Proof.
  cbv zeta.
  assert (Hu : Env.unit_draws Scenario.fresh_state).
  { intro n. split; [discriminate | reflexivity]. }
  destruct (EnhancedCatalogFacts.enhanced_initialize_run Scenario.fresh_state Hu)
    as (s' & H1 & H2 & _).
  rewrite H1. cbn [snd].
  destruct (enhanced_premium_catalog_is_invariant s' H2) as (Ha & _ & Hb & _).
  split; [exact Ha | exact Hb].
Defined.

(** * The catalog of the realistic class *)

Module RealisticCatalogFacts.
Import Common Env EnvFacts EnhancedCatalogFacts RealisticCatalog.

Lemma analysis_run symbol price volatility s :
  unit_draws s ->
  exists pr s',
    simulate_quantum_analysis symbol price volatility s = (Ok pr, s')
    /\ 75 # 100 <= Prediction.confidence pr
    /\ Prediction.confidence pr <= 90 # 100
    /\ Exec.same_object s s'.
Proof.
  intro Hu. unfold simulate_quantum_analysis.
  destruct (uniform_in (75 # 100) (92 # 100) s eq_refl Hu)
    as (e & s1 & R1 & He1 & He2 & S1).
  unfold bind at 1. rewrite R1.
  pose proof (unit_draws_same _ _ S1 Hu) as Hu1.
  destruct (uniform_in (78 # 100) (89 # 100) s1 eq_refl Hu1)
    as (pt & s2 & R2 & Hp1 & Hp2 & S2).
  unfold bind at 1. rewrite R2.
  pose proof (unit_draws_same _ _ S2 Hu1) as Hu2.
  destruct (uniform_in (72 # 100) (88 # 100) s2 eq_refl Hu2)
    as (sp & s3 & R3 & Hs1 & Hs2 & S3).
  unfold bind at 1. rewrite R3.
  destruct (random_same s3) as (u & s4 & R4 & S4).
  unfold bind at 1. rewrite R4. unfold ret.
  eexists. eexists. split; [reflexivity |].
  cbn [Prediction.confidence].
  split; [lra |]. split; [lra | chain_same].
Qed.

Lemma major_run symbol price volume volatility s :
  unit_draws s ->
  exists a s',
    major_asset symbol price volume volatility s = (Ok a, s')
    /\ built (symbol, price, volume, volatility) a
    /\ Exec.same_object s s'.
Proof.
  intro Hu. unfold major_asset.
  destruct (analysis_run symbol price volatility s Hu)
    as (pr & s1 & R1 & Hc1 & Hc2 & S1).
  unfold bind at 1. rewrite R1.
  destruct (choice_same 75%Z [100%Z] s1) as (lev & s2 & R2 & Hlev & S2).
  unfold bind at 1. rewrite R2.
  destruct (now_same s2) as (t & s3 & R3 & S3).
  unfold bind at 1. rewrite R3. unfold ret.
  eexists. eexists. split; [reflexivity |]. split; [| chain_same].
  unfold built. cbn [TradingAsset.symbol TradingAsset.current_price
    TradingAsset.daily_volume TradingAsset.volatility_24h
    TradingAsset.min_order_size TradingAsset.max_leverage
    TradingAsset.confidence_score TradingAsset.quantum_prediction].
  unfold Decimal_str. split; [reflexivity |].
  split; [destruct Hlev as [<- | [<- | []]]; auto |].
  split; [reflexivity |].
  exists pr. auto.
Qed.

Lemma built_major entry a :
  In entry major_assets -> built entry a ->
  meets_trading_criteria a = true -> major a.
Proof.
  intros Hin (He & Hl & Hm & pr & Hp & Hc1 & Hc2 & Hs) Hmeets.
  unfold major. rewrite He. split; [exact Hin |].
  split; [exact Hl |]. split; [exact Hm |]. split.
  - unfold meets_trading_criteria in Hmeets.
    repeat (apply andb_prop in Hmeets; destruct Hmeets as [Hmeets ?]).
    now apply MonitorFacts.Qgeb_ge.
  - exists pr. auto.
Qed.

Lemma major_loop_run l : forall acc s,
  unit_draws s ->
  exists assets s',
    major_loop l acc s
    = (Ok (acc ++ filter meets_trading_criteria assets), s')
    /\ Forall2 built l assets
    /\ Exec.same_object s s'.
Proof.
  induction l as [| [[[symbol price] volume] volatility] rest IH];
    intros acc s Hu.
  - exists [], s. cbn [major_loop filter]. rewrite app_nil_r.
    split; [reflexivity |]. split; [constructor | apply ExecFacts.same_object_refl].
  - cbn [major_loop].
    destruct (major_run symbol price volume volatility s Hu)
      as (a & s1 & R1 & Hb & S1).
    unfold bind at 1. rewrite R1.
    pose proof (unit_draws_same _ _ S1 Hu) as Hu1.
    destruct (meets_trading_criteria a) eqn:Em.
    + destruct (IH (acc ++ [a]) s1 Hu1) as (assets & s' & R & Hall & S2).
      exists (a :: assets), s'. rewrite R. cbn [filter]. rewrite Em, <- app_assoc.
      split; [reflexivity |]. split; [now constructor | chain_same].
    + destruct (IH acc s1 Hu1) as (assets & s' & R & Hall & S2).
      exists (a :: assets), s'. rewrite R. cbn [filter]. rewrite Em.
      split; [reflexivity |]. split; [now constructor | chain_same].
Qed.

Lemma count_loop_run l : forall n s,
  exists m s', count_loop l n s = (Ok m, s') /\ Exec.same_object s s'.
Proof.
  induction l as [| x l IH]; intros n s.
  - exists n, s. split; [reflexivity | apply ExecFacts.same_object_refl].
  - cbn [count_loop].
    destruct (random_same s) as (u & s1 & R1 & S1).
    unfold bind at 1. rewrite R1.
    destruct (Qgtb u (7 # 10)).
    + destruct (IH (n + 1)%Z s1) as (m & s' & R & S2).
      exists m, s'. split; [exact R | chain_same].
    + destruct (IH n s1) as (m & s' & R & S2).
      exists m, s'. split; [exact R | chain_same].
Qed.

Lemma symbols_length : len (firstn 300 all_symbols) = 300%Z.
Proof.
  unfold len. rewrite length_firstn. unfold all_symbols.
  rewrite !length_map, length_app, length_map, length_seq. reflexivity.
Qed.



Lemma realistic_initialize_run s :
  unit_draws s ->
  exists assets s',
    initialize_realistic_assets s = (Ok tt, s')
    /\ Forall2 built major_assets assets
    /\ System.filtered_assets s' = filter meets_trading_criteria assets
    /\ System.scanned_assets s' = System.scanned_assets s
    /\ ComprehensiveCatalog.same_books s s'.
Proof.
  intro Hu. unfold initialize_realistic_assets.
  destruct (major_loop_run major_assets [] s Hu) as (assets & s1 & R & Hb & S1).
  change ([] ++ filter meets_trading_criteria assets)
    with (filter meets_trading_criteria assets) in R.
  unfold bind at 1. rewrite R. unfold modify.
  apply ExecFacts.same_object_fields in S1.
  destruct S1 as (H1 & H2 & H3 & H4 & H5 & H6 & H7 & H8 & H9 & H10 & H11).
  exists assets. eexists. split; [reflexivity |]. split; [exact Hb |].
  unfold ComprehensiveCatalog.same_books, set_filtered_assets.
  cbn [System.filtered_assets System.scanned_assets
       System.available_capital System.allocated_capital
       System.active_trades System.trade_history
       System.performance_metrics System.running System.trade_counter
       System.rand_stream System.clock_stream].
  repeat (split; [assumption || reflexivity |]). assumption.
Qed.

Lemma built_catalog l assets :
  incl l major_assets -> Forall2 built l assets ->
  Forall major (filter meets_trading_criteria assets).
Proof.
  intros Hin Hb. induction Hb as [| e a l assets He Hb IH]; [constructor |].
  cbn [filter]. destruct (meets_trading_criteria a) eqn:Em.
  - constructor.
    + eapply built_major; eauto. apply Hin. now left.
    + apply IH. intros x Hx. apply Hin. now right.
  - apply IH. intros x Hx. apply Hin. now right.
Qed.


Lemma realistic_scan_run s :
  exists s',
    simulate_comprehensive_asset_scan s = (Ok 300%Z, s')
    /\ Exec.same_object s s'.
Proof.
  unfold simulate_comprehensive_asset_scan.
  destruct (count_loop_run (firstn 300 all_symbols) 0%Z s) as (m & s' & R & S1).
  unfold bind at 1. rewrite R. unfold ret. rewrite symbols_length.
  exists s'. split; [reflexivity | exact S1].
Qed.

Lemma major_price a : major a -> 82 # 1000 <= TradingAsset.current_price a.
Proof.
  intros (Hin & _). cbn in Hin.
  repeat (destruct Hin as [[= _ <- _ _] | Hin]; [discriminate |]).
  destruct Hin.
Qed.

Lemma major_volatility a :
  major a ->
  32 # 1000 <= TradingAsset.volatility_24h a
  /\ (TradingAsset.symbol a = "DOGEUSDT" ->
      TradingAsset.volatility_24h a = 55 # 1000).
Proof.
  intros (Hin & _). cbn in Hin.
  repeat (destruct Hin as [[= <- _ _ <-] | Hin];
          [split; [discriminate | intro; first [reflexivity | discriminate]] |]).
  destruct Hin.
Qed.

(** For a major asset the expected-profit test of the realistic evaluator
    always passes; an asset with volatility 5.5% fails the risk test
    whenever it passes the confidence test. *)
Lemma major_tradeable s a sg :
  major a ->
  3 <= System.available_capital s ->
  Exec.generate_signal Exec.realistic s a = Ok sg ->
  (Signal.should_trade sg = true
   <-> 78 # 100 < Signal.confidence sg /\ Signal.risk_score sg < 6 # 10)
  /\ (TradingAsset.symbol a = "DOGEUSDT" -> Signal.should_trade sg = false).
Proof.
  intros Hmaj Hav E.
  destruct (major_volatility a Hmaj) as [Hv1 Hdoge].
  destruct Hmaj as (_ & _ & _ & _ & pr & Hp & Hc1 & Hc2 & _).
  pose proof (ExecFacts.signal_leverage _ _ _ _ E) as Hlev.
  unfold Exec.generate_signal in E. rewrite Hp in E. injection E as <-.
  cbn [Signal.should_trade Signal.risk_score Signal.leverage
       Signal.confidence] in *.
  cbn [Exec.min_confidence Exec.min_expected_profit Exec.max_risk_score
       Exec.min_available Exec.leverage_scale Exec.movement_scale
       Exec.trade_cap Exec.realistic] in *.
  set (n := py_minZ _ _) in *.
  set (L := inject_int n) in *.
  assert (HL : 50 <= L).
  { unfold L. change 50 with (inject_int 50). apply ExecFacts.inject_int_le. lia. }
  set (c := py_min (System.available_capital s) 3).
  assert (Hc : 3 <= c).
  { unfold c, py_min. destruct (Qltb 3 _); lra. }
  assert (E4 : Qgeb (System.available_capital s) 3 = true)
    by now apply MonitorFacts.Qgeb_ge.
  assert (E2 : Qgeb (c * L * Decimal_str (TradingAsset.volatility_24h a
                                          * Prediction.confidence pr * (5 # 10)))
                 (5 # 10) = true).
  { apply MonitorFacts.Qgeb_ge. unfold Decimal_str.
    set (v := TradingAsset.volatility_24h a) in *.
    set (q := Prediction.confidence pr) in *.
    assert (H1 : 150 <= c * L) by nra.
    assert (H2 : (32 # 1000) * (75 # 100) <= v * q) by nra.
    assert (H3 : 0 <= (c * L - 150) * (v * q)).
    { apply Qmult_le_0_compat; lra. }
    nra. }
  rewrite E2, E4, !andb_true_r.
  split.
  - split.
    + intro H. apply andb_prop in H. destruct H as [H1 H2].
      apply Qltb_lt in H1. apply Qltb_lt in H2. auto.
    + intros [H1 H2]. apply Qltb_lt in H1. apply Qltb_lt in H2.
      unfold Qgtb. now rewrite H1, H2.
  - intro Hd. rewrite (Hdoge Hd).
    destruct (Qgtb (Prediction.confidence pr) (78 # 100)) eqn:E1;
      [| reflexivity].
    apply Qltb_lt in E1. cbn [andb]. apply Qltb_ge.
    assert (Hn : (66 <= n)%Z).
    { assert (H66 : (66 <= py_int (Prediction.confidence pr * 85))%Z).
      { apply WindowFacts.py_int_ge; [lia |]. change (inject_Z 66) with 66. lra. }
      unfold n, py_minZ, py_maxZ.
      cbn [SystemConfig.min_leverage SystemConfig.max_leverage config].
      destruct (_ <? 50)%Z eqn:Ea; [apply Z.ltb_lt in Ea; lia |].
      destruct (100 <? _)%Z; lia. }
    assert (HL66 : 66 <= L).
    { unfold L. change 66 with (inject_int 66). now apply ExecFacts.inject_int_le. }
    assert (Hx : (L / inject_int (SystemConfig.max_leverage config)
                  + (55 # 1000) / (1 # 10)) / 2
                 == (L * (1 # 100) + (55 # 100)) * (1 # 2)).
    { change (inject_int (SystemConfig.max_leverage config)) with 100. field. }
    rewrite Hx. lra.
Qed.

Lemma realistic_cycle_catalog s :
  System.filtered_assets (snd (Exec.cycle Exec.realistic s))
  = System.filtered_assets s.
Proof.
  destruct (ExecFacts.cycle_cases Exec.realistic
              ltac:(ExecInstances.params) ltac:(ExecInstances.params)
              ltac:(ExecInstances.params) ltac:(ExecInstances.params)
              ltac:(ExecInstances.params) ltac:(ExecInstances.params)
              ltac:(ExecInstances.params) s)
    as [[Hc _] | [(Hc & _) | [(a & sg & Hc & _)
         | [(a & sg & s0 & Hc & _ & _ & _ & _ & Hso & _)
           | (a & sg & trade & s' & Hc & _ & _ & _ & _ & _ & Ho)]]]];
    rewrite Hc; cbn [snd]; try reflexivity.
  - apply ExecFacts.same_object_fields in Hso. tauto.
  - destruct Ho as (_ & _ & _ & _ & _ & _ & _ & Hf & _). exact Hf.
Qed.

Lemma realistic_cycle_safe s :
  major_catalog s ->
  exists b, fst (Exec.cycle Exec.realistic s) = Ok b.
Proof.
  intro Hcat. unfold major_catalog in Hcat. rewrite Forall_forall in Hcat.
  destruct (Exec.cycle Exec.realistic s) as [[b | e] s'] eqn:E;
    [now exists b |].
  exfalso.
  apply ExecFacts.cycle_failure in E; try solve [ExecInstances.params].
  destruct E as (Hge & [(_ & _ & a & Hin & Hn)
                       | [(_ & _ & a & sg & Hfb & Hz)
                         | (_ & _ & _ & a & sg & Hfb & _ & Hnq)]]).
  - apply WindowFacts.In_firstn in Hin.
    destruct (Hcat a Hin) as (_ & _ & _ & _ & pr & Hp & _). congruence.
  - apply ExecFacts.first_best_tradeable in Hfb;
      try solve [ExecInstances.params].
    destruct Hfb as [Hin _]. apply WindowFacts.In_firstn in Hin.
    pose proof (major_price a (Hcat a Hin)). lra.
  - apply ExecFacts.first_best_tradeable in Hfb;
      try solve [ExecInstances.params].
    destruct Hfb as [Hin [Hs _]]. apply WindowFacts.In_firstn in Hin.
    pose proof (major_price a (Hcat a Hin)) as Hp.
    pose proof (ExecFacts.signal_leverage _ _ _ _ Hs) as Hl.
    apply Hnq.
    apply (MarginFacts.quantity_quantizable Exec.realistic s a sg (82 # 1000));
      try solve [reflexivity | exact Hp | lia].
    + cbn [Exec.min_available Exec.realistic] in Hge. lra.
    + apply Qle_bool_iff. vm_compute. reflexivity.
Qed.

End RealisticCatalogFacts.

(** * The fixed catalog of the realistic class *)



(** The catalog of the realistic class is fixed at initialization.
    [simulate_comprehensive_asset_scan] returns 300 whatever the draws and
    only reads the random stream; and when every filtered asset is one of
    the major assets, this still holds after a scan and after an execution
    cycle, the cycle raises no exception, and with at least 3.00 available
    a filtered asset is tradeable exactly when its confidence exceeds 0.78
    and its risk score is below 0.6 (the expected-profit test always
    passes); DOGEUSDT, whose volatility is 5.5%, is never tradeable. *)
Theorem realistic_catalog_is_fixed :
  forall (s : System.t),
    (exists s',
       RealisticCatalog.simulate_comprehensive_asset_scan s = (Ok 300%Z, s')
       /\ Exec.same_object s s')
    /\ (RealisticCatalog.major_catalog s ->
        RealisticCatalog.major_catalog
          (snd (RealisticCatalog.simulate_comprehensive_asset_scan s))
        /\ RealisticCatalog.major_catalog
             (snd (Realistic.execute_realistic_trading_cycle s))
        /\ (exists b, fst (Realistic.execute_realistic_trading_cycle s) = Ok b)
        /\ (forall a sg,
              In a (System.filtered_assets s) ->
              3 <= System.available_capital s ->
              Realistic.generate_realistic_trading_signal s a = Ok sg ->
              (Signal.should_trade sg = true
               <-> 78 # 100 < Signal.confidence sg
                   /\ Signal.risk_score sg < 6 # 10)
              /\ (TradingAsset.symbol a = "DOGEUSDT" ->
                  Signal.should_trade sg = false))).
Proof.
  intro s.
  destruct (RealisticCatalogFacts.realistic_scan_run s) as (s' & Hrun & Hs).
  split; [now exists s' |].
  intro Hcat. split; [| split; [| split]].
  - rewrite Hrun. cbn [snd].
    apply ExecFacts.same_object_fields in Hs.
    unfold RealisticCatalog.major_catalog in *.
    destruct Hs as (_ & _ & _ & _ & _ & _ & _ & -> & _). exact Hcat.
  - rewrite ExecBridge.realistic_cycle.
    unfold RealisticCatalog.major_catalog in *.
    now rewrite RealisticCatalogFacts.realistic_cycle_catalog.
  - rewrite ExecBridge.realistic_cycle.
    now apply RealisticCatalogFacts.realistic_cycle_safe.
  - intros a sg Hin Hav E. rewrite ExecBridge.realistic_signal in E.
    apply (RealisticCatalogFacts.major_tradeable s a sg); try assumption.
    unfold RealisticCatalog.major_catalog in Hcat.
    rewrite Forall_forall in Hcat. now apply Hcat.
Qed.

Lemma realistic_catalog_is_fixed_witness :
  let s := snd (RealisticCatalog.initialize_realistic_assets
                  Scenario.fresh_state) in
  RealisticCatalog.major_catalog
    (snd (RealisticCatalog.simulate_comprehensive_asset_scan s))
  /\ exists b, fst (Realistic.execute_realistic_trading_cycle s) = Ok b.
Proof.
  cbv zeta.
  assert (Hu : Env.unit_draws Scenario.fresh_state).
  { intro n. split; [discriminate | reflexivity]. }
  destruct (RealisticCatalogFacts.realistic_initialize_run Scenario.fresh_state Hu)
    as (assets & s' & H1 & H2 & H3 & _).
  rewrite H1. cbn [snd].
  assert (Hcat : RealisticCatalog.major_catalog s').
  { unfold RealisticCatalog.major_catalog. rewrite H3.
    eapply RealisticCatalogFacts.built_catalog; [apply incl_refl | exact H2]. }
  destruct (realistic_catalog_is_fixed s') as (_ & H).
  destruct (H Hcat) as (Ha & _ & Hb & _).
  split; [exact Ha | exact Hb].
Defined.

(** * Runs of the system *)

Module RunFacts.
Import Common DictFacts Run.







Section Cycle.
Variable p : Exec.params.
Hypothesis Hcap : 0 < Exec.trade_cap p.
Hypothesis Havail : 0 < Exec.min_available p.
Hypothesis Hprofit : 0 < Exec.min_expected_profit p.
Hypothesis Hconf : 0 <= Exec.min_confidence p.
Hypothesis Hmove : 0 < Exec.movement_scale p.
Hypothesis Horder :
  forall a s, exists o s',
    Exec.order_id p a s = (Ok o, s') /\ Exec.same_object s s'.
Hypothesis Hclock :
  forall a s o s',
    Exec.order_id p a s = (Ok o, s') ->
    (System.clock_pos s <= System.clock_pos s')%nat.


End Cycle.

Section Close.
Variable factor : string -> Q -> Q.




End Close.








End RunFacts.


